(** * Heart-rate estimation engine: a shallow embedding and its properties

    The development follows the JavaScript sources of the repository.

    Definitions:
    - [Js]       : the array and [Math] primitives the sources use, and
                   the rounding of double arithmetic;
    - [Binary64] : the expressions in double arithmetic once more, over
                   the binary64 numbers of the kernel;
    - [Number], [Signal] : the conditioning pipeline ([filterSignal]) and
                   the peak detector ([detectPeaks]) over an abstract
                   number interface, with exact rationals as an instance;
    - [Engine]   : the buffered calculator "with complete protection"
                   (contact hysteresis, 1000-sample window, three rate
                   methods, initial correction, consensus, high-zone
                   restriction, zones, response record);
    - [Advanced] : [processHeartRate] of heartRateProcessor.js with its
                   jump limiting and display smoothing;
    - [Scenario] : synthetic recordings and the states they lead to;
    - [Spec], [Shape] : the predicates the statements are phrased with;
    - [AdvancedPeaks] : the peak detector of the advanced processor;
    - [Batch]    : the per-batch calculator the server imports;
    - [Server]   : the two POST endpoints, the broadcast and the clean-up
                   timer of server.js;
    - [Inline]   : the processor inside the earlier server;
    - [Requests] : clocks, processors and file systems for the examples.

    Properties follow, grouped by component.

    Conventions.  Samples, indices, BPM values, counters and millisecond
    timestamps are integers ([Z]); they stand for the doubles that hold
    them, which is exact below 2^53.  Expressions that the source
    evaluates with a division or a decimal literal are written over the
    rationals ([Q]) and rounded with [Math_round].  The initial
    correction, the blend of the consensus and the rates from the peak
    count (methods 2 and 3) round every operation and every literal to
    the nearest double, as the source does ([Js.double] and the
    operations built on it).  The other quotients and products (the
    mean of the intervals of method 1, the mean of the history, the
    share of low samples, the required streak, the display smoothing and
    the confidence of the advanced processor, the rate and the quality
    of the inline processor) are written over the exact rationals.  The
    signal conditioner and the peak detector, whose
    values are genuinely real-valued, are written once over the number
    interface so that the index-level results hold for every
    implementation of the arithmetic and of the comparison.  The module
    variables of the sources become a state record that each call takes
    and returns; [Date.now()] becomes an argument. *)

From Stdlib Require Import String DecimalString.
From Stdlib Require Import ZArith QArith Qround Qminmax Qpower List Bool Lia Lqa.
From Stdlib Require Floats Uint63.
Import ListNotations.

Local Open Scope string_scope.
Local Open Scope list_scope.
Local Open Scope Z_scope.

(** ** JavaScript primitives *)

Module Js.

(** [Math.round]: nearest integer, ties towards plus infinity. *)
Definition Math_round (x : Q) : Z := Qfloor (x + (1 # 2))%Q.

(** [Math.floor]. *)
Definition Math_floor (x : Q) : Z := Qfloor x.

(** Integer literal as a rational. *)
Definition num (z : Z) : Q := inject_Z z.

(** Template-literal rendering of an integer, [`${n}`]. *)
Definition toString (z : Z) : string := NilZero.string_of_int (Z.to_int z).

(** [a.slice(-n)] for [n > 0]: the last [n] elements (the whole array
    when it is shorter). *)
Definition sliceLast {A} (n : nat) (a : list A) : list A :=
  skipn (length a - n)%nat a.

(** [a.slice(0, n)]. *)
Definition slicePrefix {A} (n : nat) (a : list A) : list A := firstn n a.

(** [a.unshift(x)]. *)
Definition unshift {A} (x : A) (a : list A) : list A := x :: a.

(** [a.pop()], keeping the array. *)
Definition pop {A} (a : list A) : list A := removelast a.

(** Insertion sort driven by a strict "comes before" test.  On a total
    order every comparison sort returns the same sequence, so this
    stands for [Array.prototype.sort] with a numeric comparator. *)
Fixpoint insertBy {A} (before : A -> A -> bool) (x : A) (l : list A) : list A :=
  match l with
  | [] => [x]
  | y :: l' => if before y x then y :: insertBy before x l' else x :: l
  end.

Definition sortBy {A} (before : A -> A -> bool) (l : list A) : list A :=
  fold_right (insertBy before) [] l.

(** [a.sort((x, y) => x - y)] on integers. *)
Definition sortAscending (l : list Z) : list Z := sortBy Z.leb l.

(** [a < b] on numbers. *)
Definition ltb (a b : Q) : bool := negb (Qle_bool b a).

(** [a.reduce((sum, v) => sum + v, 0)] on integers. *)
Definition sum (l : list Z) : Z := fold_left Z.add l 0.

(** *** Double-precision arithmetic

    A JavaScript number is an IEEE 754 binary64 value: every arithmetic
    operation and every decimal literal yields the representable value
    nearest to the exact result, a tie going to the neighbour whose last
    significand bit is 0.  The values are kept as the rationals they
    denote.  The exponent is not bounded: no quantity of the sources
    comes near the overflow or the subnormal range. *)

(** For [x > 0], the exponent [e] with [2^e <= x < 2^(e+1)]. *)
Definition exponentOf (x : Q) : Z :=
  if Qle_bool 1 x then Z.log2 (Qfloor x) else - Z.log2_up (Qceiling (/ x)).

(** Nearest integer, ties to the even neighbour. *)
Definition nearestEven (s : Q) : Z :=
  let f := Qfloor s in
  match (s - inject_Z f ?= 1 # 2)%Q with
  | Lt => f
  | Gt => f + 1
  | Eq => if Z.even f then f else f + 1
  end.

(** The nearest value with a significand of 53 bits, for [x > 0]. *)
Definition nearestPositive (x : Q) : Q :=
  let ulp := (2 ^ (exponentOf x - 52))%Q in
  (inject_Z (nearestEven (x / ulp)) * ulp)%Q.

(** The double nearest to a rational. *)
Definition double (x : Q) : Q :=
  match (x ?= 0)%Q with
  | Eq => 0%Q
  | Gt => Qred (nearestPositive x)
  | Lt => Qred (- nearestPositive (- x))
  end.

(** [Number.isSafeInteger]: the integers a double holds exactly and
    [String] renders in decimal digits. *)
Definition isSafeInteger (z : Z) : bool := Z.abs z <=? 2 ^ 53 - 1.

(** A decimal literal, and [+], [-], [*], [/] on numbers. *)
Definition lit (q : Q) : Q := double q.
Definition add (a b : Q) : Q := double (a + b).
Definition sub (a b : Q) : Q := double (a - b).
Definition mul (a b : Q) : Q := double (a * b).
Definition div (a b : Q) : Q := double (a / b).

End Js.

(** ** Binary64 in the kernel

    The expressions of the sources whose rounding shows, written once
    more over the binary64 numbers of the kernel, for the comparison
    with [Js.double]. *)

Module Binary64.

(** The double that holds an integer [0 <= z < 2^53]. *)
Definition ofZ (z : Z) : PrimFloat.float := PrimFloat.of_uint63 (Uint63.of_Z z).

(** The rational a finite double denotes. *)
Definition toQ (f : PrimFloat.float) : Q :=
  match FloatOps.Prim2SF f with
  | SpecFloat.S754_finite negative m e =>
      let v := (inject_Z (Zpos m) * 2 ^ e)%Q in
      Qred (if negative then (- v)%Q else v)
  | _ => 0%Q
  end.

(** The decimal literal [n / d]: the double nearest to the quotient. *)
Definition lit (n d : Z) : PrimFloat.float := PrimFloat.div (ofZ n) (ofZ d).

(** [Math.round(heartRate * share * Math.max(0, 1 - (batchesReceived / 10)))]. *)
Definition correctionAmount (share : PrimFloat.float) (heartRate_ batches : Z) : Z :=
  let difference := PrimFloat.sub (ofZ 1) (PrimFloat.div (ofZ batches) (ofZ 10)) in
  let correctionFactor :=
    if PrimFloat.ltb difference (ofZ 0) then ofZ 0 else difference in
  Js.Math_round
    (toQ (PrimFloat.mul (PrimFloat.mul (ofZ heartRate_) share) correctionFactor)).

Definition initialCorrection (heartRate_ batches : Z) : Z :=
  if batches <=? 10 then
    if heartRate_ >=? 130 then
      heartRate_ - correctionAmount (lit 15 100) heartRate_ batches
    else if heartRate_ >=? 110 then
      heartRate_ - correctionAmount (lit 10 100) heartRate_ batches
    else
      heartRate_ - correctionAmount (lit 5 100) heartRate_ batches
  else heartRate_.

(** [Math.round(medianReading * 0.7 + heartRate * 0.3)]. *)
Definition blend (medianReading heartRate_ : Z) : Z :=
  Js.Math_round
    (toQ (PrimFloat.add (PrimFloat.mul (ofZ medianReading) (lit 7 10))
                        (PrimFloat.mul (ofZ heartRate_) (lit 3 10)))).

(** [Math.round(beats * 60 / (samples / 150))]. *)
Definition rateOfCount (beats samples : Z) : Z :=
  Js.Math_round
    (toQ (PrimFloat.div (PrimFloat.mul (ofZ beats) (ofZ 60))
                        (PrimFloat.div (ofZ samples) (ofZ 150)))).

(** The integers [first, first + 1, ...], [n] of them. *)
Definition range (first n : nat) : list Z := map Z.of_nat (seq first n).

End Binary64.

(** ** Numbers of the conditioning pipeline *)

(** The operations [filterSignal] and [detectPeaks] perform on JavaScript
    numbers.  [lit] reads a numeric literal. *)
Class Number (num : Type) := {
  lit  : Q -> num;
  nadd : num -> num -> num;
  nsub : num -> num -> num;
  nmul : num -> num -> num;
  ndiv : num -> num -> num;
  ngt  : num -> num -> bool
}.

(** Exact rational arithmetic, kept in lowest terms. *)
#[export] Instance NumberQ : Number Q := {
  lit  := fun q => Qred q;
  nadd := fun a b => Qred (a + b)%Q;
  nsub := fun a b => Qred (a - b)%Q;
  nmul := fun a b => Qred (a * b)%Q;
  ndiv := fun a b => Qred (a / b)%Q;
  ngt  := fun a b => match (a ?= b)%Q with Gt => true | _ => false end
}.

Module Signal.
Section Conditioning.

Context {num : Type} `{Number num}.

Definition ofZ (z : Z) : num := lit (inject_Z z).
Definition ofNat (n : nat) : num := ofZ (Z.of_nat n).

(** [xs[i]]; the pipeline only reads indices inside the array. *)
Definition at_ (xs : list num) (i : nat) : num := nth i xs (ofZ 0).

(** Indices [max(0, i - w) .. min(n - 1, i + w)] of the inner loops. *)
Definition windowIndices (w n i : nat) : list nat :=
  let lo := (i - w)%nat in
  let hi := Nat.min (n - 1) (i + w) in
  seq lo (S hi - lo).

(** The two smoothing loops: centred moving average with a window
    clamped to the array bounds. *)
Definition movingAverage (w : nat) (xs : list num) : list num :=
  map (fun i =>
         let js := windowIndices w (length xs) i in
         let sum := fold_left (fun acc j => nadd acc (at_ xs j)) js (ofZ 0) in
         ndiv sum (ofNat (length js)))
      (seq 0 (length xs)).

(** Filter signal to remove noise and emphasize heart beats. *)
Definition filterSignal (ppgData : list Z) : list num :=
  (* STEP 1: remove the DC component *)
  let mean := ndiv (fold_left (fun acc v => nadd acc (ofZ v)) ppgData (ofZ 0))
                   (ofNat (length ppgData)) in
  let normalized := map (fun v => nsub (ofZ v) mean) ppgData in
  (* STEP 2: moving average, windowSize = 5 *)
  let smoothed := movingAverage 5 normalized in
  (* STEP 3: first difference, a zero unshifted in front *)
  let derivative :=
    ofZ 0 :: map (fun i => nsub (at_ smoothed i) (at_ smoothed (i - 1)))
                 (seq 1 (length smoothed - 1)) in
  (* STEP 4: square *)
  let squared := map (fun v => nmul v v) derivative in
  (* STEP 5: moving average, finalWindowSize = 8 *)
  movingAverage 8 squared.

Definition minPeakDistance : Z := 38.

(** The five-way comparison shared by both scans. *)
Definition exceeds (sig : list num) (threshold : option num) (i : nat) : bool :=
  ngt (at_ sig i) (at_ sig (i - 1)) &&
  ngt (at_ sig i) (at_ sig (i - 2)) &&
  ngt (at_ sig i) (at_ sig (i + 1)) &&
  ngt (at_ sig i) (at_ sig (i + 2)) &&
  match threshold with
  | Some t => ngt (at_ sig i) t
  | None => false                        (* comparison with NaN *)
  end.

(** Loop state: the [peaks] array and [lastPeakIndex]. *)
Definition Scan : Type := (list Z * Z)%type.

Definition firstPassStep (sig : list num) (threshold : option num)
           (st : Scan) (i : nat) : Scan :=
  let '(peaks, lastPeakIndex) := st in
  if exceeds sig threshold i && (Z.of_nat i - lastPeakIndex >=? minPeakDistance)
  then (peaks ++ [Z.of_nat i], Z.of_nat i)
  else st.

Definition secondPassStep (sig : list num) (lowerThreshold : option num)
           (st : Scan) (i : nat) : Scan :=
  let '(peaks, lastPeakIndex) := st in
  if existsb (Z.eqb (Z.of_nat i)) peaks then st     (* peaks.includes(i) *)
  else if exceeds sig lowerThreshold i
          && (Z.of_nat i - lastPeakIndex >=? minPeakDistance)
  then (peaks ++ [Z.of_nat i], Z.of_nat i)
  else st.

(** Indices visited by [for (i = 2; i < length - 2; i++)]. *)
Definition scanIndices (sig : list num) : list nat := seq 2 (length sig - 4).

(** [sortedSignal[Math.floor(length * 0.25)]], undefined on an empty
    signal. *)
Definition thresholdBaseOf (sig : list num) : option num :=
  let sortedSignal := Js.sortBy ngt sig in
  nth_error sortedSignal (length sortedSignal / 4).

Definition scale (k : Q) (x : option num) : option num :=
  option_map (fun v => nmul v (lit k)) x.

Definition isPositive (x : option num) : bool :=
  match x with Some v => ngt v (ofZ 0) | None => false end.

(** Detect peaks in the filtered signal.  [retryBelow] is the peak count
    under which the lower-threshold scan runs (3 in the buffered
    engine). *)
Definition detectPeaksWith (retryBelow : nat) (filteredSignal : list num) : list Z :=
  let thresholdBase := thresholdBaseOf filteredSignal in
  let threshold := scale (1 # 2) thresholdBase in
  let first := fold_left (firstPassStep filteredSignal threshold)
                         (scanIndices filteredSignal)
                         ([], - minPeakDistance) in
  if (length (fst first) <? retryBelow)%nat && isPositive thresholdBase then
    let lowerThreshold := scale (2 # 10) thresholdBase in
    let second := fold_left (secondPassStep filteredSignal lowerThreshold)
                            (scanIndices filteredSignal) first in
    Js.sortAscending (fst second)
  else fst first.

Definition detectPeaks : list num -> list Z := detectPeaksWith 3.

End Conditioning.
End Signal.

(** ** The buffered engine *)

Module Engine.

Record Zone := {
  name : string;
  color : string;
  upperLimit : Z;
  colorCode : string
}.

(** Heart rate zones *)
Definition HR_ZONES : list Zone := [
  {| name := "Rest";     color := "#3498db"; upperLimit := 90;  colorCode := "#3498db" |};
  {| name := "Light";    color := "#2ecc71"; upperLimit := 110; colorCode := "#2ecc71" |};
  {| name := "Moderate"; color := "#f1c40f"; upperLimit := 130; colorCode := "#f1c40f" |};
  {| name := "Vigorous"; color := "#e67e22"; upperLimit := 150; colorCode := "#e67e22" |};
  {| name := "High";     color := "#e74c3c"; upperLimit := 170; colorCode := "#e74c3c" |};
  {| name := "Maximum";  color := "#9b59b6"; upperLimit := 240; colorCode := "#9b59b6" |}
].

Definition MAX_HISTORY : nat := 4.
Definition MAX_BUFFER_SIZE : nat := 1000.
Definition MIN_BATCHES_FOR_DISPLAY : Z := 5.
Definition MIN_HIGH_ZONE_STREAK : Z := 5.
Definition VIGOROUS_THRESHOLD : Z := 130.
Definition INITIAL_PERIOD_DURATION : Z := 30000.

(** The module-level variables. *)
Record State := {
  recentHeartRates : list Z;
  sampleBuffer : list Z;
  batchesReceived : Z;
  fingerDetectedState : bool;
  lastDisplayedValue : string;
  lastDisplayedHeartRate : Z;
  consecutiveLowSignalBatches : Z;
  consecutiveHighZoneReadings : Z;
  isAcquiring : bool;
  acquisitionStartTime : Z;
  isStable : bool;
  firstDisplayTime : Z
}.

(** Their values when the module is loaded. *)
Definition initialState : State := {|
  recentHeartRates := [];
  sampleBuffer := [];
  batchesReceived := 0;
  fingerDetectedState := false;
  lastDisplayedValue := "No signal";
  lastDisplayedHeartRate := 0;
  consecutiveLowSignalBatches := 0;
  consecutiveHighZoneReadings := 0;
  isAcquiring := false;
  acquisitionStartTime := 0;
  isStable := false;
  firstDisplayTime := 0
|}.

(** Reset all state variables.  The function assigns nine variables;
    [recentHeartRates], [lastDisplayedValue] and [acquisitionStartTime]
    are not among them. *)
Definition resetState (s : State) : State := {|
  recentHeartRates := recentHeartRates s;
  sampleBuffer := [];
  batchesReceived := 0;
  fingerDetectedState := false;
  lastDisplayedValue := lastDisplayedValue s;
  lastDisplayedHeartRate := 0;
  consecutiveLowSignalBatches := 0;
  consecutiveHighZoneReadings := 0;
  isAcquiring := false;
  acquisitionStartTime := acquisitionStartTime s;
  isStable := false;
  firstDisplayTime := 0
|}.

Record Debug := {
  signalMax : Z;
  bufferSize : nat;
  peakCount : nat;
  calculatedRate : Z;
  finalRate : Z;
  recentRates : list Z;
  stable : bool;
  debug_batchesReceived : Z;
  inAcquisitionPhase : bool;
  percentBelowThreshold : Q;
  debug_consecutiveLowSignalBatches : Z;
  isHighRate : bool;
  debug_consecutiveHighZoneReadings : Z;
  timeSinceFirstDisplay : Z
}.

(** The result record of [createResponse]. *)
Record Response := {
  heartRate : Z;
  fingerDetected : bool;
  display_value : string;
  display_details : string;
  zone : string;
  zoneColor : string;
  quality : Q;
  confidence : Q;
  trend : string;
  phase : string;
  debug : option Debug
}.

(** Create a standardized response object.  The phase reads the module
    variables [batchesReceived] and [isStable] at the time of the call. *)
Definition createResponse (s : State) (heartRate_ : Z) (fingerDetected_ : bool)
  (displayValue displayDetails zoneName zoneColor_ trend_ : string)
  (debug_ : option Debug) : Response := {|
  heartRate := heartRate_;
  fingerDetected := fingerDetected_;
  display_value := displayValue;
  display_details := displayDetails;
  zone := zoneName;
  zoneColor := zoneColor_;
  quality := (if fingerDetected_ then 8 # 10 else 0)%Q;
  confidence := (if fingerDetected_ then 8 # 10 else 0)%Q;
  trend := trend_;
  phase := if fingerDetected_
           then (if batchesReceived s <? MIN_BATCHES_FOR_DISPLAY then "acquiring"
                 else if isStable s then "tracking" else "stabilizing")
           else "no_signal";
  debug := debug_
|}.

(** The call with the default arguments, used on both early exits. *)
Definition noSignalResponse (s : State) : Response :=
  createResponse s 0 false "No signal" "Place finger on sensor"
                 "Rest" "#3498db" "stable" None.

(** *** Finger detection *)

Definition belowThresholdCount (ppgData : list Z) : nat :=
  length (filter (fun val => val <=? 18000) ppgData).

Definition percentBelow (ppgData : list Z) : Q :=
  ((Js.num (Z.of_nat (belowThresholdCount ppgData))
    / Js.num (Z.of_nat (length ppgData))) * 100)%Q.

Definition currentBatchHasFinger (ppgData : list Z) : bool :=
  Js.ltb (percentBelow ppgData) 70%Q.

(** Lines 82-97: the low-signal counter and the debounced flag. *)
Definition detectContact (s : State) (ppgData : list Z) : State :=
  let hasFinger := currentBatchHasFinger ppgData in
  let low := if negb hasFinger then consecutiveLowSignalBatches s + 1 else 0 in
  let finger := if hasFinger then true
                else if low >=? 2 then false
                else fingerDetectedState s in
  {| recentHeartRates := recentHeartRates s;
     sampleBuffer := sampleBuffer s;
     batchesReceived := batchesReceived s;
     fingerDetectedState := finger;
     lastDisplayedValue := lastDisplayedValue s;
     lastDisplayedHeartRate := lastDisplayedHeartRate s;
     consecutiveLowSignalBatches := low;
     consecutiveHighZoneReadings := consecutiveHighZoneReadings s;
     isAcquiring := isAcquiring s;
     acquisitionStartTime := acquisitionStartTime s;
     isStable := isStable s;
     firstDisplayTime := firstDisplayTime s |}.

(** Lines 102-110: start the acquisition process if not already
    acquiring. *)
Definition startAcquisition (s : State) (currentTime : Z) : State :=
  if negb (isAcquiring s) then
    {| recentHeartRates := recentHeartRates s;
       sampleBuffer := [];
       batchesReceived := 0;
       fingerDetectedState := fingerDetectedState s;
       lastDisplayedValue := lastDisplayedValue s;
       lastDisplayedHeartRate := lastDisplayedHeartRate s;
       consecutiveLowSignalBatches := consecutiveLowSignalBatches s;
       consecutiveHighZoneReadings := 0;
       isAcquiring := true;
       acquisitionStartTime := currentTime;
       isStable := false;
       firstDisplayTime := 0 |}
  else s.

(** Lines 113-123: count the batch and append it to the window. *)
Definition ingestBatch (s : State) (ppgData : list Z) : State :=
  if currentBatchHasFinger ppgData then
    let buffer := sampleBuffer s ++ ppgData in
    {| recentHeartRates := recentHeartRates s;
       sampleBuffer := if (MAX_BUFFER_SIZE <? length buffer)%nat
                       then Js.sliceLast MAX_BUFFER_SIZE buffer else buffer;
       batchesReceived := batchesReceived s + 1;
       fingerDetectedState := fingerDetectedState s;
       lastDisplayedValue := lastDisplayedValue s;
       lastDisplayedHeartRate := lastDisplayedHeartRate s;
       consecutiveLowSignalBatches := consecutiveLowSignalBatches s;
       consecutiveHighZoneReadings := consecutiveHighZoneReadings s;
       isAcquiring := isAcquiring s;
       acquisitionStartTime := acquisitionStartTime s;
       isStable := isStable s;
       firstDisplayTime := firstDisplayTime s |}
  else s.

(** *** Rate from peaks *)

(** [peaks[i] - peaks[i-1]] for [i = 1 .. length - 1]. *)
Definition intervalsOf (peaks : list Z) : list Z :=
  map (fun i => nth i peaks 0 - nth (i - 1) peaks 0) (seq 1 (length peaks - 1)).

(** Filter out physiologically impossible intervals. *)
Definition validInterval (interval : Z) : bool :=
  (interval >=? 37) && (interval <=? 300).

(** [if (heartRate < 40 || heartRate > 200) heartRate = 0]. *)
Definition validated (heartRate_ : Z) : Z :=
  if (heartRate_ <? 40) || (heartRate_ >? 200) then 0 else heartRate_.

(** METHOD 1: from the intervals between peaks; 0 when no valid interval
    remains.  The mean and the quotient are exact. *)
Definition method1 (peaks : list Z) : Z :=
  let validIntervals := filter validInterval (intervalsOf peaks) in
  if (0 <? length validIntervals)%nat then
    let avgInterval :=
      (Js.num (Js.sum validIntervals) / Js.num (Z.of_nat (length validIntervals)))%Q in
    validated (Js.Math_round (60 * 150 / avgInterval)%Q)
  else 0.

(** METHOD 2: from the peak count and the span between the first and the
    last peak, in double arithmetic.  A zero span gives Infinity in the
    source and 0 here after the division; both are rejected by the
    validation. *)
Definition method2 (peaks : list Z) : Z :=
  let sampleSpan := nth (length peaks - 1) peaks 0 - nth 0 peaks 0 in
  let timeSpanSeconds := Js.div (Js.num sampleSpan) 150 in
  let beatCount := Z.of_nat (length peaks) - 1 in
  validated (Js.Math_round (Js.div (Js.mul (Js.num beatCount) 60) timeSpanSeconds)).

(** METHOD 3: from the total duration of the window, in double
    arithmetic. *)
Definition method3 (peaks : list Z) (bufferLength : nat) : Z :=
  let durationSeconds := Js.div (Js.num (Z.of_nat bufferLength)) 150 in
  validated
    (Js.Math_round
       (Js.div (Js.mul (Js.num (Z.of_nat (length peaks) - 1)) 60) durationSeconds)).

(** STEP 3 of the main function (lines 142-202). *)
Definition rateFromPeaks (peaks : list Z) (bufferLength : nat) : Z :=
  if (3 <=? length peaks)%nat then
    let hr1 := method1 peaks in
    let hr2 := if (hr1 =? 0) && (4 <=? length peaks)%nat then method2 peaks else hr1 in
    if (hr2 =? 0) && (3 <=? length peaks)%nat then method3 peaks bufferLength else hr2
  else 0.

(** *** Initial correction (lines 207-230) *)

(** [Math.max(0, 1 - (batchesReceived / 10))]. *)
Definition correctionFactor (batches : Z) : Q :=
  Qminmax.Qmax 0 (Js.sub 1 (Js.div (Js.num batches) 10)).

(** [Math.round(heartRate * share * correctionFactor)], the product taken
    from the left, each operation rounded to a double. *)
Definition correctionAmount (share : Q) (heartRate_ batches : Z) : Z :=
  Js.Math_round (Js.mul (Js.mul (Js.num heartRate_) share) (correctionFactor batches)).

Definition initialCorrection (heartRate_ batches : Z) : Z :=
  if batches <=? MIN_BATCHES_FOR_DISPLAY + 5 then
    if heartRate_ >=? VIGOROUS_THRESHOLD then
      heartRate_ - correctionAmount (Js.lit (15 # 100)) heartRate_ batches
    else if heartRate_ >=? 110 then
      heartRate_ - correctionAmount (Js.lit (10 # 100)) heartRate_ batches
    else
      heartRate_ - correctionAmount (Js.lit (5 # 100)) heartRate_ batches
  else heartRate_.

(** The correction sits inside [if (heartRate > 0)]. *)
Definition corrected (rawRate batches : Z) : Z :=
  if rawRate >? 0 then initialCorrection rawRate batches else rawRate.

(** *** History, consensus and suppression *)

(** Lines 239-244. *)
Definition pushHistory (heartRate_ : Z) (history : list Z) : list Z :=
  if heartRate_ >? 0 then
    let h := Js.unshift heartRate_ history in
    if (MAX_HISTORY <? length h)%nat then Js.pop h else h
  else history.

(** The nested loops of lines 263-271 and 346-354: the flag starts true,
    and the first pair more than 15 BPM apart clears it and leaves both
    loops. *)
Definition allWithin15 (history : list Z) : bool :=
  let n := Nat.min 4 (length history) in
  fold_left
    (fun (inRange : bool) (i : nat) =>
       if inRange then
         fold_left
           (fun (ok : bool) (j : nat) =>
              if ok then negb (Z.abs (nth i history 0 - nth j history 0) >? 15)
              else false)
           (seq (i + 1) (n - (i + 1))) true
       else false)
    (seq 0 n) true.

(** Mean of the last up to four readings, rounded. *)
Definition recentMean (history : list Z) : Z :=
  let valuesToAverage := Js.slicePrefix (Nat.min 4 (length history)) history in
  Js.Math_round (Js.num (Js.sum valuesToAverage)
                 / Js.num (Z.of_nat (length valuesToAverage)))%Q.

(** Lines 257-305: the final rate before the first-minute restriction.
    The blend [medianReading * 0.7 + heartRate * 0.3] is evaluated in
    double arithmetic. *)
Definition consensusRate (history : list Z) (heartRate_ currentTime : Z)
  (firstDisplayTime_ streak : Z) : Z :=
  let highRateDetected := heartRate_ >=? VIGOROUS_THRESHOLD in
  if (3 <=? length history)%nat then
    if negb (allWithin15 history) then
      let isInInitialPeriod :=
        (firstDisplayTime_ >? 0)
        && (currentTime - firstDisplayTime_ <? INITIAL_PERIOD_DURATION) in
      if highRateDetected && (isInInitialPeriod || (streak <? MIN_HIGH_ZONE_STREAK)) then
        let sortedReadings := Js.sortAscending history in
        let medianReading := nth (length sortedReadings / 2) sortedReadings 0 in
        if medianReading >=? VIGOROUS_THRESHOLD then recentMean history
        else Z.min (medianReading + 10)
                   (Js.Math_round
                      (Js.add (Js.mul (Js.num medianReading) (Js.lit (7 # 10)))
                              (Js.mul (Js.num heartRate_) (Js.lit (3 # 10)))))
      else recentMean history
    else if heartRate_ >? 0 then heartRate_ else nth 0 history 0
  else heartRate_.

Definition timeSince (firstDisplayTime_ currentTime : Z) : Z :=
  if firstDisplayTime_ >? 0 then currentTime - firstDisplayTime_ else 0.

Definition requiredStreak (timeSinceFirstDisplay_ : Z) : Z :=
  Z.max MIN_HIGH_ZONE_STREAK
        (Js.Math_round (5 + (60000 - Js.num timeSinceFirstDisplay_) / 15000)%Q).

(** Lines 309-339: override vigorous readings during the first minute,
    and limit their rise during the first three. *)
Definition suppressHigh (finalHeartRate currentTime firstDisplayTime_ : Z)
  (streak lastDisplayed : Z) : Z :=
  if finalHeartRate >=? VIGOROUS_THRESHOLD then
    let timeSinceFirstDisplay_ := timeSince firstDisplayTime_ currentTime in
    if timeSinceFirstDisplay_ <? 60000 then
      if streak <? requiredStreak timeSinceFirstDisplay_ then
        let capped := Z.min finalHeartRate 125 in
        if (lastDisplayed >? 0) && (lastDisplayed <? capped)
        then Z.min capped (lastDisplayed + 5)
        else capped
      else finalHeartRate
    else if timeSinceFirstDisplay_ <? 180000 then
      if streak <? MIN_HIGH_ZONE_STREAK then
        if (lastDisplayed >? 0) && (lastDisplayed <? finalHeartRate)
        then Z.min finalHeartRate (lastDisplayed + 8)
        else finalHeartRate
      else finalHeartRate
    else finalHeartRate
  else finalHeartRate.

(** Lines 342-355. *)
Definition stableReading (history : list Z) : bool :=
  if (3 <=? length history)%nat then allWithin15 history else false.

(** *** Zone and display *)

Definition defaultZone : Zone :=
  {| name := "Rest"; color := "#3498db"; upperLimit := 90; colorCode := "#3498db" |}.

(** Lines 363-371: default to [HR_ZONES[0]]; for a positive rate the
    first zone whose upper limit is not exceeded. *)
Definition zoneFor (finalHeartRate : Z) : Zone :=
  let zone_ := nth 0 HR_ZONES defaultZone in
  if finalHeartRate >? 0 then
    match find (fun z => finalHeartRate <=? upperLimit z) HR_ZONES with
    | Some z => z
    | None => zone_
    end
  else zone_.

(** Lines 374-405. *)
Definition displayTexts (finalHeartRate acquisitionTime : Z)
  (inAcquisitionPhase_ stable_ : bool) (zone_ : Zone) : string * string :=
  let acquisitionSecondsElapsed := Js.Math_floor (Js.num acquisitionTime / 1000)%Q in
  if finalHeartRate >? 0 then
    if inAcquisitionPhase_ then
      ("Acquiring signal",
       ("Please wait... (" ++ Js.toString acquisitionSecondsElapsed ++ "s)")%string)
    else if stable_ then (Js.toString finalHeartRate, name zone_)
    else (Js.toString finalHeartRate, "Stabilizing...")
  else if acquisitionTime <? 2000 then ("Detecting pulse", "Please wait...")
  else ("Acquiring signal",
        ("Keep finger still (" ++ Js.toString acquisitionSecondsElapsed ++ "s)")%string).

(** [Math.max(...ppgData)] on a non-empty batch. *)
Definition maxOf (ppgData : list Z) : Z :=
  fold_left Z.max ppgData (nth 0 ppgData 0).

Section Main.

Context {num : Type} `{Number num}.

(** Lines 131-203 for a state that already holds the current window:
    the peaks and the rate they yield. *)
Definition calculate (s : State) : list Z * Z :=
  if (750 <=? length (sampleBuffer s))%nat then
    let filteredSignal : list num := Signal.filterSignal (sampleBuffer s) in
    let peaks := Signal.detectPeaks filteredSignal in
    (peaks, rateFromPeaks peaks (length (sampleBuffer s)))
  else ([], 0).

(** Lines 131-435: everything after the finger-state logic kept contact.
    [rawRate] is [heartRate] up to line 203, [heartRate_] from line 231
    on; the first-display time is recorded inside the test on the
    former. *)
Definition track (s : State) (currentTime : Z) (ppgData : list Z) : State * Response :=
  let calculated := calculate s in
  let peaks := fst calculated in
  let rawRate := snd calculated in
  let heartRate_ := corrected rawRate (batchesReceived s) in
  let firstDisplayTime_ :=
    if (rawRate >? 0) && (firstDisplayTime s =? 0)
       && (batchesReceived s >=? MIN_BATCHES_FOR_DISPLAY)
    then currentTime else firstDisplayTime s in
  let history := pushHistory heartRate_ (recentHeartRates s) in
  let streak :=
    if heartRate_ >=? VIGOROUS_THRESHOLD
    then consecutiveHighZoneReadings s + 1 else 0 in
  let consensus := consensusRate history heartRate_ currentTime firstDisplayTime_ streak in
  let finalHeartRate :=
    suppressHigh consensus currentTime firstDisplayTime_ streak
                 (lastDisplayedHeartRate s) in
  let stable_ := stableReading history in
  let lastDisplayed :=
    if (finalHeartRate >? 0) && (batchesReceived s >=? MIN_BATCHES_FOR_DISPLAY)
    then finalHeartRate else lastDisplayedHeartRate s in
  let zone_ := zoneFor finalHeartRate in
  let acquisitionTime := currentTime - acquisitionStartTime s in
  let inAcquisitionPhase_ := batchesReceived s <? MIN_BATCHES_FOR_DISPLAY in
  let texts :=
    displayTexts finalHeartRate acquisitionTime inAcquisitionPhase_ stable_ zone_ in
  let displayText := fst texts in
  let detailText := snd texts in
  let s' := {|
    recentHeartRates := history;
    sampleBuffer := sampleBuffer s;
    batchesReceived := batchesReceived s;
    fingerDetectedState := fingerDetectedState s;
    lastDisplayedValue := displayText;
    lastDisplayedHeartRate := lastDisplayed;
    consecutiveLowSignalBatches := consecutiveLowSignalBatches s;
    consecutiveHighZoneReadings := streak;
    isAcquiring := isAcquiring s;
    acquisitionStartTime := acquisitionStartTime s;
    isStable := stable_;
    firstDisplayTime := firstDisplayTime_ |} in
  (s',
   createResponse s'
     (if inAcquisitionPhase_ then 0 else finalHeartRate)
     (fingerDetectedState s)
     displayText detailText (name zone_) (colorCode zone_) "stable"
     (Some {|
        signalMax := maxOf ppgData;
        bufferSize := length (sampleBuffer s);
        peakCount := length peaks;
        calculatedRate := heartRate_;
        finalRate := finalHeartRate;
        recentRates := Js.slicePrefix 4 history;
        stable := stable_;
        debug_batchesReceived := batchesReceived s;
        inAcquisitionPhase := inAcquisitionPhase_;
        percentBelowThreshold := percentBelow ppgData;
        debug_consecutiveLowSignalBatches := consecutiveLowSignalBatches s;
        isHighRate := finalHeartRate >=? VIGOROUS_THRESHOLD;
        debug_consecutiveHighZoneReadings := streak;
        timeSinceFirstDisplay := timeSince firstDisplayTime_ currentTime |})).

(** Main heart rate processing function.  [currentTime] is the value of
    [Date.now()]; [ppgData] is the array handed over by the server. *)
Definition processHeartRate (s : State) (currentTime : Z) (ppgData : list Z)
  : State * Response :=
  if (length ppgData <? 100)%nat then (s, noSignalResponse s)
  else
    let s1 := detectContact s ppgData in
    if fingerDetectedState s1 then
      track (ingestBatch (startAcquisition s1 currentTime) ppgData) currentTime ppgData
    else
      let s2 := resetState s1 in
      (s2, noSignalResponse s2).

(** The engine fed with a sequence of timed batches. *)
Definition run (s : State) (batches : list (Z * list Z)) : State :=
  fold_left (fun st b => fst (processHeartRate st (fst b) (snd b))) batches s.

End Main.

End Engine.

(** ** The jump-limiting processor (heartRateProcessor.js) *)

Module Advanced.

(** HR_CONSTANTS *)
Definition SAMPLE_RATE : Z := 150.
Definition MIN_HR : Z := 40.
Definition MAX_HR : Z := 200.
Definition BUFFER_SIZE : nat := 1000.
Definition MIN_PEAKS : nat := 3.
Definition MAX_JUMP : Z := 15.

(** hrState *)
Record HrState := {
  fingerDetected : bool;
  ppgBuffer : list Z;
  heartRateHistory : list Z;
  confidenceScores : list Q;
  timestamps : list Z;
  lastHeartRate : Z;
  lastCalculation : Z;
  signalQuality : Q;
  stabilityCounter : Z;
  smoothedHeartRate : Z
}.

Definition initialState : HrState := {|
  fingerDetected := false;
  ppgBuffer := [];
  heartRateHistory := [];
  confidenceScores := [];
  timestamps := [];
  lastHeartRate := 0;
  lastCalculation := 0;
  signalQuality := 0;
  stabilityCounter := 0;
  smoothedHeartRate := 0
|}.

(** The object returned by [calculateHeartRate]. *)
Module Reading.
Record t := { heartRate : Z; confidence : Q }.
End Reading.

(** The object returned by [processHeartRate]; [isStable] is present on
    one return only. *)
Module Result.
Record t := {
  heartRate : Z;
  zone : string;
  quality : Q;
  trend : string;
  fingerDetected : bool;
  isStable : option bool
}.
End Result.

(** Lines 86-104: prevent physiologically impossible jumps.  Returns
    [limitedHeartRate] and the (possibly reduced) confidence. *)
Definition limitJump (lastHeartRate_ : Z) (result : Reading.t) : Z * Q :=
  if lastHeartRate_ >? 0 then
    let maxChange := MAX_JUMP in
    if Z.abs (Reading.heartRate result - lastHeartRate_) >? maxChange then
      (if Reading.heartRate result >? lastHeartRate_
       then lastHeartRate_ + maxChange
       else lastHeartRate_ - maxChange,
       (Reading.confidence result * (7 # 10))%Q)
    else (Reading.heartRate result, Reading.confidence result)
  else (Reading.heartRate result, Reading.confidence result).

(** Lines 121-131: display smoothing, over the exact rationals. *)
Definition smooth (smoothed limitedHeartRate : Z) : Z :=
  if smoothed =? 0 then limitedHeartRate
  else Js.Math_round ((85 # 100) * Js.num smoothed
                      + (15 # 100) * Js.num limitedHeartRate)%Q.

Section Processor.

(** Helpers the file refers to but does not define ("the rest of the
    functions remain the same as in the previous code"), together with
    [calculateHeartRate], whose body is double arithmetic ending in the
    absent [calculateConfidence]; the stabilisation code uses it only
    through the reading it returns. *)
Variable assessSignalQuality : list Z -> Q.
Variable calculateHeartRate : list Z -> Reading.t.
Variable isStableReading : list Z -> bool.
Variable calculateTrend : list Z -> string.
Variable getCurrentZone : Z -> string.

Definition noReading : Result.t := {|
  Result.heartRate := 0;
  Result.zone := "Rest";
  Result.quality := 0;
  Result.trend := "stable";
  Result.fingerDetected := false;
  Result.isStable := None
|}.

(** Lines 84-150: a positive reading is limited, stored, smoothed and
    reported. *)
Definition acceptReading (st : HrState) (now : Z) (result : Reading.t)
  : HrState * Result.t :=
  let '(limitedHeartRate, confidence_) := limitJump (lastHeartRate st) result in
  let history := Js.unshift limitedHeartRate (heartRateHistory st) in
  let scores := Js.unshift confidence_ (confidenceScores st) in
  let stamps := Js.unshift now (timestamps st) in
  let overflow := (10 <? length history)%nat in
  let history' := if overflow then Js.pop history else history in
  let smoothed := smooth (smoothedHeartRate st) limitedHeartRate in
  let counter :=
    if isStableReading history' then stabilityCounter st + 1
    else Z.max 0 (stabilityCounter st - 1) in
  ({| fingerDetected := fingerDetected st;
      ppgBuffer := ppgBuffer st;
      heartRateHistory := history';
      confidenceScores := if overflow then Js.pop scores else scores;
      timestamps := if overflow then Js.pop stamps else stamps;
      lastHeartRate := limitedHeartRate;
      lastCalculation := lastCalculation st;
      signalQuality := confidence_;
      stabilityCounter := counter;
      smoothedHeartRate := smoothed |},
   {| Result.heartRate := smoothed;
      Result.zone := getCurrentZone smoothed;
      Result.quality := confidence_;
      Result.trend := calculateTrend history';
      Result.fingerDetected := true;
      Result.isStable := Some (counter >? 2) |}).

(** Process heart rate with enhanced stability. *)
Definition processHeartRate (st : HrState) (now : Z) (ppgData : list Z)
  : HrState * Result.t :=
  let appended := ppgBuffer st ++ ppgData in
  let buffer := if (BUFFER_SIZE <? length appended)%nat
                then Js.sliceLast BUFFER_SIZE appended else appended in
  let withBuffer (finger : bool) (calc : Z) (counter smoothed : Z) : HrState :=
    {| fingerDetected := finger;
       ppgBuffer := buffer;
       heartRateHistory := heartRateHistory st;
       confidenceScores := confidenceScores st;
       timestamps := timestamps st;
       lastHeartRate := lastHeartRate st;
       lastCalculation := calc;
       signalQuality := signalQuality st;
       stabilityCounter := counter;
       smoothedHeartRate := smoothed |} in
  if (Z.of_nat (length buffer) <? SAMPLE_RATE * 2) then
    (withBuffer (fingerDetected st) (lastCalculation st)
                (stabilityCounter st) (smoothedHeartRate st), noReading)
  else
    let signalQuality_ := assessSignalQuality buffer in
    let finger := Js.ltb (3 # 10) signalQuality_ in
    if negb finger then
      (withBuffer false (lastCalculation st) 0 0, noReading)
    else if (now - lastCalculation st <? 500) && (smoothedHeartRate st >? 0) then
      (withBuffer true (lastCalculation st)
                  (stabilityCounter st) (smoothedHeartRate st),
       {| Result.heartRate := smoothedHeartRate st;
          Result.zone := getCurrentZone (smoothedHeartRate st);
          Result.quality := signalQuality st;
          Result.trend := calculateTrend (heartRateHistory st);
          Result.fingerDetected := true;
          Result.isStable := None |})
    else
      let result := calculateHeartRate buffer in
      let st' := withBuffer true now (stabilityCounter st) (smoothedHeartRate st) in
      if Reading.heartRate result >? 0 then acceptReading st' now result
      else if (smoothedHeartRate st >? 0) && Js.ltb (5 # 10) signalQuality_ then
        (st',
         {| Result.heartRate := smoothedHeartRate st;
            Result.zone := getCurrentZone (smoothedHeartRate st);
            Result.quality := (signalQuality_ * (7 # 10))%Q;
            Result.trend := calculateTrend (heartRateHistory st);
            Result.fingerDetected := true;
            Result.isStable := None |})
      else
        (st',
         {| Result.heartRate := 0;
            Result.zone := "Rest";
            Result.quality := signalQuality_;
            Result.trend := "stable";
            Result.fingerDetected := true;
            Result.isStable := None |}).

End Processor.

End Advanced.

(** ** Synthetic recordings *)

(** Inputs for running the engine: a flat baseline with one asymmetric
    pulse (fast upstroke, slow decay) per beat.  Rates follow from the
    beat length at 150 Hz: 225 samples per beat is 40 BPM, 64 samples per
    beat is 141 BPM after rounding. *)
Module Scenario.

Definition flat (n : nat) (v : Z) : list Z := repeat v n.

Definition pulse : list Z :=
  [20300; 21000; 22000; 23500; 25000; 24700; 24300; 23800;
   23200; 22500; 21900; 21400; 21000; 20700; 20450; 20250].

Definition beat (samplesPerBeat : nat) : list Z :=
  flat 20 20000 ++ pulse ++ flat (samplesPerBeat - 36) 20000.

Fixpoint beats (samplesPerBeat n : nat) : list Z :=
  match n with
  | O => []
  | S k => beat samplesPerBeat ++ beats samplesPerBeat k
  end.

(** Four beats at 40 BPM: a batch of 900 samples. *)
Definition batch40 : list Z := beats 225 4.

(** A full window at 141 BPM. *)
Definition window141 : list Z := firstn 1000 (beats 64 16).

(** A batch with the finger on the sensor and too short to calculate
    from, and a batch with the finger off. *)
Definition touch : list Z := flat 100 20000.
Definition dark : list Z := flat 100 0.

(** Four short touches, half a second apart: the batch counter reaches 4
    while the window stays too short to calculate from. *)
Definition touches : list (Z * list Z) :=
  [(0, touch); (500, touch); (1000, touch); (1500, touch)].

(** The state the four touches leave. *)
Definition afterTouches : Engine.State := {|
  Engine.recentHeartRates := [];
  Engine.sampleBuffer := touch ++ touch ++ touch ++ touch;
  Engine.batchesReceived := 4;
  Engine.fingerDetectedState := true;
  Engine.lastDisplayedValue := "Detecting pulse";
  Engine.lastDisplayedHeartRate := 0;
  Engine.consecutiveLowSignalBatches := 0;
  Engine.consecutiveHighZoneReadings := 0;
  Engine.isAcquiring := true;
  Engine.acquisitionStartTime := 0;
  Engine.isStable := false;
  Engine.firstDisplayTime := 0
|}.

(** State and response after the fifth batch, [batch40] at t = 2000. *)
Definition afterBatch40 : Engine.State := {|
  Engine.recentHeartRates := [39];
  Engine.sampleBuffer := touch ++ batch40;
  Engine.batchesReceived := 5;
  Engine.fingerDetectedState := true;
  Engine.lastDisplayedValue := "39";
  Engine.lastDisplayedHeartRate := 39;
  Engine.consecutiveLowSignalBatches := 0;
  Engine.consecutiveHighZoneReadings := 0;
  Engine.isAcquiring := true;
  Engine.acquisitionStartTime := 0;
  Engine.isStable := false;
  Engine.firstDisplayTime := 2000
|}.

Definition debug39 : Engine.Debug := {|
  Engine.signalMax := 25000;
  Engine.bufferSize := 1000;
  Engine.peakCount := 4;
  Engine.calculatedRate := 39;
  Engine.finalRate := 39;
  Engine.recentRates := [39];
  Engine.stable := false;
  Engine.debug_batchesReceived := 5;
  Engine.inAcquisitionPhase := false;
  Engine.percentBelowThreshold := 0 # 900;
  Engine.debug_consecutiveLowSignalBatches := 0;
  Engine.isHighRate := false;
  Engine.debug_consecutiveHighZoneReadings := 0;
  Engine.timeSinceFirstDisplay := 0
|}.

Definition response39 : Engine.Response := {|
  Engine.heartRate := 39;
  Engine.fingerDetected := true;
  Engine.display_value := "39";
  Engine.display_details := "Stabilizing...";
  Engine.zone := "Rest";
  Engine.zoneColor := "#3498db";
  Engine.quality := 8 # 10;
  Engine.confidence := 8 # 10;
  Engine.trend := "stable";
  Engine.phase := "stabilizing";
  Engine.debug := Some debug39
|}.

(** State and response after a sixth batch, [window141] at t = 8000. *)
Definition afterWindow141 : Engine.State := {|
  Engine.recentHeartRates := [133; 39];
  Engine.sampleBuffer := window141;
  Engine.batchesReceived := 6;
  Engine.fingerDetectedState := true;
  Engine.lastDisplayedValue := "44";
  Engine.lastDisplayedHeartRate := 44;
  Engine.consecutiveLowSignalBatches := 0;
  Engine.consecutiveHighZoneReadings := 1;
  Engine.isAcquiring := true;
  Engine.acquisitionStartTime := 0;
  Engine.isStable := false;
  Engine.firstDisplayTime := 2000
|}.

Definition debug44 : Engine.Debug := {|
  Engine.signalMax := 25000;
  Engine.bufferSize := 1000;
  Engine.peakCount := 16;
  Engine.calculatedRate := 133;
  Engine.finalRate := 44;
  Engine.recentRates := [133; 39];
  Engine.stable := false;
  Engine.debug_batchesReceived := 6;
  Engine.inAcquisitionPhase := false;
  Engine.percentBelowThreshold := 0 # 1000;
  Engine.debug_consecutiveLowSignalBatches := 0;
  Engine.isHighRate := false;
  Engine.debug_consecutiveHighZoneReadings := 1;
  Engine.timeSinceFirstDisplay := 6000
|}.

Definition response44 : Engine.Response := {|
  Engine.heartRate := 44;
  Engine.fingerDetected := true;
  Engine.display_value := "44";
  Engine.display_details := "Stabilizing...";
  Engine.zone := "Rest";
  Engine.zoneColor := "#3498db";
  Engine.quality := 8 # 10;
  Engine.confidence := 8 # 10;
  Engine.trend := "stable";
  Engine.phase := "stabilizing";
  Engine.debug := Some debug44
|}.

(** State after a dark batch at t = 2500 instead: contact is still held
    and the window is evaluated once more. *)
Definition afterDark : Engine.State := {|
  Engine.recentHeartRates := [39; 39];
  Engine.sampleBuffer := touch ++ batch40;
  Engine.batchesReceived := 5;
  Engine.fingerDetectedState := true;
  Engine.lastDisplayedValue := "39";
  Engine.lastDisplayedHeartRate := 39;
  Engine.consecutiveLowSignalBatches := 1;
  Engine.consecutiveHighZoneReadings := 0;
  Engine.isAcquiring := true;
  Engine.acquisitionStartTime := 0;
  Engine.isStable := false;
  Engine.firstDisplayTime := 2000
|}.

(** An acquisition that has accepted the readings 73, 70, 74 and 72, the
    latest first. *)
Definition steady : Engine.State := {|
  Engine.recentHeartRates := [72; 74; 70; 73];
  Engine.sampleBuffer := [];
  Engine.batchesReceived := 12;
  Engine.fingerDetectedState := true;
  Engine.lastDisplayedValue := "72";
  Engine.lastDisplayedHeartRate := 72;
  Engine.consecutiveLowSignalBatches := 0;
  Engine.consecutiveHighZoneReadings := 0;
  Engine.isAcquiring := true;
  Engine.acquisitionStartTime := 1000;
  Engine.isStable := true;
  Engine.firstDisplayTime := 5000
|}.

(** An acquisition that has accepted the readings 126, 127 and 128 and
    shows 128, first displayed at t = 2000, with a window at 127 BPM. *)
Definition rising : Engine.State := {|
  Engine.recentHeartRates := [128; 127; 126];
  Engine.sampleBuffer := firstn 1000 (beats 71 15);
  Engine.batchesReceived := 12;
  Engine.fingerDetectedState := true;
  Engine.lastDisplayedValue := "128";
  Engine.lastDisplayedHeartRate := 128;
  Engine.consecutiveLowSignalBatches := 0;
  Engine.consecutiveHighZoneReadings := 0;
  Engine.isAcquiring := true;
  Engine.acquisitionStartTime := 0;
  Engine.isStable := true;
  Engine.firstDisplayTime := 2000
|}.

(** State and response after [window141] at t = 70000. *)
Definition afterRising : Engine.State := {|
  Engine.recentHeartRates := [141; 128; 127; 126];
  Engine.sampleBuffer := window141;
  Engine.batchesReceived := 13;
  Engine.fingerDetectedState := true;
  Engine.lastDisplayedValue := "136";
  Engine.lastDisplayedHeartRate := 136;
  Engine.consecutiveLowSignalBatches := 0;
  Engine.consecutiveHighZoneReadings := 1;
  Engine.isAcquiring := true;
  Engine.acquisitionStartTime := 0;
  Engine.isStable := true;
  Engine.firstDisplayTime := 2000
|}.

Definition debug136 : Engine.Debug := {|
  Engine.signalMax := 25000;
  Engine.bufferSize := 1000;
  Engine.peakCount := 16;
  Engine.calculatedRate := 141;
  Engine.finalRate := 136;
  Engine.recentRates := [141; 128; 127; 126];
  Engine.stable := true;
  Engine.debug_batchesReceived := 13;
  Engine.inAcquisitionPhase := false;
  Engine.percentBelowThreshold := 0 # 1000;
  Engine.debug_consecutiveLowSignalBatches := 0;
  Engine.isHighRate := true;
  Engine.debug_consecutiveHighZoneReadings := 1;
  Engine.timeSinceFirstDisplay := 68000
|}.

Definition response136 : Engine.Response := {|
  Engine.heartRate := 136;
  Engine.fingerDetected := true;
  Engine.display_value := "136";
  Engine.display_details := "Vigorous";
  Engine.zone := "Vigorous";
  Engine.zoneColor := "#e67e22";
  Engine.quality := 8 # 10;
  Engine.confidence := 8 # 10;
  Engine.trend := "stable";
  Engine.phase := "tracking";
  Engine.debug := Some debug136
|}.

(** A conditioned signal with a plateau that sets the threshold base to
    10, one peak of 100 above the first threshold (5) and one of 3
    between the lower threshold (2) and the first. *)
Definition twoTier : list Q :=
  (repeat 10 30 ++ repeat 0 20 ++ [100] ++ repeat 0 44 ++ [3] ++ repeat 0 24)%Q.

End Scenario.

(** ** Specification vocabulary *)

Module Spec.

(** Consecutive entries are at least [minPeakDistance] apart. *)
Inductive Spaced : list Z -> Prop :=
| Spaced_nil : Spaced []
| Spaced_one : forall a, Spaced [a]
| Spaced_cons : forall a b l,
    Signal.minPeakDistance <= b - a -> Spaced (b :: l) -> Spaced (a :: b :: l).

(** What both scans of [detectPeaks] maintain: the array is spaced and
    [lastPeakIndex] bounds every stored index. *)
Definition ScanInv (st : Signal.Scan) : Prop :=
  Spaced (fst st) /\ forall p, In p (fst st) -> p <= snd st.

(** The batch is a low-signal batch: at least 70% of its samples are at
    or below the presence threshold 18000. *)
Definition LowSignal (ppgData : list Z) : Prop :=
  70 * Z.of_nat (length ppgData)
  <= 100 * Z.of_nat (Engine.belowThresholdCount ppgData).

(** Every pairwise absolute difference among the last up to four
    readings is at most 15 BPM. *)
Definition PairwiseWithin15 (history : list Z) : Prop :=
  forall i j, (i < j)%nat -> (j < Nat.min 4 (length history))%nat ->
              Z.abs (nth i history 0 - nth j history 0) <= 15.

(** Position [i] holds the first zone of the table whose upper bound is
    at least [bpm]. *)
Definition FirstZoneAt (bpm : Z) (i : nat) (z : Engine.Zone) : Prop :=
  nth_error Engine.HR_ZONES i = Some z /\
  bpm <= Engine.upperLimit z /\
  forall j z', (j < i)%nat -> nth_error Engine.HR_ZONES j = Some z' ->
               Engine.upperLimit z' < bpm.

(** The interval bounds as the specification words them:
    [60 R / MAX_HR, 60 R / MIN_HR] samples, that is [45, 225] at
    R = 150 Hz, MIN_HR = 40, MAX_HR = 200. *)
Definition gapWithinSpecBounds (R minHr maxHr gap : Z) : Prop :=
  (60 * Js.num R / Js.num maxHr <= Js.num gap)%Q /\
  (Js.num gap <= 60 * Js.num R / Js.num minHr)%Q.

(** The interval method as the specification words it, read on the
    buffered engine: only gaps within the bounds are kept and a rate
    needs at least two of them. *)
Definition IntervalMethodAsWorded : Prop :=
  forall peaks : list Z,
    let kept := filter Engine.validInterval (Engine.intervalsOf peaks) in
    (forall gap, In gap kept -> gapWithinSpecBounds 150 40 200 gap) /\
    (Engine.method1 peaks <> 0 -> (2 <= length kept)%nat).

(** What holds of the module variables between two calls, from the
    initial state on: the acquisition flag follows the contact flag, the
    batch counter is not negative, and the history holds at most four
    readings, each positive and at most 200. *)
Definition Coherent (s : Engine.State) : Prop :=
  Engine.isAcquiring s = Engine.fingerDetectedState s
  /\ 0 <= Engine.batchesReceived s
  /\ (length (Engine.recentHeartRates s) <= 4)%nat
  /\ Forall (fun bpm => 0 < bpm <= 200) (Engine.recentHeartRates s).

(** The share of the rate removed by the initial correction. *)
Definition correctionShare (bpm : Z) : Q :=
  if bpm >=? 130 then 15 # 100 else if bpm >=? 110 then 10 # 100 else 5 # 100.

End Spec.

(** ** Further specification vocabulary *)

Module Shape.

Section Peaks.
Context {num : Type} `{Number num}.

(** The value at [i] is greater than its two neighbours on each side. *)
Definition LocalPeak (sig : list num) (i : nat) : Prop :=
  ngt (Signal.at_ sig i) (Signal.at_ sig (i - 1)) = true /\
  ngt (Signal.at_ sig i) (Signal.at_ sig (i - 2)) = true /\
  ngt (Signal.at_ sig i) (Signal.at_ sig (i + 1)) = true /\
  ngt (Signal.at_ sig i) (Signal.at_ sig (i + 2)) = true.

(** Every stored index of a scan state was visited by the loop and
    passed its test. *)
Definition Visited (sig : list num) (st : Signal.Scan) : Prop :=
  forall p, In p (fst st) ->
            exists i, p = Z.of_nat i /\ In i (Signal.scanIndices sig)
                      /\ LocalPeak sig i.

End Peaks.

(** What holds of the module variables between two calls in every run
    from the initial state, beyond [Coherent]: the window holds at most
    1000 samples, the low-signal counter is 0 or 1, the streak is not
    negative, the last displayed rate is within [0, 200], and without
    contact the per-acquisition variables are at their reset values. *)
Definition WellFormed (s : Engine.State) : Prop :=
  Spec.Coherent s
  /\ (length (Engine.sampleBuffer s) <= 1000)%nat
  /\ 0 <= Engine.consecutiveLowSignalBatches s <= 1
  /\ 0 <= Engine.consecutiveHighZoneReadings s
  /\ 0 <= Engine.lastDisplayedHeartRate s <= 200
  /\ (Engine.fingerDetectedState s = false ->
      Engine.consecutiveLowSignalBatches s = 0
      /\ Engine.batchesReceived s = 0
      /\ Engine.sampleBuffer s = []
      /\ Engine.lastDisplayedHeartRate s = 0
      /\ Engine.firstDisplayTime s = 0
      /\ Engine.consecutiveHighZoneReadings s = 0).

(** The response of both early exits. *)
Definition NoSignal (r : Engine.Response) : Prop :=
  Engine.heartRate r = 0
  /\ Engine.fingerDetected r = false
  /\ Engine.display_value r = "No signal"
  /\ Engine.display_details r = "Place finger on sensor"
  /\ Engine.zone r = "Rest"
  /\ Engine.phase r = "no_signal"
  /\ Engine.debug r = None.

(** Peaks at a fixed distance: [first, first + gap, ...], [n] of them. *)
Definition evenPeaks (first gap : Z) (n : nat) : list Z :=
  map (fun k => first + gap * Z.of_nat k) (seq 0 n).

(** Adjacent entries of an index array are at least [d] apart. *)
Definition SpacedBy (d : Z) (l : list Z) : Prop :=
  forall k, (S k < length l)%nat -> d <= nth (S k) l 0 - nth k l 0.

(** Adjacent entries of a rate history differ by at most [d]. *)
Definition Gradual (d : Z) (l : list Z) : Prop :=
  forall k, (S k < length l)%nat -> Z.abs (nth k l 0 - nth (S k) l 0) <= d.

(** What holds of [hrState] between two calls of the advanced processor
    in every run from the initial state. *)
Definition Steady (st : Advanced.HrState) : Prop :=
  (length (Advanced.ppgBuffer st) <= 1000)%nat
  /\ (length (Advanced.heartRateHistory st) <= 10)%nat
  /\ length (Advanced.confidenceScores st) = length (Advanced.heartRateHistory st)
  /\ length (Advanced.timestamps st) = length (Advanced.heartRateHistory st)
  /\ Forall (fun bpm => 0 < bpm) (Advanced.heartRateHistory st)
  /\ Gradual Advanced.MAX_JUMP (Advanced.heartRateHistory st)
  /\ Advanced.lastHeartRate st = nth 0 (Advanced.heartRateHistory st) 0
  /\ 0 <= Advanced.smoothedHeartRate st
  /\ 0 <= Advanced.stabilityCounter st.

(** The advanced processor fed with a sequence of timed batches. *)
Definition advancedRun
  (assessSignalQuality : list Z -> Q)
  (calculateHeartRate : list Z -> Advanced.Reading.t)
  (isStableReading : list Z -> bool)
  (calculateTrend : list Z -> string)
  (getCurrentZone : Z -> string)
  (st : Advanced.HrState) (calls : list (Z * list Z)) : Advanced.HrState :=
  fold_left
    (fun s c => fst (Advanced.processHeartRate assessSignalQuality calculateHeartRate
                       isStableReading calculateTrend getCurrentZone s (fst c) (snd c)))
    calls st.

End Shape.

(** ** The peak detector of the advanced processor
    (heartRateProcessor.js, lines 288-345, and the interval filter of
    lines 188-198) *)

Module AdvancedPeaks.

(** [Math.floor(SAMPLE_RATE * 0.05)] and [Math.floor(SAMPLE_RATE * 0.3)]
    at [SAMPLE_RATE = 150]. *)
Definition lookAhead : nat := 7.
Definition minPeakDistance : Z := 45.

(** The object returned by [detectPeaks]. *)
Record PeakResult := { peaks : list Z; quality : Q }.

(** [signalQuality] from the noise count; [totalPoints] is
    [length - 2 * lookAhead].  On a signal of at most 14 values the ratio
    is NaN or -0 and no comparison holds. *)
Definition qualityOf (noiseCount : nat) (totalPoints : Z) : Q :=
  if totalPoints <=? 0 then 1%Q
  else
    let noiseRatio := (Js.num (Z.of_nat noiseCount) / Js.num totalPoints)%Q in
    if Js.ltb (4 # 10) noiseRatio then (1 # 10)%Q
    else if Js.ltb (3 # 10) noiseRatio then (3 # 10)%Q
    else if Js.ltb (2 # 10) noiseRatio then (6 # 10)%Q
    else if Js.ltb (1 # 10) noiseRatio then (8 # 10)%Q
    else 1%Q.

(** Lines 188-198 of [calculateHeartRate]: the intervals between peaks in
    seconds and the test that keeps the plausible ones. *)
Definition intervalsOf (peaks_ : list Z) : list Q :=
  map (fun i => let gap := nth i peaks_ 0 - nth (i - 1) peaks_ 0 in
                (Js.num gap / Js.num Advanced.SAMPLE_RATE)%Q)
      (seq 1 (length peaks_ - 1)).

Definition validInterval (interval : Q) : bool :=
  Qle_bool (60 / Js.num Advanced.MAX_HR) interval
  && Qle_bool interval (60 / Js.num Advanced.MIN_HR).

Section Detector.

Context {num : Type} `{Number num}.

(** [a <= b] on the numbers of the implementation. *)
Variable nle : num -> num -> bool.

(** Lines 290-293: the largest value above 0. *)
Definition maxValueOf (processedSignal : list num) : num :=
  fold_left (fun maxValue v => if ngt v maxValue then v else maxValue)
            processedSignal (Signal.ofZ 0).

(** Lines 309-316: greater than every neighbour up to [lookAhead] away
    on both sides. *)
Definition isPeakAt (processedSignal : list num) (i : nat) : bool :=
  forallb (fun j =>
             negb (nle (Signal.at_ processedSignal i) (Signal.at_ processedSignal (i - j))
                   || nle (Signal.at_ processedSignal i)
                          (Signal.at_ processedSignal (i + j))))
          (seq 1 lookAhead).

(** Indices visited by
    [for (i = lookAhead; i < length - lookAhead; i++)]. *)
Definition scanIndices (processedSignal : list num) : list nat :=
  seq lookAhead (length processedSignal - 2 * lookAhead).

(** Lines 307-324, one iteration; the state is [peaks] and
    [lastPeakIndex]. *)
Definition scanStep (processedSignal : list num) (threshold1 : num)
  (st : Signal.Scan) (i : nat) : Signal.Scan :=
  if isPeakAt processedSignal i
     && ngt (Signal.at_ processedSignal i) threshold1
     && (Z.of_nat i - snd st >=? minPeakDistance)
  then (fst st ++ [Z.of_nat i], Z.of_nat i)
  else st.

(** Enhanced peak detection focusing on consistency. *)
Definition detectPeaks (processedSignal : list num) : PeakResult :=
  let maxValue := maxValueOf processedSignal in
  let threshold1 := nmul maxValue (lit (35 # 100)) in
  let threshold2 := nmul maxValue (lit (15 # 100)) in
  let found := fold_left (scanStep processedSignal threshold1)
                         (scanIndices processedSignal) ([], - minPeakDistance) in
  let noiseCount :=
    length (filter (fun i => ngt (Signal.at_ processedSignal i) threshold2
                             && nle (Signal.at_ processedSignal i) threshold1)
                   (scanIndices processedSignal)) in
  let totalPoints := Z.of_nat (length processedSignal) - 2 * Z.of_nat lookAhead in
  {| peaks := fst found; quality := qualityOf noiseCount totalPoints |}.

End Detector.
End AdvancedPeaks.

(** ** The per-batch calculator (heartRateProcessor.js, lines 348-729)

    The variant the server imports: each batch of 500 samples is
    evaluated on its own.  It shares [filterSignal], the scans of
    [detectPeaks], the three rate methods, the history, the zone lookup
    and the display texts with the buffered engine, line for line; its
    own are the contact test, the peak counts the methods ask for, the
    consensus without the high-rate rules, and the state it keeps. *)

Module Batch.

(** The module-level variables. *)
Record State := {
  recentHeartRates : list Z;
  batchesReceived : Z;
  isAcquiring : bool;
  acquisitionStartTime : Z;
  isStable : bool
}.

Definition initialState : State := {|
  recentHeartRates := [];
  batchesReceived := 0;
  isAcquiring := false;
  acquisitionStartTime := 0;
  isStable := false
|}.

Record Debug := {
  signalMax : Z;
  peakCount : nat;
  batchSize : nat;
  calculatedRate : Z;
  finalRate : Z;
  recentRates : list Z;
  stable : bool;
  debug_batchesReceived : Z;
  inAcquisitionPhase : bool
}.

Record Response := {
  heartRate : Z;
  fingerDetected : bool;
  display_value : string;
  display_details : string;
  zone : string;
  zoneColor : string;
  quality : Q;
  confidence : Q;
  trend : string;
  phase : string;
  debug : option Debug
}.

(** Create a standardized response object. *)
Definition createResponse (s : State) (heartRate_ : Z) (fingerDetected_ : bool)
  (displayValue displayDetails zoneName zoneColor_ trend_ : string)
  (debug_ : option Debug) : Response := {|
  heartRate := heartRate_;
  fingerDetected := fingerDetected_;
  display_value := displayValue;
  display_details := displayDetails;
  zone := zoneName;
  zoneColor := zoneColor_;
  quality := (if fingerDetected_ then 8 # 10 else 0)%Q;
  confidence := (if fingerDetected_ then 8 # 10 else 0)%Q;
  trend := trend_;
  phase := if fingerDetected_
           then (if batchesReceived s <? Engine.MIN_BATCHES_FOR_DISPLAY then "acquiring"
                 else if isStable s then "tracking" else "stabilizing")
           else "no_signal";
  debug := debug_
|}.

(** Lines 379-383 and 392-396: both early exits stop the acquisition and
    zero the batch counter. *)
Definition noSignal (s : State) : State * Response :=
  let s' := {| recentHeartRates := recentHeartRates s;
               batchesReceived := 0;
               isAcquiring := false;
               acquisitionStartTime := acquisitionStartTime s;
               isStable := isStable s |} in
  (s', createResponse s' 0 false "No signal" "Place finger on sensor"
                      "Rest" "#3498db" "stable" None).

(** STRICT finger detection: [max > 18000]. *)
Definition hasFinger (ppgData : list Z) : bool := Engine.maxOf ppgData >? 18000.

(** STEP 3 (lines 418-480): the three methods, from two peaks on. *)
Definition rateFromPeaks (peaks : list Z) (batchLength : nat) : Z :=
  if (2 <=? length peaks)%nat then
    let hr1 := Engine.method1 peaks in
    let hr2 := if (hr1 =? 0) && (3 <=? length peaks)%nat
               then Engine.method2 peaks else hr1 in
    if (hr2 =? 0) && (2 <=? length peaks)%nat
    then Engine.method3 peaks batchLength else hr2
  else 0.

(** Lines 491-515. *)
Definition consensusRate (history : list Z) (heartRate_ : Z) : Z :=
  if (3 <=? length history)%nat then
    if negb (Engine.allWithin15 history) then Engine.recentMean history
    else if heartRate_ >? 0 then heartRate_ else nth 0 history 0
  else heartRate_.

Section Main.

Context {num : Type} `{Number num}.

(** Main heart rate processing function - processes only the current
    500 samples.  [currentTime] is the value of [Date.now()]. *)
Definition processHeartRate (s : State) (currentTime : Z) (ppgData : list Z)
  : State * Response :=
  if (length ppgData <? 100)%nat then noSignal s
  else if negb (hasFinger ppgData) then noSignal s
  else
    let starting := negb (isAcquiring s) in
    let acquisitionStartTime_ :=
      if starting then currentTime else acquisitionStartTime s in
    let batches := (if starting then 0 else batchesReceived s) + 1 in
    let filteredSignal : list num := Signal.filterSignal ppgData in
    let peaks := Signal.detectPeaksWith 2 filteredSignal in
    let heartRate_ := rateFromPeaks peaks (length ppgData) in
    let history := Engine.pushHistory heartRate_ (recentHeartRates s) in
    let finalHeartRate := consensusRate history heartRate_ in
    let stable_ := Engine.stableReading history in
    let zone_ := Engine.zoneFor finalHeartRate in
    let acquisitionTime := currentTime - acquisitionStartTime_ in
    let inAcquisitionPhase_ := batches <? Engine.MIN_BATCHES_FOR_DISPLAY in
    let texts := Engine.displayTexts finalHeartRate acquisitionTime
                                     inAcquisitionPhase_ stable_ zone_ in
    let s' := {| recentHeartRates := history;
                 batchesReceived := batches;
                 isAcquiring := true;
                 acquisitionStartTime := acquisitionStartTime_;
                 isStable := stable_ |} in
    (s',
     createResponse s'
       (if inAcquisitionPhase_ then 0 else finalHeartRate)
       true (fst texts) (snd texts)
       (Engine.name zone_) (Engine.colorCode zone_) "stable"
       (Some {| signalMax := Engine.maxOf ppgData;
                peakCount := length peaks;
                batchSize := length ppgData;
                calculatedRate := heartRate_;
                finalRate := finalHeartRate;
                recentRates := Js.slicePrefix 4 history;
                stable := stable_;
                debug_batchesReceived := batches;
                inAcquisitionPhase := inAcquisitionPhase_ |})).

(** The states and the responses of a sequence of timed batches. *)
Fixpoint responses (s : State) (batches : list (Z * list Z)) : list Response :=
  match batches with
  | [] => []
  | b :: rest =>
      let out := processHeartRate s (fst b) (snd b) in
      snd out :: responses (fst out) rest
  end.

Definition run (s : State) (batches : list (Z * list Z)) : State :=
  fold_left (fun st b => fst (processHeartRate st (fst b) (snd b))) batches s.

End Main.

(** What holds of the module variables between two calls, from the
    initial state on: the acquisition flag is set exactly while batches
    are being counted, and the history holds at most four readings, each
    within [40, 200]. *)
Definition Coherent (s : State) : Prop :=
  0 <= batchesReceived s
  /\ isAcquiring s = (0 <? batchesReceived s)
  /\ (length (recentHeartRates s) <= 4)%nat
  /\ Forall (fun bpm => 40 <= bpm <= 200) (recentHeartRates s).

End Batch.

(** ** The server (server.js)

    The two POST endpoints, [broadcastData] and the clean-up timer, over
    the module variables [realtimeData] and [activeUploads], the files
    of the data directory and the state of the imported processor.
    Request bodies are read as far as the endpoints read them; samples
    are integers; device identifiers are strings; the order of the keys
    of [activeUploads] is immaterial.  A write to a file succeeds or
    throws as the file system decides, and so does a call of the
    processor; an exception raised inside the [try] block of the upload
    endpoint is answered there, any other leaves the handler.  The
    endpoints are modelled for the samples a double holds exactly and,
    where the tracker is used, for every identifier but ["__proto__"],
    which names the prototype of the tracker object instead of an
    entry. *)

Module Server.

Definition newline : string := String (Ascii.ascii_of_nat 10) EmptyString.

(** An object used as a map from strings: its own entries. *)
Section Maps.
Context {V : Type}.

Fixpoint lookup (k : string) (m : list (string * V)) : option V :=
  match m with
  | [] => None
  | (k', v) :: rest => if String.eqb k k' then Some v else lookup k rest
  end.

(** [m[k] = v]. *)
Fixpoint store (k : string) (v : V) (m : list (string * V)) : list (string * V) :=
  match m with
  | [] => [(k, v)]
  | (k', v') :: rest =>
      if String.eqb k k' then (k, v) :: rest else (k', v') :: store k v rest
  end.

(** [delete m[k]]. *)
Definition remove (k : string) (m : list (string * V)) : list (string * V) :=
  filter (fun e => negb (String.eqb k (fst e))) m.

End Maps.

(** The members [activeUploads] inherits from [Object.prototype] besides
    ["__proto__"]: functions, found by [activeUploads[device_id]] when
    the tracker has no entry of that name. *)
Definition inheritedNames : list string :=
  ["constructor"; "hasOwnProperty"; "isPrototypeOf"; "propertyIsEnumerable";
   "toLocaleString"; "toString"; "valueOf"; "__defineGetter__";
   "__defineSetter__"; "__lookupGetter__"; "__lookupSetter__"].

Definition inherited (id : string) : bool := existsb (String.eqb id) inheritedNames.

(** [req.body].  A field is [None] when it is absent, and [data] also
    when it is not an array. *)
Record Body := {
  device_id : option string;
  data : option (list Z);
  chunk : option Z;
  total_chunks : option Z
}.

(** The readings of the clock during one request: the parts of
    [new Date().toISOString()] that enter a file name, and the values of
    [Date.now()] for the session identifier, for [lastUpdate] when the
    tracker entry is made and when the chunk is counted, for
    [realtimeData.lastUpdated] and inside the processor. *)
Record Clock := {
  dateStr : string;
  timeStr : string;
  sessionNow : Z;
  createdNow : Z;
  updateNow : Z;
  broadcastNow : Z;
  processorNow : Z
}.

(** An entry of [activeUploads]. *)
Record Upload := {
  sessionId : string;
  filename : string;
  filepath : string;
  upload_total_chunks : Z;
  received_chunks : Z;
  lastUpdate : Z
}.

(** What [broadcastData] reads of the processor's answer. *)
Record HrInfo := {
  heartRate : Z;
  zone : string;
  quality : Q;
  trend : string;
  fingerDetected : bool;
  display_value : option string;
  display_details : option string
}.

Record Realtime := {
  lastUpdated : Z;
  values : list Z;
  rt_heartRate : Z;
  heartRateZone : string;
  heartRateQuality : Q;
  heartRateTrend : string;
  rt_fingerDetected : bool;
  rt_display_value : option string;
  rt_display_details : option string
}.

(** [realtimeData] when the module is loaded at time [loaded]. *)
Definition initialRealtime (loaded : Z) : Realtime := {|
  lastUpdated := loaded;
  values := repeat 0 500;
  rt_heartRate := 0;
  heartRateZone := "Rest";
  heartRateQuality := 0;
  heartRateTrend := "stable";
  rt_fingerDetected := false;
  rt_display_value := None;
  rt_display_details := None
|}.

(** The ['update'] message sent to every open client. *)
Record Message := {
  msg_data : list Z;
  msg_heartRate : Z;
  msg_heartRateZone : string;
  msg_heartRateQuality : Q;
  msg_heartRateTrend : string;
  msg_fingerDetected : bool;
  msg_display_value : option string;
  msg_display_details : option string
}.

(** [res.status(status).send(text)], or an exception that leaves the
    handler, which the framework answers with status 500. *)
Inductive Reply :=
| send (status : Z) (text : string)
| uncaught.

Definition status (r : Reply) : Z :=
  match r with
  | send status_ _ => status_
  | uncaught => 500
  end.

(** [s || d] on strings. *)
Definition orDefault (s d : string) : string := if String.eqb s "" then d else s.

(** Function to broadcast data to all WebSocket clients.  On integers
    and rationals [x || 0] is [x]. *)
Definition broadcastData (rt : Realtime) (clock : Clock) (data_ : list Z)
  (hrInfo : HrInfo) : Realtime * Message :=
  let rt' := {|
    lastUpdated := broadcastNow clock;
    values := data_;
    rt_heartRate := heartRate hrInfo;
    heartRateZone := orDefault (zone hrInfo) "Rest";
    heartRateQuality := quality hrInfo;
    heartRateTrend := orDefault (trend hrInfo) "stable";
    rt_fingerDetected := fingerDetected hrInfo;
    rt_display_value := display_value hrInfo;
    rt_display_details := display_details hrInfo |} in
  (rt',
   {| msg_data := data_;
      msg_heartRate := rt_heartRate rt';
      msg_heartRateZone := heartRateZone rt';
      msg_heartRateQuality := heartRateQuality rt';
      msg_heartRateTrend := heartRateTrend rt';
      msg_fingerDetected := rt_fingerDetected rt';
      msg_display_value := rt_display_value rt';
      msg_display_details := rt_display_details rt' |}).

(** [!device_id || !data || !Array.isArray(data)] does not hold: the
    identifier and the samples. *)
Definition accepted (body : Body) : option (string * list Z) :=
  match device_id body, data body with
  | Some id, Some samples => if String.eqb id "" then None else Some (id, samples)
  | _, _ => None
  end.

(** The samples are integers that doubles hold exactly. *)
Definition exact (samples : list Z) : bool := forallb Js.isSafeInteger samples.

(** [data.forEach(value => csvData += value + '\n')]: an integer that
    a double holds exactly is rendered in decimal digits. *)
Definition csvOf (samples : list Z) : string :=
  fold_left (fun csvData value => (csvData ++ Js.toString value ++ newline)%string)
            samples ""%string.

Definition header : string := ("ir_value" ++ newline)%string.

(** [fs.writeFileSync] and [fs.appendFileSync] on the files of the data
    directory. *)
Definition writeFile (path content : string) (files : list (string * string))
  : list (string * string) := store path content files.

Definition appendFile (path content : string) (files : list (string * string))
  : list (string * string) :=
  store path (match lookup path files with
              | Some old => (old ++ content)%string
              | None => content
              end) files.

(** Lines 209-210: [received_chunks++] and [lastUpdate = Date.now()]. *)
Definition bumped (u : Upload) (clock : Clock) : Upload :=
  {| sessionId := sessionId u;
     filename := filename u;
     filepath := filepath u;
     upload_total_chunks := upload_total_chunks u;
     received_chunks := received_chunks u + 1;
     lastUpdate := updateNow clock |}.

(** Upload inactive for more than 10 minutes. *)
Definition stale (now : Z) (upload : Upload) : bool :=
  now - lastUpdate upload >? 600000.

(** The body of the clean-up timer. *)
Definition cleanup (now : Z) (uploads : list (string * Upload))
  : list (string * Upload) :=
  filter (fun e => negb (stale now (snd e))) uploads.

Section Endpoints.

(** The imported [processHeartRate] with its module state: the state a
    call leaves and its answer, [None] when the call throws;
    [path.join(__dirname, 'data')] with [path.join]; and the paths the
    file system accepts a write to. *)
Variable P : Type.
Variable processHeartRate : P -> Clock -> list Z -> P * option HrInfo.
Variable dataDir : string.
Variable pathJoin : string -> string -> string.
Variable writable : string -> bool.

Record State := {
  processor : P;
  realtimeData : Realtime;
  activeUploads : list (string * Upload);
  files : list (string * string)
}.

(** Lines 161-179 and 187-203: the tracker of a new upload session. *)
Definition newUpload (clock : Clock) (id : string) (recovery : bool)
  (total : option Z) : Upload :=
  let sessionId_ := Js.toString (sessionNow clock) in
  let filename_ :=
    (id ++ (if recovery then "_recovery_" else "_") ++ dateStr clock ++ "_"
        ++ timeStr clock ++ "_" ++ sessionId_ ++ ".csv")%string in
  {| sessionId := sessionId_;
     filename := filename_;
     filepath := pathJoin dataDir filename_;
     upload_total_chunks := match total with
                            | Some n => if n =? 0 then 1 else n
                            | None => 1
                            end;
     received_chunks := 0;
     lastUpdate := createdNow clock |}.

(** Endpoint to receive real-time data.  The call of the processor is
    not guarded: when it throws, the exception leaves the handler and
    nothing is stored or broadcast.  [None]: the request is not
    modelled. *)
Definition postRealtime (st : State) (clock : Clock) (body : Body)
  : option (State * Reply * option Message) :=
  match accepted body with
  | None => Some (st, send 400 "Invalid data format", None)
  | Some (_, samples) =>
      if negb (exact samples) then None
      else
        let processed := processHeartRate (processor st) clock samples in
        match snd processed with
        | None =>
            Some ({| processor := fst processed;
                     realtimeData := realtimeData st;
                     activeUploads := activeUploads st;
                     files := files st |},
                  uncaught, None)
        | Some hrInfo =>
            let sent := broadcastData (realtimeData st) clock samples hrInfo in
            Some ({| processor := fst processed;
                     realtimeData := fst sent;
                     activeUploads := activeUploads st;
                     files := files st |},
                  send 200 "Realtime data received",
                  Some (snd sent))
        end
  end.

(** Lines 208-247 for the tracker entry [upload] of the device: count
    the chunk, then, inside [try], append the samples, run the processor,
    broadcast, and drop the entry when the upload is complete. *)
Definition storeChunk (st : State) (clock : Clock) (body : Body)
  (id : string) (samples : list Z)
  (upload : Upload) (uploads : list (string * Upload)) (files_ : list (string * string))
  : State * Reply * option Message :=
  let upload' := bumped upload clock in
  let uploads2 := store id upload' uploads in
  if negb (writable (filepath upload')) then
    (* appendFileSync throws *)
    ({| processor := processor st;
        realtimeData := realtimeData st;
        activeUploads := uploads2;
        files := files_ |},
     send 500 "Server error saving data", None)
  else
    let files3 := appendFile (filepath upload') (csvOf samples) files_ in
    let processed := processHeartRate (processor st) clock samples in
    match snd processed with
    | None =>
        (* processHeartRate throws *)
        ({| processor := fst processed;
            realtimeData := realtimeData st;
            activeUploads := uploads2;
            files := files3 |},
         send 500 "Server error saving data", None)
    | Some hrInfo =>
        let sent := broadcastData (realtimeData st) clock samples hrInfo in
        (* all chunks received: clean up the tracker *)
        let complete :=
          match chunk body with
          | None => true
          | Some _ => received_chunks upload' >=? upload_total_chunks upload'
          end in
        ({| processor := fst processed;
            realtimeData := fst sent;
            activeUploads := if complete then remove id uploads2 else uploads2;
            files := files3 |},
         send 200 "Data received successfully",
         Some (snd sent))
    end.

(** Endpoint to receive sensor data in chunks.  The two calls of
    [writeFileSync] stand before the [try] block: when one throws, the
    tracker entry is already made and the exception leaves the handler.
    Without an entry of its own the tracker object answers an inherited
    name with a function: no recovery file is made, the function has no
    [filepath], [appendFileSync] throws and the reply is 500.  [None]:
    the request is not modelled. *)
Definition postSensorData (st : State) (clock : Clock) (body : Body)
  : option (State * Reply * option Message) :=
  match accepted body with
  | None => Some (st, send 400 "Invalid data format", None)
  | Some (id, samples) =>
      if String.eqb id "__proto__" || negb (exact samples) then None
      else
        (* a new file for the first chunk of each upload session *)
        let first := match chunk body with Some c => c =? 0 | None => true end in
        if first then
          let started := newUpload clock id false (total_chunks body) in
          let uploads1 := store id started (activeUploads st) in
          if negb (writable (filepath started)) then
            Some ({| processor := processor st;
                     realtimeData := realtimeData st;
                     activeUploads := uploads1;
                     files := files st |},
                  uncaught, None)
          else
            Some (storeChunk st clock body id samples started uploads1
                             (writeFile (filepath started) header (files st)))
        else
          match lookup id (activeUploads st) with
          | Some upload =>
              Some (storeChunk st clock body id samples upload
                               (activeUploads st) (files st))
          | None =>
              if inherited id then
                Some (st, send 500 "Server error saving data", None)
              else
                (* no active upload for this device: a recovery file *)
                let recovered := newUpload clock id true (total_chunks body) in
                let uploads1 := store id recovered (activeUploads st) in
                if negb (writable (filepath recovered)) then
                  Some ({| processor := processor st;
                           realtimeData := realtimeData st;
                           activeUploads := uploads1;
                           files := files st |},
                        uncaught, None)
                else
                  Some (storeChunk st clock body id samples recovered uploads1
                                   (writeFile (filepath recovered) header (files st)))
          end
  end.

(** The requests of one client in sequence, with the replies. *)
Fixpoint postAll (st : State) (requests : list (Clock * Body))
  : option (State * list Reply) :=
  match requests with
  | [] => Some (st, [])
  | r :: rest =>
      match postSensorData st (fst r) (snd r) with
      | None => None
      | Some out =>
          match postAll (fst (fst out)) rest with
          | None => None
          | Some later => Some (fst later, snd (fst out) :: snd later)
          end
      end
  end.

End Endpoints.

Arguments processor {P} _.
Arguments realtimeData {P} _.
Arguments activeUploads {P} _.
Arguments files {P} _.

(** The body of chunk [index] of [total] from device [id]. *)
Definition chunkBody (id : string) (total index : Z) (samples : list Z) : Body := {|
  device_id := Some id;
  data := Some samples;
  chunk := Some index;
  total_chunks := Some total
|}.

(** What [broadcastData] reads of an answer of the per-batch
    calculator. *)
Definition ofBatch (r : Batch.Response) : HrInfo := {|
  heartRate := Batch.heartRate r;
  zone := Batch.zone r;
  quality := Batch.quality r;
  trend := Batch.trend r;
  fingerDetected := Batch.fingerDetected r;
  display_value := Some (Batch.display_value r);
  display_details := Some (Batch.display_details r)
|}.

(** The imported processor: the per-batch calculator over the numbers
    [num], reading the clock once.  On a batch of 100 samples or more
    the calculator starts with [Math.min(...ppgData)], which throws a
    RangeError before any variable is assigned when the batch has more
    elements than the engine lets a call spread ([spreadLimit], a
    property of the engine and of its stack). *)
Definition batchProcessor {num : Type} `{Number num} (spreadLimit : nat)
  (s : Batch.State) (clock : Clock) (samples : list Z)
  : Batch.State * option HrInfo :=
  if (100 <=? length samples)%nat && (spreadLimit <? length samples)%nat then (s, None)
  else
    let out := Batch.processHeartRate (num := num) s (processorNow clock) samples in
    (fst out, Some (ofBatch (snd out))).

(** The processor returns on these samples, whatever its state and the
    time. *)
Definition Returns {P : Type}
  (processHeartRate : P -> Clock -> list Z -> P * option HrInfo)
  (samples : list Z) : Prop :=
  forall p clock, exists hrInfo, snd (processHeartRate p clock samples) = Some hrInfo.

(** Every chunk of the list carries samples that doubles hold exactly
    and that the processor returns on. *)
Definition Fine {P : Type}
  (processHeartRate : P -> Clock -> list Z -> P * option HrInfo)
  (items : list (Clock * list Z)) : Prop :=
  Forall (fun item => exact (snd item) = true
                      /\ Returns processHeartRate (snd item)) items.

(** The requests of an upload sent chunk by chunk, numbered from
    [index]. *)
Fixpoint uploadFrom (id : string) (total index : Z) (items : list (Clock * list Z))
  : list (Clock * Body) :=
  match items with
  | [] => []
  | item :: rest =>
      (fst item, chunkBody id total index (snd item))
        :: uploadFrom id total (index + 1) rest
  end.

End Server.

(** ** The processor inside the earlier server (part_001, lines 17-240) *)

Module Inline.

(** hrState *)
Record HrState := {
  fingerDetected : bool;
  heartRate : Z;
  confidence : Q;
  quality : Q;
  heartRateHistory : list Z;
  timestamps : list Z;
  peaks : list Z;
  previousTimestamp : Z;
  ppgBuffer : list Z
}.

Definition initialState : HrState := {|
  fingerDetected := false;
  heartRate := 0;
  confidence := 0;
  quality := 0;
  heartRateHistory := [];
  timestamps := [];
  peaks := [];
  previousTimestamp := 0;
  ppgBuffer := []
|}.

(** The object returned by [processHeartRate]. *)
Module Result.
Record t := {
  heartRate : Z;
  zone : string;
  quality : Q;
  trend : string;
  fingerDetected : bool
}.
End Result.

Definition noReading (finger : bool) : Result.t := {|
  Result.heartRate := 0;
  Result.zone := "Rest";
  Result.quality := 0;
  Result.trend := "stable";
  Result.fingerDetected := finger
|}.

(** [Math.min(...ppgData)] on a non-empty batch. *)
Definition minOf (ppgData : list Z) : Z :=
  fold_left Z.min ppgData (nth 0 ppgData 0).

Definition minPeakDistance : Z := 25.

(** Helper function to calculate variance. *)
Definition calculateVariance (array : list Z) : Q :=
  let n := Js.num (Z.of_nat (length array)) in
  let mean := (Js.num (Js.sum array) / n)%Q in
  (fold_left (fun sum val => sum + (Js.num val - mean) * (Js.num val - mean))
             array 0 / n)%Q.

(** Lines 168-176: the rate of the average interval. *)
Definition rateOf (intervals : list Z) : Z :=
  let avgInterval :=
    (Js.num (Js.sum intervals) / Js.num (Z.of_nat (length intervals)))%Q in
  Js.Math_round (60 * 150 / avgInterval)%Q.

(** Lines 192-201. *)
Definition trendOf (history : list Z) : string :=
  if (3 <=? length history)%nat then
    let newest := nth (length history - 1) history 0 in
    let oldest := nth 0 history 0 in
    let diff := newest - oldest in
    if diff >? 5 then "rising" else if diff <? -5 then "falling" else "stable"
  else "stable".

(** Lines 207-214. *)
Definition zoneOf (heartRateBPM : Z) : Engine.Zone :=
  match find (fun z => heartRateBPM <=? Engine.upperLimit z) Engine.HR_ZONES with
  | Some z => z
  | None => nth 0 Engine.HR_ZONES Engine.defaultZone
  end.

(** [a.push(x)] followed by [a.shift()] when more than ten are held. *)
Definition pushBounded {A} (x : A) (a : list A) (overflow : bool) : list A :=
  if overflow then tl (a ++ [x]) else a ++ [x].

(** The ['update'] message of lines 89-97: the contact flag is read from
    [hrState], the rest from the processor's answer. *)
Record Message := {
  msg_data : list Z;
  msg_heartRate : Z;
  msg_heartRateZone : string;
  msg_heartRateQuality : Q;
  msg_heartRateTrend : string;
  msg_fingerDetected : bool
}.

Definition orDefault (s d : string) : string := if String.eqb s "" then d else s.

(** Function to broadcast data to all WebSocket clients. *)
Definition broadcastData (st : HrState) (data : list Z) (hrInfo : Result.t) : Message := {|
  msg_data := data;
  msg_heartRate := Result.heartRate hrInfo;
  msg_heartRateZone := orDefault (Result.zone hrInfo) "Rest";
  msg_heartRateQuality := Result.quality hrInfo;
  msg_heartRateTrend := orDefault (Result.trend hrInfo) "stable";
  msg_fingerDetected := fingerDetected st
|}.

Section Main.

Context {num : Type} `{Number num}.

(** [Math.abs] and [Math.max(...xs)] on the numbers of the
    implementation. *)
Variable nabs : num -> num.
Variable nmaxOf : list num -> num.

(** Lines 152-164, one iteration. *)
Definition scanStep (normalized : list num) (threshold : num)
  (found : list Z) (i : nat) : list Z :=
  if ngt (Signal.at_ normalized i) threshold
     && ngt (Signal.at_ normalized i) (Signal.at_ normalized (i - 1))
     && ngt (Signal.at_ normalized i) (Signal.at_ normalized (i - 2))
     && ngt (Signal.at_ normalized i) (Signal.at_ normalized (i + 1))
     && ngt (Signal.at_ normalized i) (Signal.at_ normalized (i + 2))
  then
    if (length found =? 0)%nat || (Z.of_nat i - last found 0 >=? minPeakDistance)
    then found ++ [Z.of_nat i] else found
  else found.

(** Lines 142-164: the peaks of the buffer. *)
Definition peaksOf (buffer : list Z) : list Z :=
  let mean := ndiv (fold_left (fun acc v => nadd acc (Signal.ofZ v)) buffer (Signal.ofZ 0))
                   (Signal.ofNat (length buffer)) in
  let normalized := map (fun v => nsub (Signal.ofZ v) mean) buffer in
  let threshold := nmul (lit (1 # 2)) (nmaxOf (map nabs normalized)) in
  fold_left (scanStep normalized threshold) (seq 2 (length normalized - 4)) [].

(** Simple heart rate detection from PPG data.  [now] is the value of
    [Date.now()]. *)
Definition processHeartRate (st : HrState) (now : Z) (ppgData : list Z)
  : HrState * Result.t :=
  if (length ppgData <? 100)%nat then (st, noReading false)
  else
    let range := Engine.maxOf ppgData - minOf ppgData in
    let finger := range >? 1000 in
    let appended := ppgBuffer st ++ ppgData in
    let buffer := if (1000 <? length appended)%nat
                  then Js.sliceLast 1000 appended else appended in
    let update (rate : Z) (history stamps buffer_ : list Z) : HrState :=
      {| fingerDetected := finger;
         heartRate := rate;
         confidence := confidence st;
         quality := quality st;
         heartRateHistory := history;
         timestamps := stamps;
         peaks := peaks st;
         previousTimestamp := previousTimestamp st;
         ppgBuffer := buffer_ |} in
    if negb finger then
      (update (heartRate st) (heartRateHistory st) (timestamps st) (ppgBuffer st),
       noReading false)
    else
      let found := peaksOf buffer in
      let kept := update (heartRate st) (heartRateHistory st) (timestamps st) buffer in
      if (2 <=? length found)%nat then
        let intervals := Engine.intervalsOf found in
        let heartRateBPM := rateOf intervals in
        if (heartRateBPM >=? 40) && (heartRateBPM <=? 200) then
          let overflow := (10 <? length (heartRateHistory st ++ [heartRateBPM]))%nat in
          let history := pushBounded heartRateBPM (heartRateHistory st) overflow in
          let stamps := pushBounded now (timestamps st) overflow in
          let intervalVariance := calculateVariance intervals in
          (update heartRateBPM history stamps buffer,
           {| Result.heartRate := heartRateBPM;
              Result.zone := Engine.name (zoneOf heartRateBPM);
              Result.quality := Qmax 0 (Qmin 1 (1 - intervalVariance / 150));
              Result.trend := trendOf history;
              Result.fingerDetected := true |})
        else (kept, noReading finger)
      else (kept, noReading finger).

(** The real-time endpoint on an accepted body: the answer of the
    processor and the message broadcast after it. *)
Definition publish (st : HrState) (now : Z) (data : list Z)
  : HrState * Result.t * Message :=
  let out := processHeartRate st now data in
  (out, broadcastData (fst out) data (snd out)).

End Main.

(** What holds of [hrState] between two calls, from the initial state
    on. *)
Definition Plausible (st : HrState) : Prop :=
  (length (ppgBuffer st) <= 1000)%nat
  /\ (length (heartRateHistory st) <= 10)%nat
  /\ length (timestamps st) = length (heartRateHistory st)
  /\ Forall (fun bpm => 40 <= bpm <= 200) (heartRateHistory st)
  /\ heartRate st = last (heartRateHistory st) 0.

End Inline.

(** ** Requests for the examples *)

Module Requests.

Definition noon : Server.Clock := {|
  Server.dateStr := "2025-01-01";
  Server.timeStr := "12-00-00";
  Server.sessionNow := 1735732800000;
  Server.createdNow := 1735732800000;
  Server.updateNow := 1735732800000;
  Server.broadcastNow := 1735732800001;
  Server.processorNow := 1735732800000
|}.

Definition nothing : Server.HrInfo := {|
  Server.heartRate := 0;
  Server.zone := "Rest";
  Server.quality := 0;
  Server.trend := "stable";
  Server.fingerDetected := false;
  Server.display_value := None;
  Server.display_details := None
|}.

(** A processor without state that reports nothing, and one that throws
    on more than 1000 samples. *)
Definition silent (p : unit) (clock : Server.Clock) (samples : list Z)
  : unit * option Server.HrInfo :=
  (p, Some nothing).

Definition limited (p : unit) (clock : Server.Clock) (samples : list Z)
  : unit * option Server.HrInfo :=
  (p, if (1000 <? length samples)%nat then None else Some nothing).

Definition join (directory name : string) : string :=
  (directory ++ "/" ++ name)%string.

(** A file system that accepts every write, and one that accepts
    none. *)
Definition anywhere (path : string) : bool := true.
Definition nowhere (path : string) : bool := false.

(** The server after loading, with any processor state. *)
Definition idle {P : Type} (p : P) : Server.State P := {|
  Server.processor := p;
  Server.realtimeData := Server.initialRealtime 0;
  Server.activeUploads := [];
  Server.files := []
|}.

End Requests.

(** * Properties *)

(** ** Double-precision arithmetic *)

Module DoubleFacts.
Import Js.

Local Open Scope Q_scope.

Lemma pow2_pos (k : Z) : 0 < 2 ^ k.
Proof. apply Qpower_0_lt. reflexivity. Qed.

Lemma pow2_plus (a b : Z) : 2 ^ (a + b) == 2 ^ a * 2 ^ b.
Proof. apply Qpower_plus. discriminate. Qed.

Lemma pow2_le (a b : Z) : (a <= b)%Z -> 2 ^ a <= 2 ^ b.
Proof. intros Hab. apply Qpower_le_compat_l; [exact Hab | discriminate]. Qed.

Lemma pow2_lt (a b : Z) : (a < b)%Z -> 2 ^ a < 2 ^ b.
Proof. intros Hab. apply Qpower_lt_compat_l; [exact Hab | reflexivity]. Qed.

Lemma pow2_lt_inv (a b : Z) : 2 ^ a < 2 ^ b -> (a < b)%Z.
Proof. intros Hab. apply (Qpower_lt_compat_l_inv 2); [exact Hab | reflexivity]. Qed.

Lemma pow2_inject (k : Z) : (0 <= k)%Z -> inject_Z (2 ^ k) == 2 ^ k.
Proof. intros Hk. apply (Zpower_Qpower 2 k Hk). Qed.

Lemma pow2_opp (k : Z) : 2 ^ (- k) == / 2 ^ k.
Proof. apply Qpower_opp. Qed.

Lemma pow2_cancel (k : Z) : 2 ^ k * 2 ^ (- k) == 1.
Proof.
  rewrite <- pow2_plus. replace (k + - k)%Z with 0%Z by lia. reflexivity.
Qed.

Lemma inject_Z_le (a b : Z) : (a <= b)%Z -> inject_Z a <= inject_Z b.
Proof. intros Hab. rewrite <- Zle_Qle. exact Hab. Qed.

Lemma inject_Z_lt (a b : Z) : (a < b)%Z -> inject_Z a < inject_Z b.
Proof. intros Hab. rewrite <- Zlt_Qlt. exact Hab. Qed.

(** The exponent brackets its argument. *)
Lemma exponentOf_spec (x : Q) :
  0 < x -> 2 ^ exponentOf x <= x /\ x < 2 ^ (exponentOf x + 1).
Proof.
  intros Hx. unfold exponentOf.
  destruct (Qle_bool 1 x) eqn:Hone.
  - apply Qle_bool_iff in Hone.
    assert (Hf : (1 <= Qfloor x)%Z).
    { rewrite <- (Qfloor_Z 1). apply Qfloor_resp_le. exact Hone. }
    destruct (Z.log2_spec (Qfloor x) ltac:(lia)) as [Hlo Hhi].
    pose proof (Z.log2_nonneg (Qfloor x)) as Hnn.
    split.
    + rewrite <- pow2_inject by exact Hnn.
      apply Qle_trans with (inject_Z (Qfloor x)); [| apply Qfloor_le].
      apply inject_Z_le. exact Hlo.
    + rewrite <- pow2_inject by lia.
      apply Qlt_le_trans with (inject_Z (Qfloor x + 1)); [apply Qlt_floor |].
      apply inject_Z_le.
      replace (Z.log2 (Qfloor x) + 1)%Z with (Z.succ (Z.log2 (Qfloor x))) by lia.
      lia.
  - assert (Hlt : x < 1).
    { apply Qnot_le_lt. intros Hle. apply Qle_bool_iff in Hle. congruence. }
    assert (Hinv : 1 < / x).
    { apply Qlt_shift_inv_l; [exact Hx |]. rewrite Qmult_1_l. exact Hlt. }
    pose proof (Qle_ceiling (/ x)) as Hceil.
    pose proof (Qceiling_lt (/ x)) as Hbelow.
    set (c := Qceiling (/ x)) in *.
    assert (Hc : (1 < c)%Z).
    { rewrite Zlt_Qlt. apply Qlt_le_trans with (/ x); assumption. }
    destruct (Z.log2_up_spec c Hc) as [Hlo Hhi].
    pose proof (Z.log2_up_nonneg c) as Hnn.
    assert (Hpos : (0 < Z.log2_up c)%Z) by (apply Z.log2_up_pos; exact Hc).
    set (j := Z.log2_up c) in *.
    split.
    + rewrite pow2_opp.
      apply Qle_shift_inv_r; [apply pow2_pos |].
      assert (Hy : / x <= 2 ^ j).
      { apply Qle_trans with (inject_Z c); [exact Hceil |].
        rewrite <- pow2_inject by exact Hnn. apply inject_Z_le. exact Hhi. }
      apply Qle_trans with (x * / x).
      * rewrite Qmult_inv_r; [apply Qle_refl |].
        intros Hz. rewrite Hz in Hx. discriminate.
      * apply Qmult_le_l; [exact Hx | exact Hy].
    + replace (- j + 1)%Z with (- (j - 1))%Z by lia. rewrite pow2_opp.
      apply Qlt_shift_inv_l; [apply pow2_pos |].
      assert (Hy : 2 ^ (j - 1) < / x).
      { apply Qle_lt_trans with (inject_Z (c - 1)); [| exact Hbelow].
        rewrite <- pow2_inject by lia. apply inject_Z_le.
        replace (j - 1)%Z with (Z.pred j) by lia. lia. }
      apply Qlt_le_trans with (x * / x).
      * apply Qmult_lt_l; [exact Hx | exact Hy].
      * rewrite Qmult_inv_r; [apply Qle_refl |].
        intros Hz. rewrite Hz in Hx. discriminate.
Qed.

(** The bracket determines the exponent. *)
Lemma exponentOf_unique (x : Q) (e : Z) :
  2 ^ e <= x -> x < 2 ^ (e + 1) -> exponentOf x = e.
Proof.
  intros Hlo Hhi.
  assert (Hx : 0 < x) by (apply Qlt_le_trans with (2 ^ e); [apply pow2_pos | exact Hlo]).
  destruct (exponentOf_spec x Hx) as [Hlo' Hhi'].
  assert (H1 : (e < exponentOf x + 1)%Z).
  { apply pow2_lt_inv. apply Qle_lt_trans with x; assumption. }
  assert (H2 : (exponentOf x < e + 1)%Z).
  { apply pow2_lt_inv. apply Qle_lt_trans with x; assumption. }
  lia.
Qed.

Lemma exponentOf_le (x y : Q) :
  0 < x -> x <= y -> (exponentOf x <= exponentOf y)%Z.
Proof.
  intros Hx Hxy.
  assert (Hy : 0 < y) by (apply Qlt_le_trans with x; assumption).
  destruct (exponentOf_spec x Hx) as [Hlo _].
  destruct (exponentOf_spec y Hy) as [_ Hhi].
  assert (H : (exponentOf x < exponentOf y + 1)%Z).
  { apply pow2_lt_inv. apply Qle_lt_trans with x; [exact Hlo |].
    apply Qle_lt_trans with y; assumption. }
  lia.
Qed.

(** *** Rounding to the nearest integer *)

Lemma nearestEven_floor (s : Q) :
  (Qfloor s <= nearestEven s <= Qfloor s + 1)%Z.
Proof.
  unfold nearestEven.
  destruct (s - inject_Z (Qfloor s) ?= 1 # 2); [destruct (Z.even _) | |]; lia.
Qed.

Lemma nearestEven_Z (n : Z) : nearestEven (inject_Z n) = n.
Proof.
  unfold nearestEven. rewrite Qfloor_Z.
  assert (H : inject_Z n - inject_Z n == 0) by ring.
  rewrite H. reflexivity.
Qed.

Lemma nearestEven_comp (s t : Q) : s == t -> nearestEven s = nearestEven t.
Proof.
  intros Hst. unfold nearestEven. rewrite (Qfloor_comp s t Hst).
  assert (H : s - inject_Z (Qfloor t) == t - inject_Z (Qfloor t))
    by (rewrite Hst; reflexivity).
  rewrite H. reflexivity.
Qed.

Lemma nearestEven_ge (n : Z) (s : Q) : inject_Z n <= s -> (n <= nearestEven s)%Z.
Proof.
  intros Hn. pose proof (nearestEven_floor s) as [Hlo _].
  pose proof (Qfloor_resp_le _ _ Hn) as Hf. rewrite Qfloor_Z in Hf. lia.
Qed.

Lemma nearestEven_le (n : Z) (s : Q) : s <= inject_Z n -> (nearestEven s <= n)%Z.
Proof.
  intros Hn. pose proof (nearestEven_floor s) as [_ Hhi].
  pose proof (Qfloor_resp_le _ _ Hn) as Hf. rewrite Qfloor_Z in Hf.
  destruct (Z.eq_dec (Qfloor s) n) as [Heq | Hne]; [| lia].
  assert (Hs : s == inject_Z n).
  { apply Qle_antisym; [exact Hn |]. rewrite <- Heq. apply Qfloor_le. }
  rewrite (nearestEven_comp _ _ Hs), nearestEven_Z. lia.
Qed.

Lemma nearestEven_monotone (s t : Q) : s <= t -> (nearestEven s <= nearestEven t)%Z.
Proof.
  intros Hst.
  pose proof (Qfloor_resp_le _ _ Hst) as Hf.
  pose proof (nearestEven_floor s) as [Hs1 Hs2].
  pose proof (nearestEven_floor t) as [Ht1 Ht2].
  destruct (Z.eq_dec (Qfloor s) (Qfloor t)) as [Heq | Hne]; [| lia].
  unfold nearestEven in *. rewrite Heq in *.
  destruct (Qcompare_spec (s - inject_Z (Qfloor t)) (1 # 2)) as [Hs | Hs | Hs];
    destruct (Qcompare_spec (t - inject_Z (Qfloor t)) (1 # 2)) as [Ht | Ht | Ht];
    try lia; try (destruct (Z.even (Qfloor t)); lia); exfalso; lra.
Qed.

Lemma nearestEven_error (s : Q) :
  s - (1 # 2) <= inject_Z (nearestEven s) <= s + (1 # 2).
Proof.
  pose proof (Qfloor_le s) as Hlo. pose proof (Qlt_floor s) as Hhi.
  rewrite inject_Z_plus in Hhi. change (inject_Z 1) with 1 in Hhi.
  unfold nearestEven.
  destruct (Qcompare_spec (s - inject_Z (Qfloor s)) (1 # 2)) as [Hc | Hc | Hc];
    [destruct (Z.even (Qfloor s)) | |];
    rewrite ?inject_Z_plus; change (inject_Z 1) with 1; split; lra.
Qed.

(** *** Rounding to 53 bits *)

(** The significand of a positive number lies in [2^52, 2^53). *)
Lemma significand_range (x : Q) :
  0 < x ->
  2 ^ 52 <= x / 2 ^ (exponentOf x - 52) /\ x / 2 ^ (exponentOf x - 52) < 2 ^ 53.
Proof.
  intros Hx. destruct (exponentOf_spec x Hx) as [Hlo Hhi].
  set (e := exponentOf x) in *.
  assert (Hdiv : x / 2 ^ (e - 52) == x * 2 ^ (52 - e)).
  { unfold Qdiv. rewrite <- pow2_opp. replace (- (e - 52))%Z with (52 - e)%Z by lia.
    reflexivity. }
  rewrite Hdiv.
  assert (H52 : 2 ^ 52 == 2 ^ e * 2 ^ (52 - e)).
  { rewrite <- pow2_plus. replace (e + (52 - e))%Z with 52%Z by lia. reflexivity. }
  assert (H53 : 2 ^ 53 == 2 ^ (e + 1) * 2 ^ (52 - e)).
  { rewrite <- pow2_plus. replace (e + 1 + (52 - e))%Z with 53%Z by lia. reflexivity. }
  split.
  - rewrite H52. apply Qmult_le_compat_r; [exact Hlo |]. apply Qlt_le_weak, pow2_pos.
  - rewrite H53. apply Qmult_lt_r; [apply pow2_pos | exact Hhi].
Qed.

Lemma nearestPositive_range (x : Q) :
  0 < x ->
  2 ^ exponentOf x <= nearestPositive x <= 2 ^ (exponentOf x + 1).
Proof.
  intros Hx. destruct (significand_range x Hx) as [Hlo Hhi].
  unfold nearestPositive. set (e := exponentOf x) in *.
  set (m := nearestEven (x / 2 ^ (e - 52))).
  assert (Hm : (2 ^ 52 <= m <= 2 ^ 53)%Z).
  { split.
    - apply nearestEven_ge. rewrite pow2_inject by lia. exact Hlo.
    - apply nearestEven_le. rewrite pow2_inject by lia. apply Qlt_le_weak, Hhi. }
  destruct Hm as [Hm1 Hm2].
  apply inject_Z_le in Hm1, Hm2. rewrite pow2_inject in Hm1, Hm2 by lia.
  assert (He : 2 ^ e == 2 ^ 52 * 2 ^ (e - 52)).
  { rewrite <- pow2_plus. replace (52 + (e - 52))%Z with e by lia. reflexivity. }
  assert (He1 : 2 ^ (e + 1) == 2 ^ 53 * 2 ^ (e - 52)).
  { rewrite <- pow2_plus. replace (53 + (e - 52))%Z with (e + 1)%Z by lia. reflexivity. }
  split.
  - rewrite He. apply Qmult_le_compat_r; [exact Hm1 |]. apply Qlt_le_weak, pow2_pos.
  - rewrite He1. apply Qmult_le_compat_r; [exact Hm2 |]. apply Qlt_le_weak, pow2_pos.
Qed.

Lemma nearestPositive_pos (x : Q) : 0 < x -> 0 < nearestPositive x.
Proof.
  intros Hx. destruct (nearestPositive_range x Hx) as [Hlo _].
  apply Qlt_le_trans with (2 ^ exponentOf x); [apply pow2_pos | exact Hlo].
Qed.

Lemma nearestPositive_comp (x y : Q) :
  x == y -> nearestPositive x == nearestPositive y.
Proof.
  intros Hxy. unfold nearestPositive.
  assert (He : exponentOf x = exponentOf y).
  { unfold exponentOf. rewrite (Qleb_comp 1 1 (Qeq_refl 1) x y Hxy).
    rewrite (Qfloor_comp x y Hxy).
    rewrite (Qceiling_comp (/ x) (/ y)) by (rewrite Hxy; reflexivity).
    reflexivity. }
  rewrite He.
  rewrite (nearestEven_comp (x / _) (y / 2 ^ (exponentOf y - 52)))
    by (rewrite Hxy; reflexivity).
  reflexivity.
Qed.

Lemma nearestPositive_monotone (x y : Q) :
  0 < x -> x <= y -> nearestPositive x <= nearestPositive y.
Proof.
  intros Hx Hxy.
  assert (Hy : 0 < y) by (apply Qlt_le_trans with x; assumption).
  pose proof (exponentOf_le x y Hx Hxy) as He.
  destruct (Z.eq_dec (exponentOf x) (exponentOf y)) as [Heq | Hne].
  - unfold nearestPositive. rewrite Heq.
    apply Qmult_le_compat_r; [| apply Qlt_le_weak, pow2_pos].
    apply inject_Z_le, nearestEven_monotone.
    unfold Qdiv. apply Qmult_le_compat_r; [exact Hxy |].
    apply Qlt_le_weak, Qinv_lt_0_compat, pow2_pos.
  - destruct (nearestPositive_range x Hx) as [_ Hhi].
    destruct (nearestPositive_range y Hy) as [Hlo _].
    apply Qle_trans with (2 ^ (exponentOf x + 1)); [exact Hhi |].
    apply Qle_trans with (2 ^ exponentOf y); [| exact Hlo].
    apply pow2_le. lia.
Qed.

(** The result is within half a unit in the last place, which is at
    most [x / 2^53]. *)
Lemma nearestPositive_error (x : Q) :
  0 < x ->
  x - x * 2 ^ (-53) <= nearestPositive x <= x + x * 2 ^ (-53).
Proof.
  intros Hx. destruct (exponentOf_spec x Hx) as [Hlo _].
  unfold nearestPositive. set (e := exponentOf x) in *.
  pose proof (nearestEven_error (x / 2 ^ (e - 52))) as [H1 H2].
  pose proof (pow2_pos (e - 52)) as Hu.
  assert (Hback : x / 2 ^ (e - 52) * 2 ^ (e - 52) == x).
  { field. intros Hz. rewrite Hz in Hu. discriminate. }
  assert (Hhalf : (1 # 2) * 2 ^ (e - 52) <= x * 2 ^ (-53)).
  { assert (Hs : (1 # 2) * 2 ^ (e - 52) == 2 ^ e * 2 ^ (-53)).
    { rewrite <- pow2_plus. replace (e + -53)%Z with ((e - 52) + -1)%Z by lia.
      rewrite pow2_plus. change (2 ^ (-1)) with (/ 2). field. }
    rewrite Hs. apply Qmult_le_compat_r; [exact Hlo |].
    apply Qlt_le_weak, pow2_pos. }
  apply (Qmult_le_compat_r _ _ (2 ^ (e - 52))) in H1, H2;
    try (apply Qlt_le_weak; exact Hu).
  rewrite Qmult_plus_distr_l in H2.
  assert (H1' : x / 2 ^ (e - 52) * 2 ^ (e - 52) - (1 # 2) * 2 ^ (e - 52)
                <= inject_Z (nearestEven (x / 2 ^ (e - 52))) * 2 ^ (e - 52)).
  { eapply Qle_trans; [| exact H1]. apply Qle_lteq. right. ring. }
  rewrite Hback in H1', H2.
  split; lra.
Qed.

(** A positive integer below [2^53] is a double. *)
Lemma nearestPositive_integer (n : Z) :
  (0 < n < 2 ^ 53)%Z -> nearestPositive (inject_Z n) == inject_Z n.
Proof.
  intros [Hpos Hsmall].
  assert (Hx : 0 < inject_Z n) by (change 0 with (inject_Z 0); apply inject_Z_lt, Hpos).
  destruct (exponentOf_spec _ Hx) as [Hlo _].
  unfold nearestPositive. set (e := exponentOf (inject_Z n)) in *.
  assert (He : (e < 53)%Z).
  { apply pow2_lt_inv. apply Qle_lt_trans with (inject_Z n); [exact Hlo |].
    rewrite <- pow2_inject by lia. apply inject_Z_lt, Hsmall. }
  pose proof (pow2_pos (e - 52)) as Hu.
  assert (Hs : inject_Z n / 2 ^ (e - 52) == inject_Z (n * 2 ^ (52 - e))).
  { rewrite inject_Z_mult, pow2_inject by lia.
    unfold Qdiv. rewrite <- pow2_opp.
    replace (- (e - 52))%Z with (52 - e)%Z by lia. reflexivity. }
  rewrite (nearestEven_comp _ _ Hs), nearestEven_Z.
  rewrite inject_Z_mult, pow2_inject by lia.
  rewrite <- Qmult_assoc, <- pow2_plus.
  replace (52 - e + (e - 52))%Z with 0%Z by lia.
  change (2 ^ 0) with 1. ring.
Qed.

(** *** The double nearest to a rational *)

Lemma double_zero : double 0 = 0.
Proof. reflexivity. Qed.

Lemma double_pos (x : Q) : 0 < x -> double x == nearestPositive x.
Proof.
  intros Hx. unfold double.
  destruct (Qcompare_spec x 0) as [Hc | Hc | Hc]; try (exfalso; lra).
  apply Qred_correct.
Qed.

Lemma double_neg (x : Q) : x < 0 -> double x == - nearestPositive (- x).
Proof.
  intros Hx. unfold double.
  destruct (Qcompare_spec x 0) as [Hc | Hc | Hc]; try (exfalso; lra).
  apply Qred_correct.
Qed.

Lemma double_comp (x y : Q) : x == y -> double x = double y.
Proof.
  intros Hxy. unfold double. rewrite Hxy.
  destruct (y ?= 0); [reflexivity | |]; apply Qred_complete.
  - apply Qopp_comp, nearestPositive_comp. rewrite Hxy. reflexivity.
  - apply nearestPositive_comp, Hxy.
Qed.

#[export] Instance double_Proper : Proper (Qeq ==> Qeq) double.
Proof. intros x y Hxy. rewrite (double_comp x y Hxy). reflexivity. Qed.

Lemma double_sign_pos (x : Q) : 0 < x -> 0 < double x.
Proof. intros Hx. rewrite double_pos by exact Hx. apply nearestPositive_pos, Hx. Qed.

Lemma double_sign_neg (x : Q) : x < 0 -> double x < 0.
Proof.
  intros Hx. rewrite double_neg by exact Hx.
  assert (H : 0 < nearestPositive (- x)) by (apply nearestPositive_pos; lra). lra.
Qed.

Lemma double_nonneg (x : Q) : 0 <= x -> 0 <= double x.
Proof.
  intros Hx. destruct (Qlt_le_dec 0 x) as [Hpos | Hle].
  - apply Qlt_le_weak, double_sign_pos, Hpos.
  - assert (Hz : x == 0) by lra. rewrite (double_comp x 0 Hz). apply Qle_refl.
Qed.

(** Rounding preserves the order. *)
Lemma double_monotone (x y : Q) : x <= y -> double x <= double y.
Proof.
  intros Hxy.
  destruct (Qlt_le_dec 0 x) as [Hx | Hx].
  - rewrite (double_pos x Hx), (double_pos y) by lra.
    apply nearestPositive_monotone; assumption.
  - destruct (Qlt_le_dec 0 y) as [Hy | Hy].
    + apply Qle_trans with 0.
      * destruct (Qlt_le_dec x 0) as [Hn | Hz].
        -- apply Qlt_le_weak, double_sign_neg, Hn.
        -- assert (Hx0 : x == 0) by lra. rewrite (double_comp x 0 Hx0). apply Qle_refl.
      * apply Qlt_le_weak, double_sign_pos, Hy.
    + destruct (Qlt_le_dec y 0) as [Hyn | Hyz].
      * rewrite (double_neg x), (double_neg y) by lra.
        apply Qopp_le_compat. apply nearestPositive_monotone; lra.
      * assert (Hy0 : y == 0) by lra. rewrite (double_comp y 0 Hy0).
        destruct (Qlt_le_dec x 0) as [Hn | Hz].
        -- apply Qlt_le_weak, double_sign_neg, Hn.
        -- assert (Hx0 : x == 0) by lra. rewrite (double_comp x 0 Hx0). apply Qle_refl.
Qed.

(** Integers of magnitude below [2^53] are doubles. *)
Lemma double_integer (n : Z) :
  (- 2 ^ 53 < n < 2 ^ 53)%Z -> double (inject_Z n) == inject_Z n.
Proof.
  intros Hn. destruct (Z.lt_trichotomy n 0) as [Hneg | [Hz | Hpos]].
  - assert (Hx : inject_Z n < 0) by (change 0 with (inject_Z 0); apply inject_Z_lt, Hneg).
    rewrite double_neg by exact Hx.
    assert (Ho : - inject_Z n == inject_Z (- n)) by (rewrite inject_Z_opp; reflexivity).
    rewrite (nearestPositive_comp _ _ Ho), nearestPositive_integer by lia.
    rewrite inject_Z_opp. ring.
  - subst n. reflexivity.
  - assert (Hx : 0 < inject_Z n) by (change 0 with (inject_Z 0); apply inject_Z_lt, Hpos).
    rewrite double_pos by exact Hx. apply nearestPositive_integer. lia.
Qed.

(** The relative error is at most [2^-53]. *)
Lemma double_error (x : Q) :
  0 <= x -> x - x * 2 ^ (-53) <= double x <= x + x * 2 ^ (-53).
Proof.
  intros Hx. destruct (Qlt_le_dec 0 x) as [Hpos | Hle].
  - rewrite double_pos by exact Hpos. apply nearestPositive_error, Hpos.
  - assert (Hz : x == 0) by lra. rewrite (double_comp x 0 Hz), Hz.
    generalize (2 ^ (-53)). intros c. change (double 0) with 0. split; lra.
Qed.

(** A value between two doubles rounds between them. *)
Lemma double_between (a b x : Q) :
  double a == a -> double b == b -> a <= x <= b -> a <= double x <= b.
Proof.
  intros Ha Hb [Hax Hxb]. split.
  - rewrite <- Ha. apply double_monotone, Hax.
  - rewrite <- Hb. apply double_monotone, Hxb.
Qed.

End DoubleFacts.

(** ** Peak sequences *)

Module PeakFacts.
Import Signal Spec.

#[local] Hint Constructors Spaced : core.

Lemma Spaced_snoc (l : list Z) (i : Z) :
  Spaced l -> (forall p, In p l -> p + minPeakDistance <= i) -> Spaced (l ++ [i]).
Proof.
  induction 1 as [| a | a b l Hab Hl IH]; intros Hbound; simpl.
  - constructor.
  - constructor; [| constructor].
    specialize (Hbound a (or_introl eq_refl)). lia.
  - constructor; [exact Hab |].
    apply IH. intros p Hp. apply Hbound. right. exact Hp.
Qed.

Lemma ScanInv_push (peaks : list Z) (last i : Z) :
  ScanInv (peaks, last) -> (i - last >=? minPeakDistance) = true ->
  ScanInv (peaks ++ [i], i).
Proof.
  intros [Hs Hb] Hd. simpl in *.
  apply Z.geb_le in Hd. unfold minPeakDistance in *.
  split; simpl.
  - apply Spaced_snoc; [exact Hs |].
    intros p Hp. specialize (Hb p Hp). unfold minPeakDistance. lia.
  - intros p Hp. apply in_app_or in Hp. destruct Hp as [Hp | [Hp | []]].
    + specialize (Hb p Hp). lia.
    + lia.
Qed.

Section Scans.
Context {num : Type} `{Number num}.

Lemma firstPassStep_inv sig thr st i :
  ScanInv st -> ScanInv (firstPassStep sig thr st i).
Proof.
  destruct st as [peaks last]. intros Hinv. unfold firstPassStep.
  destruct (exceeds sig thr i); simpl; [| exact Hinv].
  destruct (Z.of_nat i - last >=? minPeakDistance) eqn:Hd; [| exact Hinv].
  apply (ScanInv_push peaks last); assumption.
Qed.

Lemma secondPassStep_inv sig thr st i :
  ScanInv st -> ScanInv (secondPassStep sig thr st i).
Proof.
  destruct st as [peaks last]. intros Hinv. unfold secondPassStep.
  destruct (existsb (Z.eqb (Z.of_nat i)) peaks); [exact Hinv |].
  destruct (exceeds sig thr i); simpl; [| exact Hinv].
  destruct (Z.of_nat i - last >=? minPeakDistance) eqn:Hd; [| exact Hinv].
  apply (ScanInv_push peaks last); assumption.
Qed.

Lemma fold_inv (step : Scan -> nat -> Scan) :
  (forall st i, ScanInv st -> ScanInv (step st i)) ->
  forall idx st, ScanInv st -> ScanInv (fold_left step idx st).
Proof.
  intros Hstep idx. induction idx as [| i idx IH]; intros st Hst; simpl.
  - exact Hst.
  - apply IH, Hstep, Hst.
Qed.
End Scans.

Lemma Spaced_head_lt a b l : Spaced (a :: b :: l) -> a < b.
Proof. inversion 1; subst. unfold minPeakDistance in *. lia. Qed.

Lemma Spaced_tail a l : Spaced (a :: l) -> Spaced l.
Proof. inversion 1; subst; auto. Qed.

Lemma Spaced_lower_bound a l : Spaced (a :: l) -> forall p, In p l -> a < p.
Proof.
  revert a. induction l as [| b l IH]; intros a Hs p Hp; [destruct Hp |].
  pose proof (Spaced_head_lt _ _ _ Hs) as Hab.
  destruct Hp as [-> | Hp]; [exact Hab |].
  specialize (IH b (Spaced_tail _ _ Hs) p Hp). lia.
Qed.

(** Sorting a spaced array leaves it as it is. *)
Lemma insertBy_below a l :
  (forall p, In p l -> a < p) -> Js.insertBy Z.leb a l = a :: l.
Proof.
  destruct l as [| b l]; intros Hlt; simpl; [reflexivity |].
  specialize (Hlt b (or_introl eq_refl)).
  destruct (Z.leb_spec b a); [lia | reflexivity].
Qed.

Lemma sortAscending_Spaced l : Spaced l -> Js.sortAscending l = l.
Proof.
  unfold Js.sortAscending, Js.sortBy.
  induction l as [| a l IH]; intros Hs; simpl; [reflexivity |].
  rewrite (IH (Spaced_tail _ _ Hs)).
  apply insertBy_below, Spaced_lower_bound, Hs.
Qed.

Lemma Spaced_nth l :
  Spaced l ->
  forall i, (S i < length l)%nat -> minPeakDistance <= nth (S i) l 0 - nth i l 0.
Proof.
  induction 1 as [| a | a b l Hab Hl IH]; intros i Hi; simpl in Hi; try lia.
  destruct i as [| i]; [exact Hab |].
  apply (IH i). simpl. lia.
Qed.

Lemma Spaced_increasing l :
  Spaced l ->
  forall i j, (i < j)%nat -> (j < length l)%nat -> nth i l 0 < nth j l 0.
Proof.
  intros Hs i j Hij. induction Hij as [| j Hij IH]; intros Hj.
  - pose proof (Spaced_nth l Hs i Hj). unfold minPeakDistance in *. lia.
  - pose proof (Spaced_nth l Hs j Hj). unfold minPeakDistance in *.
    assert (nth i l 0 < nth j l 0) by (apply IH; lia). lia.
Qed.

Lemma detectPeaksWith_Spaced {num : Type} `{Number num} k (sig : list num) :
  Spaced (detectPeaksWith k sig).
Proof.
  unfold detectPeaksWith.
  set (thr := scale (1 # 2) (thresholdBaseOf sig)).
  assert (H1 : ScanInv (fold_left (firstPassStep sig thr) (scanIndices sig)
                                  ([], - minPeakDistance))).
  { apply fold_inv; [intros; apply firstPassStep_inv; assumption |].
    split; simpl; [constructor | intros p []]. }
  destruct ((length _ <? k)%nat && isPositive _).
  - set (lo := scale (2 # 10) (thresholdBaseOf sig)).
    assert (H2 : ScanInv (fold_left (secondPassStep sig lo) (scanIndices sig)
                            (fold_left (firstPassStep sig thr) (scanIndices sig)
                                       ([], - minPeakDistance)))).
    { apply fold_inv; [intros; apply secondPassStep_inv; assumption | exact H1]. }
    rewrite sortAscending_Spaced; apply H2.
  - apply H1.
Qed.

End PeakFacts.

(** C8.  For every conditioned signal, over every implementation of the
    number operations, [detectPeaks] returns indices that are strictly
    increasing and whose consecutive entries are at least
    [minPeakDistance] = 38 apart; the statement covers the runs in which
    the lower-threshold retry adds peaks and the array is sorted again. *)
Theorem detectPeaks_strictly_increasing_and_spaced :
  forall (num : Type) (N : Number num) (filteredSignal : list num),
    let peaks := Signal.detectPeaks filteredSignal in
    (forall i j, (i < j)%nat -> (j < length peaks)%nat ->
                 nth i peaks 0 < nth j peaks 0) /\
    (forall i, (S i < length peaks)%nat ->
               38 <= nth (S i) peaks 0 - nth i peaks 0).
Proof.
  intros num N sig peaks.
  pose proof (PeakFacts.detectPeaksWith_Spaced 3%nat sig) as Hs.
  split.
  - apply PeakFacts.Spaced_increasing. exact Hs.
  - apply PeakFacts.Spaced_nth. exact Hs.
Qed.


(** ** Agreement with the binary64 numbers of the kernel *)

Module Binary64Facts.

(** The decimal literals of the expressions in double arithmetic. *)
Lemma literals_agree :
  Binary64.toQ (Binary64.lit 15 100) = Js.lit (15 # 100)
  /\ Binary64.toQ (Binary64.lit 10 100) = Js.lit (10 # 100)
  /\ Binary64.toQ (Binary64.lit 5 100) = Js.lit (5 # 100)
  /\ Binary64.toQ (Binary64.lit 7 10) = Js.lit (7 # 10)
  /\ Binary64.toQ (Binary64.lit 3 10) = Js.lit (3 # 10).
Proof. repeat split; vm_compute; reflexivity. Qed.

(** The initial correction, on every rate the validation lets through
    and every batch count up to 11. *)
Lemma initialCorrection_agrees :
  forallb
    (fun heartRate =>
       forallb (fun batches =>
                  Binary64.initialCorrection heartRate batches
                  =? Engine.initialCorrection heartRate batches)
               (Binary64.range 0 12))
    (Binary64.range 40 161) = true.
Proof. vm_compute. reflexivity. Qed.

(** The blend of the consensus, for a history [rate, median, median, 1]
    with a median from 100 to 129 and a rate from 130 to 145. *)
Lemma blend_agrees :
  forallb
    (fun median =>
       forallb (fun rate =>
                  Engine.consensusRate [rate; median; median; 1] rate 0 0 1
                  =? Z.min (median + 10) (Binary64.blend median rate))
               (Binary64.range 130 16))
    (Binary64.range 100 30) = true.
Proof. vm_compute. reflexivity. Qed.

(** METHOD 3, for 3 to 27 peaks in 336, 500, 750 and 1000 samples. *)
Lemma method3_agrees :
  forallb
    (fun beats =>
       forallb (fun samples =>
                  Engine.method3 (repeat 0 (S (Z.to_nat beats))) samples
                  =? Engine.validated (Binary64.rateOfCount beats (Z.of_nat samples)))
               [336; 500; 750; 1000]%nat)
    (Binary64.range 2 25) = true.
Proof. vm_compute. reflexivity. Qed.

End Binary64Facts.

(** ** The buffered engine: structure of a step *)

Module EngineFacts.
Import Engine.

(** Opens the tracking stage. *)
Ltac open_track :=
  unfold track;
  match goal with |- context [calculate ?s] => generalize (calculate s); intro end;
  cbv zeta; cbn [fst snd].

Section Step.
Context {num : Type} `{Number num}.

Lemma processHeartRate_short s now ppg :
  (length ppg < 100)%nat ->
  processHeartRate s now ppg = (s, noSignalResponse s).
Proof.
  intros Hlen. unfold processHeartRate.
  destruct (Nat.ltb_spec (length ppg) 100); [reflexivity | lia].
Qed.

Lemma processHeartRate_lost s now ppg :
  (100 <= length ppg)%nat ->
  fingerDetectedState (detectContact s ppg) = false ->
  processHeartRate s now ppg
  = (resetState (detectContact s ppg),
     noSignalResponse (resetState (detectContact s ppg))).
Proof.
  intros Hlen Hf. unfold processHeartRate.
  destruct (Nat.ltb_spec (length ppg) 100); [lia |].
  rewrite Hf. reflexivity.
Qed.

Lemma processHeartRate_contact s now ppg :
  (100 <= length ppg)%nat ->
  fingerDetectedState (detectContact s ppg) = true ->
  processHeartRate s now ppg
  = track (ingestBatch (startAcquisition (detectContact s ppg) now) ppg) now ppg.
Proof.
  intros Hlen Hf. unfold processHeartRate.
  destruct (Nat.ltb_spec (length ppg) 100); [lia |].
  rewrite Hf. reflexivity.
Qed.

(** The three shapes of a step. *)
Lemma processHeartRate_cases s now ppg :
  processHeartRate s now ppg = (s, noSignalResponse s)
  \/ processHeartRate s now ppg
     = (resetState (detectContact s ppg),
        noSignalResponse (resetState (detectContact s ppg)))
  \/ ((100 <= length ppg)%nat
      /\ fingerDetectedState (detectContact s ppg) = true
      /\ processHeartRate s now ppg
         = track (ingestBatch (startAcquisition (detectContact s ppg) now) ppg)
                 now ppg).
Proof.
  destruct (Nat.ltb_spec (length ppg) 100) as [Hlt | Hge].
  - left. apply processHeartRate_short, Hlt.
  - destruct (fingerDetectedState (detectContact s ppg)) eqn:Hf.
    + right; right. repeat split; auto. apply processHeartRate_contact; auto.
    + right; left. apply processHeartRate_lost; auto.
Qed.

(** What the tracking part of a step leaves in the state and in the
    response, in terms of the stage functions. *)
Lemma track_debug s now ppg :
  exists d, debug (snd (track s now ppg)) = Some d.
Proof. open_track. eexists. reflexivity. Qed.

Lemma track_calculatedRate s now ppg d :
  debug (snd (track s now ppg)) = Some d ->
  calculatedRate d = corrected (snd (calculate s)) (batchesReceived s).
Proof. open_track. cbn. intros [= <-]. reflexivity. Qed.

Lemma track_history s now ppg :
  recentHeartRates (fst (track s now ppg))
  = pushHistory (corrected (snd (calculate s)) (batchesReceived s))
                (recentHeartRates s).
Proof. open_track. reflexivity. Qed.

Lemma track_streak s now ppg :
  consecutiveHighZoneReadings (fst (track s now ppg))
  = if corrected (snd (calculate s)) (batchesReceived s) >=? VIGOROUS_THRESHOLD
    then consecutiveHighZoneReadings s + 1 else 0.
Proof. open_track. reflexivity. Qed.

Lemma track_firstDisplayTime s now ppg :
  firstDisplayTime (fst (track s now ppg))
  = if (snd (calculate s) >? 0) && (firstDisplayTime s =? 0)
       && (batchesReceived s >=? MIN_BATCHES_FOR_DISPLAY)
    then now else firstDisplayTime s.
Proof. open_track. reflexivity. Qed.

Lemma track_unchanged s now ppg :
  let s' := fst (track s now ppg) in
  batchesReceived s' = batchesReceived s
  /\ sampleBuffer s' = sampleBuffer s
  /\ fingerDetectedState s' = fingerDetectedState s
  /\ consecutiveLowSignalBatches s' = consecutiveLowSignalBatches s
  /\ isAcquiring s' = isAcquiring s
  /\ acquisitionStartTime s' = acquisitionStartTime s.
Proof. open_track. repeat split. Qed.

Lemma track_isStable s now ppg :
  isStable (fst (track s now ppg))
  = stableReading (recentHeartRates (fst (track s now ppg))).
Proof. open_track. reflexivity. Qed.

Lemma track_finalRate s now ppg d :
  debug (snd (track s now ppg)) = Some d ->
  let s' := fst (track s now ppg) in
  finalRate d
  = suppressHigh
      (consensusRate (recentHeartRates s') (calculatedRate d) now
                     (firstDisplayTime s') (consecutiveHighZoneReadings s'))
      now (firstDisplayTime s') (consecutiveHighZoneReadings s')
      (lastDisplayedHeartRate s)
  /\ timeSinceFirstDisplay d = timeSince (firstDisplayTime s') now.
Proof. open_track. cbn. intros [= <-]. split; reflexivity. Qed.

Lemma track_response s now ppg d :
  debug (snd (track s now ppg)) = Some d ->
  let r := snd (track s now ppg) in
  heartRate r = (if batchesReceived s <? MIN_BATCHES_FOR_DISPLAY then 0 else finalRate d)
  /\ fingerDetected r = fingerDetectedState s
  /\ zone r = name (zoneFor (finalRate d))
  /\ zoneColor r = colorCode (zoneFor (finalRate d)).
Proof. open_track. cbn. intros [= <-]. repeat split. Qed.

Lemma track_phase s now ppg :
  let s' := fst (track s now ppg) in
  phase (snd (track s now ppg))
  = if fingerDetectedState s
    then (if batchesReceived s' <? MIN_BATCHES_FOR_DISPLAY then "acquiring"
          else if isStable s' then "tracking" else "stabilizing")
    else "no_signal".
Proof. open_track. reflexivity. Qed.

Lemma track_lastDisplayed s now ppg d :
  debug (snd (track s now ppg)) = Some d ->
  lastDisplayedHeartRate (fst (track s now ppg))
  = if (finalRate d >? 0) && (batchesReceived s >=? MIN_BATCHES_FOR_DISPLAY)
    then finalRate d else lastDisplayedHeartRate s.
Proof. open_track. cbn. intros [= <-]. reflexivity. Qed.

(** The stages before tracking leave the history, the last displayed rate
    and the contact flag of [detectContact] alone. *)
Lemma prepare_fields s now ppg :
  let s1 := detectContact s ppg in
  let s3 := ingestBatch (startAcquisition s1 now) ppg in
  recentHeartRates s3 = recentHeartRates s
  /\ lastDisplayedHeartRate s3 = lastDisplayedHeartRate s
  /\ fingerDetectedState s3 = fingerDetectedState s1
  /\ consecutiveLowSignalBatches s3 = consecutiveLowSignalBatches s1
  /\ isAcquiring s3 = true.
Proof.
  unfold ingestBatch, startAcquisition.
  destruct (currentBatchHasFinger ppg) eqn:Hc;
    destruct (isAcquiring (detectContact s ppg)) eqn:Ha; cbn; auto.
Qed.

End Step.
End EngineFacts.

(** ** Response record *)

(** C9.  For every processed batch the [quality] and [confidence] fields
    of the result are a function of the finger-detection flag alone:
    both are 0.8 when [fingerDetected] is true and 0 when it is false.
    The same holds of every call of [createResponse], so neither field
    carries interval dispersion, MAD filtering or a noise ratio. *)
Theorem quality_and_confidence_follow_finger_flag :
  (forall (num : Type) (N : Number num) (s : Engine.State) (now : Z) (ppg : list Z),
      let r := snd (Engine.processHeartRate s now ppg) in
      Engine.quality r = (if Engine.fingerDetected r then 8 # 10 else 0)%Q /\
      Engine.confidence r = (if Engine.fingerDetected r then 8 # 10 else 0)%Q)
  /\
  (forall s hr finger value details zoneName zoneColor trend dbg,
      let r := Engine.createResponse s hr finger value details
                                     zoneName zoneColor trend dbg in
      Engine.fingerDetected r = finger /\
      Engine.quality r = (if finger then 8 # 10 else 0)%Q /\
      Engine.confidence r = (if finger then 8 # 10 else 0)%Q).
Proof.
  split.
  - intros num N s now ppg.
    destruct (EngineFacts.processHeartRate_cases s now ppg)
      as [-> | [-> | (_ & _ & ->)]]; cbn [snd].
    + split; reflexivity.
    + split; reflexivity.
    + EngineFacts.open_track. split; reflexivity.
  - intros. repeat split.
Qed.

(** ** Zones *)

Module ZoneFacts.
Import Engine.

Lemma zoneFor_bands (bpm : Z) :
  0 < bpm ->
  name (zoneFor bpm) =
    if bpm <=? 90 then "Rest"
    else if bpm <=? 110 then "Light"
    else if bpm <=? 130 then "Moderate"
    else if bpm <=? 150 then "Vigorous"
    else if bpm <=? 170 then "High"
    else if bpm <=? 240 then "Maximum"
    else "Rest".
Proof.
  intros Hpos. unfold zoneFor.
  destruct (Z.gtb_spec bpm 0); [| lia].
  cbn [find HR_ZONES upperLimit].
  repeat (match goal with |- context [?a <=? ?b] => destruct (a <=? b) end;
          [reflexivity |]).
  reflexivity.
Qed.

Ltac first_zone i :=
  exists i; split; [reflexivity |]; split; [cbn; lia |];
  intros j z' Hj Hz;
  repeat (destruct j as [| j]; [cbn in Hz; injection Hz as <-; cbn; lia |]);
  lia.

Lemma zoneFor_first_match (bpm : Z) :
  0 < bpm -> bpm <= 240 -> exists i, Spec.FirstZoneAt bpm i (zoneFor bpm).
Proof.
  intros Hpos Hmax. unfold zoneFor, Spec.FirstZoneAt.
  destruct (Z.gtb_spec bpm 0); [| lia].
  cbn [find HR_ZONES upperLimit].
  destruct (Z.leb_spec bpm 90); [first_zone 0%nat |].
  destruct (Z.leb_spec bpm 110); [first_zone 1%nat |].
  destruct (Z.leb_spec bpm 130); [first_zone 2%nat |].
  destruct (Z.leb_spec bpm 150); [first_zone 3%nat |].
  destruct (Z.leb_spec bpm 170); [first_zone 4%nat |].
  destruct (Z.leb_spec bpm 240); [first_zone 5%nat | lia].
Qed.

Lemma zoneFor_no_match (bpm : Z) :
  240 < bpm -> zoneFor bpm = nth 0 HR_ZONES defaultZone.
Proof.
  intros Hbig. unfold zoneFor.
  destruct (Z.gtb_spec bpm 0); [| reflexivity].
  cbn [find HR_ZONES upperLimit].
  repeat (match goal with |- context [?a <=? ?b] => destruct (Z.leb_spec a b) end;
          [lia |]).
  reflexivity.
Qed.

End ZoneFacts.

(** C2, as the code has it.  For every positive final BPM up to 240 the
    reported zone is the first entry of the table [Rest<=90, Light<=110,
    Moderate<=130, Vigorous<=150, High<=170, Maximum<=240] whose upper
    bound is at least the BPM; a positive BPM above 240 matches no entry
    and keeps the default, Rest.  The response of a processed batch
    carries the zone of its final rate.  In particular 90 is Rest, 91
    Light, 130 Moderate, 131 Vigorous, 240 Maximum and 241 Rest. *)
Theorem zone_is_first_match_and_rest_beyond_table :
  (forall bpm : Z, 0 < bpm ->
      (bpm <= 240 -> exists i, Spec.FirstZoneAt bpm i (Engine.zoneFor bpm)) /\
      (240 < bpm -> Engine.name (Engine.zoneFor bpm) = "Rest"))
  /\
  (forall (num : Type) (N : Number num) s now ppg d,
      Engine.debug (snd (Engine.processHeartRate s now ppg)) = Some d ->
      Engine.zone (snd (Engine.processHeartRate s now ppg))
      = Engine.name (Engine.zoneFor (Engine.finalRate d)))
  /\
  (Engine.name (Engine.zoneFor 90) = "Rest" /\
   Engine.name (Engine.zoneFor 91) = "Light" /\
   Engine.name (Engine.zoneFor 130) = "Moderate" /\
   Engine.name (Engine.zoneFor 131) = "Vigorous" /\
   Engine.name (Engine.zoneFor 240) = "Maximum" /\
   Engine.name (Engine.zoneFor 241) = "Rest").
Proof.
  split; [| split].
  - intros bpm Hpos. split.
    + apply ZoneFacts.zoneFor_first_match, Hpos.
    + intros Hbig. rewrite ZoneFacts.zoneFor_no_match by exact Hbig. reflexivity.
  - intros num N s now ppg d.
    destruct (EngineFacts.processHeartRate_cases s now ppg)
      as [-> | [-> | (_ & _ & ->)]]; cbn [snd].
    + discriminate.
    + discriminate.
    + intros Hd. apply (EngineFacts.track_response _ _ _ _ Hd).
  - repeat split.
Qed.

(** The rule at work on a rate inside the table. *)
Lemma zone_is_first_match_witness :
  exists i, Spec.FirstZoneAt 95 i (Engine.zoneFor 95).
Proof.
  destruct zone_is_first_match_and_rest_beyond_table as [Hgeneral _].
  destruct (Hgeneral 95 ltac:(lia)) as [Hin _].
  apply Hin. lia.
Defined.

(** C2 as worded sends 241 to the catch-all Maximum; the lookup leaves
    the default in place. *)
Lemma zone_241_is_rest_not_maximum :
  Engine.name (Engine.zoneFor 241) = "Rest" /\
  Engine.name (Engine.zoneFor 241) <> "Maximum".
Proof. split; [reflexivity | discriminate]. Qed.

(** ** Contact detection *)

Module ContactFacts.
Import Engine.

(** The percentage test of the source, on integers. *)
Lemma currentBatchHasFinger_false_iff (ppg : list Z) :
  (0 < length ppg)%nat ->
  currentBatchHasFinger ppg = false <-> Spec.LowSignal ppg.
Proof.
  intros Hlen. unfold currentBatchHasFinger, Js.ltb, Spec.LowSignal, percentBelow.
  rewrite negb_false_iff, Qle_bool_iff.
  set (c := Z.of_nat (belowThresholdCount ppg)).
  destruct (Z.of_nat (length ppg)) as [| p | p] eqn:Hp; try lia.
  unfold Js.num, Qle, Qdiv, Qmult, Qinv.
  cbn [Qnum Qden inject_Z]. lia.
Qed.

Lemma currentBatchHasFinger_true_iff (ppg : list Z) :
  (0 < length ppg)%nat ->
  currentBatchHasFinger ppg = true <-> ~ Spec.LowSignal ppg.
Proof.
  intros Hlen. rewrite <- (currentBatchHasFinger_false_iff ppg Hlen).
  destruct (currentBatchHasFinger ppg); split; congruence.
Qed.

Lemma detectContact_good s ppg :
  currentBatchHasFinger ppg = true ->
  fingerDetectedState (detectContact s ppg) = true
  /\ consecutiveLowSignalBatches (detectContact s ppg) = 0.
Proof. intros Hc. unfold detectContact. rewrite Hc. split; reflexivity. Qed.

Lemma detectContact_low s ppg :
  currentBatchHasFinger ppg = false ->
  consecutiveLowSignalBatches (detectContact s ppg)
  = consecutiveLowSignalBatches s + 1
  /\ fingerDetectedState (detectContact s ppg)
     = if consecutiveLowSignalBatches s + 1 >=? 2 then false
       else fingerDetectedState s.
Proof. intros Hc. unfold detectContact. rewrite Hc. split; reflexivity. Qed.

Lemma detectContact_low_first s ppg :
  currentBatchHasFinger ppg = false ->
  consecutiveLowSignalBatches s = 0 ->
  consecutiveLowSignalBatches (detectContact s ppg) = 1
  /\ fingerDetectedState (detectContact s ppg) = fingerDetectedState s.
Proof.
  intros Hc H0. destruct (detectContact_low s ppg Hc) as [-> ->].
  rewrite H0. split; reflexivity.
Qed.

Lemma detectContact_low_again s ppg :
  currentBatchHasFinger ppg = false ->
  1 <= consecutiveLowSignalBatches s ->
  fingerDetectedState (detectContact s ppg) = false.
Proof.
  intros Hc H1. destruct (detectContact_low s ppg Hc) as [_ ->].
  destruct (Z.geb_spec (consecutiveLowSignalBatches s + 1) 2); [reflexivity | lia].
Qed.

Section Step.
Context {num : Type} `{Number num}.

(** Flag and counter after a batch that passed the length check. *)
Lemma step_contact s now ppg :
  (100 <= length ppg)%nat ->
  let s1 := detectContact s ppg in
  let out := processHeartRate s now ppg in
  fingerDetectedState (fst out) = fingerDetectedState s1
  /\ fingerDetected (snd out) = fingerDetectedState s1
  /\ consecutiveLowSignalBatches (fst out)
     = if fingerDetectedState s1 then consecutiveLowSignalBatches s1 else 0.
Proof.
  intros Hlen s1 out. subst s1 out.
  destruct (fingerDetectedState (detectContact s ppg)) eqn:Hf.
  - rewrite (EngineFacts.processHeartRate_contact s now ppg Hlen Hf).
    destruct (EngineFacts.prepare_fields s now ppg) as (_ & _ & Hfinger & Hlow & _).
    destruct (EngineFacts.track_unchanged
                (ingestBatch (startAcquisition (detectContact s ppg) now) ppg)
                now ppg) as (_ & _ & Hf' & Hl' & _).
    destruct (EngineFacts.track_debug
                (ingestBatch (startAcquisition (detectContact s ppg) now) ppg)
                now ppg) as [d Hd].
    destruct (EngineFacts.track_response _ _ _ _ Hd) as (_ & Hr & _).
    rewrite Hf', Hl', Hr, Hfinger, Hlow, Hf. repeat split.
  - rewrite (EngineFacts.processHeartRate_lost s now ppg Hlen Hf).
    repeat split.
Qed.

End Step.
End ContactFacts.

(** C5.  Among batches that pass the length check (at least 100 samples):
    a batch whose fraction of samples at or below 18000 is under 70%
    sets [fingerDetected] at once and clears the low-signal counter;
    after such a batch a single low-signal batch leaves [fingerDetected]
    true, in the state and in the response, and the second consecutive
    one clears it; and the flag goes from true to false only on the
    second of two consecutive low-signal batches. *)
Theorem contact_flag_is_debounced :
  forall (num : Type) (N : Number num),
    (forall s now ppg,
        (100 <= length ppg)%nat -> ~ Spec.LowSignal ppg ->
        let out := Engine.processHeartRate s now ppg in
        Engine.fingerDetectedState (fst out) = true /\
        Engine.fingerDetected (snd out) = true /\
        Engine.consecutiveLowSignalBatches (fst out) = 0)
    /\
    (forall s t0 b0 t1 b1 t2 b2,
        (100 <= length b0)%nat -> (100 <= length b1)%nat -> (100 <= length b2)%nat ->
        ~ Spec.LowSignal b0 -> Spec.LowSignal b1 -> Spec.LowSignal b2 ->
        let s0 := fst (Engine.processHeartRate s t0 b0) in
        let out1 := Engine.processHeartRate s0 t1 b1 in
        let out2 := Engine.processHeartRate (fst out1) t2 b2 in
        Engine.fingerDetectedState (fst out1) = true /\
        Engine.fingerDetected (snd out1) = true /\
        Engine.fingerDetectedState (fst out2) = false /\
        Engine.fingerDetected (snd out2) = false)
    /\
    (forall s t1 b1 t2 b2,
        (100 <= length b1)%nat -> (100 <= length b2)%nat ->
        let out1 := Engine.processHeartRate s t1 b1 in
        let out2 := Engine.processHeartRate (fst out1) t2 b2 in
        Engine.fingerDetectedState (fst out1) = true ->
        Engine.fingerDetectedState (fst out2) = false ->
        Spec.LowSignal b1 /\ Spec.LowSignal b2).
Proof.
  intros num N. split; [| split].
  - intros s now ppg Hlen Hgood out. subst out.
    apply ContactFacts.currentBatchHasFinger_true_iff in Hgood; [| lia].
    destruct (ContactFacts.detectContact_good s ppg Hgood) as [Hf Hl].
    destruct (ContactFacts.step_contact s now ppg Hlen) as (H1 & H2 & H3).
    rewrite H1, H2, H3, Hf, Hl. repeat split.
  - intros s t0 b0 t1 b1 t2 b2 L0 L1 L2 G0 B1 B2 s0 out1 out2.
    subst s0 out1 out2.
    apply ContactFacts.currentBatchHasFinger_true_iff in G0; [| lia].
    apply ContactFacts.currentBatchHasFinger_false_iff in B1; [| lia].
    apply ContactFacts.currentBatchHasFinger_false_iff in B2; [| lia].
    destruct (ContactFacts.detectContact_good s b0 G0) as [Hf0 Hl0].
    destruct (ContactFacts.step_contact s t0 b0 L0) as (A1 & _ & A3).
    rewrite Hf0 in A1, A3. rewrite Hl0 in A3.
    set (s0 := fst (Engine.processHeartRate s t0 b0)) in *.
    destruct (ContactFacts.detectContact_low_first s0 b1 B1 A3) as [Hl1 Hf1].
    rewrite A1 in Hf1.
    destruct (ContactFacts.step_contact s0 t1 b1 L1) as (C1 & C2 & C3).
    rewrite Hf1 in C1, C2, C3. rewrite Hl1 in C3.
    set (s1 := fst (Engine.processHeartRate s0 t1 b1)) in *.
    assert (Hf2 : Engine.fingerDetectedState (Engine.detectContact s1 b2) = false)
      by (apply ContactFacts.detectContact_low_again; [exact B2 | lia]).
    destruct (ContactFacts.step_contact s1 t2 b2 L2) as (D1 & D2 & _).
    rewrite Hf2 in D1, D2.
    repeat split; assumption.
  - intros s t1 b1 t2 b2 L1 L2 out1 out2 Hon Hoff. subst out1 out2.
    destruct (ContactFacts.step_contact s t1 b1 L1) as (A1 & _ & A3).
    set (s1 := fst (Engine.processHeartRate s t1 b1)) in *.
    destruct (ContactFacts.step_contact s1 t2 b2 L2) as (B1 & _ & _).
    rewrite Hoff in B1. rewrite Hon in A1. rewrite <- A1 in A3.
    destruct (Engine.currentBatchHasFinger b2) eqn:G2.
    { destruct (ContactFacts.detectContact_good s1 b2 G2) as [Hf _]. congruence. }
    destruct (ContactFacts.detectContact_low s1 b2 G2) as [_ Hf2].
    rewrite <- B1, Hon in Hf2.
    destruct (Z.geb_spec (Engine.consecutiveLowSignalBatches s1 + 1) 2) as [Hge |];
      [| discriminate].
    split; [| apply ContactFacts.currentBatchHasFinger_false_iff; [lia | exact G2]].
    destruct (Engine.currentBatchHasFinger b1) eqn:G1.
    { destruct (ContactFacts.detectContact_good s b1 G1) as [_ Hl]. lia. }
    apply ContactFacts.currentBatchHasFinger_false_iff; [lia | exact G1].
Qed.

(** ** Stability and phase *)

Module StabilityFacts.
Import Engine.

Ltac unroll_pairs :=
  unfold allWithin15;
  cbn [length Nat.min fold_left seq nth Nat.add Nat.sub].

Ltac split_tests :=
  repeat match goal with
         | |- context [Z.abs ?x >? 15] =>
             destruct (Z.gtb_spec (Z.abs x) 15); cbn [negb]
         end.

(** The nested loops compute the pairwise test. *)
Lemma allWithin15_iff (history : list Z) :
  allWithin15 history = true <-> Spec.PairwiseWithin15 history.
Proof.
  unfold Spec.PairwiseWithin15.
  destruct history as [| a [| b [| c [| d rest]]]].
  - split; [intros _ i j Hij Hj; cbn in Hj; lia | reflexivity].
  - split; [intros _ i j Hij Hj; cbn in Hj; lia | reflexivity].
  - unroll_pairs. split.
    + split_tests; [discriminate |]. intros _ i j Hij Hj. cbn in Hj.
      assert (i = 0%nat /\ j = 1%nat) as [-> ->] by lia. exact H.
    + intros Hall. pose proof (Hall 0%nat 1%nat ltac:(lia) ltac:(cbn; lia)) as H01.
      cbn in H01. split_tests; [lia | reflexivity].
  - unroll_pairs. split.
    + split_tests; try discriminate. intros _ i j Hij Hj. cbn in Hj.
      assert ((i = 0 /\ j = 1) \/ (i = 0 /\ j = 2) \/ (i = 1 /\ j = 2))%nat
        as [[-> ->] | [[-> ->] | [-> ->]]] by lia; assumption.
    + intros Hall.
      pose proof (Hall 0%nat 1%nat ltac:(lia) ltac:(cbn; lia)) as H01.
      pose proof (Hall 0%nat 2%nat ltac:(lia) ltac:(cbn; lia)) as H02.
      pose proof (Hall 1%nat 2%nat ltac:(lia) ltac:(cbn; lia)) as H12.
      cbn in H01, H02, H12. split_tests; try lia; reflexivity.
  - unroll_pairs. split.
    + split_tests; try discriminate. intros _ i j Hij Hj. cbn in Hj.
      assert ((i = 0 /\ j = 1) \/ (i = 0 /\ j = 2) \/ (i = 0 /\ j = 3)
              \/ (i = 1 /\ j = 2) \/ (i = 1 /\ j = 3) \/ (i = 2 /\ j = 3))%nat
        as [[-> ->] | [[-> ->] | [[-> ->] | [[-> ->] | [[-> ->] | [-> ->]]]]]]
          by lia; assumption.
    + intros Hall.
      pose proof (Hall 0%nat 1%nat ltac:(lia) ltac:(cbn; lia)) as H01.
      pose proof (Hall 0%nat 2%nat ltac:(lia) ltac:(cbn; lia)) as H02.
      pose proof (Hall 0%nat 3%nat ltac:(lia) ltac:(cbn; lia)) as H03.
      pose proof (Hall 1%nat 2%nat ltac:(lia) ltac:(cbn; lia)) as H12.
      pose proof (Hall 1%nat 3%nat ltac:(lia) ltac:(cbn; lia)) as H13.
      pose proof (Hall 2%nat 3%nat ltac:(lia) ltac:(cbn; lia)) as H23.
      cbn in H01, H02, H03, H12, H13, H23. split_tests; try lia; reflexivity.
Qed.

Lemma stableReading_iff (history : list Z) :
  stableReading history = true
  <-> (3 <= length history)%nat /\ Spec.PairwiseWithin15 history.
Proof.
  unfold stableReading. destruct (Nat.leb_spec 3 (length history)) as [Hlen | Hlen].
  - rewrite allWithin15_iff. tauto.
  - split; [discriminate | lia].
Qed.

End StabilityFacts.

(** C7.  For every processed batch with contact held: [isStable] is true
    exactly when the history holds at least 3 readings and every pairwise
    absolute difference among its last up to 4 readings is at most 15
    BPM; and once [batchesReceived] is at least 5 the reported phase is
    "tracking" exactly when [isStable] is true and "stabilizing" exactly
    when it is false.  The readings [72; 74; 70; 73] are stable. *)
Theorem stable_readings_give_tracking_phase :
  (forall (num : Type) (N : Number num) s now ppg,
      let out := Engine.processHeartRate s now ppg in
      let history := Engine.recentHeartRates (fst out) in
      Engine.fingerDetected (snd out) = true ->
      (Engine.isStable (fst out) = true
       <-> (3 <= length history)%nat /\ Spec.PairwiseWithin15 history)
      /\
      (5 <= Engine.batchesReceived (fst out) ->
       (Engine.phase (snd out) = "tracking" <-> Engine.isStable (fst out) = true)
       /\
       (Engine.phase (snd out) = "stabilizing" <-> Engine.isStable (fst out) = false)))
  /\
  (Engine.stableReading [72; 74; 70; 73] = true
   /\ Spec.PairwiseWithin15 [72; 74; 70; 73]).
Proof.
  split.
  - intros num N s now ppg out history. subst out history.
    destruct (EngineFacts.processHeartRate_cases s now ppg)
      as [-> | [-> | (Hlen & Hf & ->)]]; cbn [snd fst].
    + discriminate.
    + discriminate.
    + intros _.
      set (s3 := Engine.ingestBatch _ _).
      split.
      * rewrite EngineFacts.track_isStable. apply StabilityFacts.stableReading_iff.
      * intros Hbatches. rewrite EngineFacts.track_phase.
        destruct (EngineFacts.prepare_fields s now ppg) as (_ & _ & Hfs & _).
        fold s3 in Hfs. rewrite Hfs, Hf.
        unfold Engine.MIN_BATCHES_FOR_DISPLAY.
        destruct (Z.ltb_spec (Engine.batchesReceived (fst (Engine.track s3 now ppg))) 5);
          [lia |].
        destruct (Engine.isStable (fst (Engine.track s3 now ppg)));
          split; split; congruence.
  - assert (Hs : Engine.stableReading [72; 74; 70; 73] = true) by reflexivity.
    split; [exact Hs |]. apply StabilityFacts.stableReading_iff in Hs. apply Hs.
Qed.

(** ** High-zone suppression *)

Module SuppressionFacts.
Import Engine.

(** The first-minute branch of the restriction. *)
Lemma suppressHigh_first_minute final now fdt streak last :
  VIGOROUS_THRESHOLD <= final ->
  timeSince fdt now < 60000 ->
  streak < requiredStreak (timeSince fdt now) ->
  suppressHigh final now fdt streak last
  = if (last >? 0) && (last <? 125) then Z.min 125 (last + 5) else 125.
Proof.
  intros Hhigh Htime Hstreak. unfold suppressHigh, VIGOROUS_THRESHOLD in *.
  destruct (Z.geb_spec final 130); [| lia].
  destruct (Z.ltb_spec (timeSince fdt now) 60000); [| lia].
  destruct (Z.ltb_spec streak (requiredStreak (timeSince fdt now))); [| lia].
  rewrite (Z.min_r final 125) by lia. reflexivity.
Qed.

Lemma first_minute_bounds last :
  let out := if (last >? 0) && (last <? 125) then Z.min 125 (last + 5) else 125 in
  0 < out /\ out <= 125 /\ (0 < last -> out <= last + 5).
Proof.
  cbv zeta.
  destruct (Z.gtb_spec last 0); destruct (Z.ltb_spec last 125); cbn [andb]; lia.
Qed.

End SuppressionFacts.

(** C1.  For every processed batch with contact held whose final BPM
    before the restriction is at least 130, with fewer than 60 seconds
    elapsed since [firstDisplayTime] and [consecutiveHighZoneReadings]
    below max(5, round(5 + (60000 - elapsed) / 15000)): the final and the
    displayed BPM are at most 125 and, when a prior displayed BPM exists,
    at most [lastDisplayedHeartRate + 5].  In particular 150 BPM at
    elapsed = 10 s with a streak of 1 comes out as min(125, last + 5)
    at most when a prior displayed BPM exists, and as 125 otherwise. *)
Theorem vigorous_reading_capped_in_first_minute :
  (forall (num : Type) (N : Number num) s now ppg d,
      let out := Engine.processHeartRate s now ppg in
      let s' := fst out in
      let streak := Engine.consecutiveHighZoneReadings s' in
      let elapsed := Engine.timeSinceFirstDisplay d in
      let last := Engine.lastDisplayedHeartRate s in
      Engine.debug (snd out) = Some d ->
      130 <= Engine.consensusRate (Engine.recentHeartRates s')
                                  (Engine.calculatedRate d) now
                                  (Engine.firstDisplayTime s') streak ->
      elapsed < 60000 ->
      streak < Z.max 5 (Js.Math_round (5 + (60000 - inject_Z elapsed) / 15000)%Q) ->
      Engine.finalRate d <= 125 /\
      Engine.heartRate (snd out) <= 125 /\
      (0 < last ->
       Engine.finalRate d <= last + 5 /\ Engine.heartRate (snd out) <= last + 5))
  /\
  (forall firstDisplay now last,
      0 < firstDisplay -> now - firstDisplay = 10000 ->
      let out := Engine.suppressHigh 150 now firstDisplay 1 last in
      out <= 125 /\
      (0 < last -> out <= Z.min 125 (last + 5)) /\
      (last = 0 -> out = 125)).
Proof.
  split.
  - intros num N s now ppg d out s' streak elapsed last.
    subst out s' streak elapsed last.
    destruct (EngineFacts.processHeartRate_cases s now ppg)
      as [-> | [-> | (Hlen & Hf & ->)]]; cbn [snd fst]; try discriminate.
    set (s3 := Engine.ingestBatch _ _).
    intros Hd Hhigh Htime Hstreak.
    destruct (EngineFacts.track_finalRate s3 now ppg d Hd) as [Hfinal Helapsed].
    destruct (EngineFacts.track_response s3 now ppg d Hd) as (Hrate & _).
    destruct (EngineFacts.prepare_fields s now ppg) as (_ & Hlast & _).
    fold s3 in Hlast. rewrite Hlast in Hfinal.
    rewrite Helapsed in Htime, Hstreak.
    rewrite SuppressionFacts.suppressHigh_first_minute in Hfinal;
      [| exact Hhigh | exact Htime | exact Hstreak].
    pose proof (SuppressionFacts.first_minute_bounds (Engine.lastDisplayedHeartRate s))
      as (Hpos & Hcap & Hstep).
    cbv zeta in Hpos, Hcap, Hstep. rewrite <- Hfinal in Hpos, Hcap, Hstep.
    rewrite Hrate.
    destruct (Engine.batchesReceived s3 <? Engine.MIN_BATCHES_FOR_DISPLAY);
      repeat split; try lia; intros Hl; specialize (Hstep Hl); lia.
  - intros fdt now last Hfdt Helapsed out. subst out.
    assert (Ht : Engine.timeSince fdt now = 10000).
    { unfold Engine.timeSince. destruct (Z.gtb_spec fdt 0); lia. }
    rewrite SuppressionFacts.suppressHigh_first_minute.
    + pose proof (SuppressionFacts.first_minute_bounds last) as (_ & Hcap & Hstep).
      cbv zeta in Hcap, Hstep.
      repeat split; [exact Hcap | intros Hl; specialize (Hstep Hl); lia |].
      intros ->. reflexivity.
    + unfold Engine.VIGOROUS_THRESHOLD. lia.
    + lia.
    + rewrite Ht. vm_compute. reflexivity.
Qed.

(** ** Recorded runs *)

Module Runs.
Import Engine.

(** Closes a side condition on concrete data by evaluation. *)
Ltac by_evaluation :=
  vm_compute; first [reflexivity | discriminate | (intro; discriminate) | lia].

(** Four touches from the initial state. *)
Lemma touches_run :
  run (num := Q) initialState Scenario.touches = Scenario.afterTouches.
Proof. vm_compute. reflexivity. Qed.

(** The fifth batch carries four beats at 40 BPM. *)
Lemma batch40_run :
  processHeartRate (num := Q) Scenario.afterTouches 2000 Scenario.batch40
  = (Scenario.afterBatch40, Scenario.response39).
Proof. vm_compute. reflexivity. Qed.

(** So the state after the fifth batch is reached from the initial
    one. *)
Lemma afterBatch40_reached :
  fst (processHeartRate (num := Q)
         (run (num := Q) initialState Scenario.touches) 2000 Scenario.batch40)
  = Scenario.afterBatch40.
Proof. rewrite touches_run, batch40_run. reflexivity. Qed.

(** The rate its window yields before the correction. *)
Lemma batch40_window_rate :
  rateFromPeaks
    (Signal.detectPeaks
       (Signal.filterSignal (num := Q) (sampleBuffer Scenario.afterBatch40)))
    (length (sampleBuffer Scenario.afterBatch40)) = 40.
Proof. vm_compute. reflexivity. Qed.

(** A sixth batch at 141 BPM, six seconds after the first display. *)
Lemma window141_run :
  processHeartRate (num := Q) Scenario.afterBatch40 8000 Scenario.window141
  = (Scenario.afterWindow141, Scenario.response44).
Proof. vm_compute. reflexivity. Qed.

(** A dark batch after the fifth. *)
Lemma dark_run :
  fst (processHeartRate (num := Q) Scenario.afterBatch40 2500 Scenario.dark)
  = Scenario.afterDark.
Proof. vm_compute. reflexivity. Qed.

(** A window at 141 BPM, 68 seconds after the first display, with 128
    on display. *)
Lemma rising_run :
  processHeartRate (num := Q) Scenario.rising 70000 Scenario.window141
  = (Scenario.afterRising, Scenario.response136).
Proof. vm_compute. reflexivity. Qed.

End Runs.

(** The sixth batch of a recording that starts at 40 BPM and jumps to
    141 BPM: six seconds after the first display, with 39 BPM on display
    and a streak of 1, the corrected rate of 133 is shown as 44. *)
Lemma vigorous_reading_capped_witness :
  let out := Engine.processHeartRate (num := Q)
               Scenario.afterBatch40 8000 Scenario.window141 in
  Engine.debug (snd out) = Some Scenario.debug44 /\
  Engine.heartRate (snd out) = 44 /\
  (Engine.finalRate Scenario.debug44 <= 125 /\
   Engine.heartRate (snd out) <= 125 /\
   (0 < Engine.lastDisplayedHeartRate Scenario.afterBatch40 ->
    Engine.finalRate Scenario.debug44
    <= Engine.lastDisplayedHeartRate Scenario.afterBatch40 + 5 /\
    Engine.heartRate (snd out)
    <= Engine.lastDisplayedHeartRate Scenario.afterBatch40 + 5)).
Proof.
  cbv zeta.
  destruct vigorous_reading_capped_in_first_minute as [Hgeneral _].
  pose proof (Hgeneral Q NumberQ Scenario.afterBatch40 8000 Scenario.window141
                       Scenario.debug44) as Hhere.
  cbv zeta in Hhere.
  rewrite Runs.window141_run in Hhere |- *.
  cbn [fst snd] in Hhere |- *.
  split; [reflexivity |]. split; [reflexivity |].
  apply Hhere.
  - reflexivity.
  - Runs.by_evaluation.
  - Runs.by_evaluation.
  - Runs.by_evaluation.
Defined.

(** ** Initial correction *)

Module CorrectionFacts.
Import Engine.

Lemma initialCorrection_formula (raw b : Z) :
  b <= 10 ->
  initialCorrection raw b
  = raw - Js.Math_round
            (Js.mul (Js.mul (Js.num raw) (Js.lit (Spec.correctionShare raw)))
                    (correctionFactor b)).
Proof.
  intros Hb. unfold initialCorrection, Spec.correctionShare, correctionAmount,
    MIN_BATCHES_FOR_DISPLAY, VIGOROUS_THRESHOLD.
  destruct (Z.leb_spec b (5 + 5)); [| lia].
  destruct (raw >=? 130); [reflexivity |].
  destruct (raw >=? 110); reflexivity.
Qed.

Lemma pushHistory_head (hr : Z) (history : list Z) :
  0 < hr -> exists older, pushHistory hr history = hr :: older.
Proof.
  intros Hpos. unfold pushHistory, Js.unshift, Js.pop, MAX_HISTORY.
  destruct (Z.gtb_spec hr 0); [| lia].
  destruct (4 <? length (hr :: history))%nat eqn:Hlen.
  - destruct history as [| x rest]; [discriminate |].
    exists (removelast (x :: rest)). reflexivity.
  - exists history. reflexivity.
Qed.

Section Step.
Context {num : Type} `{Number num}.

Lemma calculate_ready (s : State) :
  (750 <= length (sampleBuffer s))%nat ->
  snd (calculate s)
  = rateFromPeaks (Signal.detectPeaks (Signal.filterSignal (num := num)
                                         (sampleBuffer s)))
                  (length (sampleBuffer s)).
Proof.
  intros Hlen. unfold calculate.
  destruct (Nat.leb_spec 750 (length (sampleBuffer s))); [reflexivity | lia].
Qed.

End Step.
End CorrectionFacts.

(** ** Reachable states *)

Module InvariantFacts.
Import Engine.

Lemma Math_round_upper (x : Q) : (inject_Z (Js.Math_round x) <= x + (1 # 2))%Q.
Proof. unfold Js.Math_round. apply Qfloor_le. Qed.

Lemma Math_round_nonneg (x : Q) : (0 <= x)%Q -> 0 <= Js.Math_round x.
Proof.
  intros Hx. unfold Js.Math_round.
  change 0 with (Qfloor 0). apply Qfloor_resp_le. lra.
Qed.

Lemma Math_round_le (x y : Q) : (x <= y)%Q -> Js.Math_round x <= Js.Math_round y.
Proof. intros Hxy. unfold Js.Math_round. apply Qfloor_resp_le. lra. Qed.

(** The quotient [b / 10] grows with [b]. *)
Lemma tenth_le (b b' : Z) :
  b <= b' -> (Js.div (Js.num b) 10 <= Js.div (Js.num b') 10)%Q.
Proof.
  intros Hb. unfold Js.div, Js.num. apply DoubleFacts.double_monotone.
  assert (Hbb : (inject_Z b <= inject_Z b')%Q) by (rewrite <- Zle_Qle; exact Hb).
  assert (Hd : (inject_Z b / 10 == inject_Z b * (1 # 10))%Q) by field.
  assert (Hd' : (inject_Z b' / 10 == inject_Z b' * (1 # 10))%Q) by field.
  rewrite Hd, Hd'. lra.
Qed.

(** So the factor falls as the batches are counted. *)
Lemma factor_le (b b' : Z) :
  b <= b' -> (correctionFactor b' <= correctionFactor b)%Q.
Proof.
  intros Hb. unfold correctionFactor, Js.sub.
  apply Q.max_le_compat_l, DoubleFacts.double_monotone.
  pose proof (tenth_le b b' Hb). lra.
Qed.

Lemma factor_bounds (b : Z) :
  0 <= b -> (0 <= correctionFactor b <= 1)%Q.
Proof.
  intros Hb. split.
  - apply Q.le_max_l.
  - pose proof (factor_le 0 b Hb) as Hle.
    assert (H0 : (correctionFactor 0 == 1)%Q) by (vm_compute; reflexivity).
    lra.
Qed.

(** The factor has run out with the tenth batch. *)
Lemma factor_at_10 : (correctionFactor 10 == 0)%Q.
Proof. vm_compute. reflexivity. Qed.

Lemma share_bounds (raw : Z) :
  (0 <= Js.lit (Spec.correctionShare raw) <= 15 # 100)%Q.
Proof.
  unfold Spec.correctionShare.
  destruct (raw >=? 130); [| destruct (raw >=? 110)];
    split; vm_compute; discriminate.
Qed.

(** The error bound of a rounding, as the arithmetic below needs it. *)
Lemma double_upper (x : Q) :
  (0 <= x)%Q -> (0 <= Js.double x <= x + x * (1 # 100))%Q.
Proof.
  intros Hx. split; [apply DoubleFacts.double_nonneg, Hx |].
  destruct (DoubleFacts.double_error x Hx) as [_ Hup].
  assert (He : (2 ^ (-53) <= 1 # 100)%Q) by (vm_compute; discriminate).
  nra.
Qed.

(** The amount subtracted is not negative and stays below the rate. *)
Lemma correction_bounds (raw b : Z) :
  1 <= raw -> 0 <= b ->
  0 <= Js.Math_round
         (Js.mul (Js.mul (Js.num raw) (Js.lit (Spec.correctionShare raw)))
                 (correctionFactor b)) < raw.
Proof.
  intros Hraw Hb.
  pose proof (factor_bounds b Hb) as [Hf0 Hf1].
  pose proof (share_bounds raw) as [Hc0 Hc1].
  set (f := correctionFactor b) in *.
  set (c := Js.lit (Spec.correctionShare raw)) in *.
  unfold Js.mul, Js.num.
  assert (Hr : (inject_Z 1 <= inject_Z raw)%Q) by (rewrite <- Zle_Qle; exact Hraw).
  change (inject_Z 1) with 1%Q in Hr.
  assert (Hrc : (0 <= inject_Z raw * c <= inject_Z raw * (15 # 100))%Q) by nra.
  destruct (double_upper (inject_Z raw * c) ltac:(lra)) as [Hp0 Hp1].
  set (p := Js.double (inject_Z raw * c)) in *.
  assert (Hpf : (0 <= p * f <= p)%Q) by nra.
  destruct (double_upper (p * f) ltac:(lra)) as [Hq0 Hq1].
  set (q := Js.double (p * f)) in *.
  split.
  - apply Math_round_nonneg. exact Hq0.
  - pose proof (Math_round_upper q) as Hup.
    rewrite Zlt_Qlt. nra.
Qed.

Lemma validated_cases (bpm : Z) :
  validated bpm = 0 \/ 40 <= validated bpm <= 200.
Proof.
  unfold validated.
  destruct (Z.ltb_spec bpm 40); destruct (Z.gtb_spec bpm 200); cbn [orb]; lia.
Qed.

Lemma rateFromPeaks_cases (peaks : list Z) (n : nat) :
  rateFromPeaks peaks n = 0 \/ 40 <= rateFromPeaks peaks n <= 200.
Proof.
  assert (H1 : method1 peaks = 0 \/ 40 <= method1 peaks <= 200).
  { unfold method1. destruct (0 <? length _)%nat; [apply validated_cases | lia]. }
  assert (H2 : method2 peaks = 0 \/ 40 <= method2 peaks <= 200)
    by (unfold method2; apply validated_cases).
  assert (H3 : method3 peaks n = 0 \/ 40 <= method3 peaks n <= 200)
    by (unfold method3; apply validated_cases).
  unfold rateFromPeaks.
  destruct (3 <=? length peaks)%nat; [| lia].
  destruct (Z.eqb_spec (method1 peaks) 0) as [Hz | Hnz]; cbn [andb].
  - destruct (4 <=? length peaks)%nat.
    + destruct (Z.eqb_spec (method2 peaks) 0); [exact H3 | exact H2].
    + rewrite Hz. cbn [Z.eqb]. exact H3.
  - destruct (Z.eqb_spec (method1 peaks) 0); [lia | exact H1].
Qed.

(** The corrected rate of a window: nothing, or positive and at most
    200. *)
Lemma corrected_cases (raw b : Z) :
  0 <= b ->
  raw = 0 \/ 40 <= raw <= 200 ->
  (raw = 0 /\ corrected raw b = 0) \/ (0 < corrected raw b <= raw /\ raw <= 200).
Proof.
  intros Hb [-> | Hraw]; [left; split; reflexivity | right].
  unfold corrected. destruct (Z.gtb_spec raw 0); [| lia].
  destruct (Z.leb_spec b 10) as [Hle | Hgt].
  - rewrite (CorrectionFacts.initialCorrection_formula raw b Hle).
    pose proof (correction_bounds raw b ltac:(lia) Hb). lia.
  - unfold initialCorrection, MIN_BATCHES_FOR_DISPLAY.
    destruct (Z.leb_spec b (5 + 5)); lia.
Qed.

Lemma Forall_prefix {A} (P : A -> Prop) (n : nat) (l : list A) :
  Forall P l -> Forall P (firstn n l).
Proof.
  intros Hall. revert n.
  induction Hall as [| x l Hx _ IH]; intros [| n]; cbn [firstn]; constructor; auto.
Qed.

Lemma pushHistory_coherent (hr : Z) (history : list Z) :
  0 <= hr <= 200 ->
  (length history <= 4)%nat ->
  Forall (fun bpm => 0 < bpm <= 200) history ->
  (length (pushHistory hr history) <= 4)%nat
  /\ Forall (fun bpm => 0 < bpm <= 200) (pushHistory hr history).
Proof.
  intros Hhr Hlen Hall. unfold pushHistory, Js.unshift, Js.pop, MAX_HISTORY.
  destruct (Z.gtb_spec hr 0); [| split; assumption].
  destruct (Nat.ltb_spec 4 (length (hr :: history))) as [Hlong | Hshort].
  - rewrite removelast_firstn_len. split.
    + rewrite length_firstn. cbn [length] in *. lia.
    + apply Forall_prefix. constructor; [lia | exact Hall].
  - split; [exact Hshort | constructor; [lia | exact Hall]].
Qed.

Section Step.
Context {num : Type} `{Number num}.

Lemma calculate_cases (s : State) :
  snd (calculate s) = 0 \/ 40 <= snd (calculate s) <= 200.
Proof.
  unfold calculate. destruct (750 <=? length (sampleBuffer s))%nat; cbn [snd].
  - apply rateFromPeaks_cases.
  - left. reflexivity.
Qed.

(** Every call keeps the state coherent. *)
Lemma step_coherent s now ppg :
  Spec.Coherent s -> Spec.Coherent (fst (processHeartRate s now ppg)).
Proof.
  intros (Hflag & Hb & Hlen & Hall).
  destruct (EngineFacts.processHeartRate_cases s now ppg)
    as [-> | [-> | (Hsize & Hf & ->)]]; cbn [fst].
  - repeat split; assumption.
  - unfold Spec.Coherent, resetState, detectContact. cbn. repeat split; try lia; assumption.
  - set (s3 := ingestBatch (startAcquisition (detectContact s ppg) now) ppg).
    destruct (EngineFacts.prepare_fields s now ppg) as (Hh & _ & Hfs & _ & Hacq).
    fold s3 in Hh, Hfs, Hacq.
    assert (Hb3 : 0 <= batchesReceived s3).
    { subst s3. unfold ingestBatch, startAcquisition, detectContact.
      destruct (currentBatchHasFinger ppg); destruct (isAcquiring s); cbn; lia. }
    destruct (EngineFacts.track_unchanged s3 now ppg) as (B1 & _ & B3 & _ & B5 & _).
    cbv zeta in B1, B3, B5.
    unfold Spec.Coherent. rewrite B1, B3, B5, EngineFacts.track_history, Hh.
    split; [congruence |]. split; [exact Hb3 |].
    apply pushHistory_coherent; [| exact Hlen | exact Hall].
    destruct (corrected_cases (snd (calculate s3)) (batchesReceived s3) Hb3
                              (calculate_cases s3)) as [[_ ->] | [Hc Hr]]; lia.
Qed.

Lemma run_coherent s batches :
  Spec.Coherent s -> Spec.Coherent (run s batches).
Proof.
  unfold run. revert s.
  induction batches as [| b rest IH]; intros s Hs; cbn [fold_left].
  - exact Hs.
  - apply IH, step_coherent, Hs.
Qed.

End Step.

Lemma initialState_coherent : Spec.Coherent initialState.
Proof. unfold Spec.Coherent. cbn. repeat split; try lia. constructor. Qed.

End InvariantFacts.


(** C10.  For every processed batch whose window yields a positive BPM
    while [batchesReceived] is at most 10, the engine subtracts
    round(BPM * c * max(0, 1 - batchesReceived / 10)) with c = 0.15 from
    130 BPM, 0.10 from 110 BPM and 0.05 below, the expression being
    evaluated as the source does, from the left in double arithmetic,
    and it is the corrected value that is reported as calculated and put
    at the head of the history (it is positive whenever the batch
    counter is not negative).  The corrected value can fall below
    MIN_HR = 40: 40 BPM at [batchesReceived = 1] becomes 38, and a
    recording at 40 BPM whose fifth batch is the first to fill the
    window stores and displays 39.  Where the exact product ends in .5
    the doubles decide: 50, 125 and 150 BPM at the eighth batch become
    50, 123 and 146, and 100 BPM at the ninth stays 100. *)
Theorem initial_correction_can_undershoot_min_hr :
  (forall (num : Type) (N : Number num) s now ppg d,
      let out := Engine.processHeartRate s now ppg in
      let buffer := Engine.sampleBuffer (fst out) in
      let raw :=
        Engine.rateFromPeaks
          (Signal.detectPeaks (Signal.filterSignal (num := num) buffer))
          (length buffer) in
      let b := Engine.batchesReceived (fst out) in
      let c := Js.lit (Spec.correctionShare raw) in
      let factor := Qmax 0 (Js.sub 1 (Js.div (Js.num b) 10)) in
      let corrected := raw - Js.Math_round (Js.mul (Js.mul (Js.num raw) c) factor) in
      Engine.debug (snd out) = Some d ->
      (750 <= length buffer)%nat ->
      0 < raw ->
      b <= 10 ->
      Engine.calculatedRate d = corrected /\
      (0 < corrected ->
       exists older, Engine.recentHeartRates (fst out) = corrected :: older) /\
      (0 <= b -> 0 < corrected <= raw))
  /\
  (Engine.initialCorrection 40 1 = 38 /\ 38 < Advanced.MIN_HR)
  /\
  (Engine.initialCorrection 50 8 = 50
   /\ Engine.initialCorrection 125 8 = 123
   /\ Engine.initialCorrection 150 8 = 146
   /\ Engine.initialCorrection 100 9 = 100)
  /\
  (let acquiring := Engine.run (num := Q) Engine.initialState Scenario.touches in
   let out := Engine.processHeartRate (num := Q) acquiring 2000 Scenario.batch40 in
   Engine.recentHeartRates (fst out) = [39] /\
   Engine.heartRate (snd out) = 39 /\
   Engine.display_value (snd out) = "39").
Proof.
  split; [| split; [| split]].
  - intros num N s now ppg d out buffer raw b c factor corrected.
    subst corrected factor c b raw buffer out.
    destruct (EngineFacts.processHeartRate_cases s now ppg)
      as [-> | [-> | (Hlen & Hf & ->)]]; cbn [snd fst]; try discriminate.
    set (s3 := Engine.ingestBatch _ _).
    intros Hd Hbuf Hraw Hb.
    destruct (EngineFacts.track_unchanged s3 now ppg) as (Hsame & Hbuffer & _).
    cbv zeta in Hsame, Hbuffer.
    rewrite Hbuffer in *. rewrite Hsame in *.
    pose proof (CorrectionFacts.calculate_ready s3 Hbuf) as Hcalc.
    set (raw := Engine.rateFromPeaks
                  (Signal.detectPeaks (Signal.filterSignal (Engine.sampleBuffer s3)))
                  (length (Engine.sampleBuffer s3))) in *.
    assert (Hcorr : Engine.corrected (snd (Engine.calculate s3))
                                     (Engine.batchesReceived s3)
                    = raw - Js.Math_round
                              (Js.mul (Js.mul (Js.num raw)
                                              (Js.lit (Spec.correctionShare raw)))
                                      (Engine.correctionFactor
                                         (Engine.batchesReceived s3)))).
    { rewrite Hcalc. unfold Engine.corrected.
      destruct (Z.gtb_spec raw 0) as [_ | Hle]; [| lia].
      apply CorrectionFacts.initialCorrection_formula, Hb. }
    change (Qmax 0 (Js.sub 1 (Js.div (Js.num (Engine.batchesReceived s3)) 10)))
      with (Engine.correctionFactor (Engine.batchesReceived s3)).
    rewrite (EngineFacts.track_calculatedRate s3 now ppg d Hd).
    split; [exact Hcorr |]. split.
    + intros Hpos. rewrite EngineFacts.track_history, Hcorr.
      apply CorrectionFacts.pushHistory_head, Hpos.
    + intros Hb0.
      assert (Hone : 1 <= raw) by lia.
      pose proof (InvariantFacts.correction_bounds _ _ Hone Hb0) as Hbounds.
      lia.
  - split; vm_compute; reflexivity.
  - repeat split; vm_compute; reflexivity.
  - cbv zeta. rewrite Runs.touches_run, Runs.batch40_run.
    repeat split.
Qed.

(** The fifth batch of a recording at 40 BPM: the window gives 40, the
    engine reports and stores 39. *)
Lemma initial_correction_witness :
  let out := Engine.processHeartRate (num := Q)
               Scenario.afterTouches 2000 Scenario.batch40 in
  let buffer := Engine.sampleBuffer (fst out) in
  let raw :=
    Engine.rateFromPeaks
      (Signal.detectPeaks (Signal.filterSignal (num := Q) buffer))
      (length buffer) in
  let b := Engine.batchesReceived (fst out) in
  let c := Js.lit (Spec.correctionShare raw) in
  let factor := Qmax 0 (Js.sub 1 (Js.div (Js.num b) 10)) in
  let corrected := raw - Js.Math_round (Js.mul (Js.mul (Js.num raw) c) factor) in
  raw = 40 /\ b = 5 /\ corrected = 39 /\
  Engine.calculatedRate Scenario.debug39 = corrected /\
  (0 < corrected ->
   exists older, Engine.recentHeartRates (fst out) = corrected :: older) /\
  (0 <= b -> 0 < corrected <= raw).
Proof.
  cbv zeta.
  destruct initial_correction_can_undershoot_min_hr as [Hgeneral _].
  pose proof (Hgeneral Q NumberQ Scenario.afterTouches 2000 Scenario.batch40
                       Scenario.debug39) as Hhere.
  cbv zeta in Hhere.
  rewrite Runs.batch40_run in Hhere |- *.
  cbn [fst snd] in Hhere |- *.
  rewrite Runs.batch40_window_rate in Hhere |- *.
  split; [reflexivity |]. split; [reflexivity |].
  split; [vm_compute; reflexivity |].
  apply Hhere.
  - reflexivity.
  - vm_compute. lia.
  - lia.
  - vm_compute. discriminate.
Defined.

(** ** Interval method *)

Module IntervalFacts.
Import Engine.

Lemma intervalsOf_length (peaks : list Z) :
  length (intervalsOf peaks) = (length peaks - 1)%nat.
Proof. unfold intervalsOf. rewrite length_map, length_seq. reflexivity. Qed.

Lemma intervalsOf_nth (peaks : list Z) (i : nat) :
  (S i < length peaks)%nat ->
  nth i (intervalsOf peaks) 0 = nth (S i) peaks 0 - nth i peaks 0.
Proof.
  intros Hi. unfold intervalsOf.
  set (f := fun k : nat => nth k peaks 0 - nth (k - 1) peaks 0).
  rewrite (nth_indep _ 0 (f 0%nat)) by (rewrite length_map, length_seq; lia).
  rewrite map_nth, seq_nth by lia. unfold f.
  replace (1 + i - 1)%nat with i by lia. reflexivity.
Qed.

Lemma kept_iff (peaks : list Z) (gap : Z) :
  In gap (filter validInterval (intervalsOf peaks))
  <-> In gap (intervalsOf peaks) /\ 37 <= gap <= 300.
Proof.
  rewrite filter_In. unfold validInterval.
  rewrite andb_true_iff, Z.geb_le, Z.leb_le. tauto.
Qed.

Lemma validated_range (bpm : Z) :
  validated bpm = if (40 <=? bpm) && (bpm <=? 200) then bpm else 0.
Proof.
  unfold validated.
  destruct (Z.ltb_spec bpm 40); destruct (Z.gtb_spec bpm 200);
    destruct (Z.leb_spec 40 bpm); destruct (Z.leb_spec bpm 200);
    cbn [orb andb]; lia.
Qed.

Lemma method1_none (peaks : list Z) :
  filter validInterval (intervalsOf peaks) = [] -> method1 peaks = 0.
Proof. intros Hnone. unfold method1. rewrite Hnone. reflexivity. Qed.

Lemma method1_some (peaks : list Z) :
  let kept := filter validInterval (intervalsOf peaks) in
  kept <> [] ->
  method1 peaks
  = validated (Js.Math_round
                 (60 * 150 / (inject_Z (Js.sum kept)
                              / inject_Z (Z.of_nat (length kept))))%Q).
Proof.
  intros kept Hsome. unfold method1. fold kept.
  destruct kept as [| g rest]; [congruence | reflexivity].
Qed.

Lemma rateFromPeaks_method1 (peaks : list Z) (n : nat) :
  (3 <= length peaks)%nat -> method1 peaks <> 0 ->
  rateFromPeaks peaks n = method1 peaks.
Proof.
  intros Hlen Hrate. unfold rateFromPeaks.
  destruct (Nat.leb_spec 3 (length peaks)); [| lia].
  destruct (Z.eqb_spec (method1 peaks) 0); [congruence |].
  cbn [andb]. destruct (Z.eqb_spec (method1 peaks) 0); [congruence | reflexivity].
Qed.

End IntervalFacts.

(** C3, as the code has it.  For every ordered peak index sequence the
    gaps are the consecutive differences; a gap is kept exactly when it
    lies within [37, 300] samples (the bounds the source derives from 240
    and 30 BPM at 150 Hz); with no gap left the interval method gives
    nothing, and with at least one gap left it converts their mean via
    BPM = round(60 * 150 / meanInterval), keeping the result only when it
    is within [40, 200]; with three peaks or more a rate so obtained is
    the rate of the batch. *)
Theorem interval_method_keeps_37_to_300_and_needs_one_gap :
  forall peaks : list Z,
    let gaps := Engine.intervalsOf peaks in
    let kept := filter Engine.validInterval gaps in
    (length gaps = (length peaks - 1)%nat /\
     forall i, (S i < length peaks)%nat ->
               nth i gaps 0 = nth (S i) peaks 0 - nth i peaks 0)
    /\
    (forall gap, In gap kept <-> In gap gaps /\ 37 <= gap <= 300)
    /\
    (kept = [] -> Engine.method1 peaks = 0)
    /\
    (kept <> [] ->
     let meanInterval :=
       (inject_Z (Js.sum kept) / inject_Z (Z.of_nat (length kept)))%Q in
     let bpm := Js.Math_round (60 * 150 / meanInterval)%Q in
     Engine.method1 peaks = if (40 <=? bpm) && (bpm <=? 200) then bpm else 0)
    /\
    (forall bufferLength,
        (3 <= length peaks)%nat -> Engine.method1 peaks <> 0 ->
        Engine.rateFromPeaks peaks bufferLength = Engine.method1 peaks).
Proof.
  intros peaks gaps kept. subst gaps kept.
  split; [split |]; [| | split; [| split; [| split]]].
  - apply IntervalFacts.intervalsOf_length.
  - apply IntervalFacts.intervalsOf_nth.
  - apply IntervalFacts.kept_iff.
  - apply IntervalFacts.method1_none.
  - intros Hsome. cbv zeta.
    rewrite <- IntervalFacts.validated_range.
    apply IntervalFacts.method1_some. exact Hsome.
  - intros n. apply IntervalFacts.rateFromPeaks_method1.
Qed.

(** Three peaks with one admissible gap: the single gap of 100 samples
    gives 90 BPM. *)
Lemma interval_method_witness :
  Engine.method1 [10; 110; 510] = 90 /\
  Engine.rateFromPeaks [10; 110; 510] 1000 = 90.
Proof.
  pose proof (interval_method_keeps_37_to_300_and_needs_one_gap [10; 110; 510])
    as (_ & _ & _ & Hsome & Hrate).
  assert (Hm : Engine.method1 [10; 110; 510] = 90).
  { rewrite Hsome; [reflexivity | discriminate]. }
  split; [exact Hm |].
  rewrite Hrate; [exact Hm | cbn; lia | rewrite Hm; discriminate].
Defined.

(** C3 as worded fails on the engine: a gap of 40 samples, outside
    [45, 225], is kept, and a single remaining gap already yields a
    rate. *)
Lemma interval_method_not_as_worded :
  ~ Spec.IntervalMethodAsWorded
  /\
  (In 40 (filter Engine.validInterval (Engine.intervalsOf [10; 50; 150; 250]))
   /\ ~ Spec.gapWithinSpecBounds 150 40 200 40)
  /\
  (Engine.method1 [10; 110; 510] = 90
   /\ length (filter Engine.validInterval (Engine.intervalsOf [10; 110; 510])) = 1%nat).
Proof.
  split; [| split].
  - intros Hworded. destruct (Hworded [10; 110; 510]) as [_ Htwo].
    assert (Hlen : (2 <= 1)%nat) by (apply Htwo; discriminate).
    lia.
  - split; [cbn; auto |].
    intros [Hlow _]. vm_compute in Hlow. apply Hlow. reflexivity.
  - split; reflexivity.
Qed.

(** ** New acquisition *)

Module AcquisitionFacts.
Import Engine.

Section Step.
Context {num : Type} `{Number num}.

(** What the first batch of an acquisition resets, and what it leaves:
    the window, the counters and the timestamps start afresh, while the
    history of recent heart rates is carried over from before. *)
Lemma new_acquisition_effects s now ppg :
  (100 <= length ppg)%nat ->
  ~ Spec.LowSignal ppg ->
  isAcquiring s = false ->
  let s' := fst (processHeartRate s now ppg) in
  isAcquiring s' = true
  /\ acquisitionStartTime s' = now
  /\ batchesReceived s' = 1
  /\ sampleBuffer s'
     = (if (MAX_BUFFER_SIZE <? length ppg)%nat
        then Js.sliceLast MAX_BUFFER_SIZE ppg else ppg)
  /\ firstDisplayTime s' = 0
  /\ consecutiveHighZoneReadings s' <= 1
  /\ ((length ppg < 750)%nat -> recentHeartRates s' = recentHeartRates s).
Proof.
  intros Hlen Hgood Hacq s'. subst s'.
  apply ContactFacts.currentBatchHasFinger_true_iff in Hgood; [| lia].
  destruct (ContactFacts.detectContact_good s ppg Hgood) as [Hf _].
  rewrite (EngineFacts.processHeartRate_contact s now ppg Hlen Hf).
  set (s3 := ingestBatch (startAcquisition (detectContact s ppg) now) ppg).
  assert (Hs3 : isAcquiring s3 = true /\ acquisitionStartTime s3 = now
                /\ batchesReceived s3 = 1
                /\ sampleBuffer s3
                   = (if (MAX_BUFFER_SIZE <? length ppg)%nat
                      then Js.sliceLast MAX_BUFFER_SIZE ppg else ppg)
                /\ firstDisplayTime s3 = 0
                /\ consecutiveHighZoneReadings s3 = 0
                /\ recentHeartRates s3 = recentHeartRates s).
  { subst s3. unfold ingestBatch, startAcquisition. rewrite Hgood.
    replace (isAcquiring (detectContact s ppg)) with false by (symmetry; exact Hacq).
    cbn. repeat split. }
  destruct Hs3 as (A1 & A2 & A3 & A4 & A5 & A6 & A7).
  destruct (EngineFacts.track_unchanged s3 now ppg) as (B1 & B2 & _ & _ & B5 & B6).
  cbv zeta in B1, B2, B5, B6.
  rewrite B1, B2, B5, B6, EngineFacts.track_firstDisplayTime, EngineFacts.track_streak,
    EngineFacts.track_history, A1, A2, A3, A4, A5, A6, A7.
  repeat split.
  - unfold MIN_BATCHES_FOR_DISPLAY. cbn [Z.geb Z.compare Pos.compare Pos.compare_cont].
    rewrite andb_false_r. reflexivity.
  - destruct (corrected (snd (calculate s3)) 1 >=? VIGOROUS_THRESHOLD); lia.
  - intros Hshort. unfold calculate. rewrite A4.
    assert (Hsize : (length (if (MAX_BUFFER_SIZE <? length ppg)%nat
                             then Js.sliceLast MAX_BUFFER_SIZE ppg else ppg) < 750)%nat).
    { unfold MAX_BUFFER_SIZE. destruct (Nat.ltb_spec 1000 (length ppg)); lia. }
    destruct (Nat.leb_spec 750 (length (if (MAX_BUFFER_SIZE <? length ppg)%nat
                                        then Js.sliceLast MAX_BUFFER_SIZE ppg else ppg)));
      [lia | reflexivity].
Qed.

(** The same on a contact transition of a coherent state. *)
Lemma contact_transition_effects s now ppg :
  Spec.Coherent s ->
  fingerDetectedState s = false ->
  (100 <= length ppg)%nat ->
  ~ Spec.LowSignal ppg ->
  let s' := fst (processHeartRate s now ppg) in
  fingerDetectedState s' = true
  /\ acquisitionStartTime s' = now
  /\ batchesReceived s' = 1
  /\ sampleBuffer s'
     = (if (MAX_BUFFER_SIZE <? length ppg)%nat
        then Js.sliceLast MAX_BUFFER_SIZE ppg else ppg)
  /\ firstDisplayTime s' = 0
  /\ consecutiveHighZoneReadings s' <= 1
  /\ ((length ppg < 750)%nat -> recentHeartRates s' = recentHeartRates s).
Proof.
  intros Hco Hoff Hlen Hgood s'. subst s'.
  assert (Hacq : isAcquiring s = false) by (destruct Hco as [-> _]; exact Hoff).
  destruct (new_acquisition_effects s now ppg Hlen Hgood Hacq)
    as (A1 & A2 & A3 & A4 & A5 & A6 & A7).
  pose proof (InvariantFacts.step_coherent s now ppg Hco) as (Hflag' & _).
  cbv zeta in *. repeat split; try assumption. congruence.
Qed.

End Step.
End AcquisitionFacts.

(** C4 on the code.  A recording at 40 BPM is acquired, two dark batches
    follow (contact is lost and the state is reset) and then a fresh
    touch: the new acquisition starts with the batch counter at 1, the
    window holding the new batch only, the streak and the first-display
    time at zero and the acquisition start at the current time, but the
    history of recent heart rates still holds the two readings of the
    previous acquisition. *)
Theorem new_acquisition_keeps_previous_history :
  let acquired :=
    fst (Engine.processHeartRate (num := Q)
           (Engine.run (num := Q) Engine.initialState Scenario.touches)
           2000 Scenario.batch40) in
  let lost := Engine.run (num := Q) acquired
                [(2500, Scenario.dark); (3000, Scenario.dark)] in
  let out := Engine.processHeartRate (num := Q) lost 3500 Scenario.touch in
  (Engine.fingerDetectedState acquired = true /\
   Engine.recentHeartRates acquired = [39])
  /\
  (Engine.fingerDetectedState lost = false /\
   Engine.isAcquiring lost = false /\
   Engine.recentHeartRates lost = [39; 39])
  /\
  (Engine.fingerDetected (snd out) = true /\
   Engine.fingerDetectedState (fst out) = true /\
   Engine.batchesReceived (fst out) = 1 /\
   Engine.sampleBuffer (fst out) = Scenario.touch /\
   Engine.consecutiveHighZoneReadings (fst out) = 0 /\
   Engine.firstDisplayTime (fst out) = 0 /\
   Engine.acquisitionStartTime (fst out) = 3500)
  /\
  (Engine.recentHeartRates (fst out) = [39; 39] /\
   Engine.recentHeartRates (fst out) <> []).
Proof.
  cbv zeta. rewrite Runs.touches_run, Runs.batch40_run.
  cbn [fst]. unfold Engine.run. cbn [fold_left fst snd].
  rewrite Runs.dark_run.
  vm_compute. repeat split; discriminate.
Qed.

(** ** Jump limiting *)

Module JumpFacts.
Import Advanced.

Lemma limitJump_far (prior : Z) (reading : Reading.t) :
  0 < prior ->
  MAX_JUMP < Z.abs (Reading.heartRate reading - prior) ->
  limitJump prior reading
  = (if Reading.heartRate reading >? prior then prior + MAX_JUMP else prior - MAX_JUMP,
     (Reading.confidence reading * (7 # 10))%Q).
Proof.
  intros Hprior Hfar. unfold limitJump.
  destruct (Z.gtb_spec prior 0); [| lia].
  destruct (Z.gtb_spec (Z.abs (Reading.heartRate reading - prior)) MAX_JUMP);
    [reflexivity | lia].
Qed.

Lemma limitJump_near (prior : Z) (reading : Reading.t) :
  prior <= 0 \/ Z.abs (Reading.heartRate reading - prior) <= MAX_JUMP ->
  limitJump prior reading = (Reading.heartRate reading, Reading.confidence reading).
Proof.
  intros Hnear. unfold limitJump.
  destruct (Z.gtb_spec prior 0); [| reflexivity].
  destruct (Z.gtb_spec (Z.abs (Reading.heartRate reading - prior)) MAX_JUMP);
    [lia | reflexivity].
Qed.

Lemma pushed_head {A} (x : A) (l : list A) (overflow : bool) :
  overflow = (10 <? length (Js.unshift x l))%nat ->
  exists older,
    (if overflow then Js.pop (Js.unshift x l) else Js.unshift x l) = x :: older.
Proof.
  intros ->. unfold Js.unshift, Js.pop.
  destruct (10 <? length (x :: l))%nat eqn:Hlen.
  - destruct l as [| y rest]; [discriminate |].
    exists (removelast (y :: rest)). reflexivity.
  - exists l. reflexivity.
Qed.

Section Processor.
Variable assessSignalQuality : list Z -> Q.
Variable calculateHeartRate : list Z -> Reading.t.
Variable isStableReading : list Z -> bool.
Variable calculateTrend : list Z -> string.
Variable getCurrentZone : Z -> string.

(** The stored reading after a positive calculation. *)
Lemma acceptReading_stores st now reading :
  let out := acceptReading isStableReading calculateTrend getCurrentZone
                           st now reading in
  let limited := limitJump (lastHeartRate st) reading in
  lastHeartRate (fst out) = fst limited
  /\ (exists older, heartRateHistory (fst out) = fst limited :: older)
  /\ signalQuality (fst out) = snd limited
  /\ Result.quality (snd out) = snd limited
  /\ (length (confidenceScores st) = length (heartRateHistory st) ->
      exists older, confidenceScores (fst out) = snd limited :: older).
Proof.
  unfold acceptReading.
  destruct (limitJump (lastHeartRate st) reading) as [limited conf].
  cbn [fst snd lastHeartRate heartRateHistory confidenceScores signalQuality
       Result.quality].
  repeat split.
  - apply pushed_head. reflexivity.
  - intros Hsame. apply pushed_head.
    unfold Js.unshift. cbn [length]. rewrite Hsame. reflexivity.
Qed.

(** The history and the confidence scores grow and shrink together. *)
Lemma acceptReading_aligned st now reading :
  length (confidenceScores st) = length (heartRateHistory st) ->
  let st' := fst (acceptReading isStableReading calculateTrend getCurrentZone
                                st now reading) in
  length (confidenceScores st') = length (heartRateHistory st').
Proof.
  intros Hsame. unfold acceptReading.
  destruct (limitJump (lastHeartRate st) reading) as [limited conf].
  cbn [fst heartRateHistory confidenceScores].
  unfold Js.unshift, Js.pop.
  destruct (10 <? length (limited :: heartRateHistory st))%nat.
  - destruct (heartRateHistory st) as [| h hs]; destruct (confidenceScores st) as [| c cs];
      cbn [length] in Hsame; try discriminate; [reflexivity |].
    change (length (conf :: removelast (c :: cs))
            = length (limited :: removelast (h :: hs))).
    cbn [length]. f_equal.
    rewrite !removelast_firstn_len, !length_firstn. cbn [length] in *. lia.
  - cbn [length]. rewrite Hsame. reflexivity.
Qed.

(** When the calculation runs and returns a positive rate, the step is
    [acceptReading] on the state with the new buffer and time. *)
Lemma processHeartRate_accepts st now ppg :
  let appended := ppgBuffer st ++ ppg in
  let buffer := if (BUFFER_SIZE <? length appended)%nat
                then Js.sliceLast BUFFER_SIZE appended else appended in
  (300 <= length buffer)%nat ->
  (3 # 10 < assessSignalQuality buffer)%Q ->
  (500 <= now - lastCalculation st \/ smoothedHeartRate st <= 0) ->
  0 < Reading.heartRate (calculateHeartRate buffer) ->
  exists st',
    lastHeartRate st' = lastHeartRate st
    /\ heartRateHistory st' = heartRateHistory st
    /\ confidenceScores st' = confidenceScores st
    /\ processHeartRate assessSignalQuality calculateHeartRate isStableReading
                        calculateTrend getCurrentZone st now ppg
       = acceptReading isStableReading calculateTrend getCurrentZone
                       st' now (calculateHeartRate buffer).
Proof.
  intros appended buffer Hlen Hquality Hdue Hrate.
  unfold processHeartRate. fold appended. fold buffer. cbv zeta.
  unfold SAMPLE_RATE.
  destruct (Z.ltb_spec (Z.of_nat (length buffer)) (150 * 2)); [lia |].
  assert (Hfinger : Js.ltb (3 # 10) (assessSignalQuality buffer) = true).
  { unfold Js.ltb. apply negb_true_iff.
    destruct (Qle_bool (assessSignalQuality buffer) (3 # 10)) eqn:Hle;
      [| reflexivity].
    apply Qle_bool_iff in Hle. exfalso. apply (Qlt_not_le _ _ Hquality Hle). }
  rewrite Hfinger. cbn [negb].
  assert (Hskip : (now - lastCalculation st <? 500) && (smoothedHeartRate st >? 0)
                  = false).
  { destruct (Z.ltb_spec (now - lastCalculation st) 500);
      destruct (Z.gtb_spec (smoothedHeartRate st) 0); cbn [andb]; try reflexivity.
    lia. }
  rewrite Hskip.
  destruct (Z.gtb_spec (Reading.heartRate (calculateHeartRate buffer)) 0); [| lia].
  eexists. refine (conj _ (conj _ (conj _ eq_refl))); reflexivity.
Qed.

End Processor.
End JumpFacts.

(** C6.  Whenever the calculation runs, a prior accepted BPM exists and
    the newly computed raw BPM differs from it by more than
    MAX_JUMP = 15, the accepted value (stored as last heart rate and at
    the head of the history) is prior + 15 when the new value is higher
    and prior - 15 when it is lower, and the confidence of the reading
    (kept as signal quality, reported as quality and, the history and
    the confidence scores being equally long as the code keeps them,
    stored at the head of the scores) is multiplied by 0.7.  In
    particular prior 70 and raw 95 give 85. *)
Theorem jump_clamped_to_prior_plus_minus_15 :
  (forall (assessSignalQuality : list Z -> Q)
          (calculateHeartRate : list Z -> Advanced.Reading.t)
          (isStableReading : list Z -> bool)
          (calculateTrend : list Z -> string)
          (getCurrentZone : Z -> string)
          st now ppg,
      let appended := Advanced.ppgBuffer st ++ ppg in
      let buffer := if (Advanced.BUFFER_SIZE <? length appended)%nat
                    then Js.sliceLast Advanced.BUFFER_SIZE appended else appended in
      let reading := calculateHeartRate buffer in
      let raw := Advanced.Reading.heartRate reading in
      let prior := Advanced.lastHeartRate st in
      let out := Advanced.processHeartRate assessSignalQuality calculateHeartRate
                   isStableReading calculateTrend getCurrentZone st now ppg in
      let accepted := if raw >? prior then prior + 15 else prior - 15 in
      let reduced := (Advanced.Reading.confidence reading * (7 # 10))%Q in
      (300 <= length buffer)%nat ->
      (3 # 10 < assessSignalQuality buffer)%Q ->
      (500 <= now - Advanced.lastCalculation st \/ Advanced.smoothedHeartRate st <= 0) ->
      0 < raw -> 0 < prior -> 15 < Z.abs (raw - prior) ->
      Advanced.lastHeartRate (fst out) = accepted /\
      (exists older, Advanced.heartRateHistory (fst out) = accepted :: older) /\
      Advanced.signalQuality (fst out) = reduced /\
      Advanced.Result.quality (snd out) = reduced /\
      (length (Advanced.confidenceScores st) = length (Advanced.heartRateHistory st) ->
       exists older, Advanced.confidenceScores (fst out) = reduced :: older))
  /\
  (forall c : Q,
      Advanced.limitJump 70 {| Advanced.Reading.heartRate := 95;
                               Advanced.Reading.confidence := c |}
      = (85, (c * (7 # 10))%Q)).
Proof.
  split.
  - intros assess calc stableR trend zone st now ppg
           appended buffer reading raw prior out accepted reduced
           Hlen Hquality Hdue Hraw Hprior Hfar.
    destruct (JumpFacts.processHeartRate_accepts assess calc stableR trend zone
                st now ppg Hlen Hquality Hdue Hraw)
      as (st' & Hlast & Hhist & Hconf & Hstep).
    subst out. fold appended buffer in Hstep. rewrite Hstep.
    pose proof (JumpFacts.acceptReading_stores stableR trend zone st' now reading)
      as Hstore.
    rewrite Hhist, Hconf in Hstore.
    cbv zeta in Hstore. rewrite Hlast in Hstore. fold prior in Hstore.
    rewrite (JumpFacts.limitJump_far prior reading Hprior Hfar) in Hstore.
    cbn [fst snd] in Hstore. exact Hstore.
  - intros c. reflexivity.
Qed.

(** Prior 70, raw 95 at confidence 0.9: accepted 85, confidence 0.63. *)
Lemma jump_clamped_witness :
  let st := {| Advanced.fingerDetected := true;
               Advanced.ppgBuffer := [];
               Advanced.heartRateHistory := [70];
               Advanced.confidenceScores := [9 # 10];
               Advanced.timestamps := [1000];
               Advanced.lastHeartRate := 70;
               Advanced.lastCalculation := 1000;
               Advanced.signalQuality := 9 # 10;
               Advanced.stabilityCounter := 0;
               Advanced.smoothedHeartRate := 70 |} in
  let out := Advanced.processHeartRate
               (fun _ => 1%Q)
               (fun _ => {| Advanced.Reading.heartRate := 95;
                            Advanced.Reading.confidence := 9 # 10 |})
               (fun _ => true) (fun _ => "stable") (fun _ => "Rest")
               st 2000 (repeat 20000 300) in
  Advanced.lastHeartRate (fst out) = 85 /\
  (exists older, Advanced.heartRateHistory (fst out) = 85 :: older) /\
  Advanced.signalQuality (fst out) = ((9 # 10) * (7 # 10))%Q /\
  Advanced.Result.quality (snd out) = ((9 # 10) * (7 # 10))%Q /\
  (length (Advanced.confidenceScores st) = length (Advanced.heartRateHistory st) ->
   exists older,
     Advanced.confidenceScores (fst out) = ((9 # 10) * (7 # 10))%Q :: older).
Proof.
  intros st out.
  destruct jump_clamped_to_prior_plus_minus_15 as [Hgeneral _].
  apply (Hgeneral (fun _ => 1%Q)
                  (fun _ => {| Advanced.Reading.heartRate := 95;
                               Advanced.Reading.confidence := 9 # 10 |})
                  (fun _ => true) (fun _ => "stable") (fun _ => "Rest")
                  st 2000 (repeat 20000 300)).
  - vm_compute. lia.
  - reflexivity.
  - left. vm_compute. discriminate.
  - vm_compute. reflexivity.
  - vm_compute. reflexivity.
  - vm_compute. reflexivity.
Defined.

(** ** Instances of the general statements *)

(** The retry pass at work: the first scan of [twoTier] finds the peak
    at 50 only, the lower threshold adds the one at 95. *)
Lemma detectPeaks_spacing_witness :
  Signal.detectPeaks Scenario.twoTier = [50; 95] /\
  38 <= nth 1 (Signal.detectPeaks Scenario.twoTier) 0
        - nth 0 (Signal.detectPeaks Scenario.twoTier) 0.
Proof.
  assert (Hpeaks : Signal.detectPeaks Scenario.twoTier = [50; 95])
    by (vm_compute; reflexivity).
  split; [exact Hpeaks |].
  destruct (detectPeaks_strictly_increasing_and_spaced Q NumberQ Scenario.twoTier)
    as [_ Hspaced].
  apply Hspaced. rewrite Hpeaks. cbn. lia.
Defined.

(** A touch, then two dark batches, from the initial state. *)
Lemma contact_flag_witness :
  let s0 := fst (Engine.processHeartRate (num := Q)
                   Engine.initialState 0 Scenario.touch) in
  let out1 := Engine.processHeartRate (num := Q) s0 500 Scenario.dark in
  let out2 := Engine.processHeartRate (num := Q) (fst out1) 1000 Scenario.dark in
  Engine.fingerDetectedState (fst out1) = true /\
  Engine.fingerDetected (snd out1) = true /\
  Engine.fingerDetectedState (fst out2) = false /\
  Engine.fingerDetected (snd out2) = false.
Proof.
  destruct (contact_flag_is_debounced Q NumberQ) as (_ & Hdebounce & _).
  apply (Hdebounce Engine.initialState 0 Scenario.touch 500 Scenario.dark
                   1000 Scenario.dark).
  - vm_compute. lia.
  - vm_compute. lia.
  - vm_compute. lia.
  - apply ContactFacts.currentBatchHasFinger_true_iff;
      [vm_compute; lia | vm_compute; reflexivity].
  - apply ContactFacts.currentBatchHasFinger_false_iff;
      [vm_compute; lia | vm_compute; reflexivity].
  - apply ContactFacts.currentBatchHasFinger_false_iff;
      [vm_compute; lia | vm_compute; reflexivity].
Defined.

(** The readings [72; 74; 70; 73] with 12 batches behind them: a further
    batch with contact reports a stable reading in the tracking phase. *)
Lemma stable_readings_witness :
  let out := Engine.processHeartRate (num := Q)
               Scenario.steady 15000 Scenario.touch in
  Engine.recentHeartRates (fst out) = [72; 74; 70; 73] /\
  Engine.isStable (fst out) = true /\
  Engine.phase (snd out) = "tracking".
Proof.
  cbv zeta.
  assert (Hhistory : Engine.recentHeartRates
                       (fst (Engine.processHeartRate (num := Q) Scenario.steady
                                                     15000 Scenario.touch))
                     = [72; 74; 70; 73]) by (vm_compute; reflexivity).
  destruct stable_readings_give_tracking_phase as [Hgeneral [_ Hpairs]].
  pose proof (Hgeneral Q NumberQ Scenario.steady 15000 Scenario.touch) as Hhere.
  cbv zeta in Hhere. rewrite Hhistory in Hhere.
  destruct Hhere as [Hstable Hphase]; [vm_compute; reflexivity |].
  assert (Hs : Engine.isStable
                 (fst (Engine.processHeartRate (num := Q) Scenario.steady
                                               15000 Scenario.touch)) = true).
  { apply Hstable. split; [cbn; lia | exact Hpairs]. }
  split; [exact Hhistory |]. split; [exact Hs |].
  destruct Hphase as [Htracking _]; [vm_compute; discriminate |].
  apply Htracking. exact Hs.
Defined.


(** * Further properties *)

(** ** Conditioning and peak detection *)

Module SignalFacts.
Import Signal.

Section Generic.
Context {num : Type} `{Number num}.

Lemma movingAverage_length (w : nat) (xs : list num) :
  length (movingAverage w xs) = length xs.
Proof. unfold movingAverage. rewrite length_map, length_seq. reflexivity. Qed.

Lemma exceeds_local (sig : list num) (thr : option num) (i : nat) :
  exceeds sig thr i = true -> Shape.LocalPeak sig i.
Proof.
  unfold exceeds, Shape.LocalPeak. rewrite !andb_true_iff. tauto.
Qed.

Lemma firstPassStep_visited sig thr st i :
  In i (scanIndices sig) -> Shape.Visited sig st -> Shape.Visited sig (firstPassStep sig thr st i).
Proof.
  destruct st as [peaks last]. intros Hi Hv. unfold firstPassStep.
  destruct (exceeds sig thr i) eqn:He; cbn [andb]; [| exact Hv].
  destruct (Z.of_nat i - last >=? minPeakDistance); [| exact Hv].
  intros p Hp. cbn [fst] in Hp. apply in_app_or in Hp.
  destruct Hp as [Hp | [<- | []]]; [apply Hv; exact Hp |].
  exists i. repeat split; [exact Hi | apply (exceeds_local sig thr i He)..].
Qed.

Lemma secondPassStep_visited sig thr st i :
  In i (scanIndices sig) -> Shape.Visited sig st -> Shape.Visited sig (secondPassStep sig thr st i).
Proof.
  destruct st as [peaks last]. intros Hi Hv. unfold secondPassStep.
  destruct (existsb (Z.eqb (Z.of_nat i)) peaks); [exact Hv |].
  destruct (exceeds sig thr i) eqn:He; cbn [andb]; [| exact Hv].
  destruct (Z.of_nat i - last >=? minPeakDistance); [| exact Hv].
  intros p Hp. cbn [fst] in Hp. apply in_app_or in Hp.
  destruct Hp as [Hp | [<- | []]]; [apply Hv; exact Hp |].
  exists i. repeat split; [exact Hi | apply (exceeds_local sig thr i He)..].
Qed.

Lemma fold_visited (sig : list num) (step : Scan -> nat -> Scan) :
  (forall st i, In i (scanIndices sig) -> Shape.Visited sig st -> Shape.Visited sig (step st i)) ->
  forall idx st,
    (forall i, In i idx -> In i (scanIndices sig)) ->
    Shape.Visited sig st -> Shape.Visited sig (fold_left step idx st).
Proof.
  intros Hstep idx. induction idx as [| i idx IH]; intros st Hsub Hst; cbn [fold_left].
  - exact Hst.
  - apply IH; [intros j Hj; apply Hsub; right; exact Hj |].
    apply Hstep; [apply Hsub; left; reflexivity | exact Hst].
Qed.

Lemma detectPeaksWith_visited (k : nat) (sig : list num) :
  forall p, In p (detectPeaksWith k sig) ->
            exists i, p = Z.of_nat i /\ In i (scanIndices sig) /\ Shape.LocalPeak sig i.
Proof.
  unfold detectPeaksWith.
  set (thr := scale (1 # 2) (thresholdBaseOf sig)).
  set (first := fold_left (firstPassStep sig thr) (scanIndices sig)
                          ([], - minPeakDistance)).
  assert (H1 : Shape.Visited sig first).
  { apply fold_visited; [intros; apply firstPassStep_visited; assumption | auto |].
    intros p []. }
  assert (S1 : Spec.ScanInv first).
  { apply PeakFacts.fold_inv; [intros; apply PeakFacts.firstPassStep_inv; assumption |].
    split; cbn; [constructor | intros p []]. }
  destruct ((length (fst first) <? k)%nat && isPositive (thresholdBaseOf sig)).
  - set (lo := scale (2 # 10) (thresholdBaseOf sig)).
    set (second := fold_left (secondPassStep sig lo) (scanIndices sig) first).
    assert (H2 : Shape.Visited sig second)
      by (apply fold_visited;
          [intros; apply secondPassStep_visited; assumption | auto | exact H1]).
    assert (S2 : Spec.ScanInv second)
      by (apply PeakFacts.fold_inv;
          [intros; apply PeakFacts.secondPassStep_inv; assumption | exact S1]).
    rewrite PeakFacts.sortAscending_Spaced by apply S2. exact H2.
  - exact H1.
Qed.

Lemma scanIndices_range (sig : list num) (i : nat) :
  In i (scanIndices sig) -> (2 <= i)%nat /\ (i + 2 < length sig)%nat.
Proof. unfold scanIndices. rewrite in_seq. lia. Qed.

(** In a spaced array the [k]-th entry lies [38 k] past the first. *)
Lemma Spaced_reach (l : list Z) :
  Spec.Spaced l ->
  forall k, (k < length l)%nat -> nth 0 l 0 + 38 * Z.of_nat k <= nth k l 0.
Proof.
  intros Hs k. induction k as [| k IH]; intros Hk; [lia |].
  pose proof (PeakFacts.Spaced_nth l Hs k Hk) as Hstep.
  unfold minPeakDistance in Hstep.
  assert (nth 0 l 0 + 38 * Z.of_nat k <= nth k l 0) by (apply IH; lia). lia.
Qed.

(** Every returned index is an inner index holding a local peak. *)
Lemma detectPeaksWith_inner (k : nat) (sig : list num) (p : Z) :
  In p (detectPeaksWith k sig) ->
  exists i, p = Z.of_nat i /\ (2 <= i)%nat /\ (i + 2 < length sig)%nat
            /\ Shape.LocalPeak sig i.
Proof.
  intros Hp. destruct (detectPeaksWith_visited k sig p Hp) as (i & -> & Hi & Hl).
  exists i. destruct (scanIndices_range sig i Hi). auto.
Qed.

(** [n] peaks need [38 (n - 1) + 5] values. *)
Lemma detectPeaksWith_count (k : nat) (sig : list num) :
  detectPeaksWith k sig <> [] ->
  38 * (Z.of_nat (length (detectPeaksWith k sig)) - 1) + 5 <= Z.of_nat (length sig).
Proof.
  intros Hne.
  pose proof (PeakFacts.detectPeaksWith_Spaced k sig) as Hs.
  pose proof (detectPeaksWith_inner k sig) as Hin.
  set (peaks := detectPeaksWith k sig) in *.
  assert (Hlen : (0 < length peaks)%nat) by (destruct peaks; [congruence | cbn; lia]).
  assert (Hlast : (length peaks - 1 < length peaks)%nat) by lia.
  pose proof (Spaced_reach peaks Hs (length peaks - 1) Hlast) as Hreach.
  destruct (Hin (nth 0 peaks 0) (nth_In peaks 0 Hlen)) as (i & Hi & Hlo & _).
  destruct (Hin (nth (length peaks - 1) peaks 0) (nth_In peaks 0 Hlast))
    as (j & Hj & _ & Hhi & _).
  lia.
Qed.

Lemma detectPeaksWith_at_most_27 (k : nat) (sig : list num) :
  (length sig <= 1000)%nat -> (length (detectPeaksWith k sig) <= 27)%nat.
Proof.
  intros Hsize. pose proof (detectPeaksWith_count k sig) as Hbound.
  destruct (detectPeaksWith k sig) as [| p rest]; [cbn; lia |].
  assert (Hne : p :: rest <> []) by discriminate.
  specialize (Hbound Hne). lia.
Qed.

Lemma filterSignal_length_max (ppgData : list Z) :
  length (filterSignal (num := num) ppgData) = Nat.max 1 (length ppgData).
Proof.
  unfold filterSignal.
  rewrite movingAverage_length, length_map. cbn [length].
  rewrite length_map, length_seq, movingAverage_length, length_map.
  lia.
Qed.

End Generic.
End SignalFacts.

(** X1.  For every implementation of the number operations,
    [filterSignal] returns one value per sample, except that the empty
    input yields a one-element signal (the zero put in front of the
    derivative). *)
Theorem filterSignal_length :
  forall (num : Type) (N : Number num) (ppgData : list Z),
    length (Signal.filterSignal (num := num) ppgData) = Nat.max 1 (length ppgData).
Proof.
  intros num N ppg. apply SignalFacts.filterSignal_length_max.
Qed.

(** X2.  Every index [detectPeaks] returns lies at least two positions
    inside the signal on both sides and holds a value greater than its
    two neighbours on each side; a signal of fewer than five values has
    no peaks. *)
Theorem detectPeaks_are_inner_local_maxima :
  forall (num : Type) (N : Number num) (filteredSignal : list num),
    (forall p, In p (Signal.detectPeaks filteredSignal) ->
               exists i, p = Z.of_nat i /\ (2 <= i)%nat
                         /\ (i + 2 < length filteredSignal)%nat
                         /\ Shape.LocalPeak filteredSignal i)
    /\
    ((length filteredSignal < 5)%nat -> Signal.detectPeaks filteredSignal = []).
Proof.
  intros num N sig.
  split; [intros p; apply SignalFacts.detectPeaksWith_inner |].
  intros Hshort. destruct (Signal.detectPeaks sig) as [| p rest] eqn:Hpeaks;
    [reflexivity |].
  assert (Hp : In p (Signal.detectPeaks sig)) by (rewrite Hpeaks; left; reflexivity).
  destruct (SignalFacts.detectPeaksWith_inner 3%nat sig p Hp) as (i & _ & Hlo & Hhi & _).
  lia.
Qed.

(** The peak at 95 of [twoTier], found by the retry scan. *)
Lemma detectPeaks_inner_witness :
  exists i, 95 = Z.of_nat i /\ (2 <= i)%nat
            /\ (i + 2 < length Scenario.twoTier)%nat
            /\ Shape.LocalPeak Scenario.twoTier i.
Proof.
  destruct (detectPeaks_are_inner_local_maxima Q NumberQ Scenario.twoTier) as [Hin _].
  apply Hin. vm_compute. auto.
Defined.

(** X3.  The number of peaks is bounded by the length of the signal: with
    [n] peaks, [38 (n - 1) + 5] values at least are needed, so a window
    of 1000 samples holds at most 27 peaks. *)
Theorem detectPeaks_count_bound :
  forall (num : Type) (N : Number num) (filteredSignal : list num),
    let peaks := Signal.detectPeaks filteredSignal in
    (peaks <> [] ->
     38 * (Z.of_nat (length peaks) - 1) + 5 <= Z.of_nat (length filteredSignal))
    /\
    ((length filteredSignal <= 1000)%nat -> (length peaks <= 27)%nat).
Proof.
  intros num N sig peaks. split.
  - apply SignalFacts.detectPeaksWith_count.
  - apply SignalFacts.detectPeaksWith_at_most_27.
Qed.

(** [twoTier], 120 values long, has two peaks. *)
Lemma detectPeaks_count_witness :
  38 * (Z.of_nat (length (Signal.detectPeaks Scenario.twoTier)) - 1) + 5
  <= Z.of_nat (length Scenario.twoTier)
  /\ (length (Signal.detectPeaks Scenario.twoTier) <= 27)%nat.
Proof.
  destruct (detectPeaks_count_bound Q NumberQ Scenario.twoTier) as [Hbound Hmost].
  split.
  - apply Hbound. vm_compute. discriminate.
  - apply Hmost. vm_compute. lia.
Defined.

(** ** The buffered engine: bounds *)

Module BoundFacts.
Import Engine.

Lemma Math_round_range (x : Q) (a b : Z) :
  (inject_Z a <= x)%Q -> (x <= inject_Z b)%Q -> a <= Js.Math_round x <= b.
Proof.
  intros Ha Hb. unfold Js.Math_round. split.
  - rewrite <- (Qfloor_Z a). apply Qfloor_resp_le. lra.
  - apply Z.lt_succ_r. rewrite Zlt_Qlt.
    pose proof (Qfloor_le (x + (1 # 2))) as Hfloor.
    unfold Z.succ. rewrite inject_Z_plus. change (inject_Z 1) with 1%Q. lra.
Qed.

Lemma sum_shift (l : list Z) (a : Z) : fold_left Z.add l a = a + Js.sum l.
Proof.
  unfold Js.sum. revert a. induction l as [| x l IH]; intros a; cbn [fold_left].
  - lia.
  - rewrite IH, (IH (0 + x)). lia.
Qed.

Lemma sum_cons (x : Z) (l : list Z) : Js.sum (x :: l) = x + Js.sum l.
Proof. unfold Js.sum at 1. cbn [fold_left]. rewrite sum_shift. lia. Qed.

Lemma sum_bounds (lo hi : Z) (l : list Z) :
  Forall (fun x => lo <= x <= hi) l ->
  lo * Z.of_nat (length l) <= Js.sum l <= hi * Z.of_nat (length l).
Proof.
  induction 1 as [| x l Hx _ IH].
  - cbn. lia.
  - rewrite sum_cons. cbn [length]. lia.
Qed.

(** The quotient of a sum by the number of its terms lies between the
    bounds of the terms. *)
Lemma mean_bounds (lo hi : Z) (l : list Z) :
  l <> [] ->
  Forall (fun x => lo <= x <= hi) l ->
  (inject_Z lo <= inject_Z (Js.sum l) / inject_Z (Z.of_nat (length l)))%Q /\
  (inject_Z (Js.sum l) / inject_Z (Z.of_nat (length l)) <= inject_Z hi)%Q.
Proof.
  intros Hne Hall. pose proof (sum_bounds lo hi l Hall) as [Hlo Hhi].
  assert (Hn : 0 < Z.of_nat (length l)) by (destruct l; [congruence | cbn; lia]).
  assert (HnQ : (0 < inject_Z (Z.of_nat (length l)))%Q).
  { change 0%Q with (inject_Z 0). rewrite <- Zlt_Qlt. exact Hn. }
  split.
  - apply Qle_shift_div_l; [exact HnQ |].
    rewrite <- inject_Z_mult, <- Zle_Qle. exact Hlo.
  - apply Qle_shift_div_r; [exact HnQ |].
    rewrite <- inject_Z_mult, <- Zle_Qle. exact Hhi.
Qed.

Lemma Forall_weaken_rate (l : list Z) :
  Forall (fun bpm => 0 < bpm <= 200) l -> Forall (fun x => 1 <= x <= 200) l.
Proof. apply Forall_impl. intros; lia. Qed.

Lemma recentMean_bounds (history : list Z) :
  history <> [] ->
  Forall (fun bpm => 0 < bpm <= 200) history ->
  0 < recentMean history <= 200.
Proof.
  intros Hne Hall. unfold recentMean, Js.slicePrefix, Js.num.
  set (values := firstn (Nat.min 4 (length history)) history).
  assert (Hv : Forall (fun x => 1 <= x <= 200) values)
    by (apply Forall_weaken_rate, InvariantFacts.Forall_prefix, Hall).
  assert (Hvne : values <> []).
  { subst values. destruct history as [| x rest]; [congruence |]. cbn. discriminate. }
  destruct (mean_bounds 1 200 values Hvne Hv) as [Hlo Hhi].
  pose proof (Math_round_range _ 1 200 Hlo Hhi). lia.
Qed.

Lemma insertBy_In {A} (before : A -> A -> bool) (x y : A) (l : list A) :
  In x (Js.insertBy before y l) <-> x = y \/ In x l.
Proof.
  induction l as [| z l IH]; cbn [Js.insertBy In].
  - intuition congruence.
  - destruct (before z y); cbn [In]; rewrite ?IH; intuition congruence.
Qed.

Lemma insertBy_length {A} (before : A -> A -> bool) (y : A) (l : list A) :
  length (Js.insertBy before y l) = S (length l).
Proof.
  induction l as [| z l IH]; cbn [Js.insertBy length]; [reflexivity |].
  destruct (before z y); cbn [length]; rewrite ?IH; reflexivity.
Qed.

(** Sorting rearranges: same members, same length. *)
Lemma sortBy_In {A} (before : A -> A -> bool) (x : A) (l : list A) :
  In x (Js.sortBy before l) <-> In x l.
Proof.
  unfold Js.sortBy. induction l as [| y l IH]; cbn [fold_right In]; [tauto |].
  rewrite insertBy_In, IH. intuition congruence.
Qed.

Lemma sortBy_length {A} (before : A -> A -> bool) (l : list A) :
  length (Js.sortBy before l) = length l.
Proof.
  unfold Js.sortBy. induction l as [| y l IH]; cbn [fold_right length]; [reflexivity |].
  rewrite insertBy_length, IH. reflexivity.
Qed.

Lemma median_member (history : list Z) :
  history <> [] ->
  In (nth (length (Js.sortAscending history) / 2) (Js.sortAscending history) 0) history.
Proof.
  intros Hne. unfold Js.sortAscending.
  apply (sortBy_In Z.leb). apply nth_In.
  rewrite sortBy_length.
  assert (0 < length history)%nat by (destruct history; [congruence | cbn; lia]).
  apply Nat.Div0.div_lt_upper_bound. lia.
Qed.

(** A product with a literal that is not negative grows with the
    integer factor. *)
Lemma scaled_le (c : Q) (x y : Z) :
  (0 <= c)%Q -> x <= y -> (Js.mul (Js.num x) c <= Js.mul (Js.num y) c)%Q.
Proof.
  intros Hc Hxy. unfold Js.mul, Js.num. apply DoubleFacts.double_monotone.
  assert (Hq : (inject_Z x <= inject_Z y)%Q) by (rewrite <- Zle_Qle; exact Hxy).
  nra.
Qed.

Lemma blend_bounds (m h : Z) :
  0 <= m <= 200 -> 0 <= h <= 200 ->
  0 <= Js.Math_round (Js.add (Js.mul (Js.num m) (Js.lit (7 # 10)))
                             (Js.mul (Js.num h) (Js.lit (3 # 10)))) <= 200.
Proof.
  intros Hm Hh.
  assert (H7 : (0 <= Js.lit (7 # 10))%Q) by (vm_compute; discriminate).
  assert (H3 : (0 <= Js.lit (3 # 10))%Q) by (vm_compute; discriminate).
  pose proof (scaled_le _ 0 m H7 ltac:(lia)) as Ha0.
  pose proof (scaled_le _ m 200 H7 ltac:(lia)) as Ha1.
  pose proof (scaled_le _ 0 h H3 ltac:(lia)) as Hb0.
  pose proof (scaled_le _ h 200 H3 ltac:(lia)) as Hb1.
  assert (Hz7 : (Js.mul (Js.num 0) (Js.lit (7 # 10)) == 0)%Q) by (vm_compute; reflexivity).
  assert (Hz3 : (Js.mul (Js.num 0) (Js.lit (3 # 10)) == 0)%Q) by (vm_compute; reflexivity).
  rewrite Hz7 in Ha0. rewrite Hz3 in Hb0.
  set (a := Js.mul (Js.num m) (Js.lit (7 # 10))) in *.
  set (b := Js.mul (Js.num h) (Js.lit (3 # 10))) in *.
  split.
  - apply InvariantFacts.Math_round_nonneg. unfold Js.add.
    apply DoubleFacts.double_nonneg. lra.
  - assert (Htop : Js.Math_round
                     (Js.add (Js.mul (Js.num 200) (Js.lit (7 # 10)))
                             (Js.mul (Js.num 200) (Js.lit (3 # 10)))) = 200)
      by (vm_compute; reflexivity).
    apply Z.le_trans
      with (Js.Math_round
              (Js.add (Js.mul (Js.num 200) (Js.lit (7 # 10)))
                      (Js.mul (Js.num 200) (Js.lit (3 # 10)))));
      [| rewrite Htop; lia].
    apply InvariantFacts.Math_round_le. unfold Js.add.
    apply DoubleFacts.double_monotone. lra.
Qed.

(** The consensus of readings within (0, 200] and a rate within
    [0, 200] is within [0, 200]. *)
Lemma consensusRate_bounds history hr now fdt streak :
  Forall (fun bpm => 0 < bpm <= 200) history ->
  0 <= hr <= 200 ->
  0 <= consensusRate history hr now fdt streak <= 200.
Proof.
  intros Hall Hhr. unfold consensusRate.
  destruct (Nat.leb_spec 3 (length history)) as [Hlen | _]; [| lia].
  assert (Hne : history <> []) by (destruct history; [cbn in Hlen; lia | discriminate]).
  pose proof (recentMean_bounds history Hne Hall) as Hmean.
  destruct (allWithin15 history); cbn [negb].
  - destruct (Z.gtb_spec hr 0); [lia |].
    destruct history as [| x rest]; [congruence |].
    cbn [nth]. inversion Hall; subst. lia.
  - destruct ((hr >=? VIGOROUS_THRESHOLD) && _); [| lia].
    pose proof (median_member history Hne) as Hmed.
    set (m := nth (length (Js.sortAscending history) / 2) (Js.sortAscending history) 0) in *.
    rewrite Forall_forall in Hall. specialize (Hall m Hmed).
    destruct (m >=? VIGOROUS_THRESHOLD); [lia |].
    pose proof (blend_bounds m hr ltac:(lia) Hhr). lia.
Qed.

(** The restriction never raises a rate and keeps it positive. *)
Lemma suppressHigh_bounds final now fdt streak last :
  0 <= final -> 0 <= last ->
  0 <= suppressHigh final now fdt streak last <= final.
Proof.
  intros Hf Hl. unfold suppressHigh, VIGOROUS_THRESHOLD.
  destruct (Z.geb_spec final 130); [| lia].
  destruct (timeSince fdt now <? 60000).
  - destruct (streak <? requiredStreak (timeSince fdt now)); [| lia].
    destruct ((last >? 0) && (last <? Z.min final 125)); lia.
  - destruct (timeSince fdt now <? 180000); [| lia].
    destruct (streak <? MIN_HIGH_ZONE_STREAK); [| lia].
    destruct ((last >? 0) && (last <? final)); lia.
Qed.

Section Step.
Context {num : Type} `{Number num}.

(** The state handed to the tracking stage. *)
Lemma prepared_bounds s now ppg :
  (length (sampleBuffer s) <= 1000)%nat ->
  0 <= batchesReceived s ->
  0 <= consecutiveHighZoneReadings s ->
  let s3 := ingestBatch (startAcquisition (detectContact s ppg) now) ppg in
  (length (sampleBuffer s3) <= 1000)%nat
  /\ 0 <= batchesReceived s3
  /\ 0 <= consecutiveHighZoneReadings s3.
Proof.
  intros Hbuf Hb Hs. unfold ingestBatch, startAcquisition, MAX_BUFFER_SIZE, Js.sliceLast.
  destruct (currentBatchHasFinger ppg); destruct (isAcquiring (detectContact s ppg));
    cbn [sampleBuffer batchesReceived consecutiveHighZoneReadings negb detectContact];
    repeat split; try lia;
    try (destruct (Nat.ltb_spec 1000 (length (sampleBuffer s ++ ppg)));
         [rewrite length_skipn; lia | lia]);
    try (destruct (Nat.ltb_spec 1000 (length ([] ++ ppg)));
         [rewrite length_skipn; lia | lia]);
    cbn; lia.
Qed.

Lemma calculated_bounds (s : State) :
  0 <= batchesReceived s ->
  0 <= corrected (snd (calculate s)) (batchesReceived s) <= 200.
Proof.
  intros Hb.
  destruct (InvariantFacts.corrected_cases (snd (calculate s)) (batchesReceived s) Hb
              (InvariantFacts.calculate_cases s)) as [[_ ->] | [Hc Hr]]; lia.
Qed.

(** The final rate of the tracking stage. *)
Lemma track_final_bounds s now ppg d :
  0 <= batchesReceived s ->
  0 <= lastDisplayedHeartRate s ->
  (length (recentHeartRates s) <= 4)%nat ->
  Forall (fun bpm => 0 < bpm <= 200) (recentHeartRates s) ->
  debug (snd (track s now ppg)) = Some d ->
  0 <= finalRate d <= 200.
Proof.
  intros Hb Hl Hlen Hall Hd.
  destruct (EngineFacts.track_finalRate s now ppg d Hd) as [Hfinal _].
  cbv zeta in Hfinal. rewrite Hfinal.
  pose proof (calculated_bounds s Hb) as Hcalc.
  rewrite (EngineFacts.track_calculatedRate s now ppg d Hd).
  rewrite EngineFacts.track_history.
  destruct (InvariantFacts.pushHistory_coherent _ _ Hcalc Hlen Hall) as [_ Hall'].
  pose proof (consensusRate_bounds
                (pushHistory (corrected (snd (calculate s)) (batchesReceived s))
                             (recentHeartRates s))
                (corrected (snd (calculate s)) (batchesReceived s)) now
                (firstDisplayTime (fst (track s now ppg)))
                (consecutiveHighZoneReadings (fst (track s now ppg)))
                Hall' Hcalc) as Hcons.
  pose proof (suppressHigh_bounds _ now (firstDisplayTime (fst (track s now ppg)))
                (consecutiveHighZoneReadings (fst (track s now ppg)))
                (lastDisplayedHeartRate s) (proj1 Hcons) Hl).
  lia.
Qed.

End Step.
End BoundFacts.

(** ** The buffered engine: what every run keeps *)

Module WellFormedFacts.
Import Engine.

Lemma initialState_well_formed : Shape.WellFormed initialState.
Proof.
  split; [exact InvariantFacts.initialState_coherent |].
  cbn. repeat split; lia.
Qed.

Lemma afterTouches_well_formed : Shape.WellFormed Scenario.afterTouches.
Proof.
  unfold Shape.WellFormed, Spec.Coherent. cbn -[Scenario.touch].
  assert (length (Scenario.touch ++ Scenario.touch ++ Scenario.touch ++ Scenario.touch)
          <= 1000)%nat by (vm_compute; lia).
  repeat split; try lia; try discriminate. constructor.
Qed.

Lemma steady_well_formed : Shape.WellFormed Scenario.steady.
Proof.
  unfold Shape.WellFormed, Spec.Coherent. cbn.
  repeat split; try lia; try discriminate.
  repeat constructor; lia.
Qed.

Section Step.
Context {num : Type} `{Number num}.

(** With contact kept, the low-signal counter left by [detectContact] is
    0 or 1. *)
Lemma detectContact_counter s ppg :
  0 <= consecutiveLowSignalBatches s ->
  fingerDetectedState (detectContact s ppg) = true ->
  0 <= consecutiveLowSignalBatches (detectContact s ppg) <= 1.
Proof.
  unfold detectContact. cbn [fingerDetectedState consecutiveLowSignalBatches].
  intros Hlow. destruct (currentBatchHasFinger ppg); cbn [negb]; [lia |].
  destruct (Z.geb_spec (consecutiveLowSignalBatches s + 1) 2); [discriminate | lia].
Qed.

Lemma step_well_formed s now ppg :
  Shape.WellFormed s -> Shape.WellFormed (fst (processHeartRate s now ppg)).
Proof.
  intros (Hco & Hbuf & Hlow & Hstreak & Hlast & Hoff).
  pose proof (InvariantFacts.step_coherent s now ppg Hco) as Hco'.
  destruct (EngineFacts.processHeartRate_cases s now ppg)
    as [Hshort | [Hlost | (Hsize & Hf & Hcontact)]].
  - rewrite Hshort. cbn [fst].
    exact (conj Hco (conj Hbuf (conj Hlow (conj Hstreak (conj Hlast Hoff))))).
  - rewrite Hlost in *. cbn [fst] in *. split; [exact Hco' |].
    cbn. repeat split; lia.
  - rewrite Hcontact in *.
    set (s3 := ingestBatch (startAcquisition (detectContact s ppg) now) ppg) in *.
    destruct Hco as (_ & Hb & Hlen & Hall).
    destruct (EngineFacts.prepare_fields s now ppg) as (Hh3 & Hl3 & Hf3 & Hlow3 & _).
    cbv zeta in Hh3, Hl3, Hf3, Hlow3. fold s3 in Hh3, Hl3, Hf3, Hlow3.
    destruct (BoundFacts.prepared_bounds s now ppg Hbuf Hb Hstreak) as (Hbuf3 & Hb3 & Hs3).
    fold s3 in Hbuf3, Hb3, Hs3.
    destruct (EngineFacts.track_unchanged s3 now ppg) as (_ & Hsb & Hfd & Hlw & _).
    cbv zeta in Hsb, Hfd, Hlw.
    split; [exact Hco' |].
    split; [rewrite Hsb; exact Hbuf3 |].
    split; [rewrite Hlw, Hlow3; apply detectContact_counter; [lia | exact Hf] |].
    split.
    { rewrite EngineFacts.track_streak.
      destruct (_ >=? VIGOROUS_THRESHOLD); lia. }
    split.
    { destruct (EngineFacts.track_debug s3 now ppg) as [d Hd].
      rewrite (EngineFacts.track_lastDisplayed s3 now ppg d Hd).
      assert (Hfinal : 0 <= finalRate d <= 200).
      { apply (BoundFacts.track_final_bounds s3 now ppg d); try rewrite Hl3;
          try rewrite Hh3; try lia; try exact Hall; exact Hd. }
      destruct ((finalRate d >? 0) && _); [exact Hfinal | rewrite Hl3; exact Hlast]. }
    rewrite Hfd, Hf3, Hf. discriminate.
Qed.

Lemma run_well_formed s batches :
  Shape.WellFormed s -> Shape.WellFormed (run s batches).
Proof.
  unfold run. revert s.
  induction batches as [| b rest IH]; intros s Hs; cbn [fold_left].
  - exact Hs.
  - apply IH, step_well_formed, Hs.
Qed.

(** The response of a step that is not a tracking step. *)
Lemma noSignalResponse_shape (s : State) : Shape.NoSignal (noSignalResponse s).
Proof. unfold Shape.NoSignal. cbn. repeat split. Qed.

End Step.
End WellFormedFacts.

(** X4.  Without contact the answer is the fixed no-signal record.  The
    response reports [fingerDetected = false] exactly when the batch has
    fewer than 100 samples or the debounced contact flag is off after the
    batch; the response is then the no-signal record (rate 0, "No
    signal", "Place finger on sensor", zone "Rest", phase "no_signal",
    no debug block), and a batch of fewer than 100 samples leaves every
    module variable as it was. *)
Theorem no_contact_gives_the_no_signal_record
  {num : Type} `{Number num} (s : Engine.State) (now : Z) (ppgData : list Z) :
  let out := Engine.processHeartRate s now ppgData in
  (Engine.fingerDetected (snd out) = false
   <-> (length ppgData < 100)%nat
       \/ Engine.fingerDetectedState (Engine.detectContact s ppgData) = false)
  /\ (Engine.fingerDetected (snd out) = false -> Shape.NoSignal (snd out))
  /\ ((length ppgData < 100)%nat -> fst out = s).
Proof.
  cbv zeta.
  assert (Htrack : (100 <= length ppgData)%nat ->
                   Engine.fingerDetectedState (Engine.detectContact s ppgData) = true ->
                   Engine.fingerDetected (snd (Engine.processHeartRate s now ppgData)) = true).
  { intros Hsize Hf. rewrite (EngineFacts.processHeartRate_contact s now ppgData Hsize Hf).
    destruct (EngineFacts.track_debug
                (Engine.ingestBatch
                   (Engine.startAcquisition (Engine.detectContact s ppgData) now) ppgData)
                now ppgData) as [d Hd].
    destruct (EngineFacts.track_response _ now ppgData d Hd) as (_ & Hfd & _).
    cbv zeta in Hfd. rewrite Hfd.
    destruct (EngineFacts.prepare_fields s now ppgData) as (_ & _ & Hf3 & _).
    cbv zeta in Hf3. rewrite Hf3. exact Hf. }
  destruct (Nat.ltb_spec (length ppgData) 100) as [Hshort | Hsize].
  - rewrite (EngineFacts.processHeartRate_short s now ppgData Hshort). cbn [fst snd].
    split; [split; [intros _; left; exact Hshort | reflexivity] |].
    split; [intros _; apply WellFormedFacts.noSignalResponse_shape | reflexivity].
  - destruct (Engine.fingerDetectedState (Engine.detectContact s ppgData)) eqn:Hf.
    + rewrite (Htrack Hsize eq_refl).
      split; [split; [discriminate | intros [Hlt | Hoff]; [lia | discriminate]] |].
      split; [discriminate | lia].
    + rewrite (EngineFacts.processHeartRate_lost s now ppgData Hsize Hf). cbn [fst snd].
      split; [split; [intros _; right; reflexivity | reflexivity] |].
      split; [intros _; apply WellFormedFacts.noSignalResponse_shape | lia].
Qed.

(** X5.  A rate is only reported after five counted batches.  Whenever
    the reported [heartRate] is not 0, contact is reported, the batch had
    at least 100 samples, the batch counter of the state is at least 5,
    the phase is "tracking" or "stabilizing", and the reported rate is
    the final rate of the debug block. *)
Theorem reported_rate_needs_five_batches
  {num : Type} `{Number num} (s : Engine.State) (now : Z) (ppgData : list Z) :
  let out := Engine.processHeartRate s now ppgData in
  Engine.heartRate (snd out) <> 0 ->
  (100 <= length ppgData)%nat
  /\ Engine.fingerDetected (snd out) = true
  /\ 5 <= Engine.batchesReceived (fst out)
  /\ (Engine.phase (snd out) = "tracking" \/ Engine.phase (snd out) = "stabilizing")
  /\ exists d, Engine.debug (snd out) = Some d
               /\ Engine.finalRate d = Engine.heartRate (snd out).
Proof.
  cbv zeta.
  destruct (EngineFacts.processHeartRate_cases s now ppgData)
    as [-> | [-> | (Hsize & Hf & ->)]]; cbn [fst snd].
  - cbn. congruence.
  - cbn. congruence.
  - set (s3 := Engine.ingestBatch
                 (Engine.startAcquisition (Engine.detectContact s ppgData) now) ppgData).
    destruct (EngineFacts.track_debug s3 now ppgData) as [d Hd].
    destruct (EngineFacts.track_response s3 now ppgData d Hd) as (Hhr & Hfd & _).
    cbv zeta in Hhr, Hfd.
    destruct (EngineFacts.track_unchanged s3 now ppgData) as (Hb & _).
    cbv zeta in Hb.
    destruct (EngineFacts.prepare_fields s now ppgData) as (_ & _ & Hf3 & _).
    cbv zeta in Hf3. fold s3 in Hf3.
    pose proof (EngineFacts.track_phase s3 now ppgData) as Hph. cbv zeta in Hph.
    rewrite Hhr, Hfd, Hph, Hb, Hf3, Hf.
    unfold Engine.MIN_BATCHES_FOR_DISPLAY.
    destruct (Z.ltb_spec (Engine.batchesReceived s3) 5) as [Hlt | Hge]; [congruence |].
    intros _. split; [exact Hsize |]. split; [reflexivity |]. split; [exact Hge |].
    split.
    + destruct (Engine.isStable _); [left | right]; reflexivity.
    + exists d. split; [exact Hd | reflexivity].
Qed.

Lemma reported_rate_witness :
  let out := Engine.processHeartRate (num := Q) Scenario.steady 9000 Scenario.touch in
  Engine.heartRate (snd out) <> 0
  /\ (100 <= length Scenario.touch)%nat
  /\ Engine.fingerDetected (snd out) = true
  /\ 5 <= Engine.batchesReceived (fst out)
  /\ (Engine.phase (snd out) = "tracking" \/ Engine.phase (snd out) = "stabilizing")
  /\ exists d, Engine.debug (snd out) = Some d
               /\ Engine.finalRate d = Engine.heartRate (snd out).
Proof.
  cbv zeta. split; [vm_compute; discriminate |].
  apply (reported_rate_needs_five_batches (num := Q) Scenario.steady 9000 Scenario.touch).
  vm_compute. discriminate.
Defined.

(** X6.  What every run keeps.  A call on a well-formed state leaves a
    well-formed state, the initial state is well formed, and so is the
    state after any sequence of calls from it: the window holds at most
    1000 samples, the history at most four readings, each within
    (0, 200], the low-signal counter is 0 or 1, the last displayed rate
    is within [0, 200], the acquisition flag equals the contact flag, and
    without contact the counters, the window and the first-display time
    are at their reset values. *)
Theorem every_run_stays_well_formed {num : Type} `{Number num} :
  (forall s now ppgData,
      Shape.WellFormed s ->
      Shape.WellFormed (fst (Engine.processHeartRate s now ppgData)))
  /\ (forall batches, Shape.WellFormed (Engine.run Engine.initialState batches)).
Proof.
  split.
  - intros s now ppgData. apply WellFormedFacts.step_well_formed.
  - intros batches. apply WellFormedFacts.run_well_formed,
                      WellFormedFacts.initialState_well_formed.
Qed.

Lemma every_run_witness :
  Shape.WellFormed Scenario.steady
  /\ Shape.WellFormed
       (fst (Engine.processHeartRate (num := Q) Scenario.steady 9000 Scenario.touch)).
Proof.
  split; [exact WellFormedFacts.steady_well_formed |].
  apply (proj1 (every_run_stays_well_formed (num := Q)) Scenario.steady 9000 Scenario.touch).
  exact WellFormedFacts.steady_well_formed.
Defined.

(** X7.  Reported rates stay within the table.  On a well-formed state
    the calculated rate, the final rate and the reported rate of a
    tracking call are within [0, 200]; the calculated rate never exceeds
    200 and the final rate never names a zone by default: when it is
    positive, the reported zone is the first zone of the table whose
    upper limit is not exceeded. *)
Theorem reported_rates_are_within_0_200
  {num : Type} `{Number num} (s : Engine.State) (now : Z) (ppgData : list Z)
  (d : Engine.Debug) :
  let out := Engine.processHeartRate s now ppgData in
  Shape.WellFormed s ->
  Engine.debug (snd out) = Some d ->
  0 <= Engine.calculatedRate d <= 200
  /\ 0 <= Engine.finalRate d <= 200
  /\ 0 <= Engine.heartRate (snd out) <= 200
  /\ (0 < Engine.finalRate d ->
      exists i z, Spec.FirstZoneAt (Engine.finalRate d) i z
                  /\ Engine.zone (snd out) = Engine.name z
                  /\ Engine.zoneColor (snd out) = Engine.colorCode z).
Proof.
  cbv zeta. intros (Hco & Hbuf & Hlow & Hstreak & Hlast & Hoff).
  destruct (EngineFacts.processHeartRate_cases s now ppgData)
    as [-> | [-> | (Hsize & Hf & ->)]]; cbn [fst snd].
  - cbn. discriminate.
  - cbn. discriminate.
  - set (s3 := Engine.ingestBatch
                 (Engine.startAcquisition (Engine.detectContact s ppgData) now) ppgData).
    intros Hd.
    destruct Hco as (_ & Hb & Hlen & Hall).
    destruct (EngineFacts.prepare_fields s now ppgData) as (Hh3 & Hl3 & _).
    cbv zeta in Hh3, Hl3. fold s3 in Hh3, Hl3.
    destruct (BoundFacts.prepared_bounds s now ppgData Hbuf Hb Hstreak) as (_ & Hb3 & _).
    fold s3 in Hb3.
    assert (Hfinal : 0 <= Engine.finalRate d <= 200).
    { apply (BoundFacts.track_final_bounds s3 now ppgData d); try rewrite Hl3;
        try rewrite Hh3; try lia; try exact Hall; exact Hd. }
    destruct (EngineFacts.track_response s3 now ppgData d Hd) as (Hhr & _ & Hz & Hc).
    cbv zeta in Hhr, Hz, Hc.
    split.
    { rewrite (EngineFacts.track_calculatedRate s3 now ppgData d Hd).
      apply BoundFacts.calculated_bounds, Hb3. }
    split; [exact Hfinal |].
    split.
    { rewrite Hhr. destruct (_ <? Engine.MIN_BATCHES_FOR_DISPLAY); lia. }
    intros Hpos.
    assert (Hmax : Engine.finalRate d <= 240) by lia.
    destruct (ZoneFacts.zoneFor_first_match (Engine.finalRate d) Hpos Hmax) as [i Hi].
    exists i, (Engine.zoneFor (Engine.finalRate d)).
    split; [exact Hi |]. split; [exact Hz | exact Hc].
Qed.

Lemma reported_rates_witness :
  let out := Engine.processHeartRate (num := Q) Scenario.steady 9000 Scenario.touch in
  exists d,
    Engine.debug (snd out) = Some d
    /\ 0 <= Engine.calculatedRate d <= 200
    /\ 0 <= Engine.finalRate d <= 200
    /\ 0 <= Engine.heartRate (snd out) <= 200
    /\ (0 < Engine.finalRate d ->
        exists i z, Spec.FirstZoneAt (Engine.finalRate d) i z
                    /\ Engine.zone (snd out) = Engine.name z
                    /\ Engine.zoneColor (snd out) = Engine.colorCode z).
Proof.
  cbv zeta. eexists. split; [vm_compute; reflexivity |].
  apply (reported_rates_are_within_0_200 (num := Q) Scenario.steady 9000 Scenario.touch).
  - exact WellFormedFacts.steady_well_formed.
  - vm_compute. reflexivity.
Defined.

(** ** The buffered engine: the stages of a tracking call *)

Module TrackFacts.
Import Engine.

Lemma requiredStreak_closed (t : Z) :
  requiredStreak t = Z.max 5 ((142500 - t) / 15000).
Proof.
  unfold requiredStreak, MIN_HIGH_ZONE_STREAK, Js.Math_round, Js.num. f_equal.
  rewrite (Qfloor_comp _ ((142500 - t) # 15000)); [reflexivity |].
  unfold Qminus, Qdiv. unfold Qeq, Qplus, Qmult, Qinv, Qopp.
  cbn [Qnum Qden inject_Z Pos.mul Pos.add]. lia.
Qed.

Lemma corrected_zero (b : Z) : corrected 0 b = 0.
Proof. reflexivity. Qed.

(** The rules of the restriction outside the first minute. *)
Lemma suppressHigh_rules (final now fdt streak last : Z) :
  let t := timeSince fdt now in
  let r := suppressHigh final now fdt streak last in
  r <= final
  /\ (final < 130 -> r = final)
  /\ (180000 <= t -> r = final)
  /\ (60000 <= t -> 5 <= streak -> r = final)
  /\ (60000 <= t < 180000 -> streak < 5 -> 0 < last -> 130 <= r -> r <= last + 8).
Proof.
  cbv zeta. unfold suppressHigh, VIGOROUS_THRESHOLD, MIN_HIGH_ZONE_STREAK.
  generalize (timeSince fdt now) as t. intros t.
  destruct (Z.geb_spec final 130); [| repeat split; lia].
  destruct (Z.ltb_spec t 60000).
  - destruct (streak <? requiredStreak t);
      [destruct ((last >? 0) && (last <? Z.min final 125)) |]; repeat split; lia.
  - destruct (Z.ltb_spec t 180000); [| repeat split; lia].
    destruct (Z.ltb_spec streak 5); [| repeat split; lia].
    destruct (Z.gtb_spec last 0); cbn [andb]; [| repeat split; lia].
    destruct (Z.ltb_spec last final); repeat split; lia.
Qed.

Lemma rateFromPeaks_under_three (peaks : list Z) (n : nat) :
  (length peaks < 3)%nat -> rateFromPeaks peaks n = 0.
Proof.
  intros Hfew. unfold rateFromPeaks.
  destruct (Nat.leb_spec 3 (length peaks)); [lia | reflexivity].
Qed.

Section Step.
Context {num : Type} `{Number num}.

Lemma track_counts s now ppg d :
  debug (snd (track s now ppg)) = Some d ->
  bufferSize d = length (sampleBuffer s)
  /\ peakCount d = length (fst (calculate s))
  /\ debug_batchesReceived d = batchesReceived s
  /\ debug_consecutiveHighZoneReadings d
     = consecutiveHighZoneReadings (fst (track s now ppg))
  /\ recentRates d = Js.slicePrefix 4 (recentHeartRates (fst (track s now ppg)))
  /\ stable d = isStable (fst (track s now ppg))
  /\ inAcquisitionPhase d = (batchesReceived s <? MIN_BATCHES_FOR_DISPLAY)
  /\ isHighRate d = (finalRate d >=? VIGOROUS_THRESHOLD).
Proof. EngineFacts.open_track. cbn. intros [= <-]. repeat split. Qed.

(** A rate comes out of a window of at least 750 samples with at least
    three peaks. *)
Lemma calculate_positive (s : State) :
  snd (calculate s) <> 0 ->
  (750 <= length (sampleBuffer s))%nat /\ (3 <= length (fst (calculate s)))%nat.
Proof.
  unfold calculate.
  destruct (Nat.leb_spec 750 (length (sampleBuffer s))) as [Hsize | _];
    cbn [fst snd]; [| congruence].
  intros Hrate. split; [exact Hsize |].
  destruct (Nat.leb_spec 3 (length (Signal.detectPeaks
                                      (Signal.filterSignal (num := num) (sampleBuffer s)))))
    as [Hp | Hp]; [exact Hp |].
  rewrite rateFromPeaks_under_three in Hrate by exact Hp. congruence.
Qed.

Lemma calculate_peaks_bound (s : State) :
  (length (sampleBuffer s) <= 1000)%nat -> (length (fst (calculate s)) <= 27)%nat.
Proof.
  intros Hsize. unfold calculate.
  destruct (750 <=? length (sampleBuffer s))%nat; cbn [fst]; [| cbn; lia].
  apply SignalFacts.detectPeaksWith_at_most_27.
  rewrite SignalFacts.filterSignal_length_max. lia.
Qed.

End Step.
End TrackFacts.

(** X8.  After the first minute the rise of a vigorous rate is limited,
    after three minutes nothing is.  For every call that reaches the
    tracking stage the final rate never exceeds the consensus of the
    history; it equals the consensus when that is below 130, when three
    minutes have passed since the first display, or when one minute has
    passed and the streak of vigorous readings has reached 5; between
    one and three minutes with a shorter streak a final rate of 130 or
    more is at most 8 above the last displayed rate. *)
Theorem rise_is_limited_between_one_and_three_minutes
  {num : Type} `{Number num} (s : Engine.State) (now : Z) (ppgData : list Z)
  (d : Engine.Debug) :
  let out := Engine.processHeartRate s now ppgData in
  let streak := Engine.consecutiveHighZoneReadings (fst out) in
  let consensus :=
    Engine.consensusRate (Engine.recentHeartRates (fst out)) (Engine.calculatedRate d)
                         now (Engine.firstDisplayTime (fst out)) streak in
  Engine.debug (snd out) = Some d ->
  Engine.finalRate d <= consensus
  /\ (consensus < 130 -> Engine.finalRate d = consensus)
  /\ (180000 <= Engine.timeSinceFirstDisplay d -> Engine.finalRate d = consensus)
  /\ (60000 <= Engine.timeSinceFirstDisplay d -> 5 <= streak ->
      Engine.finalRate d = consensus)
  /\ (60000 <= Engine.timeSinceFirstDisplay d < 180000 ->
      streak < 5 ->
      0 < Engine.lastDisplayedHeartRate s ->
      130 <= Engine.finalRate d ->
      Engine.finalRate d <= Engine.lastDisplayedHeartRate s + 8).
Proof.
  cbv zeta.
  destruct (EngineFacts.processHeartRate_cases s now ppgData)
    as [-> | [-> | (Hsize & Hf & ->)]]; cbn [fst snd].
  - cbn. discriminate.
  - cbn. discriminate.
  - set (s3 := Engine.ingestBatch
                 (Engine.startAcquisition (Engine.detectContact s ppgData) now) ppgData).
    intros Hd.
    destruct (EngineFacts.prepare_fields s now ppgData) as (_ & Hl3 & _).
    cbv zeta in Hl3. fold s3 in Hl3.
    destruct (EngineFacts.track_finalRate s3 now ppgData d Hd) as [Hfinal Htime].
    cbv zeta in Hfinal. rewrite Hl3 in Hfinal. rewrite Hfinal, Htime.
    apply TrackFacts.suppressHigh_rules.
Qed.

(** With 128 on display after the readings 126, 127 and 128, a window
    at 141 BPM arrives 68 seconds after the first display: the history
    agrees on 141, the streak is 1, and the answer is 128 + 8 = 136. *)
Lemma rise_is_limited_witness :
  let out := Engine.processHeartRate (num := Q)
               Scenario.rising 70000 Scenario.window141 in
  let d := Scenario.debug136 in
  let streak := Engine.consecutiveHighZoneReadings (fst out) in
  let consensus :=
    Engine.consensusRate (Engine.recentHeartRates (fst out)) (Engine.calculatedRate d)
                         70000 (Engine.firstDisplayTime (fst out)) streak in
  Engine.debug (snd out) = Some d
  /\ consensus = 141
  /\ streak = 1
  /\ Engine.timeSinceFirstDisplay d = 68000
  /\ Engine.lastDisplayedHeartRate Scenario.rising = 128
  /\ Engine.finalRate d = 136
  /\ (Engine.finalRate d <= consensus
      /\ (consensus < 130 -> Engine.finalRate d = consensus)
      /\ (180000 <= Engine.timeSinceFirstDisplay d -> Engine.finalRate d = consensus)
      /\ (60000 <= Engine.timeSinceFirstDisplay d -> 5 <= streak ->
          Engine.finalRate d = consensus)
      /\ (60000 <= Engine.timeSinceFirstDisplay d < 180000 ->
          streak < 5 ->
          0 < Engine.lastDisplayedHeartRate Scenario.rising ->
          130 <= Engine.finalRate d ->
          Engine.finalRate d <= Engine.lastDisplayedHeartRate Scenario.rising + 8)).
Proof.
  cbv zeta.
  pose proof (rise_is_limited_between_one_and_three_minutes
                (num := Q) Scenario.rising 70000 Scenario.window141
                Scenario.debug136) as Hhere.
  cbv zeta in Hhere.
  rewrite Runs.rising_run in Hhere |- *.
  cbn [fst snd] in Hhere |- *.
  split; [reflexivity |].
  split; [vm_compute; reflexivity |].
  split; [reflexivity |].
  split; [reflexivity |].
  split; [reflexivity |].
  split; [reflexivity |].
  apply Hhere. reflexivity.
Defined.

(** X9.  The streak of vigorous readings required during the first
    minute is [max(5, floor((142500 - t) / 15000))] for [t] milliseconds
    since the first display: 9 as long as nothing has been displayed,
    never more than 9 nor fewer than 5, falling as time passes, and 5
    from 52.5 seconds on. *)
Theorem required_streak_falls_from_9_to_5 :
  (forall t, Engine.requiredStreak t = Z.max 5 ((142500 - t) / 15000))
  /\ (forall firstDisplayTime now,
         firstDisplayTime <= 0 ->
         Engine.requiredStreak (Engine.timeSince firstDisplayTime now) = 9)
  /\ (forall t t', t <= t' -> Engine.requiredStreak t' <= Engine.requiredStreak t)
  /\ (forall t, 0 <= t -> 5 <= Engine.requiredStreak t <= 9)
  /\ (forall t, 52500 < t -> Engine.requiredStreak t = 5).
Proof.
  split; [exact TrackFacts.requiredStreak_closed |].
  split.
  { intros fdt now Hnone. unfold Engine.timeSince.
    destruct (Z.gtb_spec fdt 0); [lia | reflexivity]. }
  split.
  { intros t t' Hle. rewrite !TrackFacts.requiredStreak_closed.
    assert ((142500 - t') / 15000 <= (142500 - t) / 15000)
      by (apply Z.div_le_mono; lia).
    lia. }
  split.
  { intros t Ht. rewrite TrackFacts.requiredStreak_closed.
    assert ((142500 - t) / 15000 <= 142500 / 15000) by (apply Z.div_le_mono; lia).
    change (142500 / 15000) with 9 in *. lia. }
  intros t Ht. rewrite TrackFacts.requiredStreak_closed.
  assert ((142500 - t) / 15000 < 6) by (apply Z.div_lt_upper_bound; lia).
  lia.
Qed.

Lemma required_streak_witness :
  Engine.requiredStreak (Engine.timeSince 0 1000) = 9
  /\ Engine.requiredStreak 30000 <= Engine.requiredStreak 0
  /\ 5 <= Engine.requiredStreak 30000 <= 9
  /\ Engine.requiredStreak 52501 = 5.
Proof.
  destruct required_streak_falls_from_9_to_5 as (_ & Hnone & Hfall & Hrange & Hlate).
  split; [apply Hnone; lia |].
  split; [apply Hfall; lia |].
  split; [apply Hrange; lia | apply Hlate; lia].
Defined.

(** X10.  A calculated rate needs 750 samples and three peaks.  On a
    well-formed state, when the debug block of a call reports a
    calculated rate other than 0, the window held between 750 and 1000
    samples, between 3 and 27 peaks were found in it, and the rate is
    within (0, 200]. *)
Theorem calculated_rate_needs_750_samples_and_3_peaks
  {num : Type} `{Number num} (s : Engine.State) (now : Z) (ppgData : list Z)
  (d : Engine.Debug) :
  let out := Engine.processHeartRate s now ppgData in
  Shape.WellFormed s ->
  Engine.debug (snd out) = Some d ->
  Engine.calculatedRate d <> 0 ->
  (750 <= Engine.bufferSize d <= 1000)%nat
  /\ (3 <= Engine.peakCount d <= 27)%nat
  /\ 0 < Engine.calculatedRate d <= 200.
Proof.
  cbv zeta. intros (Hco & Hbuf & Hlow & Hstreak & Hlast & Hoff).
  destruct (EngineFacts.processHeartRate_cases s now ppgData)
    as [-> | [-> | (Hsize & Hf & ->)]]; cbn [fst snd].
  - cbn. discriminate.
  - cbn. discriminate.
  - set (s3 := Engine.ingestBatch
                 (Engine.startAcquisition (Engine.detectContact s ppgData) now) ppgData).
    intros Hd Hrate.
    destruct Hco as (_ & Hb & _).
    destruct (BoundFacts.prepared_bounds s now ppgData Hbuf Hb Hstreak) as (Hbuf3 & Hb3 & _).
    fold s3 in Hbuf3, Hb3.
    destruct (TrackFacts.track_counts s3 now ppgData d Hd) as (Hsz & Hpk & _).
    pose proof (EngineFacts.track_calculatedRate s3 now ppgData d Hd) as Hcalc.
    pose proof (BoundFacts.calculated_bounds s3 Hb3) as Hrange.
    assert (Hraw : snd (Engine.calculate s3) <> 0).
    { intros Hzero. apply Hrate. rewrite Hcalc, Hzero. reflexivity. }
    destruct (TrackFacts.calculate_positive s3 Hraw) as [Hwin Hpeaks].
    pose proof (TrackFacts.calculate_peaks_bound s3 Hbuf3) as Hmost.
    rewrite Hsz, Hpk, Hcalc. rewrite Hcalc in Hrate.
    repeat split; lia.
Qed.

Lemma calculated_rate_witness :
  (750 <= Engine.bufferSize Scenario.debug39 <= 1000)%nat
  /\ (3 <= Engine.peakCount Scenario.debug39 <= 27)%nat
  /\ 0 < Engine.calculatedRate Scenario.debug39 <= 200.
Proof.
  pose proof (calculated_rate_needs_750_samples_and_3_peaks
                (num := Q) Scenario.afterTouches 2000 Scenario.batch40 Scenario.debug39)
    as Hhere.
  cbv zeta in Hhere. rewrite Runs.batch40_run in Hhere.
  apply Hhere.
  - exact WellFormedFacts.afterTouches_well_formed.
  - reflexivity.
  - cbn. discriminate.
Defined.

(** ** The buffered engine: rates from peaks *)

Module RateFacts.
Import Engine.

Lemma Math_round_comp (x y : Q) : (x == y)%Q -> Js.Math_round x = Js.Math_round y.
Proof. intros Hxy. unfold Js.Math_round. apply Qfloor_comp. rewrite Hxy. reflexivity. Qed.

Lemma evenPeaks_length first gap n : length (Shape.evenPeaks first gap n) = n.
Proof. unfold Shape.evenPeaks. rewrite length_map, length_seq. reflexivity. Qed.

Lemma evenPeaks_nth first gap n k :
  (k < n)%nat -> nth k (Shape.evenPeaks first gap n) 0 = first + gap * Z.of_nat k.
Proof.
  intros Hk. unfold Shape.evenPeaks.
  rewrite (nth_indep _ 0 ((fun k => first + gap * Z.of_nat k) 0%nat))
    by (rewrite length_map, length_seq; exact Hk).
  rewrite (map_nth (fun k => first + gap * Z.of_nat k)), seq_nth by exact Hk.
  reflexivity.
Qed.

Lemma intervalsOf_even first gap n :
  intervalsOf (Shape.evenPeaks first gap n) = repeat gap (n - 1).
Proof.
  unfold intervalsOf. rewrite evenPeaks_length.
  rewrite (map_ext_in _ (fun _ => gap)).
  - rewrite map_const, length_seq. reflexivity.
  - intros i Hi. apply in_seq in Hi.
    rewrite !evenPeaks_nth by lia.
    replace (Z.of_nat i) with (Z.of_nat (i - 1) + 1) by lia. ring.
Qed.

Lemma filter_repeat {A} (f : A -> bool) (x : A) (k : nat) :
  f x = true -> filter f (repeat x k) = repeat x k.
Proof.
  intros Hx. induction k as [| k IH]; cbn [repeat filter]; [reflexivity |].
  rewrite Hx, IH. reflexivity.
Qed.

Lemma sum_repeat (x : Z) (k : nat) : Js.sum (repeat x k) = x * Z.of_nat k.
Proof.
  induction k as [| k IH]; [cbn; lia |].
  cbn [repeat]. rewrite BoundFacts.sum_cons, IH. lia.
Qed.

(** The rounded quotient [9000 / gap] on integers. *)
Lemma rate_of_gap (gap : Z) :
  0 < gap ->
  Js.Math_round (9000 / Js.num gap)%Q = (18000 + gap) / (2 * gap).
Proof.
  intros Hgap. unfold Js.Math_round, Js.num.
  destruct gap as [| p | p]; try lia.
  rewrite (Qfloor_comp _ ((18000 + Z.pos p) # (2 * p))); [reflexivity |].
  unfold Qdiv. unfold Qeq, Qplus, Qmult, Qinv.
  cbn [Qnum Qden inject_Z Pos.mul Pos.add]. lia.
Qed.

Lemma rate_of_gap_range (gap : Z) :
  45 <= gap <= 225 -> 40 <= (18000 + gap) / (2 * gap) <= 200.
Proof.
  intros Hgap. split.
  - apply Z.div_le_lower_bound; lia.
  - assert ((18000 + gap) / (2 * gap) < 201) by (apply Z.div_lt_upper_bound; lia).
    lia.
Qed.

(** METHOD 1 on evenly spaced peaks. *)
Lemma method1_even first gap n :
  (2 <= n)%nat -> 37 <= gap <= 300 ->
  method1 (Shape.evenPeaks first gap n) = validated ((18000 + gap) / (2 * gap)).
Proof.
  intros Hn Hgap. unfold method1.
  rewrite intervalsOf_even, filter_repeat
    by (unfold validInterval; apply andb_true_iff; split; lia).
  rewrite repeat_length, sum_repeat.
  destruct (Nat.ltb_spec 0 (n - 1)); [| lia].
  f_equal. rewrite <- rate_of_gap by lia.
  apply Math_round_comp. unfold Js.num.
  rewrite inject_Z_mult.
  assert (Hk : ~ (inject_Z (Z.of_nat (n - 1)) == 0)%Q).
  { change 0%Q with (inject_Z 0). rewrite inject_Z_injective. lia. }
  assert (Hg : ~ (inject_Z gap == 0)%Q).
  { change 0%Q with (inject_Z 0). rewrite inject_Z_injective. lia. }
  field. split; assumption.
Qed.

End RateFacts.

(** X11.  Evenly spaced peaks give the rate of their spacing.  For at
    least three peaks at a constant distance of [gap] samples, with
    [45 <= gap <= 225], the rate calculated from the peaks is [9000 / gap]
    rounded to the nearest integer, whatever the position of the first
    peak and the length of the window, and it lies within [40, 200]. *)
Theorem evenly_spaced_peaks_give_9000_over_gap
  (first gap : Z) (n bufferLength : nat) :
  (3 <= n)%nat ->
  45 <= gap <= 225 ->
  Engine.rateFromPeaks (Shape.evenPeaks first gap n) bufferLength
  = Js.Math_round (9000 / Js.num gap)%Q
  /\ 40 <= Engine.rateFromPeaks (Shape.evenPeaks first gap n) bufferLength <= 200.
Proof.
  intros Hn Hgap.
  assert (Hrate : Engine.rateFromPeaks (Shape.evenPeaks first gap n) bufferLength
                  = (18000 + gap) / (2 * gap)).
  { unfold Engine.rateFromPeaks. rewrite RateFacts.evenPeaks_length.
    destruct (Nat.leb_spec 3 n); [| lia].
    rewrite RateFacts.method1_even by lia.
    pose proof (RateFacts.rate_of_gap_range gap Hgap) as Hrange.
    unfold Engine.validated.
    destruct (Z.ltb_spec ((18000 + gap) / (2 * gap)) 40); [lia |].
    destruct (Z.gtb_spec ((18000 + gap) / (2 * gap)) 200); [lia |].
    cbn [orb].
    destruct (Z.eqb_spec ((18000 + gap) / (2 * gap)) 0); [lia |].
    cbn [andb].
    destruct (Z.eqb_spec ((18000 + gap) / (2 * gap)) 0); [lia | reflexivity]. }
  rewrite Hrate. split.
  - symmetry. apply RateFacts.rate_of_gap. lia.
  - apply RateFacts.rate_of_gap_range, Hgap.
Qed.

Lemma evenly_spaced_peaks_witness :
  Engine.rateFromPeaks (Shape.evenPeaks 20 125 5) 1000
  = Js.Math_round (9000 / Js.num 125)%Q
  /\ 40 <= Engine.rateFromPeaks (Shape.evenPeaks 20 125 5) 1000 <= 200.
Proof.
  apply (evenly_spaced_peaks_give_9000_over_gap 20 125 5 1000); lia.
Defined.

(** X12.  A low-signal batch under held contact is not stored but the
    window is evaluated again.  When contact is held with no low-signal
    batch pending, a low-signal batch of at least 100 samples keeps the
    contact, sets the low-signal counter to 1, leaves the window and the
    batch counter as they were, and enters the rate of the unchanged
    window into the history once more. *)
Theorem low_batch_under_contact_reuses_the_window
  {num : Type} `{Number num} (s : Engine.State) (now : Z) (ppgData : list Z) :
  let out := Engine.processHeartRate s now ppgData in
  let rate := Engine.corrected (snd (Engine.calculate s)) (Engine.batchesReceived s) in
  (100 <= length ppgData)%nat ->
  Spec.LowSignal ppgData ->
  Engine.fingerDetectedState s = true ->
  Engine.isAcquiring s = true ->
  Engine.consecutiveLowSignalBatches s = 0 ->
  Engine.fingerDetected (snd out) = true
  /\ Engine.consecutiveLowSignalBatches (fst out) = 1
  /\ Engine.sampleBuffer (fst out) = Engine.sampleBuffer s
  /\ Engine.batchesReceived (fst out) = Engine.batchesReceived s
  /\ Engine.recentHeartRates (fst out)
     = Engine.pushHistory rate (Engine.recentHeartRates s)
  /\ (forall d, Engine.debug (snd out) = Some d -> Engine.calculatedRate d = rate).
Proof.
  cbv zeta. intros Hsize Hlow Hfinger Hacq Hzero.
  apply ContactFacts.currentBatchHasFinger_false_iff in Hlow; [| lia].
  destruct (ContactFacts.detectContact_low_first s ppgData Hlow Hzero) as [Hone Hkept].
  rewrite Hfinger in Hkept.
  destruct (ContactFacts.step_contact s now ppgData Hsize) as (_ & Hreported & Hcounter).
  cbv zeta in Hreported, Hcounter. rewrite Hkept in Hreported, Hcounter.
  rewrite (EngineFacts.processHeartRate_contact s now ppgData Hsize Hkept) in *.
  assert (Hs3 : Engine.ingestBatch
                  (Engine.startAcquisition (Engine.detectContact s ppgData) now) ppgData
                = Engine.detectContact s ppgData).
  { unfold Engine.ingestBatch, Engine.startAcquisition. rewrite Hlow.
    cbn [Engine.isAcquiring Engine.detectContact]. rewrite Hacq. reflexivity. }
  rewrite Hs3 in *.
  destruct (EngineFacts.track_unchanged (Engine.detectContact s ppgData) now ppgData)
    as (Hb & Hbuf & _).
  cbv zeta in Hb, Hbuf.
  split; [exact Hreported |].
  split; [rewrite Hcounter; exact Hone |].
  split; [rewrite Hbuf; reflexivity |].
  split; [rewrite Hb; reflexivity |].
  split; [rewrite EngineFacts.track_history; reflexivity |].
  intros d Hd.
  rewrite (EngineFacts.track_calculatedRate (Engine.detectContact s ppgData)
             now ppgData d Hd).
  reflexivity.
Qed.

(** The recording at 40 BPM after its fifth batch: the window gives 40,
    corrected to 39 and stored; a dark batch half a second later is not
    appended, and the same window enters 39 once more. *)
Lemma low_batch_witness :
  let out := Engine.processHeartRate (num := Q)
               Scenario.afterBatch40 2500 Scenario.dark in
  let rate :=
    Engine.corrected (snd (Engine.calculate (num := Q) Scenario.afterBatch40))
                     (Engine.batchesReceived Scenario.afterBatch40) in
  rate = 39
  /\ Engine.recentHeartRates Scenario.afterBatch40 = [39]
  /\ Engine.recentHeartRates (fst out) = [39; 39]
  /\ (Engine.fingerDetected (snd out) = true
      /\ Engine.consecutiveLowSignalBatches (fst out) = 1
      /\ Engine.sampleBuffer (fst out) = Engine.sampleBuffer Scenario.afterBatch40
      /\ Engine.batchesReceived (fst out)
         = Engine.batchesReceived Scenario.afterBatch40
      /\ Engine.recentHeartRates (fst out)
         = Engine.pushHistory rate (Engine.recentHeartRates Scenario.afterBatch40)
      /\ (forall d, Engine.debug (snd out) = Some d -> Engine.calculatedRate d = rate)).
Proof.
  cbv zeta.
  split.
  { rewrite CorrectionFacts.calculate_ready by (vm_compute; lia).
    rewrite Runs.batch40_window_rate. vm_compute. reflexivity. }
  split; [reflexivity |].
  split; [rewrite Runs.dark_run; reflexivity |].
  apply (low_batch_under_contact_reuses_the_window
           (num := Q) Scenario.afterBatch40 2500 Scenario.dark).
  - vm_compute. lia.
  - unfold Spec.LowSignal. vm_compute. discriminate.
  - reflexivity.
  - reflexivity.
  - reflexivity.
Defined.

(** X13.  The initial correction fades out.  From the tenth batch on the
    rate is left as calculated; before, the corrected rate is positive
    and not above the calculated one; and a later batch never corrects
    more than an earlier one. *)
Theorem initial_correction_fades_out :
  (forall heartRate batches,
      10 <= batches -> Engine.initialCorrection heartRate batches = heartRate)
  /\ (forall heartRate batches,
         1 <= heartRate -> 0 <= batches ->
         0 < Engine.initialCorrection heartRate batches <= heartRate)
  /\ (forall heartRate batches batches',
         0 <= heartRate -> batches <= batches' ->
         Engine.initialCorrection heartRate batches
         <= Engine.initialCorrection heartRate batches').
Proof.
  assert (Hamount : forall hr b b',
             0 <= hr -> b <= b' ->
             Js.Math_round
               (Js.mul (Js.mul (Js.num hr) (Js.lit (Spec.correctionShare hr)))
                       (Engine.correctionFactor b'))
             <= Js.Math_round
                  (Js.mul (Js.mul (Js.num hr) (Js.lit (Spec.correctionShare hr)))
                          (Engine.correctionFactor b))).
  { intros hr b b' Hhr Hb. apply InvariantFacts.Math_round_le.
    pose proof (InvariantFacts.share_bounds hr) as [Hc0 _].
    pose proof (InvariantFacts.factor_le b b' Hb) as Hf.
    assert (Hr : (inject_Z 0 <= inject_Z hr)%Q) by (rewrite <- Zle_Qle; exact Hhr).
    change (inject_Z 0) with 0%Q in Hr.
    assert (Hp : (0 <= Js.mul (Js.num hr) (Js.lit (Spec.correctionShare hr)))%Q).
    { unfold Js.mul, Js.num. apply DoubleFacts.double_nonneg. nra. }
    set (p := Js.mul (Js.num hr) (Js.lit (Spec.correctionShare hr))) in *.
    unfold Js.mul. apply DoubleFacts.double_monotone. nra. }
  assert (Hlast : forall hr,
             Js.Math_round
               (Js.mul (Js.mul (Js.num hr) (Js.lit (Spec.correctionShare hr)))
                       (Engine.correctionFactor 10)) = 0).
  { intros hr. unfold Js.mul at 1.
    rewrite (DoubleFacts.double_comp _ 0); [reflexivity |].
    rewrite InvariantFacts.factor_at_10. ring. }
  assert (Hlate : forall hr b, 10 <= b -> Engine.initialCorrection hr b = hr).
  { intros hr b Hb. destruct (Z.eq_dec b 10) as [-> | Hne].
    - rewrite CorrectionFacts.initialCorrection_formula by lia. rewrite Hlast. lia.
    - unfold Engine.initialCorrection, Engine.MIN_BATCHES_FOR_DISPLAY.
      destruct (Z.leb_spec b (5 + 5)); [lia | reflexivity]. }
  split; [exact Hlate |].
  split.
  - intros hr b Hhr Hb. destruct (Z.le_gt_cases b 10) as [Hsmall | Hbig].
    + rewrite CorrectionFacts.initialCorrection_formula by exact Hsmall.
      pose proof (InvariantFacts.correction_bounds hr b Hhr Hb). lia.
    + rewrite Hlate by lia. lia.
  - intros hr b b' Hhr Hb. destruct (Z.le_gt_cases b' 10) as [Hsmall | Hbig].
    + rewrite !CorrectionFacts.initialCorrection_formula by lia.
      pose proof (Hamount hr b b' Hhr Hb). lia.
    + rewrite (Hlate hr b') by lia.
      destruct (Z.le_gt_cases b 10) as [Hsmall | Hbig'].
      * rewrite CorrectionFacts.initialCorrection_formula by exact Hsmall.
        pose proof (Hamount hr b 10 Hhr Hsmall) as Hcmp. rewrite Hlast in Hcmp. lia.
      * rewrite Hlate by lia. lia.
Qed.

Lemma initial_correction_witness_fades :
  Engine.initialCorrection 150 12 = 150
  /\ 0 < Engine.initialCorrection 150 5 <= 150
  /\ Engine.initialCorrection 150 5 <= Engine.initialCorrection 150 8.
Proof.
  destruct initial_correction_fades_out as (Hlate & Hbelow & Hfade).
  split; [apply Hlate; lia |].
  split; [apply Hbelow; lia | apply Hfade; lia].
Defined.

(** ** The advanced processor: peak detector *)

Module AdvancedPeakFacts.
Import AdvancedPeaks.

Lemma SpacedBy_snoc (d x : Z) (l : list Z) :
  Shape.SpacedBy d l -> (forall p, In p l -> p + d <= x) ->
  Shape.SpacedBy d (l ++ [x]).
Proof.
  intros Hs Hx k Hk. rewrite length_app in Hk. cbn [length] in Hk.
  destruct (Nat.lt_ge_cases (S k) (length l)) as [Hin | Hout].
  - rewrite !app_nth1 by lia. apply Hs, Hin.
  - assert (Hlast : S k = length l) by lia.
    rewrite (app_nth2 l [x]) by lia. rewrite Hlast, Nat.sub_diag. cbn [nth].
    rewrite app_nth1 by lia.
    assert (Hmem : In (nth k l 0) l) by (apply nth_In; lia).
    specialize (Hx _ Hmem). lia.
Qed.

(** In an array spaced by [d] the [k]-th entry lies [d k] past the
    first. *)
Lemma SpacedBy_reach (d : Z) (l : list Z) :
  Shape.SpacedBy d l ->
  forall k, (k < length l)%nat -> nth 0 l 0 + d * Z.of_nat k <= nth k l 0.
Proof.
  intros Hs k. induction k as [| k IH]; intros Hk; [lia |].
  specialize (Hs k Hk).
  assert (nth 0 l 0 + d * Z.of_nat k <= nth k l 0) by (apply IH; lia). lia.
Qed.

Lemma qualityOf_levels (noiseCount : nat) (totalPoints : Z) :
  In (qualityOf noiseCount totalPoints) [1; 8 # 10; 6 # 10; 3 # 10; 1 # 10]%Q.
Proof.
  unfold qualityOf. cbn [In].
  destruct (totalPoints <=? 0); [tauto |].
  repeat match goal with |- context [Js.ltb ?a ?b] => destruct (Js.ltb a b) end; tauto.
Qed.

Section Detector.
Context {num : Type} `{Number num}.
Variable nle : num -> num -> bool.

(** What the scan maintains: the array is spaced, bounded by
    [lastPeakIndex], and holds visited indices that passed the test. *)
Lemma advanced_scan_invariant (sig : list num) (threshold1 : num) :
  forall idx st,
    (forall i, In i idx -> In i (scanIndices sig)) ->
    (Shape.SpacedBy minPeakDistance (fst st)
     /\ forall p, In p (fst st) ->
                  p <= snd st
                  /\ exists i, p = Z.of_nat i /\ In i (scanIndices sig)
                               /\ isPeakAt nle sig i = true
                               /\ ngt (Signal.at_ sig i) threshold1 = true) ->
    let st' := fold_left (scanStep nle sig threshold1) idx st in
    Shape.SpacedBy minPeakDistance (fst st')
    /\ forall p, In p (fst st') ->
                 p <= snd st'
                 /\ exists i, p = Z.of_nat i /\ In i (scanIndices sig)
                              /\ isPeakAt nle sig i = true
                              /\ ngt (Signal.at_ sig i) threshold1 = true.
Proof.
  induction idx as [| i idx IH]; intros st Hsub Hst; cbn [fold_left]; [exact Hst |].
  apply IH; [intros j Hj; apply Hsub; right; exact Hj |].
  destruct Hst as [Hspaced Hmem]. unfold scanStep.
  destruct (isPeakAt nle sig i) eqn:Hpeak; cbn [andb]; [| split; assumption].
  destruct (ngt (Signal.at_ sig i) threshold1) eqn:Hthr; cbn [andb];
    [| split; assumption].
  destruct (Z.geb_spec (Z.of_nat i - snd st) minPeakDistance) as [Hfar | _];
    [| split; assumption].
  assert (Hd : 0 <= minPeakDistance) by (unfold minPeakDistance; lia).
  cbn [fst snd]. split.
  - apply SpacedBy_snoc; [exact Hspaced |].
    intros p Hp. destruct (Hmem p Hp) as [Hle _]. lia.
  - intros p Hp. apply in_app_or in Hp. destruct Hp as [Hp | [<- | []]].
    + destruct (Hmem p Hp) as [Hle Hex]. split; [lia | exact Hex].
    + split; [lia |]. exists i. repeat split; try assumption.
      apply Hsub. left. reflexivity.
Qed.

Lemma detectPeaks_facts (sig : list num) :
  let threshold1 := nmul (maxValueOf sig) (lit (35 # 100)) in
  Shape.SpacedBy minPeakDistance (peaks (detectPeaks nle sig))
  /\ forall p, In p (peaks (detectPeaks nle sig)) ->
               exists i, p = Z.of_nat i /\ (7 <= i)%nat /\ (i + 7 < length sig)%nat
                         /\ isPeakAt nle sig i = true
                         /\ ngt (Signal.at_ sig i) threshold1 = true.
Proof.
  cbv zeta. unfold detectPeaks. cbn [peaks].
  destruct (advanced_scan_invariant sig (nmul (maxValueOf sig) (lit (35 # 100)))
              (scanIndices sig) ([], - minPeakDistance)) as [Hspaced Hmem].
  - auto.
  - cbn [fst snd]. split; [intros k Hk; cbn in Hk; lia | intros p []].
  - split; [exact Hspaced |].
    intros p Hp. destruct (Hmem p Hp) as (_ & i & -> & Hi & Hpeak & Hthr).
    exists i. unfold scanIndices, lookAhead in Hi. apply in_seq in Hi.
    repeat split; try assumption; lia.
Qed.

Lemma detectPeaks_count (sig : list num) :
  peaks (detectPeaks nle sig) <> [] ->
  45 * (Z.of_nat (length (peaks (detectPeaks nle sig))) - 1) + 15
  <= Z.of_nat (length sig).
Proof.
  intros Hne. destruct (detectPeaks_facts sig) as [Hspaced Hmem].
  set (found := peaks (detectPeaks nle sig)) in *.
  assert (Hlen : (0 < length found)%nat) by (destruct found; [congruence | cbn; lia]).
  assert (Hlast : (length found - 1 < length found)%nat) by lia.
  pose proof (SpacedBy_reach _ found Hspaced (length found - 1) Hlast) as Hreach.
  unfold minPeakDistance in Hreach.
  destruct (Hmem (nth 0 found 0) (nth_In found 0 Hlen)) as (i & Hi & Hlo & _).
  destruct (Hmem (nth (length found - 1) found 0) (nth_In found 0 Hlast))
    as (j & Hj & _ & Hhi & _).
  lia.
Qed.

(** The gaps between detected peaks pass the lower bound of the interval
    filter. *)
Lemma intervalsOf_lower (sig : list num) (interval : Q) :
  In interval (intervalsOf (peaks (detectPeaks nle sig))) ->
  (60 / Js.num Advanced.MAX_HR <= interval)%Q.
Proof.
  intros Hin. destruct (detectPeaks_facts sig) as [Hspaced _].
  unfold intervalsOf in Hin. apply in_map_iff in Hin.
  destruct Hin as (i & <- & Hi). apply in_seq in Hi. cbv zeta.
  assert (Hgap : 45 <= nth i (peaks (detectPeaks nle sig)) 0
                       - nth (i - 1) (peaks (detectPeaks nle sig)) 0).
  { pose proof (Hspaced (i - 1)%nat) as Hstep.
    replace (S (i - 1)) with i in Hstep by lia. apply Hstep. lia. }
  set (gap := nth i (peaks (detectPeaks nle sig)) 0
              - nth (i - 1) (peaks (detectPeaks nle sig)) 0) in *.
  unfold Js.num, Advanced.MAX_HR, Advanced.SAMPLE_RATE.
  unfold Qdiv, Qle, Qmult, Qinv. cbn [Qnum Qden inject_Z Pos.mul]. lia.
Qed.

End Detector.
End AdvancedPeakFacts.

(** X14.  The peak detector of the advanced processor, for every
    implementation of the numbers and of their comparisons: adjacent
    peaks are at least 45 samples apart; every peak lies at least 7
    positions inside the signal on both sides, passed the local-maximum
    test over 7 neighbours on each side and exceeds 35% of the largest
    value; [n] peaks need [45 (n - 1) + 15] values, so 1000 samples hold
    at most 22; the quality is one of 1, 0.8, 0.6, 0.3 and 0.1; and a
    signal of fewer than 15 values has no peaks and quality 1. *)
Theorem advanced_detectPeaks_spaced_inner_and_graded :
  forall (num : Type) (N : Number num) (nle : num -> num -> bool)
         (processedSignal : list num),
    let result := AdvancedPeaks.detectPeaks nle processedSignal in
    let threshold1 :=
      nmul (AdvancedPeaks.maxValueOf processedSignal) (lit (35 # 100)) in
    Shape.SpacedBy 45 (AdvancedPeaks.peaks result)
    /\ (forall p, In p (AdvancedPeaks.peaks result) ->
                  exists i, p = Z.of_nat i /\ (7 <= i)%nat
                            /\ (i + 7 < length processedSignal)%nat
                            /\ AdvancedPeaks.isPeakAt nle processedSignal i = true
                            /\ ngt (Signal.at_ processedSignal i) threshold1 = true)
    /\ ((length processedSignal <= 1000)%nat ->
        (length (AdvancedPeaks.peaks result) <= 22)%nat)
    /\ In (AdvancedPeaks.quality result) [1; 8 # 10; 6 # 10; 3 # 10; 1 # 10]%Q
    /\ ((length processedSignal < 15)%nat ->
        AdvancedPeaks.peaks result = [] /\ AdvancedPeaks.quality result = 1%Q).
Proof.
  intros num N nle sig result threshold1.
  destruct (AdvancedPeakFacts.detectPeaks_facts nle sig) as [Hspaced Hmem].
  fold result in Hspaced, Hmem.
  split; [exact Hspaced |]. split; [exact Hmem |].
  split.
  { intros Hsize. pose proof (AdvancedPeakFacts.detectPeaks_count nle sig) as Hcount.
    fold result in Hcount.
    destruct (AdvancedPeaks.peaks result) as [| p rest]; [cbn; lia |].
    assert (Hne : p :: rest <> []) by discriminate.
    specialize (Hcount Hne). lia. }
  split; [apply AdvancedPeakFacts.qualityOf_levels |].
  intros Hshort. split.
  - destruct (AdvancedPeaks.peaks result) as [| p rest] eqn:Hfound; [reflexivity |].
    destruct (Hmem p (or_introl eq_refl)) as (i & _ & Hlo & Hhi & _). lia.
  - subst result. unfold AdvancedPeaks.detectPeaks. cbn [AdvancedPeaks.quality].
    unfold AdvancedPeaks.qualityOf, AdvancedPeaks.lookAhead.
    destruct (Z.leb_spec (Z.of_nat (length sig) - 2 * Z.of_nat 7) 0); [reflexivity | lia].
Qed.

(** One pulse of height 5 at index 10 of a signal of 30 values. *)
Lemma advanced_detectPeaks_witness :
  let sig := (repeat 0 10 ++ [5] ++ repeat 0 19)%Q in
  exists i, 10 = Z.of_nat i /\ (7 <= i)%nat /\ (i + 7 < length sig)%nat
            /\ AdvancedPeaks.isPeakAt Qle_bool sig i = true
            /\ ngt (Signal.at_ sig i)
                   (nmul (AdvancedPeaks.maxValueOf sig) (lit (35 # 100))) = true.
Proof.
  cbv zeta.
  destruct (advanced_detectPeaks_spaced_inner_and_graded
              Q NumberQ Qle_bool (repeat 0 10 ++ [5] ++ repeat 0 19)%Q)
    as (_ & Hmem & _).
  apply Hmem. vm_compute. auto.
Defined.

(** X15.  The lower bound of the interval filter never rejects a gap
    between detected peaks: every interval between adjacent peaks of the
    detector is at least [60 / MAX_HR] seconds, so the filter of
    [calculateHeartRate] keeps an interval exactly when it is at most
    [60 / MIN_HR] seconds. *)
Theorem advanced_interval_filter_lower_bound_is_met :
  forall (num : Type) (N : Number num) (nle : num -> num -> bool)
         (processedSignal : list num) (interval : Q),
    In interval (AdvancedPeaks.intervalsOf
                   (AdvancedPeaks.peaks (AdvancedPeaks.detectPeaks nle processedSignal))) ->
    (60 / Js.num Advanced.MAX_HR <= interval)%Q
    /\ AdvancedPeaks.validInterval interval
       = Qle_bool interval (60 / Js.num Advanced.MIN_HR).
Proof.
  intros num N nle sig interval Hin.
  pose proof (AdvancedPeakFacts.intervalsOf_lower nle sig interval Hin) as Hlow.
  split; [exact Hlow |].
  unfold AdvancedPeaks.validInterval.
  apply Qle_bool_iff in Hlow. rewrite Hlow. reflexivity.
Qed.

(** Two pulses 50 samples apart: one interval of a third of a second. *)
Lemma advanced_interval_witness :
  let sig := (repeat 0 10 ++ [5] ++ repeat 0 49 ++ [5] ++ repeat 0 19)%Q in
  (60 / Js.num Advanced.MAX_HR <= 50 # 150)%Q
  /\ AdvancedPeaks.validInterval (50 # 150)
     = Qle_bool (50 # 150) (60 / Js.num Advanced.MIN_HR).
Proof.
  cbv zeta.
  apply (advanced_interval_filter_lower_bound_is_met
           Q NumberQ Qle_bool (repeat 0 10 ++ [5] ++ repeat 0 49 ++ [5] ++ repeat 0 19)%Q).
  vm_compute. auto.
Defined.

(** ** The advanced processor: what every call keeps *)

Module SteadyFacts.
Import Advanced.

(** The limited rate is within [MAX_JUMP] of a positive prior rate. *)
Lemma limitJump_within (prior : Z) (reading : Reading.t) :
  0 < prior -> Z.abs (fst (limitJump prior reading) - prior) <= MAX_JUMP.
Proof.
  intros Hprior. unfold limitJump, MAX_JUMP.
  destruct (Z.gtb_spec prior 0); [| lia].
  destruct (Z.gtb_spec (Z.abs (Reading.heartRate reading - prior)) 15); cbn [fst];
    [| lia].
  destruct (Z.gtb_spec (Reading.heartRate reading) prior); lia.
Qed.

(** A positive reading stays positive. *)
Lemma limitJump_positive (prior : Z) (reading : Reading.t) :
  0 < Reading.heartRate reading -> 0 < fst (limitJump prior reading).
Proof.
  intros Hpos. unfold limitJump, MAX_JUMP.
  destruct (Z.gtb_spec prior 0); [| exact Hpos].
  destruct (Z.gtb_spec (Z.abs (Reading.heartRate reading - prior)) 15); cbn [fst];
    [| exact Hpos].
  destruct (Z.gtb_spec (Reading.heartRate reading) prior); lia.
Qed.

(** The confidence is the reading's, or 70% of it. *)
Lemma limitJump_confidence (prior : Z) (reading : Reading.t) :
  snd (limitJump prior reading) = Reading.confidence reading
  \/ snd (limitJump prior reading) = (Reading.confidence reading * (7 # 10))%Q.
Proof.
  unfold limitJump.
  destruct (prior >? 0); [| left; reflexivity].
  destruct (Z.abs (Reading.heartRate reading - prior) >? MAX_JUMP);
    [right | left]; reflexivity.
Qed.

(** The smoothed rate lies between the previous one and the new one. *)
Lemma smooth_between (smoothed limited : Z) :
  Z.min smoothed limited <= smooth smoothed limited <= Z.max smoothed limited.
Proof.
  unfold smooth. destruct (Z.eqb_spec smoothed 0) as [-> | _]; [lia |].
  unfold Js.num.
  assert (Hcases : smoothed <= limited \/ limited <= smoothed) by lia.
  destruct Hcases as [Hle | Hle].
  - rewrite Z.min_l, Z.max_r by lia.
    assert (Hq : (inject_Z smoothed <= inject_Z limited)%Q) by (rewrite <- Zle_Qle; lia).
    apply BoundFacts.Math_round_range; lra.
  - rewrite Z.min_r, Z.max_l by lia.
    assert (Hq : (inject_Z limited <= inject_Z smoothed)%Q) by (rewrite <- Zle_Qle; lia).
    apply BoundFacts.Math_round_range; lra.
Qed.

Lemma removelast_length {A} (l : list A) : length (removelast l) = (length l - 1)%nat.
Proof. rewrite removelast_firstn_len, length_firstn. lia. Qed.

Lemma removelast_nth (l : list Z) (k : nat) :
  (k < length l - 1)%nat -> nth k (removelast l) 0 = nth k l 0.
Proof.
  intros Hk. rewrite removelast_firstn_len.
  rewrite <- (firstn_skipn (Nat.pred (length l)) l) at 3.
  rewrite app_nth1; [reflexivity |]. rewrite length_firstn. lia.
Qed.

Lemma removelast_Forall {A} (P : A -> Prop) (l : list A) :
  Forall P l -> Forall P (removelast l).
Proof.
  intros Hall. rewrite removelast_firstn_len.
  apply InvariantFacts.Forall_prefix, Hall.
Qed.

Lemma Gradual_removelast (d : Z) (l : list Z) :
  Shape.Gradual d l -> Shape.Gradual d (removelast l).
Proof.
  intros Hg k Hk. rewrite removelast_length in Hk.
  rewrite !removelast_nth by lia. apply Hg. lia.
Qed.

Lemma Gradual_cons (d x : Z) (l : list Z) :
  Shape.Gradual d l ->
  (l <> [] -> Z.abs (x - nth 0 l 0) <= d) ->
  Shape.Gradual d (x :: l).
Proof.
  intros Hg Hx k Hk. cbn [length] in Hk.
  destruct k as [| k]; cbn [nth].
  - apply Hx. destruct l; [cbn in Hk; lia | discriminate].
  - apply Hg. lia.
Qed.

(** The bounded push of the three history arrays. *)
Lemma pushed_length {A} (x : A) (l : list A) :
  (length l <= 10)%nat ->
  length (if (10 <? length (Js.unshift x l))%nat then Js.pop (Js.unshift x l)
          else Js.unshift x l)
  = Nat.min 10 (S (length l)).
Proof.
  intros Hlen. unfold Js.unshift, Js.pop.
  destruct (Nat.ltb_spec 10 (length (x :: l))) as [Hover | Hfit].
  - rewrite removelast_length. cbn [length] in *. lia.
  - cbn [length] in *. lia.
Qed.

Section Processor.
Variable assessSignalQuality : list Z -> Q.
Variable calculateHeartRate : list Z -> Reading.t.
Variable isStableReading : list Z -> bool.
Variable calculateTrend : list Z -> string.
Variable getCurrentZone : Z -> string.

(** The buffer after the append and the cut. *)
Lemma buffer_bound (st : HrState) (ppg : list Z) :
  let appended := ppgBuffer st ++ ppg in
  (length (if (BUFFER_SIZE <? length appended)%nat
           then Js.sliceLast BUFFER_SIZE appended else appended) <= 1000)%nat.
Proof.
  cbv zeta. unfold BUFFER_SIZE, Js.sliceLast.
  destruct (Nat.ltb_spec 1000 (length (ppgBuffer st ++ ppg))); [| lia].
  rewrite length_skipn. lia.
Qed.

(** The shapes of a call: either the history arrays and the last rate are
    left alone, or a positive reading is accepted on such a state. *)
Lemma processHeartRate_shape st now ppg :
  let appended := ppgBuffer st ++ ppg in
  let buffer := if (BUFFER_SIZE <? length appended)%nat
                then Js.sliceLast BUFFER_SIZE appended else appended in
  let out := processHeartRate assessSignalQuality calculateHeartRate isStableReading
                              calculateTrend getCurrentZone st now ppg in
  exists st',
    (fst out = st'
     \/ (out = acceptReading isStableReading calculateTrend getCurrentZone
                             st' now (calculateHeartRate buffer)
         /\ 0 < Reading.heartRate (calculateHeartRate buffer)
         /\ smoothedHeartRate st' = smoothedHeartRate st))
    /\ ppgBuffer st' = buffer
    /\ heartRateHistory st' = heartRateHistory st
    /\ confidenceScores st' = confidenceScores st
    /\ timestamps st' = timestamps st
    /\ lastHeartRate st' = lastHeartRate st
    /\ (stabilityCounter st' = stabilityCounter st \/ stabilityCounter st' = 0)
    /\ (smoothedHeartRate st' = smoothedHeartRate st \/ smoothedHeartRate st' = 0).
Proof.
  cbv zeta. unfold processHeartRate.
  set (buffer := if (BUFFER_SIZE <? length (ppgBuffer st ++ ppg))%nat
                 then Js.sliceLast BUFFER_SIZE (ppgBuffer st ++ ppg)
                 else ppgBuffer st ++ ppg).
  cbv zeta.
  destruct (Z.of_nat (length buffer) <? SAMPLE_RATE * 2).
  { eexists. split; [left; reflexivity |].
    repeat (split; [reflexivity |]). split; left; reflexivity. }
  destruct (Js.ltb (3 # 10) (assessSignalQuality buffer)); cbn [negb].
  2: { eexists. split; [left; reflexivity |].
       repeat (split; [reflexivity |]). split; right; reflexivity. }
  destruct ((now - lastCalculation st <? 500) && (smoothedHeartRate st >? 0)).
  { eexists. split; [left; reflexivity |].
    repeat (split; [reflexivity |]). split; left; reflexivity. }
  destruct (Z.gtb_spec (Reading.heartRate (calculateHeartRate buffer)) 0) as [Hpos | _].
  { eexists. split.
    - right. split; [reflexivity |]. split; [lia | reflexivity].
    - repeat (split; [reflexivity |]). split; left; reflexivity. }
  destruct ((smoothedHeartRate st >? 0) && Js.ltb (5 # 10) (assessSignalQuality buffer)).
  { eexists. split; [left; reflexivity |].
    repeat (split; [reflexivity |]). split; left; reflexivity. }
  eexists. split; [left; reflexivity |].
  repeat (split; [reflexivity |]). split; left; reflexivity.
Qed.

(** Accepting a positive reading keeps a steady state steady. *)
Lemma acceptReading_steady st now reading :
  Shape.Steady st ->
  0 < Reading.heartRate reading ->
  Shape.Steady (fst (acceptReading isStableReading calculateTrend getCurrentZone
                                   st now reading)).
Proof.
  intros (Hbuf & Hlen & Hconf & Hstamps & Hpos & Hgrad & Hlast & Hsm & Hcnt) Hrate.
  pose proof (limitJump_positive (lastHeartRate st) reading Hrate) as Hlimited.
  pose proof (limitJump_within (lastHeartRate st) reading) as Hwithin.
  pose proof (smooth_between (smoothedHeartRate st)
                             (fst (limitJump (lastHeartRate st) reading))) as Hsmooth.
  unfold acceptReading.
  destruct (limitJump (lastHeartRate st) reading) as [limited conf].
  cbn [fst snd] in *. unfold Shape.Steady.
  cbn [ppgBuffer heartRateHistory confidenceScores timestamps lastHeartRate
       smoothedHeartRate stabilityCounter].
  split; [exact Hbuf |].
  split; [rewrite pushed_length by exact Hlen; lia |].
  split.
  { unfold Js.unshift, Js.pop.
    destruct (10 <? length (limited :: heartRateHistory st))%nat;
      rewrite ?removelast_length; cbn [length]; rewrite Hconf; reflexivity. }
  split.
  { unfold Js.unshift, Js.pop.
    destruct (10 <? length (limited :: heartRateHistory st))%nat;
      rewrite ?removelast_length; cbn [length]; rewrite Hstamps; reflexivity. }
  assert (Hpushed : Forall (fun bpm => 0 < bpm) (Js.unshift limited (heartRateHistory st)))
    by (constructor; assumption).
  assert (Hgradual : Shape.Gradual MAX_JUMP (Js.unshift limited (heartRateHistory st))).
  { apply Gradual_cons; [exact Hgrad |].
    intros Hne. rewrite <- Hlast. apply Hwithin.
    rewrite Hlast. destruct (heartRateHistory st) as [| h rest]; [congruence |].
    cbn [nth]. inversion Hpos; subst. assumption. }
  split.
  { destruct (10 <? length (Js.unshift limited (heartRateHistory st)))%nat;
      [apply removelast_Forall |]; exact Hpushed. }
  split.
  { destruct (10 <? length (Js.unshift limited (heartRateHistory st)))%nat;
      [apply Gradual_removelast |]; exact Hgradual. }
  split.
  { destruct (JumpFacts.pushed_head limited (heartRateHistory st)
                (10 <? length (Js.unshift limited (heartRateHistory st)))%nat eq_refl)
      as [older ->].
    reflexivity. }
  split; [lia |].
  destruct (isStableReading _); lia.
Qed.

(** Every call keeps a steady state steady. *)
Lemma processHeartRate_steady st now ppg :
  Shape.Steady st ->
  Shape.Steady (fst (processHeartRate assessSignalQuality calculateHeartRate
                                      isStableReading calculateTrend getCurrentZone
                                      st now ppg)).
Proof.
  intros Hst.
  destruct (processHeartRate_shape st now ppg)
    as (st' & Hout & Hb & Hh & Hc & Ht & Hl & Hcnt & Hsm).
  cbv zeta in *.
  assert (Hst' : Shape.Steady st').
  { destruct Hst as (Hbuf & Hlen & Hconf & Hstamps & Hpos & Hgrad & Hlast & Hs & Hk).
    unfold Shape.Steady. rewrite Hb, Hh, Hc, Ht, Hl.
    split; [apply buffer_bound |].
    repeat split; try assumption.
    - destruct Hsm as [-> | ->]; lia.
    - destruct Hcnt as [-> | ->]; lia. }
  destruct Hout as [-> | (-> & Hpos & _)]; [exact Hst' |].
  apply acceptReading_steady; assumption.
Qed.

(** The last rate after a call. *)
Lemma processHeartRate_last st now ppg :
  0 < lastHeartRate st ->
  let st1 := fst (processHeartRate assessSignalQuality calculateHeartRate
                                   isStableReading calculateTrend getCurrentZone
                                   st now ppg) in
  0 < lastHeartRate st1
  /\ Z.abs (lastHeartRate st1 - lastHeartRate st) <= MAX_JUMP.
Proof.
  intros Hprior. cbv zeta.
  destruct (processHeartRate_shape st now ppg)
    as (st' & Hout & _ & _ & _ & _ & Hl & _ & _).
  cbv zeta in *.
  destruct Hout as [-> | (-> & Hpos & _)].
  - rewrite Hl. unfold MAX_JUMP. lia.
  - destruct (JumpFacts.acceptReading_stores isStableReading calculateTrend
                getCurrentZone st' now
                (calculateHeartRate
                   (if (BUFFER_SIZE <? length (ppgBuffer st ++ ppg))%nat
                    then Js.sliceLast BUFFER_SIZE (ppgBuffer st ++ ppg)
                    else ppgBuffer st ++ ppg))) as (Hstored & _).
    cbv zeta in Hstored. rewrite Hstored, Hl.
    split; [apply limitJump_positive, Hpos | apply limitJump_within, Hprior].
Qed.

(** The branch taken when the calculation runs and yields a rate. *)
Lemma processHeartRate_accepted st now ppg :
  let appended := ppgBuffer st ++ ppg in
  let buffer := if (BUFFER_SIZE <? length appended)%nat
                then Js.sliceLast BUFFER_SIZE appended else appended in
  let out := processHeartRate assessSignalQuality calculateHeartRate isStableReading
                              calculateTrend getCurrentZone st now ppg in
  let limited := fst (limitJump (lastHeartRate st) (calculateHeartRate buffer)) in
  (300 <= length buffer)%nat ->
  (3 # 10 < assessSignalQuality buffer)%Q ->
  (500 <= now - lastCalculation st \/ smoothedHeartRate st <= 0) ->
  0 < Reading.heartRate (calculateHeartRate buffer) ->
  Result.heartRate (snd out) = smooth (smoothedHeartRate st) limited
  /\ smoothedHeartRate (fst out) = smooth (smoothedHeartRate st) limited
  /\ lastHeartRate (fst out) = limited
  /\ lastCalculation (fst out) = now
  /\ fingerDetected (fst out) = true
  /\ Result.fingerDetected (snd out) = true.
Proof.
  cbv zeta. intros Hlen Hquality Hdue Hrate.
  unfold processHeartRate. cbv zeta.
  set (buffer := if (BUFFER_SIZE <? length (ppgBuffer st ++ ppg))%nat
                 then Js.sliceLast BUFFER_SIZE (ppgBuffer st ++ ppg)
                 else ppgBuffer st ++ ppg) in *.
  unfold SAMPLE_RATE.
  destruct (Z.ltb_spec (Z.of_nat (length buffer)) (150 * 2)); [lia |].
  assert (Hfinger : Js.ltb (3 # 10) (assessSignalQuality buffer) = true).
  { unfold Js.ltb. apply negb_true_iff.
    destruct (Qle_bool (assessSignalQuality buffer) (3 # 10)) eqn:Hle;
      [| reflexivity].
    apply Qle_bool_iff in Hle. exfalso. apply (Qlt_not_le _ _ Hquality Hle). }
  rewrite Hfinger. cbn [negb].
  assert (Hskip : (now - lastCalculation st <? 500) && (smoothedHeartRate st >? 0)
                  = false).
  { destruct (Z.ltb_spec (now - lastCalculation st) 500);
      destruct (Z.gtb_spec (smoothedHeartRate st) 0); cbn [andb]; try reflexivity.
    lia. }
  rewrite Hskip.
  destruct (Z.gtb_spec (Reading.heartRate (calculateHeartRate buffer)) 0); [| lia].
  unfold acceptReading. cbn [lastHeartRate].
  destruct (limitJump (lastHeartRate st) (calculateHeartRate buffer)) as [limited conf].
  cbn. repeat split.
Qed.

(** The branch taken when the quality test fails. *)
Lemma processHeartRate_quality_lost st now ppg :
  let appended := ppgBuffer st ++ ppg in
  let buffer := if (BUFFER_SIZE <? length appended)%nat
                then Js.sliceLast BUFFER_SIZE appended else appended in
  let out := processHeartRate assessSignalQuality calculateHeartRate isStableReading
                              calculateTrend getCurrentZone st now ppg in
  (300 <= length buffer)%nat ->
  (assessSignalQuality buffer <= 3 # 10)%Q ->
  snd out = noReading
  /\ fingerDetected (fst out) = false
  /\ smoothedHeartRate (fst out) = 0
  /\ stabilityCounter (fst out) = 0
  /\ lastHeartRate (fst out) = lastHeartRate st
  /\ heartRateHistory (fst out) = heartRateHistory st
  /\ lastCalculation (fst out) = lastCalculation st
  /\ ppgBuffer (fst out) = buffer.
Proof.
  cbv zeta. intros Hlen Hquality.
  unfold processHeartRate. cbv zeta.
  set (buffer := if (BUFFER_SIZE <? length (ppgBuffer st ++ ppg))%nat
                 then Js.sliceLast BUFFER_SIZE (ppgBuffer st ++ ppg)
                 else ppgBuffer st ++ ppg) in *.
  unfold SAMPLE_RATE.
  destruct (Z.ltb_spec (Z.of_nat (length buffer)) (150 * 2)); [lia |].
  assert (Hfinger : Js.ltb (3 # 10) (assessSignalQuality buffer) = false).
  { unfold Js.ltb. apply negb_false_iff, Qle_bool_iff, Hquality. }
  rewrite Hfinger. cbn. repeat split.
Qed.

(** The branch that answers from the last calculation. *)
Lemma processHeartRate_cached st now ppg :
  let appended := ppgBuffer st ++ ppg in
  let buffer := if (BUFFER_SIZE <? length appended)%nat
                then Js.sliceLast BUFFER_SIZE appended else appended in
  let out := processHeartRate assessSignalQuality calculateHeartRate isStableReading
                              calculateTrend getCurrentZone st now ppg in
  (300 <= length buffer)%nat ->
  (3 # 10 < assessSignalQuality buffer)%Q ->
  now - lastCalculation st < 500 ->
  0 < smoothedHeartRate st ->
  Result.heartRate (snd out) = smoothedHeartRate st
  /\ Result.quality (snd out) = signalQuality st
  /\ Result.fingerDetected (snd out) = true
  /\ Result.isStable (snd out) = None
  /\ fingerDetected (fst out) = true
  /\ ppgBuffer (fst out) = buffer
  /\ lastCalculation (fst out) = lastCalculation st
  /\ lastHeartRate (fst out) = lastHeartRate st
  /\ heartRateHistory (fst out) = heartRateHistory st
  /\ smoothedHeartRate (fst out) = smoothedHeartRate st
  /\ stabilityCounter (fst out) = stabilityCounter st.
Proof.
  cbv zeta. intros Hlen Hquality Hsoon Hpos.
  unfold processHeartRate. cbv zeta.
  set (buffer := if (BUFFER_SIZE <? length (ppgBuffer st ++ ppg))%nat
                 then Js.sliceLast BUFFER_SIZE (ppgBuffer st ++ ppg)
                 else ppgBuffer st ++ ppg) in *.
  unfold SAMPLE_RATE.
  destruct (Z.ltb_spec (Z.of_nat (length buffer)) (150 * 2)); [lia |].
  assert (Hfinger : Js.ltb (3 # 10) (assessSignalQuality buffer) = true).
  { unfold Js.ltb. apply negb_true_iff.
    destruct (Qle_bool (assessSignalQuality buffer) (3 # 10)) eqn:Hle;
      [| reflexivity].
    apply Qle_bool_iff in Hle. exfalso. apply (Qlt_not_le _ _ Hquality Hle). }
  rewrite Hfinger. cbn [negb].
  destruct (Z.ltb_spec (now - lastCalculation st) 500); [| lia].
  destruct (Z.gtb_spec (smoothedHeartRate st) 0); [| lia].
  cbn. repeat split.
Qed.

(** The rate reported by a call. *)
Lemma processHeartRate_reported st now ppg :
  let appended := ppgBuffer st ++ ppg in
  let buffer := if (BUFFER_SIZE <? length appended)%nat
                then Js.sliceLast BUFFER_SIZE appended else appended in
  let out := processHeartRate assessSignalQuality calculateHeartRate isStableReading
                              calculateTrend getCurrentZone st now ppg in
  Result.heartRate (snd out) = 0
  \/ Result.heartRate (snd out) = smoothedHeartRate st
  \/ (0 < Reading.heartRate (calculateHeartRate buffer)
      /\ Result.heartRate (snd out)
         = smooth (smoothedHeartRate st)
                  (fst (limitJump (lastHeartRate st) (calculateHeartRate buffer)))).
Proof.
  cbv zeta. unfold processHeartRate. cbv zeta.
  set (buffer := if (BUFFER_SIZE <? length (ppgBuffer st ++ ppg))%nat
                 then Js.sliceLast BUFFER_SIZE (ppgBuffer st ++ ppg)
                 else ppgBuffer st ++ ppg).
  destruct (Z.of_nat (length buffer) <? SAMPLE_RATE * 2); [left; reflexivity |].
  destruct (Js.ltb (3 # 10) (assessSignalQuality buffer)); cbn [negb];
    [| left; reflexivity].
  destruct ((now - lastCalculation st <? 500) && (smoothedHeartRate st >? 0));
    [right; left; reflexivity |].
  destruct (Z.gtb_spec (Reading.heartRate (calculateHeartRate buffer)) 0) as [Hpos | _].
  { right; right. split; [lia |].
    unfold acceptReading. cbn [lastHeartRate smoothedHeartRate].
    destruct (limitJump (lastHeartRate st) (calculateHeartRate buffer)) as [limited conf].
    reflexivity. }
  destruct ((smoothedHeartRate st >? 0) && Js.ltb (5 # 10) (assessSignalQuality buffer));
    [right; left | left]; reflexivity.
Qed.

Lemma advancedRun_steady st calls :
  Shape.Steady st ->
  Shape.Steady (Shape.advancedRun assessSignalQuality calculateHeartRate isStableReading
                                  calculateTrend getCurrentZone st calls).
Proof.
  unfold Shape.advancedRun. revert st.
  induction calls as [| c rest IH]; intros st Hst; cbn [fold_left]; [exact Hst |].
  apply IH, processHeartRate_steady, Hst.
Qed.

End Processor.

(** The cached answer does not depend on the calculation. *)
Lemma processHeartRate_cached_any
  (assess : list Z -> Q) (calc1 calc2 : list Z -> Reading.t)
  (stableR : list Z -> bool) (trendOf : list Z -> string) (zoneOf : Z -> string)
  st now ppg :
  let appended := ppgBuffer st ++ ppg in
  let buffer := if (BUFFER_SIZE <? length appended)%nat
                then Js.sliceLast BUFFER_SIZE appended else appended in
  (3 # 10 < assess buffer)%Q ->
  now - lastCalculation st < 500 ->
  0 < smoothedHeartRate st ->
  processHeartRate assess calc1 stableR trendOf zoneOf st now ppg
  = processHeartRate assess calc2 stableR trendOf zoneOf st now ppg.
Proof.
  cbv zeta. intros Hquality Hsoon Hpos.
  unfold processHeartRate. cbv zeta.
  set (buffer := if (BUFFER_SIZE <? length (ppgBuffer st ++ ppg))%nat
                 then Js.sliceLast BUFFER_SIZE (ppgBuffer st ++ ppg)
                 else ppgBuffer st ++ ppg) in *.
  destruct (Z.of_nat (length buffer) <? SAMPLE_RATE * 2); [reflexivity |].
  destruct (Js.ltb (3 # 10) (assess buffer)); cbn [negb]; [| reflexivity].
  destruct (Z.ltb_spec (now - lastCalculation st) 500); [| lia].
  destruct (Z.gtb_spec (smoothedHeartRate st) 0); [| lia].
  reflexivity.
Qed.

Lemma initialState_steady : Shape.Steady initialState.
Proof.
  unfold Shape.Steady. cbn. repeat split; try lia; try constructor.
  intros k Hk. cbn in Hk. lia.
Qed.

End SteadyFacts.

(** X16.  What every run of the advanced processor keeps, whatever the
    helper functions return: the buffer holds at most 1000 samples; the
    history holds at most ten rates, all positive, with adjacent entries
    at most [MAX_JUMP] apart; the confidence scores and the timestamps
    are as many as the rates; the last rate is the head of the history
    (0 when it is empty); the smoothed rate and the stability counter
    are not negative. *)
Theorem advanced_runs_stay_steady :
  forall (assessSignalQuality : list Z -> Q)
         (calculateHeartRate : list Z -> Advanced.Reading.t)
         (isStableReading : list Z -> bool)
         (calculateTrend : list Z -> string)
         (getCurrentZone : Z -> string),
    (forall st now ppgData,
        Shape.Steady st ->
        Shape.Steady
          (fst (Advanced.processHeartRate assessSignalQuality calculateHeartRate
                  isStableReading calculateTrend getCurrentZone st now ppgData)))
    /\ (forall calls,
           Shape.Steady
             (Shape.advancedRun assessSignalQuality calculateHeartRate isStableReading
                                calculateTrend getCurrentZone Advanced.initialState calls)).
Proof.
  intros assess calc stableR trendOf zoneOf. split.
  - intros st now ppg. apply SteadyFacts.processHeartRate_steady.
  - intros calls. apply SteadyFacts.advancedRun_steady, SteadyFacts.initialState_steady.
Qed.

Lemma advanced_runs_witness :
  Shape.Steady
    (fst (Advanced.processHeartRate
            (fun _ => 1%Q)
            (fun _ => {| Advanced.Reading.heartRate := 95;
                         Advanced.Reading.confidence := 9 # 10 |})
            (fun _ => true) (fun _ => "stable") (fun _ => "Rest")
            Advanced.initialState 2000 (repeat 20000 300))).
Proof.
  apply (proj1 (advanced_runs_stay_steady
                  (fun _ => 1%Q)
                  (fun _ => {| Advanced.Reading.heartRate := 95;
                               Advanced.Reading.confidence := 9 # 10 |})
                  (fun _ => true) (fun _ => "stable") (fun _ => "Rest"))).
  exact SteadyFacts.initialState_steady.
Defined.

(** X17.  Rates move gradually.  In every call of the advanced
    processor a positive last rate stays positive and moves by at most
    15; and with a positive smoothed rate as well, the reported rate is 0
    or lies between the previous smoothed rate and the last rate plus or
    minus 15. *)
Theorem advanced_rates_move_gradually :
  forall (assessSignalQuality : list Z -> Q)
         (calculateHeartRate : list Z -> Advanced.Reading.t)
         (isStableReading : list Z -> bool)
         (calculateTrend : list Z -> string)
         (getCurrentZone : Z -> string)
         st now ppgData,
    let out := Advanced.processHeartRate assessSignalQuality calculateHeartRate
                 isStableReading calculateTrend getCurrentZone st now ppgData in
    let last := Advanced.lastHeartRate st in
    let smoothed := Advanced.smoothedHeartRate st in
    0 < last ->
    (0 < Advanced.lastHeartRate (fst out)
     /\ Z.abs (Advanced.lastHeartRate (fst out) - last) <= 15)
    /\ (0 < smoothed ->
        Advanced.Result.heartRate (snd out) = 0
        \/ Z.min smoothed (last - 15) <= Advanced.Result.heartRate (snd out)
                                      <= Z.max smoothed (last + 15)).
Proof.
  intros assess calc stableR trendOf zoneOf st now ppg out last smoothed Hlast.
  split.
  - apply (SteadyFacts.processHeartRate_last assess calc stableR trendOf zoneOf
             st now ppg Hlast).
  - intros Hsmoothed.
    destruct (SteadyFacts.processHeartRate_reported assess calc stableR trendOf zoneOf
                st now ppg) as [Hzero | [Hsame | [Hpos Hnew]]].
    + left. exact Hzero.
    + right. subst out. cbv zeta in Hsame. rewrite Hsame. fold smoothed. lia.
    + right. subst out. cbv zeta in Hnew. rewrite Hnew.
      pose proof (SteadyFacts.smooth_between (Advanced.smoothedHeartRate st)
                    (fst (Advanced.limitJump (Advanced.lastHeartRate st)
                            (calc (if (Advanced.BUFFER_SIZE
                                       <? length (Advanced.ppgBuffer st ++ ppg))%nat
                                   then Js.sliceLast Advanced.BUFFER_SIZE
                                          (Advanced.ppgBuffer st ++ ppg)
                                   else Advanced.ppgBuffer st ++ ppg))))) as Hbetween.
      pose proof (SteadyFacts.limitJump_within (Advanced.lastHeartRate st)
                    (calc (if (Advanced.BUFFER_SIZE
                               <? length (Advanced.ppgBuffer st ++ ppg))%nat
                           then Js.sliceLast Advanced.BUFFER_SIZE
                                  (Advanced.ppgBuffer st ++ ppg)
                           else Advanced.ppgBuffer st ++ ppg)) Hlast) as Hwithin.
      unfold Advanced.MAX_JUMP in Hwithin. fold last smoothed in Hbetween, Hwithin |- *.
      lia.
Qed.

Lemma advanced_rates_witness :
  let st := {| Advanced.fingerDetected := true;
               Advanced.ppgBuffer := [];
               Advanced.heartRateHistory := [70];
               Advanced.confidenceScores := [9 # 10];
               Advanced.timestamps := [1000];
               Advanced.lastHeartRate := 70;
               Advanced.lastCalculation := 1000;
               Advanced.signalQuality := 9 # 10;
               Advanced.stabilityCounter := 0;
               Advanced.smoothedHeartRate := 70 |} in
  let out := Advanced.processHeartRate
               (fun _ => 1%Q)
               (fun _ => {| Advanced.Reading.heartRate := 95;
                            Advanced.Reading.confidence := 9 # 10 |})
               (fun _ => true) (fun _ => "stable") (fun _ => "Rest")
               st 2000 (repeat 20000 300) in
  (0 < Advanced.lastHeartRate (fst out)
   /\ Z.abs (Advanced.lastHeartRate (fst out) - 70) <= 15)
  /\ (0 < 70 ->
      Advanced.Result.heartRate (snd out) = 0
      \/ Z.min 70 (70 - 15) <= Advanced.Result.heartRate (snd out) <= Z.max 70 (70 + 15)).
Proof.
  cbv zeta.
  apply (advanced_rates_move_gradually
           (fun _ => 1%Q)
           (fun _ => {| Advanced.Reading.heartRate := 95;
                        Advanced.Reading.confidence := 9 # 10 |})
           (fun _ => true) (fun _ => "stable") (fun _ => "Rest")).
  cbn. lia.
Defined.

(** X18.  A loss of contact restarts the smoothing but not the jump
    limit.  When the buffer holds at least 300 samples and its quality is
    at most 0.3, the call answers with the no-reading record and zeroes
    the smoothed rate and the stability counter, while the last rate, the
    history and the time of the last calculation stay; and the first
    positive reading accepted afterwards is reported as limited, without
    smoothing, still at most 15 from the rate stored before the loss. *)
Theorem advanced_contact_loss_restarts_smoothing_only :
  forall (assessSignalQuality : list Z -> Q)
         (calculateHeartRate : list Z -> Advanced.Reading.t)
         (isStableReading : list Z -> bool)
         (calculateTrend : list Z -> string)
         (getCurrentZone : Z -> string)
         st now ppgData now' ppgData',
    let cut := fun appended : list Z =>
                 if (Advanced.BUFFER_SIZE <? length appended)%nat
                 then Js.sliceLast Advanced.BUFFER_SIZE appended else appended in
    let buffer := cut (Advanced.ppgBuffer st ++ ppgData) in
    let buffer' := cut (buffer ++ ppgData') in
    let out := Advanced.processHeartRate assessSignalQuality calculateHeartRate
                 isStableReading calculateTrend getCurrentZone st now ppgData in
    let out' := Advanced.processHeartRate assessSignalQuality calculateHeartRate
                  isStableReading calculateTrend getCurrentZone (fst out) now' ppgData' in
    (300 <= length buffer)%nat ->
    (assessSignalQuality buffer <= 3 # 10)%Q ->
    (300 <= length buffer')%nat ->
    (3 # 10 < assessSignalQuality buffer')%Q ->
    0 < Advanced.Reading.heartRate (calculateHeartRate buffer') ->
    (snd out = Advanced.noReading
     /\ Advanced.smoothedHeartRate (fst out) = 0
     /\ Advanced.stabilityCounter (fst out) = 0
     /\ Advanced.lastHeartRate (fst out) = Advanced.lastHeartRate st
     /\ Advanced.heartRateHistory (fst out) = Advanced.heartRateHistory st
     /\ Advanced.lastCalculation (fst out) = Advanced.lastCalculation st)
    /\ Advanced.Result.heartRate (snd out')
       = fst (Advanced.limitJump (Advanced.lastHeartRate st) (calculateHeartRate buffer'))
    /\ Advanced.smoothedHeartRate (fst out') = Advanced.Result.heartRate (snd out')
    /\ (0 < Advanced.lastHeartRate st ->
        Z.abs (Advanced.Result.heartRate (snd out') - Advanced.lastHeartRate st) <= 15).
Proof.
  intros assess calc stableR trendOf zoneOf st now ppg now' ppg'
         cut buffer buffer' out out' Hlen Hlow Hlen' Hgood Hrate.
  destruct (SteadyFacts.processHeartRate_quality_lost assess calc stableR trendOf zoneOf
              st now ppg Hlen Hlow)
    as (Hres & _ & Hsm & Hcnt & Hlast & Hhist & Hcalc & Hbuf).
  fold out in Hres, Hsm, Hcnt, Hlast, Hhist, Hcalc, Hbuf.
  fold (cut (Advanced.ppgBuffer st ++ ppg)) in Hbuf. fold buffer in Hbuf.
  split; [repeat split; assumption |].
  assert (Hlen2 : (300 <= length (cut (Advanced.ppgBuffer (fst out) ++ ppg')))%nat)
    by (rewrite Hbuf; exact Hlen').
  assert (Hgood2 : (3 # 10 < assess (cut (Advanced.ppgBuffer (fst out) ++ ppg')))%Q)
    by (rewrite Hbuf; exact Hgood).
  assert (Hrate2 : 0 < Advanced.Reading.heartRate
                         (calc (cut (Advanced.ppgBuffer (fst out) ++ ppg'))))
    by (rewrite Hbuf; exact Hrate).
  assert (Hdue : 500 <= now' - Advanced.lastCalculation (fst out)
                 \/ Advanced.smoothedHeartRate (fst out) <= 0) by (right; lia).
  destruct (SteadyFacts.processHeartRate_accepted assess calc stableR trendOf zoneOf
              (fst out) now' ppg' Hlen2 Hgood2 Hdue Hrate2)
    as (Hreported & Hsmoothed & _).
  fold out' in Hreported, Hsmoothed.
  fold (cut (Advanced.ppgBuffer (fst out) ++ ppg')) in Hreported, Hsmoothed.
  rewrite Hbuf in Hreported, Hsmoothed. fold buffer' in Hreported, Hsmoothed.
  rewrite Hsm, Hlast in Hreported, Hsmoothed.
  change (Advanced.smooth 0 ?l) with l in Hreported, Hsmoothed.
  split; [exact Hreported |].
  split; [rewrite Hsmoothed, Hreported; reflexivity |].
  intros Hprior. rewrite Hreported.
  pose proof (SteadyFacts.limitJump_within (Advanced.lastHeartRate st) (calc buffer') Hprior)
    as Hwithin.
  unfold Advanced.MAX_JUMP in Hwithin. exact Hwithin.
Qed.

Lemma advanced_contact_loss_witness :
  let assess := fun b : list Z => if nth 0 b 0 =? 0 then 0%Q else 1%Q in
  let calc := fun _ : list Z => {| Advanced.Reading.heartRate := 95;
                                   Advanced.Reading.confidence := 9 # 10 |} in
  let st := {| Advanced.fingerDetected := true;
               Advanced.ppgBuffer := [];
               Advanced.heartRateHistory := [70];
               Advanced.confidenceScores := [9 # 10];
               Advanced.timestamps := [1000];
               Advanced.lastHeartRate := 70;
               Advanced.lastCalculation := 1000;
               Advanced.signalQuality := 9 # 10;
               Advanced.stabilityCounter := 3;
               Advanced.smoothedHeartRate := 70 |} in
  let out := Advanced.processHeartRate assess calc (fun _ => true) (fun _ => "stable")
               (fun _ => "Rest") st 2000 (repeat 0 1000) in
  let out' := Advanced.processHeartRate assess calc (fun _ => true) (fun _ => "stable")
                (fun _ => "Rest") (fst out) 3000 (repeat 20000 1000) in
  snd out = Advanced.noReading
  /\ Advanced.Result.heartRate (snd out')
     = fst (Advanced.limitJump 70 {| Advanced.Reading.heartRate := 95;
                                     Advanced.Reading.confidence := 9 # 10 |})
  /\ Z.abs (Advanced.Result.heartRate (snd out') - 70) <= 15.
Proof.
  cbv zeta.
  destruct (advanced_contact_loss_restarts_smoothing_only
              (fun b : list Z => if nth 0 b 0 =? 0 then 0%Q else 1%Q)
              (fun _ : list Z => {| Advanced.Reading.heartRate := 95;
                                    Advanced.Reading.confidence := 9 # 10 |})
              (fun _ => true) (fun _ => "stable") (fun _ => "Rest")
              {| Advanced.fingerDetected := true;
                 Advanced.ppgBuffer := [];
                 Advanced.heartRateHistory := [70];
                 Advanced.confidenceScores := [9 # 10];
                 Advanced.timestamps := [1000];
                 Advanced.lastHeartRate := 70;
                 Advanced.lastCalculation := 1000;
                 Advanced.signalQuality := 9 # 10;
                 Advanced.stabilityCounter := 3;
                 Advanced.smoothedHeartRate := 70 |}
              2000 (repeat 0 1000) 3000 (repeat 20000 1000))
    as ((Hlost & _) & Hreported & _ & Hwithin).
  - Runs.by_evaluation.
  - Runs.by_evaluation.
  - Runs.by_evaluation.
  - Runs.by_evaluation.
  - Runs.by_evaluation.
  - split; [exact Hlost |]. split; [exact Hreported |].
    apply Hwithin. cbn. lia.
Defined.

(** X19.  Within 500 ms of the last calculation the advanced processor
    answers from its state.  With at least 300 buffered samples, a
    quality above 0.3, less than 500 ms since the last calculation and a
    positive smoothed rate, the call reports the smoothed rate and the
    stored quality, changes nothing but the buffer and the contact flag,
    and its outcome is the same for every rate calculation. *)
Theorem advanced_answer_is_cached_for_500ms :
  forall (assessSignalQuality : list Z -> Q)
         (calculateHeartRate otherCalculation : list Z -> Advanced.Reading.t)
         (isStableReading : list Z -> bool)
         (calculateTrend : list Z -> string)
         (getCurrentZone : Z -> string)
         st now ppgData,
    let appended := Advanced.ppgBuffer st ++ ppgData in
    let buffer := if (Advanced.BUFFER_SIZE <? length appended)%nat
                  then Js.sliceLast Advanced.BUFFER_SIZE appended else appended in
    let out := Advanced.processHeartRate assessSignalQuality calculateHeartRate
                 isStableReading calculateTrend getCurrentZone st now ppgData in
    (300 <= length buffer)%nat ->
    (3 # 10 < assessSignalQuality buffer)%Q ->
    now - Advanced.lastCalculation st < 500 ->
    0 < Advanced.smoothedHeartRate st ->
    out = Advanced.processHeartRate assessSignalQuality otherCalculation
            isStableReading calculateTrend getCurrentZone st now ppgData
    /\ Advanced.Result.heartRate (snd out) = Advanced.smoothedHeartRate st
    /\ Advanced.Result.quality (snd out) = Advanced.signalQuality st
    /\ Advanced.Result.isStable (snd out) = None
    /\ Advanced.ppgBuffer (fst out) = buffer
    /\ Advanced.lastCalculation (fst out) = Advanced.lastCalculation st
    /\ Advanced.lastHeartRate (fst out) = Advanced.lastHeartRate st
    /\ Advanced.heartRateHistory (fst out) = Advanced.heartRateHistory st
    /\ Advanced.smoothedHeartRate (fst out) = Advanced.smoothedHeartRate st
    /\ Advanced.stabilityCounter (fst out) = Advanced.stabilityCounter st.
Proof.
  intros assess calc other stableR trendOf zoneOf st now ppg appended buffer out
         Hlen Hquality Hsoon Hpos.
  split.
  { apply (SteadyFacts.processHeartRate_cached_any assess calc other stableR trendOf
             zoneOf st now ppg Hquality Hsoon Hpos). }
  destruct (SteadyFacts.processHeartRate_cached assess calc stableR trendOf zoneOf
              st now ppg Hlen Hquality Hsoon Hpos)
    as (H1 & H2 & _ & H4 & _ & H6 & H7 & H8 & H9 & H10 & H11).
  repeat split; assumption.
Qed.

Lemma advanced_cached_witness :
  let st := {| Advanced.fingerDetected := true;
               Advanced.ppgBuffer := [];
               Advanced.heartRateHistory := [70];
               Advanced.confidenceScores := [9 # 10];
               Advanced.timestamps := [1000];
               Advanced.lastHeartRate := 70;
               Advanced.lastCalculation := 1000;
               Advanced.signalQuality := 9 # 10;
               Advanced.stabilityCounter := 3;
               Advanced.smoothedHeartRate := 70 |} in
  let out := Advanced.processHeartRate (fun _ => 1%Q)
               (fun _ => {| Advanced.Reading.heartRate := 95;
                            Advanced.Reading.confidence := 9 # 10 |})
               (fun _ => true) (fun _ => "stable") (fun _ => "Rest")
               st 1200 (repeat 20000 300) in
  out = Advanced.processHeartRate (fun _ => 1%Q)
          (fun _ => {| Advanced.Reading.heartRate := 0;
                       Advanced.Reading.confidence := 0 |})
          (fun _ => true) (fun _ => "stable") (fun _ => "Rest")
          st 1200 (repeat 20000 300)
  /\ Advanced.Result.heartRate (snd out) = 70.
Proof.
  cbv zeta.
  destruct (advanced_answer_is_cached_for_500ms
              (fun _ => 1%Q)
              (fun _ => {| Advanced.Reading.heartRate := 95;
                           Advanced.Reading.confidence := 9 # 10 |})
              (fun _ => {| Advanced.Reading.heartRate := 0;
                           Advanced.Reading.confidence := 0 |})
              (fun _ => true) (fun _ => "stable") (fun _ => "Rest")
              {| Advanced.fingerDetected := true;
                 Advanced.ppgBuffer := [];
                 Advanced.heartRateHistory := [70];
                 Advanced.confidenceScores := [9 # 10];
                 Advanced.timestamps := [1000];
                 Advanced.lastHeartRate := 70;
                 Advanced.lastCalculation := 1000;
                 Advanced.signalQuality := 9 # 10;
                 Advanced.stabilityCounter := 3;
                 Advanced.smoothedHeartRate := 70 |}
              1200 (repeat 20000 300))
    as (Hsame & Hrate & _).
  - Runs.by_evaluation.
  - Runs.by_evaluation.
  - Runs.by_evaluation.
  - Runs.by_evaluation.
  - split; [exact Hsame | exact Hrate].
Defined.

(** ** The per-batch calculator *)

Module BatchFacts.
Import Batch.

Lemma fold_max_ge (l : list Z) (a : Z) :
  a <= fold_left Z.max l a /\ forall v, In v l -> v <= fold_left Z.max l a.
Proof.
  revert a. induction l as [| x l IH]; intros a; cbn [fold_left].
  - split; [lia | intros v []].
  - destruct (IH (Z.max a x)) as [Ha Hl]. split; [lia |].
    intros v [<- | Hv]; [lia | apply Hl, Hv].
Qed.

Lemma fold_max_in (l : list Z) (a : Z) :
  fold_left Z.max l a = a \/ In (fold_left Z.max l a) l.
Proof.
  revert a. induction l as [| x l IH]; intros a; cbn [fold_left]; [left; reflexivity |].
  destruct (IH (Z.max a x)) as [Heq | Hin].
  - rewrite Heq. destruct (Z.max_spec a x) as [[_ ->] | [_ ->]];
      [right; left; reflexivity | left; reflexivity].
  - right. right. exact Hin.
Qed.

(** [Math.max(...ppgData)] is the largest sample of a non-empty batch. *)
Lemma maxOf_spec (ppg : list Z) :
  ppg <> [] ->
  In (Engine.maxOf ppg) ppg /\ forall v, In v ppg -> v <= Engine.maxOf ppg.
Proof.
  intros Hne. unfold Engine.maxOf.
  destruct ppg as [| x rest]; [congruence |]. cbn [nth].
  split.
  - destruct (fold_max_in (x :: rest) x) as [Heq | Hin]; [| exact Hin].
    rewrite Heq. left. reflexivity.
  - intros v Hv. apply fold_max_ge, Hv.
Qed.

Lemma hasFinger_iff (ppg : list Z) :
  ppg <> [] -> hasFinger ppg = true <-> exists v, In v ppg /\ 18000 < v.
Proof.
  intros Hne. destruct (maxOf_spec ppg Hne) as [Hin Hmax]. unfold hasFinger.
  rewrite Z.gtb_lt. split.
  - intros Hbig. exists (Engine.maxOf ppg). split; assumption.
  - intros (v & Hv & Hbig). specialize (Hmax v Hv). lia.
Qed.

Lemma method1_cases (peaks : list Z) :
  Engine.method1 peaks = 0 \/ 40 <= Engine.method1 peaks <= 200.
Proof.
  unfold Engine.method1.
  destruct (0 <? length (filter Engine.validInterval (Engine.intervalsOf peaks)))%nat;
    [apply InvariantFacts.validated_cases | left; reflexivity].
Qed.

Lemma batch_rateFromPeaks_cases (peaks : list Z) (n : nat) :
  rateFromPeaks peaks n = 0 \/ 40 <= rateFromPeaks peaks n <= 200.
Proof.
  unfold rateFromPeaks.
  pose proof (method1_cases peaks) as H1.
  assert (H2 : Engine.method2 peaks = 0 \/ 40 <= Engine.method2 peaks <= 200)
    by (unfold Engine.method2; apply InvariantFacts.validated_cases).
  assert (H3 : Engine.method3 peaks n = 0 \/ 40 <= Engine.method3 peaks n <= 200)
    by (unfold Engine.method3; apply InvariantFacts.validated_cases).
  destruct (2 <=? length peaks)%nat; [| left; reflexivity].
  destruct ((Engine.method1 peaks =? 0) && (3 <=? length peaks)%nat);
    match goal with |- context [if (?x =? 0) && _ then _ else _] =>
      destruct ((x =? 0) && true) end; assumption.
Qed.

Lemma batch_rateFromPeaks_few (peaks : list Z) (n : nat) :
  (length peaks < 2)%nat -> rateFromPeaks peaks n = 0.
Proof.
  intros Hfew. unfold rateFromPeaks.
  destruct (Nat.leb_spec 2 (length peaks)); [lia | reflexivity].
Qed.

Lemma pushHistory_keeps (P : Z -> Prop) (hr : Z) (history : list Z) :
  (0 < hr -> P hr) ->
  (length history <= 4)%nat ->
  Forall P history ->
  (length (Engine.pushHistory hr history) <= 4)%nat
  /\ Forall P (Engine.pushHistory hr history).
Proof.
  intros Hhr Hlen Hall. unfold Engine.pushHistory, Js.unshift, Js.pop, Engine.MAX_HISTORY.
  destruct (Z.gtb_spec hr 0); [| split; assumption].
  assert (Hpushed : Forall P (hr :: history)) by (constructor; auto).
  destruct (Nat.ltb_spec 4 (length (hr :: history))).
  - split; [rewrite SteadyFacts.removelast_length; cbn [length] in *; lia |].
    apply SteadyFacts.removelast_Forall, Hpushed.
  - split; [cbn [length] in *; lia | exact Hpushed].
Qed.

Lemma recentMean_range (lo hi : Z) (history : list Z) :
  history <> [] ->
  Forall (fun bpm => lo <= bpm <= hi) history ->
  lo <= Engine.recentMean history <= hi.
Proof.
  intros Hne Hall. unfold Engine.recentMean, Js.slicePrefix, Js.num.
  set (values := firstn (Nat.min 4 (length history)) history).
  assert (Hv : Forall (fun x => lo <= x <= hi) values)
    by (apply InvariantFacts.Forall_prefix, Hall).
  assert (Hvne : values <> []).
  { subst values. destruct history as [| x rest]; [congruence |]. cbn. discriminate. }
  destruct (BoundFacts.mean_bounds lo hi values Hvne Hv) as [Hlo Hhi].
  apply BoundFacts.Math_round_range; assumption.
Qed.

Lemma consensusRate_cases (history : list Z) (hr : Z) :
  Forall (fun bpm => 40 <= bpm <= 200) history ->
  hr = 0 \/ 40 <= hr <= 200 ->
  consensusRate history hr = 0 \/ 40 <= consensusRate history hr <= 200.
Proof.
  intros Hall Hhr. unfold consensusRate.
  destruct (Nat.leb_spec 3 (length history)) as [Hlen | _]; [| exact Hhr].
  assert (Hne : history <> []) by (destruct history; [cbn in Hlen; lia | discriminate]).
  destruct (Engine.allWithin15 history); cbn [negb].
  - destruct (Z.gtb_spec hr 0); [lia |].
    destruct history as [| x rest]; [congruence |].
    cbn [nth]. inversion Hall; subst. right. assumption.
  - right. apply recentMean_range; assumption.
Qed.

Section Step.
Context {num : Type} `{Number num}.

(** The two shapes of a call. *)
Lemma batch_cases s now ppg :
  (((length ppg < 100)%nat \/ hasFinger ppg = false)
   /\ processHeartRate s now ppg = noSignal s)
  \/ ((100 <= length ppg)%nat /\ hasFinger ppg = true
      /\ exists d,
          let out := processHeartRate s now ppg in
          debug (snd out) = Some d
          /\ fingerDetected (snd out) = true
          /\ batchesReceived (fst out)
             = (if isAcquiring s then batchesReceived s else 0) + 1
          /\ isAcquiring (fst out) = true
          /\ acquisitionStartTime (fst out)
             = (if isAcquiring s then acquisitionStartTime s else now)
          /\ recentHeartRates (fst out)
             = Engine.pushHistory (calculatedRate d) (recentHeartRates s)
          /\ isStable (fst out) = Engine.stableReading (recentHeartRates (fst out))
          /\ calculatedRate d
             = rateFromPeaks
                 (Signal.detectPeaksWith 2 (Signal.filterSignal (num := num) ppg))
                 (length ppg)
          /\ peakCount d
             = length (Signal.detectPeaksWith 2 (Signal.filterSignal (num := num) ppg))
          /\ finalRate d = consensusRate (recentHeartRates (fst out)) (calculatedRate d)
          /\ heartRate (snd out)
             = (if batchesReceived (fst out) <? 5 then 0 else finalRate d)
          /\ zone (snd out) = Engine.name (Engine.zoneFor (finalRate d))
          /\ phase (snd out)
             = (if batchesReceived (fst out) <? 5 then "acquiring"
                else if isStable (fst out) then "tracking" else "stabilizing")).
Proof.
  unfold processHeartRate.
  destruct (Nat.ltb_spec (length ppg) 100) as [Hshort | Hsize].
  { left. split; [left; exact Hshort | reflexivity]. }
  destruct (hasFinger ppg) eqn:Hfinger; cbn [negb].
  2: { left. split; [right; reflexivity | reflexivity]. }
  right. split; [exact Hsize |]. split; [reflexivity |].
  eexists. cbv zeta. cbn [fst snd debug].
  split; [reflexivity |].
  cbn [fingerDetected batchesReceived isAcquiring acquisitionStartTime recentHeartRates
       isStable calculatedRate peakCount finalRate heartRate zone phase createResponse].
  destruct (isAcquiring s); cbn [negb]; repeat split.
Qed.

(** Every call keeps the state coherent. *)
Lemma batch_step_coherent s now ppg :
  Coherent s -> Coherent (fst (processHeartRate s now ppg)).
Proof.
  intros (Hb & Hacq & Hlen & Hall).
  destruct (batch_cases s now ppg)
    as [[_ ->] | (_ & _ & d & _ & _ & Hb' & Hacq' & _ & Hh' & _ & Hc & _)].
  - unfold noSignal, Coherent. cbn. repeat split; try assumption. lia.
  - cbv zeta in *. unfold Coherent. rewrite Hb', Hacq', Hh'.
    assert (Hnext : 0 < (if isAcquiring s then batchesReceived s else 0) + 1)
      by (destruct (isAcquiring s); lia).
    split; [lia |].
    split; [symmetry; apply Z.ltb_lt; exact Hnext |].
    apply pushHistory_keeps; try assumption.
    intros Hpos. rewrite Hc in *.
    destruct (batch_rateFromPeaks_cases
                (Signal.detectPeaksWith 2 (Signal.filterSignal (num := num) ppg))
                (length ppg)); lia.
Qed.

Lemma batch_run_coherent s batches : Coherent s -> Coherent (run s batches).
Proof.
  unfold run. revert s.
  induction batches as [| b rest IH]; intros s Hs; cbn [fold_left]; [exact Hs |].
  apply IH, batch_step_coherent, Hs.
Qed.

(** The rate a call reports. *)
Lemma reported_cases s now ppg :
  Coherent s ->
  let r := snd (processHeartRate s now ppg) in
  heartRate r = 0 \/ 40 <= heartRate r <= 200.
Proof.
  intros Hs. pose proof (batch_step_coherent s now ppg Hs) as (_ & _ & _ & Hall').
  cbv zeta.
  destruct (batch_cases s now ppg)
    as [[_ ->] | (_ & _ & d & _ & _ & _ & _ & _ & _ & _ & Hc & _ & Hf & Hr & _)].
  - left. reflexivity.
  - cbv zeta in *. rewrite Hr.
    destruct (batchesReceived (fst (processHeartRate s now ppg)) <? 5);
      [left; reflexivity |].
    rewrite Hf. apply consensusRate_cases; [exact Hall' |].
    rewrite Hc. apply batch_rateFromPeaks_cases.
Qed.

(** While fewer than five batches are counted, no rate is reported. *)
Lemma quiet_while_acquiring (calls : list (Z * list Z)) :
  forall s,
    0 <= batchesReceived s ->
    isAcquiring s = (0 <? batchesReceived s) ->
    batchesReceived s + Z.of_nat (length calls) < 5 ->
    Forall (fun r => heartRate r = 0) (responses s calls).
Proof.
  induction calls as [| c rest IH]; intros s Hb Hacq Hfew; cbn [responses];
    [constructor |].
  cbn [length] in Hfew.
  destruct (batch_cases s (fst c) (snd c))
    as [[_ Hno] | (_ & _ & d & _ & _ & Hb' & Hacq' & _ & _ & _ & _ & _ & _ & Hr & _)].
  - rewrite Hno. constructor; [reflexivity |].
    apply IH; cbn; try reflexivity; lia.
  - cbv zeta in *.
    assert (Hnext : batchesReceived (fst (processHeartRate s (fst c) (snd c)))
                    = batchesReceived s + 1).
    { rewrite Hb', Hacq. destruct (Z.ltb_spec 0 (batchesReceived s)); lia. }
    constructor.
    + rewrite Hr, Hnext. destruct (Z.ltb_spec (batchesReceived s + 1) 5); [reflexivity | lia].
    + apply IH; rewrite ?Hnext, ?Hacq'; lia.
Qed.

End Step.

Lemma batch_initialState_coherent : Coherent initialState.
Proof. unfold Coherent. cbn. repeat split; try lia. constructor. Qed.

End BatchFacts.

(** X20.  In the per-batch calculator contact is one sample above the
    threshold.  A call reports contact exactly when the batch has at
    least 100 samples and some sample exceeds 18000; otherwise it answers
    with rate 0, "No signal" and phase "no_signal", stops the acquisition
    and zeroes the batch counter, and leaves the history, the stability
    flag and the acquisition start time as they were. *)
Theorem batch_contact_is_one_sample_above_18000
  {num : Type} `{Number num} (s : Batch.State) (now : Z) (ppgData : list Z) :
  let out := Batch.processHeartRate s now ppgData in
  (Batch.fingerDetected (snd out) = true
   <-> (100 <= length ppgData)%nat /\ exists v, In v ppgData /\ 18000 < v)
  /\ (Batch.fingerDetected (snd out) = false ->
      Batch.heartRate (snd out) = 0
      /\ Batch.display_value (snd out) = "No signal"
      /\ Batch.phase (snd out) = "no_signal"
      /\ Batch.debug (snd out) = None
      /\ Batch.batchesReceived (fst out) = 0
      /\ Batch.isAcquiring (fst out) = false
      /\ Batch.recentHeartRates (fst out) = Batch.recentHeartRates s
      /\ Batch.isStable (fst out) = Batch.isStable s
      /\ Batch.acquisitionStartTime (fst out) = Batch.acquisitionStartTime s).
Proof.
  cbv zeta.
  destruct (BatchFacts.batch_cases s now ppgData)
    as [[Hwhy ->] | (Hsize & Hfinger & d & _ & Hfd & _)].
  - cbn [fst snd Batch.noSignal Batch.createResponse Batch.fingerDetected
         Batch.heartRate Batch.display_value Batch.phase Batch.debug
         Batch.batchesReceived Batch.isAcquiring Batch.recentHeartRates
         Batch.isStable Batch.acquisitionStartTime].
    split; [| intros _; repeat split].
    split; [discriminate |].
    intros [Hsize Hsample]. destruct Hwhy as [Hshort | Hnone]; [lia |].
    assert (Hne : ppgData <> []) by (destruct ppgData; [cbn in Hsize; lia | discriminate]).
    apply (BatchFacts.hasFinger_iff ppgData Hne) in Hsample. congruence.
  - cbv zeta in Hfd. rewrite Hfd.
    split; [| discriminate].
    split; [| reflexivity].
    intros _. split; [exact Hsize |].
    assert (Hne : ppgData <> []) by (destruct ppgData; [cbn in Hsize; lia | discriminate]).
    apply (BatchFacts.hasFinger_iff ppgData Hne). exact Hfinger.
Qed.

(** X21.  The per-batch calculator reports a rate on the fifth
    consecutive contact batch at the earliest.  A reported rate other
    than 0 means the batch counter is at least 5; and after a call
    without contact, as from the initial state, the next four calls all
    report 0, whatever their batches hold. *)
Theorem batch_rate_needs_five_consecutive_contacts {num : Type} `{Number num} :
  (forall s now ppgData,
      Batch.heartRate (snd (Batch.processHeartRate s now ppgData)) <> 0 ->
      5 <= Batch.batchesReceived (fst (Batch.processHeartRate s now ppgData)))
  /\ (forall s now ppgData calls,
         Batch.fingerDetected (snd (Batch.processHeartRate s now ppgData)) = false ->
         (length calls <= 4)%nat ->
         Forall (fun r => Batch.heartRate r = 0)
                (Batch.responses (fst (Batch.processHeartRate s now ppgData)) calls))
  /\ (forall calls,
         (length calls <= 4)%nat ->
         Forall (fun r => Batch.heartRate r = 0)
                (Batch.responses Batch.initialState calls)).
Proof.
  split.
  { intros s now ppg.
    destruct (BatchFacts.batch_cases s now ppg)
      as [[_ ->] | (_ & _ & d & _ & _ & _ & _ & _ & _ & _ & _ & _ & _ & Hr & _)].
    - cbn. congruence.
    - cbv zeta in Hr. rewrite Hr.
      destruct (Z.ltb_spec (Batch.batchesReceived (fst (Batch.processHeartRate s now ppg))) 5);
        [congruence | intros _; assumption]. }
  split.
  { intros s now ppg calls Hoff Hfew.
    destruct (BatchFacts.batch_cases s now ppg)
      as [[_ Hno] | (_ & _ & d & _ & Hfd & _)].
    - rewrite Hno. apply BatchFacts.quiet_while_acquiring; cbn; try reflexivity; lia.
    - cbv zeta in Hfd. congruence. }
  intros calls Hfew.
  apply BatchFacts.quiet_while_acquiring; cbn; try reflexivity; lia.
Qed.

Lemma batch_rate_witness :
  Forall (fun r => Batch.heartRate r = 0)
         (Batch.responses (num := Q)
            (fst (Batch.processHeartRate (num := Q) Batch.initialState 0 Scenario.dark))
            [(500, Scenario.touch); (1000, Scenario.touch)]).
Proof.
  destruct (batch_rate_needs_five_consecutive_contacts (num := Q)) as (_ & Hquiet & _).
  apply Hquiet.
  - vm_compute. reflexivity.
  - cbn. lia.
Defined.

(** X22.  What every run of the per-batch calculator keeps.  A call on a
    coherent state leaves a coherent state, and so does every run from
    the initial state: the acquisition flag is set exactly while the
    batch counter is positive and the history holds at most four
    readings, each within [40, 200].  On such a state the calculated,
    the final and the reported rate are 0 or within [40, 200], and a
    calculated rate other than 0 needs two peaks. *)
Theorem batch_runs_stay_coherent_with_plausible_rates {num : Type} `{Number num} :
  (forall s now ppgData,
      Batch.Coherent s ->
      let out := Batch.processHeartRate s now ppgData in
      Batch.Coherent (fst out)
      /\ (Batch.heartRate (snd out) = 0 \/ 40 <= Batch.heartRate (snd out) <= 200)
      /\ (forall d, Batch.debug (snd out) = Some d ->
                    (Batch.calculatedRate d = 0 \/ 40 <= Batch.calculatedRate d <= 200)
                    /\ (Batch.finalRate d = 0 \/ 40 <= Batch.finalRate d <= 200)
                    /\ (Batch.calculatedRate d <> 0 -> (2 <= Batch.peakCount d)%nat)))
  /\ (forall batches, Batch.Coherent (Batch.run Batch.initialState batches)).
Proof.
  split.
  - intros s now ppg Hs. cbv zeta.
    pose proof (BatchFacts.batch_step_coherent s now ppg Hs) as Hs'.
    split; [exact Hs' |].
    split; [apply (BatchFacts.reported_cases s now ppg Hs) |].
    intros d Hd.
    destruct (BatchFacts.batch_cases s now ppg)
      as [[_ Hno] | (_ & _ & d' & Hd' & _ & _ & _ & _ & _ & _ & Hc & Hp & Hf & _)].
    + rewrite Hno in Hd. cbn in Hd. discriminate.
    + cbv zeta in *. rewrite Hd in Hd'. injection Hd' as <-.
      assert (Hcalc : Batch.calculatedRate d = 0 \/ 40 <= Batch.calculatedRate d <= 200)
        by (rewrite Hc; apply BatchFacts.batch_rateFromPeaks_cases).
      split; [exact Hcalc |].
      split.
      * rewrite Hf. apply BatchFacts.consensusRate_cases; [| exact Hcalc].
        destruct Hs' as (_ & _ & _ & Hall). exact Hall.
      * intros Hrate. rewrite Hp.
        destruct (Nat.leb_spec 2 (length (Signal.detectPeaksWith
                                            2 (Signal.filterSignal (num := num) ppg))))
          as [Hpk | Hpk]; [exact Hpk |].
        rewrite Hc, BatchFacts.batch_rateFromPeaks_few in Hrate by exact Hpk. congruence.
  - intros batches. apply BatchFacts.batch_run_coherent, BatchFacts.batch_initialState_coherent.
Qed.

Lemma batch_runs_witness :
  let out := Batch.processHeartRate (num := Q) Batch.initialState 0 Scenario.touch in
  Batch.Coherent (fst out)
  /\ (Batch.heartRate (snd out) = 0 \/ 40 <= Batch.heartRate (snd out) <= 200).
Proof.
  cbv zeta.
  destruct (proj1 (batch_runs_stay_coherent_with_plausible_rates (num := Q))
              Batch.initialState 0 Scenario.touch BatchFacts.batch_initialState_coherent)
    as (Hco & Hrate & _).
  split; [exact Hco | exact Hrate].
Defined.

(** ** The server *)

Module ServerFacts.
Import Server.

Lemma append_assoc (a b c : string) : ((a ++ b) ++ c = a ++ (b ++ c))%string.
Proof. induction a as [| ch a IH]; cbn; [reflexivity | rewrite IH; reflexivity]. Qed.

Lemma append_empty_r (a : string) : (a ++ "" = a)%string.
Proof. induction a as [| ch a IH]; cbn; [reflexivity | rewrite IH; reflexivity]. Qed.

Lemma csv_shift (samples : list Z) (acc : string) :
  fold_left (fun csvData value => (csvData ++ Js.toString value ++ newline)%string)
            samples acc
  = (acc ++ csvOf samples)%string.
Proof.
  unfold csvOf. revert acc.
  induction samples as [| v rest IH]; intros acc; cbn [fold_left].
  - rewrite append_empty_r. reflexivity.
  - rewrite IH, (IH ("" ++ Js.toString v ++ newline)%string).
    cbn [append]. rewrite append_assoc. reflexivity.
Qed.

(** One line per sample, in order. *)
Lemma csvOf_app (a b : list Z) : csvOf (a ++ b) = (csvOf a ++ csvOf b)%string.
Proof.
  unfold csvOf at 1. rewrite fold_left_app. fold (csvOf a). apply csv_shift.
Qed.

Section Maps.
Context {V : Type}.

Lemma lookup_store_same (k : string) (v : V) m : lookup k (store k v m) = Some v.
Proof.
  induction m as [| [k' v'] rest IH]; cbn [store lookup].
  - rewrite String.eqb_refl. reflexivity.
  - destruct (String.eqb k k') eqn:Hk; cbn [lookup]; rewrite ?String.eqb_refl, ?Hk; auto.
Qed.

Lemma lookup_store_other (k k' : string) (v : V) m :
  k <> k' -> lookup k' (store k v m) = lookup k' m.
Proof.
  intros Hne. induction m as [| [k2 v2] rest IH]; cbn [store lookup].
  - apply String.eqb_neq in Hne. rewrite String.eqb_sym, Hne. reflexivity.
  - destruct (String.eqb_spec k k2) as [<- | Hk]; cbn [lookup].
    + apply String.eqb_neq in Hne. rewrite String.eqb_sym, Hne. reflexivity.
    + rewrite IH. reflexivity.
Qed.

Lemma lookup_remove_same (k : string) (m : list (string * V)) :
  lookup k (remove k m) = None.
Proof.
  unfold remove. induction m as [| [k' v'] rest IH]; cbn [filter lookup fst];
    [reflexivity |].
  destruct (String.eqb k k') eqn:Hk; cbn [negb lookup]; rewrite ?Hk; exact IH.
Qed.

Lemma lookup_remove_other (k k' : string) (m : list (string * V)) :
  k <> k' -> lookup k' (remove k m) = lookup k' m.
Proof.
  intros Hne. unfold remove.
  induction m as [| [k2 v2] rest IH]; cbn [filter lookup fst]; [reflexivity |].
  destruct (String.eqb_spec k k2) as [<- | Hk]; cbn [negb lookup].
  - apply String.eqb_neq in Hne. rewrite String.eqb_sym, Hne. exact IH.
  - rewrite IH. reflexivity.
Qed.

Lemma lookup_none_keys (k : string) (m : list (string * V)) :
  ~ In k (map fst m) -> lookup k m = None.
Proof.
  induction m as [| [k' v'] rest IH]; cbn [map fst In lookup]; [reflexivity |].
  intros Hnot. destruct (String.eqb_spec k k') as [-> | _]; [tauto |].
  apply IH. tauto.
Qed.

Lemma filter_keys (f : string * V -> bool) (m : list (string * V)) (k : string) :
  In k (map fst (filter f m)) -> In k (map fst m).
Proof.
  rewrite !in_map_iff. intros ([k' v'] & Hk & Hin).
  apply filter_In in Hin. exists (k', v'). tauto.
Qed.

Lemma filter_NoDup (f : string * V -> bool) (m : list (string * V)) :
  NoDup (map fst m) -> NoDup (map fst (filter f m)).
Proof.
  induction m as [| e rest IH]; cbn [map filter]; [auto |].
  intros Hnd. inversion Hnd as [| k ks Hnot Hrest]; subst.
  destruct (f e); cbn [map]; [| apply IH, Hrest].
  constructor; [| apply IH, Hrest].
  intros Hin. apply Hnot. apply (filter_keys f rest), Hin.
Qed.

Lemma store_keys (k : string) (v : V) (m : list (string * V)) (k' : string) :
  In k' (map fst (store k v m)) -> k' = k \/ In k' (map fst m).
Proof.
  induction m as [| [k2 v2] rest IH]; cbn [store map fst In].
  - intros [<- | []]. left. reflexivity.
  - destruct (String.eqb_spec k k2) as [<- | Hk]; cbn [map fst In].
    + intros [<- | Hin]; auto.
    + intros [<- | Hin]; auto. destruct (IH Hin); auto.
Qed.

Lemma store_NoDup (k : string) (v : V) (m : list (string * V)) :
  NoDup (map fst m) -> NoDup (map fst (store k v m)).
Proof.
  induction m as [| [k2 v2] rest IH]; cbn [store map fst].
  - intros _. constructor; [intros [] | constructor].
  - intros Hnd. inversion Hnd as [| k0 ks Hnot Hrest]; subst.
    destruct (String.eqb_spec k k2) as [<- | Hk]; cbn [map fst].
    + constructor; assumption.
    + constructor; [| apply IH, Hrest].
      intros Hin. destruct (store_keys k v rest k2 Hin) as [-> | Hold]; tauto.
Qed.

End Maps.

(** The entry of a key after the clean-up. *)
Lemma lookup_cleanup (now : Z) (uploads : list (string * Upload)) (id : string) :
  NoDup (map fst uploads) ->
  lookup id (cleanup now uploads)
  = match lookup id uploads with
    | Some u => if stale now u then None else Some u
    | None => None
    end.
Proof.
  unfold cleanup.
  induction uploads as [| [k u] rest IH]; cbn [map fst filter lookup snd];
    [reflexivity |].
  intros Hnd. inversion Hnd as [| k0 ks Hnot Hrest]; subst.
  destruct (String.eqb_spec id k) as [-> | Hne].
  - destruct (stale now u); cbn [negb lookup].
    + apply lookup_none_keys. intros Hin. apply Hnot.
      apply filter_keys in Hin. exact Hin.
    + rewrite String.eqb_refl. reflexivity.
  - destruct (stale now u); cbn [negb lookup].
    + apply IH, Hrest.
    + apply String.eqb_neq in Hne. rewrite Hne. apply IH, Hrest.
Qed.

Lemma filter_twice {A} (f g : A -> bool) (l : list A) :
  (forall x, f x = true -> g x = true) ->
  filter g (filter f l) = filter f l.
Proof.
  intros Himp. induction l as [| x rest IH]; cbn [filter]; [reflexivity |].
  destruct (f x) eqn:Hf; [| exact IH].
  cbn [filter]. rewrite (Himp x Hf), IH. reflexivity.
Qed.

Lemma filter_swap {A} (f g : A -> bool) (l : list A) :
  (forall x, g x = true -> f x = true) ->
  filter g (filter f l) = filter g l.
Proof.
  intros Himp. induction l as [| x rest IH]; cbn [filter]; [reflexivity |].
  destruct (f x) eqn:Hf; cbn [filter].
  - rewrite IH. reflexivity.
  - destruct (g x) eqn:Hg; [| exact IH].
    rewrite (Himp x Hg) in Hf. discriminate.
Qed.

End ServerFacts.

(** X23.  The clean-up timer removes exactly the uploads inactive for
    more than ten minutes.  For a tracker without repeated keys, an
    entry is there after the clean-up at time [now] exactly when it was
    there before and [now - lastUpdate <= 600000]; keys stay unrepeated;
    cleaning twice at the same time is cleaning once, and a clean-up
    followed by a later one is the later one alone. *)
Theorem cleanup_removes_exactly_the_stale_uploads :
  forall (now later : Z) (uploads : list (string * Server.Upload)),
    NoDup (map fst uploads) ->
    (forall id,
        Server.lookup id (Server.cleanup now uploads)
        = match Server.lookup id uploads with
          | Some u => if now - Server.lastUpdate u <=? 600000 then Some u else None
          | None => None
          end)
    /\ NoDup (map fst (Server.cleanup now uploads))
    /\ Server.cleanup now (Server.cleanup now uploads) = Server.cleanup now uploads
    /\ (now <= later ->
        Server.cleanup later (Server.cleanup now uploads) = Server.cleanup later uploads).
Proof.
  intros now later uploads Hnd.
  split.
  { intros id. rewrite (ServerFacts.lookup_cleanup now uploads id Hnd).
    destruct (Server.lookup id uploads) as [u |]; [| reflexivity].
    unfold Server.stale.
    destruct (Z.gtb_spec (now - Server.lastUpdate u) 600000);
      destruct (Z.leb_spec (now - Server.lastUpdate u) 600000); try lia; reflexivity. }
  split; [apply ServerFacts.filter_NoDup, Hnd |].
  split.
  - apply ServerFacts.filter_twice. auto.
  - intros Hlater. apply ServerFacts.filter_swap.
    intros [k u]. unfold Server.stale. cbn [snd].
    destruct (Z.gtb_spec (later - Server.lastUpdate u) 600000);
      destruct (Z.gtb_spec (now - Server.lastUpdate u) 600000);
      cbn [negb]; try reflexivity; try discriminate. lia.
Qed.

Lemma cleanup_witness :
  let fresh := {| Server.sessionId := "1"; Server.filename := "a.csv";
                  Server.filepath := "data/a.csv"; Server.upload_total_chunks := 3;
                  Server.received_chunks := 1; Server.lastUpdate := 900000 |} in
  let old := {| Server.sessionId := "2"; Server.filename := "b.csv";
                Server.filepath := "data/b.csv"; Server.upload_total_chunks := 3;
                Server.received_chunks := 1; Server.lastUpdate := 100000 |} in
  Server.lookup "a" (Server.cleanup 1000000 [("a", fresh); ("b", old)]) = Some fresh
  /\ Server.lookup "b" (Server.cleanup 1000000 [("a", fresh); ("b", old)]) = None.
Proof.
  cbv zeta.
  assert (Hnd : NoDup (map fst
                         [("a", {| Server.sessionId := "1"; Server.filename := "a.csv";
                                   Server.filepath := "data/a.csv";
                                   Server.upload_total_chunks := 3;
                                   Server.received_chunks := 1;
                                   Server.lastUpdate := 900000 |});
                          ("b", {| Server.sessionId := "2"; Server.filename := "b.csv";
                                   Server.filepath := "data/b.csv";
                                   Server.upload_total_chunks := 3;
                                   Server.received_chunks := 1;
                                   Server.lastUpdate := 100000 |})])).
  { cbn. repeat constructor; cbn; intuition discriminate. }
  destruct (cleanup_removes_exactly_the_stale_uploads 1000000 1000000 _ Hnd)
    as (Hlookup & _).
  split; rewrite Hlookup; reflexivity.
Defined.

Module UploadFacts.
Import Server.

Lemma accepted_chunk (id : string) (total index : Z) (samples : list Z) :
  id <> ""%string -> accepted (chunkBody id total index samples) = Some (id, samples).
Proof.
  intros Hid. unfold accepted, chunkBody. cbn [device_id data].
  apply String.eqb_neq in Hid. rewrite Hid. reflexivity.
Qed.

Lemma lookup_append_same (path content : string) (fs : list (string * string)) :
  lookup path (appendFile path content fs)
  = Some (match lookup path fs with
          | Some old => (old ++ content)%string
          | None => content
          end).
Proof. unfold appendFile. apply ServerFacts.lookup_store_same. Qed.

Lemma lookup_append_other (path path' content : string) (fs : list (string * string)) :
  path <> path' -> lookup path' (appendFile path content fs) = lookup path' fs.
Proof. intros Hne. unfold appendFile. apply ServerFacts.lookup_store_other, Hne. Qed.

Section Endpoints.
Variable P : Type.
Variable processHeartRate : P -> Clock -> list Z -> P * option HrInfo.
Variable dataDir : string.
Variable pathJoin : string -> string -> string.
Variable writable : string -> bool.

(** A request that reaches the tracker. *)
Lemma post_tracked (st : State P) clock body id samples :
  accepted body = Some (id, samples) ->
  id <> "__proto__"%string ->
  exact samples = true ->
  postSensorData P processHeartRate dataDir pathJoin writable st clock body
  = (let first := match chunk body with Some c => c =? 0 | None => true end in
     if first then
       let started := newUpload dataDir pathJoin clock id false (total_chunks body) in
       let uploads1 := store id started (activeUploads st) in
       if negb (writable (filepath started)) then
         Some ({| processor := processor st;
                  realtimeData := realtimeData st;
                  activeUploads := uploads1;
                  files := files st |},
               uncaught, None)
       else
         Some (storeChunk P processHeartRate writable st clock body id samples
                 started uploads1 (writeFile (filepath started) header (files st)))
     else
       match lookup id (activeUploads st) with
       | Some upload =>
           Some (storeChunk P processHeartRate writable st clock body id samples
                   upload (activeUploads st) (files st))
       | None =>
           if inherited id then
             Some (st, send 500 "Server error saving data", None)
           else
             let recovered :=
               newUpload dataDir pathJoin clock id true (total_chunks body) in
             let uploads1 := store id recovered (activeUploads st) in
             if negb (writable (filepath recovered)) then
               Some ({| processor := processor st;
                        realtimeData := realtimeData st;
                        activeUploads := uploads1;
                        files := files st |},
                     uncaught, None)
             else
               Some (storeChunk P processHeartRate writable st clock body id samples
                       recovered uploads1
                       (writeFile (filepath recovered) header (files st)))
       end).
Proof.
  intros Hyes Hproto Hexact. unfold postSensorData. rewrite Hyes.
  apply String.eqb_neq in Hproto. rewrite Hproto, Hexact. reflexivity.
Qed.

(** The chunk of a known upload when the append succeeds and the
    processor returns. *)
Lemma storeChunk_done (st : State P) clock body id samples upload uploads files_ hrInfo :
  writable (filepath upload) = true ->
  snd (processHeartRate (processor st) clock samples) = Some hrInfo ->
  storeChunk P processHeartRate writable st clock body id samples upload uploads files_
  = (let upload' := bumped upload clock in
     let uploads2 := store id upload' uploads in
     let sent := broadcastData (realtimeData st) clock samples hrInfo in
     let complete :=
       match chunk body with
       | None => true
       | Some _ => received_chunks upload' >=? upload_total_chunks upload'
       end in
     ({| processor := fst (processHeartRate (processor st) clock samples);
         realtimeData := fst sent;
         activeUploads := if complete then remove id uploads2 else uploads2;
         files := appendFile (filepath upload) (csvOf samples) files_ |},
      send 200 "Data received successfully",
      Some (snd sent))).
Proof.
  intros Hw Hreturns. unfold storeChunk.
  change (filepath (bumped upload clock)) with (filepath upload).
  rewrite Hw, Hreturns. reflexivity.
Qed.

(** The chunk of a known upload when the append succeeds and the
    processor throws. *)
Lemma storeChunk_thrown (st : State P) clock body id samples upload uploads files_ :
  writable (filepath upload) = true ->
  snd (processHeartRate (processor st) clock samples) = None ->
  storeChunk P processHeartRate writable st clock body id samples upload uploads files_
  = ({| processor := fst (processHeartRate (processor st) clock samples);
        realtimeData := realtimeData st;
        activeUploads := store id (bumped upload clock) uploads;
        files := appendFile (filepath upload) (csvOf samples) files_ |},
     send 500 "Server error saving data", None).
Proof.
  intros Hw Hthrows. unfold storeChunk.
  change (filepath (bumped upload clock)) with (filepath upload).
  rewrite Hw, Hthrows. reflexivity.
Qed.

(** A later chunk of an upload the tracker knows. *)
Lemma post_later (st : State P) clock id total index samples u content :
  id <> ""%string ->
  id <> "__proto__"%string ->
  exact samples = true ->
  Returns processHeartRate samples ->
  index <> 0 ->
  lookup id (activeUploads st) = Some u ->
  writable (filepath u) = true ->
  lookup (filepath u) (files st) = Some content ->
  exists st' m,
    postSensorData P processHeartRate dataDir pathJoin writable st clock
                   (chunkBody id total index samples)
    = Some (st', send 200 "Data received successfully", Some m)
    /\ lookup (filepath u) (files st') = Some (content ++ csvOf samples)%string
    /\ (forall path, path <> filepath u -> lookup path (files st') = lookup path (files st))
    /\ (forall id', id' <> id ->
                    lookup id' (activeUploads st') = lookup id' (activeUploads st))
    /\ lookup id (activeUploads st')
       = (if received_chunks u + 1 >=? upload_total_chunks u then None
          else Some (bumped u clock)).
Proof.
  intros Hid Hproto Hexact Hreturns Hindex Hentry Hw Hfile.
  destruct (Hreturns (processor st) clock) as [hrInfo Hanswer].
  rewrite (post_tracked st clock _ id samples
             (accepted_chunk id total index samples Hid) Hproto Hexact).
  cbn [chunk chunkBody total_chunks]. cbv zeta.
  destruct (Z.eqb_spec index 0) as [Hzero | _]; [contradiction |].
  rewrite Hentry.
  rewrite (storeChunk_done st clock _ id samples u _ _ hrInfo Hw Hanswer).
  cbv zeta. cbn [chunk chunkBody].
  eexists. eexists. split; [reflexivity |].
  cbn [files activeUploads].
  cbn [bumped received_chunks upload_total_chunks].
  split; [rewrite lookup_append_same, Hfile; reflexivity |].
  split; [intros path Hpath; apply lookup_append_other; congruence |].
  split.
  - intros id' Hother.
    destruct (received_chunks u + 1 >=? upload_total_chunks u).
    + rewrite ServerFacts.lookup_remove_other, ServerFacts.lookup_store_other by congruence.
      reflexivity.
    + rewrite ServerFacts.lookup_store_other by congruence. reflexivity.
  - destruct (received_chunks u + 1 >=? upload_total_chunks u).
    + apply ServerFacts.lookup_remove_same.
    + apply ServerFacts.lookup_store_same.
Qed.

(** The first chunk of an upload. *)
Lemma post_first (st : State P) clock id total samples :
  id <> ""%string ->
  id <> "__proto__"%string ->
  exact samples = true ->
  Returns processHeartRate samples ->
  let started := newUpload dataDir pathJoin clock id false (Some total) in
  writable (filepath started) = true ->
  exists st' m,
    postSensorData P processHeartRate dataDir pathJoin writable st clock
                   (chunkBody id total 0 samples)
    = Some (st', send 200 "Data received successfully", Some m)
    /\ lookup (filepath started) (files st') = Some (header ++ csvOf samples)%string
    /\ (forall path, path <> filepath started ->
                     lookup path (files st') = lookup path (files st))
    /\ (forall id', id' <> id ->
                    lookup id' (activeUploads st') = lookup id' (activeUploads st))
    /\ lookup id (activeUploads st')
       = (if 1 >=? upload_total_chunks started then None
          else Some (bumped started clock)).
Proof.
  intros Hid Hproto Hexact Hreturns started Hw.
  destruct (Hreturns (processor st) clock) as [hrInfo Hanswer].
  rewrite (post_tracked st clock _ id samples
             (accepted_chunk id total 0 samples Hid) Hproto Hexact).
  cbn [chunk chunkBody total_chunks Z.eqb]. cbv zeta. fold started.
  rewrite Hw. cbn [negb].
  rewrite (storeChunk_done st clock _ id samples started _ _ hrInfo Hw Hanswer).
  cbv zeta. cbn [chunk chunkBody].
  eexists. eexists. split; [reflexivity |].
  cbn [files activeUploads].
  change (received_chunks (bumped started clock)) with (received_chunks started + 1).
  change (upload_total_chunks (bumped started clock)) with (upload_total_chunks started).
  change (received_chunks started) with 0. change (0 + 1) with 1.
  split.
  { rewrite lookup_append_same. unfold writeFile.
    rewrite ServerFacts.lookup_store_same. reflexivity. }
  split.
  { intros path Hpath. rewrite lookup_append_other by congruence.
    unfold writeFile. apply ServerFacts.lookup_store_other. congruence. }
  split.
  - intros id' Hother.
    destruct (1 >=? upload_total_chunks started).
    + rewrite ServerFacts.lookup_remove_other, !ServerFacts.lookup_store_other
        by congruence.
      reflexivity.
    + rewrite !ServerFacts.lookup_store_other by congruence. reflexivity.
  - destruct (1 >=? upload_total_chunks started).
    + apply ServerFacts.lookup_remove_same.
    + apply ServerFacts.lookup_store_same.
Qed.




(** The chunks after the first when the last of them reaches the total:
    the entry goes and the file is complete. *)
Lemma posts_complete (items : list (Clock * list Z)) :
  forall (st : State P) id total index u content,
    items <> [] ->
    id <> ""%string ->
    id <> "__proto__"%string ->
    Fine processHeartRate items ->
    1 <= index ->
    lookup id (activeUploads st) = Some u ->
    writable (filepath u) = true ->
    lookup (filepath u) (files st) = Some content ->
    received_chunks u + Z.of_nat (length items) = upload_total_chunks u ->
    exists st' replies,
      postAll P processHeartRate dataDir pathJoin writable st
              (uploadFrom id total index items) = Some (st', replies)
      /\ replies = repeat (send 200 "Data received successfully") (length items)
      /\ lookup id (activeUploads st') = None
      /\ lookup (filepath u) (files st')
         = Some (content ++ csvOf (concat (map snd items)))%string
      /\ (forall id', id' <> id ->
                      lookup id' (activeUploads st') = lookup id' (activeUploads st)).
Proof.
  induction items as [| item rest IH];
    intros st id total index u content Hne Hid Hproto Hfine Hindex Hentry Hw Hfile Hcount;
    [congruence |].
  cbn [uploadFrom postAll fst snd map concat]. cbn [length] in Hcount.
  inversion Hfine as [| x l [Hexact Hreturns] Hfine']; subst.
  assert (Hnz : index <> 0) by lia.
  destruct (post_later st (fst item) id total index (snd item) u content
              Hid Hproto Hexact Hreturns Hnz Hentry Hw Hfile)
    as (st1 & m & Hpost & Hgrown & _ & Hothers & Hnext).
  rewrite Hpost. cbn [fst snd].
  destruct rest as [| item' rest'].
  - cbn [uploadFrom postAll fst snd map concat length repeat] in *.
    destruct (Z.geb_spec (received_chunks u + 1) (upload_total_chunks u)); [| lia].
    exists st1. eexists. split; [reflexivity |]. split; [reflexivity |].
    split; [exact Hnext |].
    split; [rewrite app_nil_r; exact Hgrown | exact Hothers].
  - destruct (Z.geb_spec (received_chunks u + 1) (upload_total_chunks u));
      [cbn [length] in Hcount; lia |].
    assert (Hindex' : 1 <= index + 1) by lia.
    assert (Hcount' : received_chunks (bumped u (fst item))
                      + Z.of_nat (length (item' :: rest'))
                      = upload_total_chunks (bumped u (fst item)))
      by (cbn [bumped received_chunks upload_total_chunks length] in *; lia).
    assert (Hne' : item' :: rest' <> []) by discriminate.
    destruct (IH st1 id total (index + 1) (bumped u (fst item))
                 (content ++ csvOf (snd item))%string
                 Hne' Hid Hproto Hfine' Hindex' Hnext Hw Hgrown Hcount')
      as (st' & replies & Hall & Hreplies & Hgone & Hcontent & Hothers').
    rewrite Hall. cbn [fst snd].
    exists st'. eexists. split; [reflexivity |].
    split; [rewrite Hreplies; reflexivity |].
    split; [exact Hgone |].
    split.
    + change (filepath (bumped u (fst item))) with (filepath u) in Hcontent.
      rewrite Hcontent, ServerFacts.csvOf_app, ServerFacts.append_assoc. reflexivity.
    + intros id' Hother. rewrite Hothers', Hothers by exact Hother. reflexivity.
Qed.

End Endpoints.
End UploadFacts.

(** X24.  A chunked upload ends with the complete file and no tracker
    entry.  For every processor, file system and state of the server,
    when a device sends the chunks 0, 1, ..., n-1 of an upload of n
    chunks in this order, its identifier being neither empty nor
    ["__proto__"], the samples being integers that doubles hold exactly,
    the file system accepting the writes to the file of the upload and
    the processor returning on every chunk, then every reply is 200
    "Data received successfully", the tracker holds no entry of the
    device afterwards, the file created for chunk 0 holds the header
    line followed by one line per sample of all chunks in order, and the
    entries of other devices are as before. *)
Theorem chunked_upload_ends_with_the_complete_file :
  forall (P : Type)
         (processHeartRate : P -> Server.Clock -> list Z -> P * option Server.HrInfo)
         (dataDir : string) (pathJoin : string -> string -> string)
         (writable : string -> bool)
         (st : Server.State P) (id : string)
         (first : Server.Clock * list Z) (rest : list (Server.Clock * list Z)),
    let total := Z.of_nat (length (first :: rest)) in
    let started := Server.newUpload dataDir pathJoin (fst first) id false (Some total) in
    id <> ""%string ->
    id <> "__proto__"%string ->
    Server.Fine processHeartRate (first :: rest) ->
    writable (Server.filepath started) = true ->
    exists st' replies,
      Server.postAll P processHeartRate dataDir pathJoin writable st
                     (Server.uploadFrom id total 0 (first :: rest))
      = Some (st', replies)
      /\ replies = repeat (Server.send 200 "Data received successfully")
                          (length (first :: rest))
      /\ Server.lookup id (Server.activeUploads st') = None
      /\ Server.lookup (Server.filepath started) (Server.files st')
         = Some (Server.header
                 ++ Server.csvOf (concat (map snd (first :: rest))))%string
      /\ (forall id', id' <> id ->
                      Server.lookup id' (Server.activeUploads st')
                      = Server.lookup id' (Server.activeUploads st)).
Proof.
  intros P process dataDir pathJoin writable st id first rest total started
         Hid Hproto Hfine Hw.
  cbn [Server.uploadFrom Server.postAll fst snd map concat].
  inversion Hfine as [| x l [Hexact Hreturns] Hfine']; subst x l.
  destruct (UploadFacts.post_first P process dataDir pathJoin writable st (fst first)
              id total (snd first) Hid Hproto Hexact Hreturns Hw)
    as (st1 & m & Hpost & Hfile & _ & Hothers & Hentry).
  fold started in Hfile, Hentry.
  rewrite Hpost. cbn [fst snd].
  assert (Htotal : Server.upload_total_chunks started = total).
  { subst started total. cbn [Server.newUpload Server.upload_total_chunks length].
    destruct (Z.eqb_spec (Z.of_nat (S (length rest))) 0); [lia | reflexivity]. }
  rewrite Htotal in Hentry.
  destruct rest as [| item rest'].
  - subst total. cbn [length Z.of_nat Pos.of_succ_nat Z.geb Z.compare Pos.compare
                      Pos.compare_cont] in Hentry.
    cbn [Server.uploadFrom Server.postAll fst snd map concat length repeat].
    exists st1. eexists. split; [reflexivity |]. split; [reflexivity |].
    split; [exact Hentry |].
    split; [rewrite app_nil_r; exact Hfile | exact Hothers].
  - destruct (Z.geb_spec 1 total); [subst total; cbn [length] in *; lia |].
    assert (Hne : item :: rest' <> []) by discriminate.
    assert (Hcount : Server.received_chunks (Server.bumped started (fst first))
                     + Z.of_nat (length (item :: rest'))
                     = Server.upload_total_chunks (Server.bumped started (fst first))).
    { change (Server.upload_total_chunks (Server.bumped started (fst first)))
        with (Server.upload_total_chunks started).
      rewrite Htotal. subst total. cbn [Server.bumped Server.received_chunks].
      change (Server.received_chunks started) with 0. cbn [length]. lia. }
    assert (Hone : 1 <= 0 + 1) by lia.
    destruct (UploadFacts.posts_complete P process dataDir pathJoin writable
                (item :: rest') st1 id total (0 + 1)
                (Server.bumped started (fst first))
                (Server.header ++ Server.csvOf (snd first))%string
                Hne Hid Hproto Hfine' Hone Hentry Hw Hfile Hcount)
      as (st' & replies & Hall & Hreplies & Hgone & Hcontent & Hothers').
    rewrite Hall. cbn [fst snd].
    exists st'. eexists. split; [reflexivity |].
    split; [rewrite Hreplies; reflexivity |].
    split; [exact Hgone |].
    split.
    + change (Server.filepath (Server.bumped started (fst first)))
        with (Server.filepath started) in Hcontent.
      rewrite Hcontent, ServerFacts.csvOf_app, ServerFacts.append_assoc. reflexivity.
    + intros id' Hother. rewrite Hothers', Hothers by exact Hother. reflexivity.
Qed.

(** Two chunks from the device "constructor", whose name the tracker
    object inherits: chunk 0 gives the tracker an entry of its own, and
    the upload completes like any other. *)
Lemma chunked_upload_witness :
  exists st' replies,
    Server.postAll unit Requests.silent "data" Requests.join Requests.anywhere
                   (Requests.idle tt)
                   (Server.uploadFrom "constructor" 2 0
                      [(Requests.noon, [101; 102]); (Requests.noon, [103])])
    = Some (st', replies)
    /\ replies = repeat (Server.send 200 "Data received successfully") 2
    /\ Server.lookup "constructor" (Server.activeUploads st') = None
    /\ Server.lookup
         (Server.filepath
            (Server.newUpload "data" Requests.join Requests.noon "constructor" false
                              (Some 2)))
         (Server.files st')
       = Some (Server.header ++ Server.csvOf [101; 102; 103])%string
    /\ (forall id', id' <> "constructor"%string ->
                    Server.lookup id' (Server.activeUploads st')
                    = Server.lookup id' (Server.activeUploads (Requests.idle tt))).
Proof.
  apply (chunked_upload_ends_with_the_complete_file
           unit Requests.silent "data" Requests.join Requests.anywhere
           (Requests.idle tt) "constructor"
           (Requests.noon, [101; 102]) [(Requests.noon, [103])]).
  - discriminate.
  - discriminate.
  - repeat constructor; intros p clock; eexists; reflexivity.
  - reflexivity.
Defined.



(** X26.  The endpoints reject what they cannot read and change nothing
    then.  A body is rejected exactly when the device identifier is
    absent or empty or the samples are absent or not an array; both
    endpoints then reply 400 "Invalid data format", leave the state as
    it was and broadcast nothing.  An accepted real-time request, with
    samples that doubles hold exactly, calls the processor on them: when
    the call returns the reply is 200, the upload tracker and the files
    are left alone, the samples are stored as the latest values together
    with the answer, and what is stored is broadcast; when the call
    throws, the exception leaves the handler (status 500), and nothing
    is stored or broadcast. *)
Theorem endpoints_reject_unreadable_bodies_without_effect :
  forall (P : Type)
         (processHeartRate : P -> Server.Clock -> list Z -> P * option Server.HrInfo)
         (dataDir : string) (pathJoin : string -> string -> string)
         (writable : string -> bool)
         (st : Server.State P) (clock : Server.Clock) (body : Server.Body),
    let rejected := Some (st, Server.send 400 "Invalid data format",
                          @None Server.Message) in
    (Server.accepted body = None
     <-> Server.device_id body = None \/ Server.device_id body = Some ""%string
         \/ Server.data body = None)
    /\ (Server.accepted body = None ->
        Server.postRealtime P processHeartRate st clock body = rejected
        /\ Server.postSensorData P processHeartRate dataDir pathJoin writable st clock body
           = rejected)
    /\ (forall id samples,
           Server.accepted body = Some (id, samples) ->
           Server.exact samples = true ->
           let processed := processHeartRate (Server.processor st) clock samples in
           match snd processed with
           | Some hrInfo =>
               exists st' m,
                 Server.postRealtime P processHeartRate st clock body
                 = Some (st', Server.send 200 "Realtime data received", Some m)
                 /\ Server.activeUploads st' = Server.activeUploads st
                 /\ Server.files st' = Server.files st
                 /\ Server.processor st' = fst processed
                 /\ Server.values (Server.realtimeData st') = samples
                 /\ Server.lastUpdated (Server.realtimeData st')
                    = Server.broadcastNow clock
                 /\ Server.rt_heartRate (Server.realtimeData st')
                    = Server.heartRate hrInfo
                 /\ Server.rt_fingerDetected (Server.realtimeData st')
                    = Server.fingerDetected hrInfo
                 /\ Server.msg_data m = samples
                 /\ Server.msg_heartRate m = Server.heartRate hrInfo
                 /\ Server.msg_fingerDetected m = Server.fingerDetected hrInfo
                 /\ Server.msg_heartRateZone m
                    = Server.heartRateZone (Server.realtimeData st')
           | None =>
               exists st',
                 Server.postRealtime P processHeartRate st clock body
                 = Some (st', Server.uncaught, None)
                 /\ Server.status Server.uncaught = 500
                 /\ Server.activeUploads st' = Server.activeUploads st
                 /\ Server.files st' = Server.files st
                 /\ Server.processor st' = fst processed
                 /\ Server.realtimeData st' = Server.realtimeData st
           end).
Proof.
  intros P process dataDir pathJoin writable st clock body rejected.
  split.
  { unfold Server.accepted.
    destruct (Server.device_id body) as [id |]; [| intuition congruence].
    destruct (Server.data body) as [samples |]; [| intuition congruence].
    destruct (String.eqb_spec id ""); subst; intuition congruence. }
  split.
  - intros Hno. unfold Server.postRealtime, Server.postSensorData. rewrite Hno.
    split; reflexivity.
  - intros id samples Hyes Hexact. cbv zeta. unfold Server.postRealtime.
    rewrite Hyes, Hexact. cbn [negb].
    destruct (snd (process (Server.processor st) clock samples)) as [hrInfo |].
    + eexists. eexists. split; [reflexivity |].
      cbn [Server.activeUploads Server.files Server.processor Server.realtimeData
           Server.broadcastData fst snd Server.values Server.lastUpdated
           Server.rt_heartRate Server.rt_fingerDetected Server.msg_data
           Server.msg_heartRate Server.msg_fingerDetected Server.msg_heartRateZone
           Server.heartRateZone].
      repeat split.
    + eexists. split; [reflexivity |].
      cbn [Server.activeUploads Server.files Server.processor Server.realtimeData].
      repeat split.
Qed.

(** An empty identifier is rejected by both endpoints; 1001 samples sent
    to a processor that throws on more than 1000 leave the real-time
    handler with an exception. *)
Lemma endpoints_reject_witness :
  (Server.postRealtime unit Requests.silent (Requests.idle tt) Requests.noon
     {| Server.device_id := Some ""%string; Server.data := Some [1; 2];
        Server.chunk := None; Server.total_chunks := None |}
   = Some (Requests.idle tt, Server.send 400 "Invalid data format", None)
   /\ Server.postSensorData unit Requests.silent "data" Requests.join Requests.anywhere
        (Requests.idle tt) Requests.noon
        {| Server.device_id := Some ""%string; Server.data := Some [1; 2];
           Server.chunk := None; Server.total_chunks := None |}
      = Some (Requests.idle tt, Server.send 400 "Invalid data format", None))
  /\ (exists st',
         Server.postRealtime unit Requests.limited (Requests.idle tt) Requests.noon
           {| Server.device_id := Some "dev"%string;
              Server.data := Some (repeat 20000 1001);
              Server.chunk := None; Server.total_chunks := None |}
         = Some (st', Server.uncaught, None)
         /\ Server.status Server.uncaught = 500
         /\ Server.activeUploads st' = Server.activeUploads (Requests.idle tt)
         /\ Server.files st' = Server.files (Requests.idle tt)
         /\ Server.processor st' = tt
         /\ Server.realtimeData st' = Server.realtimeData (Requests.idle tt)).
Proof.
  split.
  - destruct (endpoints_reject_unreadable_bodies_without_effect
                unit Requests.silent "data" Requests.join Requests.anywhere
                (Requests.idle tt) Requests.noon
                {| Server.device_id := Some ""%string; Server.data := Some [1; 2];
                   Server.chunk := None; Server.total_chunks := None |})
      as (_ & Hrejected & _).
    apply Hrejected. reflexivity.
  - destruct (endpoints_reject_unreadable_bodies_without_effect
                unit Requests.limited "data" Requests.join Requests.anywhere
                (Requests.idle tt) Requests.noon
                {| Server.device_id := Some "dev"%string;
                   Server.data := Some (repeat 20000 1001);
                   Server.chunk := None; Server.total_chunks := None |})
      as (_ & _ & Haccepted).
    apply (Haccepted "dev"%string (repeat 20000 1001)).
    + reflexivity.
    + vm_compute. reflexivity.
Defined.

Module PublishFacts.
Import Server.

Section Endpoints.
Variable P : Type.
Variable processHeartRate : P -> Clock -> list Z -> P * option HrInfo.
Variable dataDir : string.
Variable pathJoin : string -> string -> string.
Variable writable : string -> bool.

(** The real-time endpoint when the processor returns. *)
Lemma live_done (st : State P) clock body id samples hrInfo :
  accepted body = Some (id, samples) ->
  exact samples = true ->
  snd (processHeartRate (processor st) clock samples) = Some hrInfo ->
  postRealtime P processHeartRate st clock body
  = Some ({| processor := fst (processHeartRate (processor st) clock samples);
             realtimeData := fst (broadcastData (realtimeData st) clock samples hrInfo);
             activeUploads := activeUploads st;
             files := files st |},
          send 200 "Realtime data received",
          Some (snd (broadcastData (realtimeData st) clock samples hrInfo))).
Proof.
  intros Hyes Hexact Hanswer. unfold postRealtime.
  rewrite Hyes, Hexact, Hanswer. reflexivity.
Qed.

(** The real-time endpoint when the processor throws. *)
Lemma live_thrown (st : State P) clock body id samples :
  accepted body = Some (id, samples) ->
  exact samples = true ->
  snd (processHeartRate (processor st) clock samples) = None ->
  postRealtime P processHeartRate st clock body
  = Some ({| processor := fst (processHeartRate (processor st) clock samples);
             realtimeData := realtimeData st;
             activeUploads := activeUploads st;
             files := files st |},
          uncaught, None).
Proof.
  intros Hyes Hexact Hanswer. unfold postRealtime.
  rewrite Hyes, Hexact, Hanswer. reflexivity.
Qed.

(** A broadcast of the upload endpoint comes from a call of the
    processor that returned. *)
Lemma storeChunk_broadcast (st : State P) clock body id samples upload uploads files_
      st' r m :
  storeChunk P processHeartRate writable st clock body id samples upload uploads files_
  = (st', r, Some m) ->
  exists hrInfo,
    snd (processHeartRate (processor st) clock samples) = Some hrInfo
    /\ processor st' = fst (processHeartRate (processor st) clock samples)
    /\ realtimeData st' = fst (broadcastData (realtimeData st) clock samples hrInfo)
    /\ m = snd (broadcastData (realtimeData st) clock samples hrInfo)
    /\ r = send 200 "Data received successfully".
Proof.
  unfold storeChunk.
  destruct (writable (filepath (bumped upload clock))); cbn [negb];
    [| discriminate].
  destruct (snd (processHeartRate (processor st) clock samples)) as [hrInfo |];
    [| discriminate].
  intros Heq. inversion Heq; subst. exists hrInfo. repeat split.
Qed.

(** A request to the upload endpoint that is answered without a
    broadcast leaves the latest values as they were. *)
Lemma storeChunk_quiet (st : State P) clock body id samples upload uploads files_
      st' r :
  storeChunk P processHeartRate writable st clock body id samples upload uploads files_
  = (st', r, None) ->
  realtimeData st' = realtimeData st /\ r = send 500 "Server error saving data".
Proof.
  unfold storeChunk.
  destruct (writable (filepath (bumped upload clock))); cbn [negb].
  - destruct (snd (processHeartRate (processor st) clock samples)) as [hrInfo |];
      [discriminate |].
    intros Heq. inversion Heq; subst. split; reflexivity.
  - intros Heq. inversion Heq; subst. split; reflexivity.
Qed.

(** So every broadcast of the upload endpoint is the broadcast the
    real-time endpoint would have made. *)
Lemma stored_broadcast (st : State P) clock body st' r m :
  postSensorData P processHeartRate dataDir pathJoin writable st clock body
  = Some (st', r, Some m) ->
  exists id samples hrInfo,
    accepted body = Some (id, samples)
    /\ exact samples = true
    /\ snd (processHeartRate (processor st) clock samples) = Some hrInfo
    /\ processor st' = fst (processHeartRate (processor st) clock samples)
    /\ realtimeData st' = fst (broadcastData (realtimeData st) clock samples hrInfo)
    /\ m = snd (broadcastData (realtimeData st) clock samples hrInfo)
    /\ r = send 200 "Data received successfully".
Proof.
  unfold postSensorData.
  destruct (accepted body) as [[id samples] |]; [| discriminate].
  destruct (String.eqb id "__proto__"); cbn [orb]; [discriminate |].
  destruct (exact samples) eqn:Hexact; cbn [negb]; [| discriminate].
  intros Hpost.
  assert (Hchunk : exists upload uploads files_,
             storeChunk P processHeartRate writable st clock body id samples
                        upload uploads files_ = (st', r, Some m)).
  { destruct (match chunk body with Some c => c =? 0 | None => true end).
    - destruct (writable (filepath (newUpload dataDir pathJoin clock id false
                                              (total_chunks body))));
        cbn [negb] in Hpost; [| discriminate].
      inversion Hpost as [Heq]. eauto.
    - destruct (lookup id (activeUploads st)) as [upload |].
      + inversion Hpost as [Heq]. eauto.
      + destruct (inherited id); [discriminate |].
        destruct (writable (filepath (newUpload dataDir pathJoin clock id true
                                                (total_chunks body))));
          cbn [negb] in Hpost; [| discriminate].
        inversion Hpost as [Heq]. eauto. }
  destruct Hchunk as (upload & uploads & files_ & Hchunk).
  destruct (storeChunk_broadcast st clock body id samples upload uploads files_
              st' r m Hchunk) as (hrInfo & H1 & H2 & H3 & H4 & H5).
  exists id, samples, hrInfo. repeat split; assumption.
Qed.

(** An upload sent in one piece. *)
Lemma post_whole (st : State P) clock id samples total :
  id <> ""%string ->
  id <> "__proto__"%string ->
  exact samples = true ->
  let body := {| device_id := Some id; data := Some samples;
                 chunk := None; total_chunks := total |} in
  let started := newUpload dataDir pathJoin clock id false total in
  postSensorData P processHeartRate dataDir pathJoin writable st clock body
  = if writable (filepath started) then
      Some (storeChunk P processHeartRate writable st clock body id samples started
              (store id started (activeUploads st))
              (writeFile (filepath started) header (files st)))
    else
      Some ({| processor := processor st;
               realtimeData := realtimeData st;
               activeUploads := store id started (activeUploads st);
               files := files st |},
            uncaught, None).
Proof.
  intros Hid Hproto Hexact body started.
  assert (Hyes : accepted body = Some (id, samples)).
  { unfold accepted, body. cbn [device_id data].
    apply String.eqb_neq in Hid. rewrite Hid. reflexivity. }
  rewrite (UploadFacts.post_tracked P processHeartRate dataDir pathJoin writable
             st clock body id samples Hyes Hproto Hexact).
  cbn [chunk body total_chunks]. cbv zeta. fold started.
  destruct (writable (filepath started)); reflexivity.
Qed.

End Endpoints.
End PublishFacts.

(** X27.  An upload sent in one piece replaces whatever the tracker held
    for the device.  A request without a chunk number, from a device
    whose identifier is neither empty nor ["__proto__"] and with samples
    that doubles hold exactly, makes a new tracker entry in place of any
    other.  When the file system refuses the new file the exception
    leaves the handler and the entry stays.  Otherwise the new file
    holds the header line and one line per sample, other devices and
    other files are untouched, and, when the processor returns, the
    reply is 200, the answer is broadcast and the entry is dropped,
    whether or not a chunked upload of the same device was in progress;
    when the processor throws, the reply is 500 "Server error saving
    data", nothing is broadcast and the entry stays, counting one
    chunk. *)
Theorem upload_in_one_piece_discards_a_pending_upload :
  forall (P : Type)
         (processHeartRate : P -> Server.Clock -> list Z -> P * option Server.HrInfo)
         (dataDir : string) (pathJoin : string -> string -> string)
         (writable : string -> bool)
         (st : Server.State P) (clock : Server.Clock) (id : string) (samples : list Z)
         (total : option Z),
    let body := {| Server.device_id := Some id; Server.data := Some samples;
                   Server.chunk := None; Server.total_chunks := total |} in
    let started := Server.newUpload dataDir pathJoin clock id false total in
    let processed := processHeartRate (Server.processor st) clock samples in
    id <> ""%string ->
    id <> "__proto__"%string ->
    Server.exact samples = true ->
    exists st' r m,
      Server.postSensorData P processHeartRate dataDir pathJoin writable st clock body
      = Some (st', r, m)
      /\ (forall id', id' <> id ->
                      Server.lookup id' (Server.activeUploads st')
                      = Server.lookup id' (Server.activeUploads st))
      /\ (forall path, path <> Server.filepath started ->
                       Server.lookup path (Server.files st')
                       = Server.lookup path (Server.files st))
      /\ (writable (Server.filepath started) = false ->
          r = Server.uncaught /\ m = None
          /\ Server.lookup id (Server.activeUploads st') = Some started
          /\ Server.files st' = Server.files st
          /\ Server.processor st' = Server.processor st
          /\ Server.realtimeData st' = Server.realtimeData st)
      /\ (writable (Server.filepath started) = true ->
          Server.lookup (Server.filepath started) (Server.files st')
          = Some (Server.header ++ Server.csvOf samples)%string
          /\ Server.processor st' = fst processed
          /\ match snd processed with
             | Some hrInfo =>
                 r = Server.send 200 "Data received successfully"
                 /\ Server.lookup id (Server.activeUploads st') = None
                 /\ Server.values (Server.realtimeData st') = samples
                 /\ exists message, m = Some message
                                    /\ Server.msg_data message = samples
                                    /\ Server.msg_heartRate message
                                       = Server.heartRate hrInfo
             | None =>
                 r = Server.send 500 "Server error saving data"
                 /\ m = None
                 /\ Server.lookup id (Server.activeUploads st')
                    = Some (Server.bumped started clock)
                 /\ Server.realtimeData st' = Server.realtimeData st
             end).
Proof.
  intros P process dataDir pathJoin writable st clock id samples total body started
         processed Hid Hproto Hexact.
  pose proof (PublishFacts.post_whole P process dataDir pathJoin writable st clock id
                samples total Hid Hproto Hexact) as Hpost.
  cbv zeta in Hpost. fold started in Hpost. subst body. rewrite Hpost. clear Hpost.
  destruct (writable (Server.filepath started)) eqn:Hw.
  - destruct (snd processed) as [hrInfo |] eqn:Hanswer.
    + subst processed.
      rewrite (UploadFacts.storeChunk_done P process writable st clock _ id samples
                 started _ _ hrInfo Hw Hanswer).
      cbv zeta. cbn [Server.chunk].
      eexists. eexists. eexists. split; [reflexivity |].
      cbn [Server.activeUploads Server.files Server.processor Server.realtimeData].
      split.
      { intros id' Hother.
        rewrite ServerFacts.lookup_remove_other, !ServerFacts.lookup_store_other
          by congruence.
        reflexivity. }
      split.
      { intros path Hpath. rewrite UploadFacts.lookup_append_other by congruence.
        unfold Server.writeFile. apply ServerFacts.lookup_store_other. congruence. }
      split; [discriminate |].
      intros _. split.
      { rewrite UploadFacts.lookup_append_same. unfold Server.writeFile.
        rewrite ServerFacts.lookup_store_same. reflexivity. }
      split; [reflexivity |].
      cbv beta iota.
      split; [reflexivity |].
      split; [apply ServerFacts.lookup_remove_same |].
      split; [reflexivity |].
      eexists. split; [reflexivity |]. split; reflexivity.
    + subst processed.
      rewrite (UploadFacts.storeChunk_thrown P process writable st clock _ id samples
                 started _ _ Hw Hanswer).
      eexists. eexists. eexists. split; [reflexivity |].
      cbn [Server.activeUploads Server.files Server.processor Server.realtimeData].
      split.
      { intros id' Hother. rewrite !ServerFacts.lookup_store_other by congruence.
        reflexivity. }
      split.
      { intros path Hpath. rewrite UploadFacts.lookup_append_other by congruence.
        unfold Server.writeFile. apply ServerFacts.lookup_store_other. congruence. }
      split; [discriminate |].
      intros _. split.
      { rewrite UploadFacts.lookup_append_same. unfold Server.writeFile.
        rewrite ServerFacts.lookup_store_same. reflexivity. }
      split; [reflexivity |].
      cbv beta iota.
      split; [reflexivity |]. split; [reflexivity |].
      split; [apply ServerFacts.lookup_store_same | reflexivity].
  - eexists. eexists. eexists. split; [reflexivity |].
    cbn [Server.activeUploads Server.files Server.processor Server.realtimeData].
    split.
    { intros id' Hother. rewrite ServerFacts.lookup_store_other by congruence.
      reflexivity. }
    split; [reflexivity |].
    split; [| discriminate].
    intros _. split; [reflexivity |]. split; [reflexivity |].
    split; [apply ServerFacts.lookup_store_same |].
    repeat split.
Qed.

(** A device with a chunked upload in progress sends two samples in one
    piece: the reply is 200 and the tracker entry is gone.  It sends
    1001 samples in one piece to a processor that throws on more than
    1000: they are written, the reply is 500 and the new entry stays. *)
Lemma upload_in_one_piece_witness :
  let pending := {| Server.sessionId := "1"; Server.filename := "dev_old.csv";
                    Server.filepath := "data/dev_old.csv";
                    Server.upload_total_chunks := 3;
                    Server.received_chunks := 1; Server.lastUpdate := 0 |} in
  let st := {| Server.processor := tt;
               Server.realtimeData := Server.initialRealtime 0;
               Server.activeUploads := [("dev"%string, pending)];
               Server.files := [("data/dev_old.csv"%string, Server.header)] |} in
  let started := Server.newUpload "data" Requests.join Requests.noon "dev" false None in
  (exists st' m,
      Server.postSensorData unit Requests.limited "data" Requests.join Requests.anywhere
        st Requests.noon
        {| Server.device_id := Some "dev"%string; Server.data := Some [7; 8];
           Server.chunk := None; Server.total_chunks := None |}
      = Some (st', Server.send 200 "Data received successfully", Some m)
      /\ Server.lookup "dev" (Server.activeUploads st') = None
      /\ Server.lookup (Server.filepath started) (Server.files st')
         = Some (Server.header ++ Server.csvOf [7; 8])%string)
  /\ (exists st',
         Server.postSensorData unit Requests.limited "data" Requests.join
           Requests.anywhere st Requests.noon
           {| Server.device_id := Some "dev"%string;
              Server.data := Some (repeat 20000 1001);
              Server.chunk := None; Server.total_chunks := None |}
         = Some (st', Server.send 500 "Server error saving data", None)
         /\ Server.lookup "dev" (Server.activeUploads st')
            = Some (Server.bumped started Requests.noon)
         /\ Server.lookup (Server.filepath started) (Server.files st')
            = Some (Server.header ++ Server.csvOf (repeat 20000 1001))%string).
Proof.
  cbv zeta. split.
  - destruct (upload_in_one_piece_discards_a_pending_upload
                unit Requests.limited "data" Requests.join Requests.anywhere
                {| Server.processor := tt;
                   Server.realtimeData := Server.initialRealtime 0;
                   Server.activeUploads :=
                     [("dev"%string,
                       {| Server.sessionId := "1"; Server.filename := "dev_old.csv";
                          Server.filepath := "data/dev_old.csv";
                          Server.upload_total_chunks := 3;
                          Server.received_chunks := 1; Server.lastUpdate := 0 |})];
                   Server.files := [("data/dev_old.csv"%string, Server.header)] |}
                Requests.noon "dev" [7; 8] None)
      as (st' & r & m & Hpost & _ & _ & _ & Hwritten);
      [discriminate | discriminate | reflexivity |].
    destruct (Hwritten eq_refl) as (Hfile & _ & Hcase).
    cbn [Requests.limited snd length Nat.ltb Nat.leb] in Hcase.
    destruct Hcase as (-> & Hgone & _ & message & -> & _).
    exists st', message. split; [exact Hpost |]. split; [exact Hgone | exact Hfile].
  - destruct (upload_in_one_piece_discards_a_pending_upload
                unit Requests.limited "data" Requests.join Requests.anywhere
                {| Server.processor := tt;
                   Server.realtimeData := Server.initialRealtime 0;
                   Server.activeUploads :=
                     [("dev"%string,
                       {| Server.sessionId := "1"; Server.filename := "dev_old.csv";
                          Server.filepath := "data/dev_old.csv";
                          Server.upload_total_chunks := 3;
                          Server.received_chunks := 1; Server.lastUpdate := 0 |})];
                   Server.files := [("data/dev_old.csv"%string, Server.header)] |}
                Requests.noon "dev" (repeat 20000 1001) None)
      as (st' & r & m & Hpost & _ & _ & _ & Hwritten);
      [discriminate | discriminate | vm_compute; reflexivity |].
    destruct (Hwritten eq_refl) as (Hfile & _ & Hcase).
    assert (Hthrows : forall p,
               snd (Requests.limited p Requests.noon (repeat 20000 1001)) = None)
      by (intros p; vm_compute; reflexivity).
    rewrite Hthrows in Hcase.
    destruct Hcase as (-> & -> & Hentry & _).
    exists st'. split; [exact Hpost |]. split; [exact Hentry | exact Hfile].
Defined.

(** X28.  The server publishes what the per-batch calculator answers.
    With that calculator as the imported processor, an accepted request
    with samples that doubles hold exactly reaches the calculator from
    either endpoint.  When the batch is short of 100 samples or no
    longer than the engine lets a call spread, the real-time endpoint
    replies 200 and advances the calculator by one call on the samples;
    the stored and broadcast heart rate is 0 or within [40, 200] when
    the calculator's state is coherent, which it stays; the stored
    contact flag is set exactly when the request holds at least 100
    samples, one of them above 18000; the display texts are those of the
    calculator; and whenever the upload endpoint broadcasts for the same
    request, it replies 200 and stores and broadcasts the same.  On a
    longer batch the calculator throws before it assigns any variable:
    the real-time endpoint leaves the exception to the framework, the
    upload endpoint broadcasts nothing, and the stored values and the
    calculator are as before. *)
Theorem server_publishes_the_calculator_answer :
  forall (num : Type) (N : Number num) (spreadLimit : nat)
         (dataDir : string) (pathJoin : string -> string -> string)
         (writable : string -> bool)
         (st : Server.State Batch.State) (clock : Server.Clock) (body : Server.Body)
         (id : string) (samples : list Z),
    let answer := Batch.processHeartRate (num := num) (Server.processor st)
                    (Server.processorNow clock) samples in
    let live := Server.postRealtime Batch.State
                  (Server.batchProcessor (num := num) spreadLimit) st clock body in
    let stored := Server.postSensorData Batch.State
                    (Server.batchProcessor (num := num) spreadLimit)
                    dataDir pathJoin writable st clock body in
    Server.accepted body = Some (id, samples) ->
    Server.exact samples = true ->
    Batch.Coherent (Server.processor st) ->
    ((length samples < 100)%nat \/ (length samples <= spreadLimit)%nat ->
     exists st' m,
       live = Some (st', Server.send 200 "Realtime data received", Some m)
       /\ Server.processor st' = fst answer
       /\ Batch.Coherent (Server.processor st')
       /\ (Server.rt_heartRate (Server.realtimeData st') = 0
           \/ 40 <= Server.rt_heartRate (Server.realtimeData st') <= 200)
       /\ Server.msg_heartRate m = Server.rt_heartRate (Server.realtimeData st')
       /\ (Server.rt_fingerDetected (Server.realtimeData st') = true
           <-> (100 <= length samples)%nat /\ exists v, In v samples /\ 18000 < v)
       /\ Server.rt_display_value (Server.realtimeData st')
          = Some (Batch.display_value (snd answer))
       /\ Server.rt_display_details (Server.realtimeData st')
          = Some (Batch.display_details (snd answer))
       /\ (forall st'' r m',
              stored = Some (st'', r, Some m') ->
              r = Server.send 200 "Data received successfully"
              /\ Server.processor st'' = Server.processor st'
              /\ Server.realtimeData st'' = Server.realtimeData st'
              /\ m' = m))
    /\
    ((100 <= length samples)%nat /\ (spreadLimit < length samples)%nat ->
     live = Some (st, Server.uncaught, None)
     /\ (forall st'' r m',
            stored = Some (st'', r, m') ->
            m' = None
            /\ Server.processor st'' = Server.processor st
            /\ Server.realtimeData st'' = Server.realtimeData st)).
Proof.
  intros num N spreadLimit dataDir pathJoin writable st clock body id samples
         answer live stored Hyes Hexact Hco.
  split.
  - intros Hfits.
    assert (Hanswer : Server.batchProcessor (num := num) spreadLimit
                        (Server.processor st) clock samples
                      = (fst answer, Some (Server.ofBatch (snd answer)))).
    { unfold Server.batchProcessor.
      destruct (Nat.leb_spec 100 (length samples));
        destruct (Nat.ltb_spec spreadLimit (length samples));
        cbn [andb]; try reflexivity.
      lia. }
    assert (Hsnd : snd (Server.batchProcessor (num := num) spreadLimit
                          (Server.processor st) clock samples)
                   = Some (Server.ofBatch (snd answer)))
      by (rewrite Hanswer; reflexivity).
    pose proof (PublishFacts.live_done Batch.State
                  (Server.batchProcessor (num := num) spreadLimit)
                  st clock body id samples _ Hyes Hexact Hsnd) as Hlive.
    fold live in Hlive. rewrite Hanswer in Hlive. cbn [fst] in Hlive.
    eexists. eexists. split; [exact Hlive |].
    cbn [Server.processor Server.realtimeData Server.broadcastData fst snd
         Server.rt_heartRate Server.rt_fingerDetected Server.rt_display_value
         Server.rt_display_details Server.msg_heartRate Server.ofBatch
         Server.heartRate Server.fingerDetected Server.display_value
         Server.display_details].
    split; [reflexivity |].
    split; [apply BatchFacts.batch_step_coherent, Hco |].
    subst answer.
    split; [exact (BatchFacts.reported_cases (Server.processor st)
                     (Server.processorNow clock) samples Hco) |].
    split; [reflexivity |].
    split.
    { destruct (BatchFacts.batch_cases (num := num) (Server.processor st)
                  (Server.processorNow clock) samples)
        as [[Hwhy ->] | (Hsize & Hfinger & d & _ & Hfd & _)].
      - cbn [snd Batch.noSignal Batch.createResponse Batch.fingerDetected].
        split; [discriminate |].
        intros [Hsize Hsample]. destruct Hwhy as [Hshort | Hnone]; [lia |].
        assert (Hne : samples <> [])
          by (destruct samples; [cbn in Hsize; lia | discriminate]).
        apply (BatchFacts.hasFinger_iff samples Hne) in Hsample. congruence.
      - cbv zeta in Hfd. rewrite Hfd. split; [| reflexivity].
        intros _. split; [exact Hsize |].
        assert (Hne : samples <> [])
          by (destruct samples; [cbn in Hsize; lia | discriminate]).
        apply (BatchFacts.hasFinger_iff samples Hne). exact Hfinger. }
    split; [reflexivity |]. split; [reflexivity |].
    intros st'' r m' Hstored. subst stored.
    destruct (PublishFacts.stored_broadcast Batch.State
                (Server.batchProcessor (num := num) spreadLimit)
                dataDir pathJoin writable st clock body st'' r m' Hstored)
      as (id' & samples' & hrInfo & Hyes' & _ & Hret & Hproc & Hrt & Hm & Hr).
    rewrite Hyes in Hyes'. inversion Hyes'; subst id' samples'.
    rewrite Hsnd in Hret. inversion Hret; subst hrInfo.
    rewrite Hanswer in Hproc. cbn [fst] in Hproc.
    split; [exact Hr |]. split; [exact Hproc |].
    split; [exact Hrt | exact Hm].
  - intros [Hlong Hover].
    assert (Hanswer : Server.batchProcessor (num := num) spreadLimit
                        (Server.processor st) clock samples
                      = (Server.processor st, None)).
    { unfold Server.batchProcessor.
      destruct (Nat.leb_spec 100 (length samples)); [| lia].
      destruct (Nat.ltb_spec spreadLimit (length samples)); [| lia].
      reflexivity. }
    assert (Hsnd : snd (Server.batchProcessor (num := num) spreadLimit
                          (Server.processor st) clock samples) = None)
      by (rewrite Hanswer; reflexivity).
    split.
    + pose proof (PublishFacts.live_thrown Batch.State
                    (Server.batchProcessor (num := num) spreadLimit)
                    st clock body id samples Hyes Hexact Hsnd) as Hlive.
      fold live in Hlive. rewrite Hanswer in Hlive. cbn [fst] in Hlive.
      rewrite Hlive. destruct st. reflexivity.
    + intros st'' r m' Hstored. subst stored.
      destruct m' as [m' |].
      * destruct (PublishFacts.stored_broadcast Batch.State
                    (Server.batchProcessor (num := num) spreadLimit)
                    dataDir pathJoin writable st clock body st'' r m' Hstored)
          as (id' & samples' & hrInfo & Hyes' & _ & Hret & _).
        rewrite Hyes in Hyes'. inversion Hyes'; subst id' samples'.
        rewrite Hsnd in Hret. discriminate.
      * split; [reflexivity |].
        revert Hstored. unfold Server.postSensorData. rewrite Hyes.
        destruct (String.eqb id "__proto__"); cbn [orb]; [discriminate |].
        rewrite Hexact. cbn [negb].
        assert (Hchunk : forall upload uploads files_,
                   Server.storeChunk Batch.State
                     (Server.batchProcessor (num := num) spreadLimit) writable
                     st clock body id samples upload uploads files_
                   = (st'', r, None) ->
                   Server.processor st'' = Server.processor st
                   /\ Server.realtimeData st'' = Server.realtimeData st).
        { intros upload uploads files_. unfold Server.storeChunk.
          rewrite Hanswer. cbn [fst snd].
          destruct (writable _); cbn [negb]; intros Heq; inversion Heq; subst;
            split; reflexivity. }
        destruct (match Server.chunk body with Some c => c =? 0 | None => true end).
        -- destruct (writable _); cbn [negb]; intros Heq; inversion Heq as [Heq'].
           ++ apply (Hchunk _ _ _ Heq').
           ++ split; reflexivity.
        -- destruct (Server.lookup id (Server.activeUploads st)) as [upload |].
           ++ intros Heq; inversion Heq as [Heq']. apply (Hchunk _ _ _ Heq').
           ++ destruct (Server.inherited id).
              ** intros Heq; inversion Heq; subst. split; reflexivity.
              ** destruct (writable _); cbn [negb]; intros Heq; inversion Heq as [Heq'].
                 --- apply (Hchunk _ _ _ Heq').
                 --- split; reflexivity.
Qed.

(** A first touch of the sensor, 100 samples at 20000, sent to the
    server after loading: the reply is 200, contact is stored and no
    rate yet. *)
Lemma server_publishes_witness :
  let body := {| Server.device_id := Some "dev"%string;
                 Server.data := Some Scenario.touch;
                 Server.chunk := None; Server.total_chunks := None |} in
  exists st' m,
    Server.postRealtime Batch.State (Server.batchProcessor (num := Q) 1000)
      (Requests.idle Batch.initialState) Requests.noon body
    = Some (st', Server.send 200 "Realtime data received", Some m)
    /\ Batch.Coherent (Server.processor st')
    /\ (Server.rt_heartRate (Server.realtimeData st') = 0
        \/ 40 <= Server.rt_heartRate (Server.realtimeData st') <= 200)
    /\ Server.msg_heartRate m = Server.rt_heartRate (Server.realtimeData st')
    /\ Server.rt_fingerDetected (Server.realtimeData st') = true.
Proof.
  cbv zeta.
  destruct (server_publishes_the_calculator_answer
              Q NumberQ 1000%nat "data" Requests.join Requests.anywhere
              (Requests.idle Batch.initialState) Requests.noon
              {| Server.device_id := Some "dev"%string;
                 Server.data := Some Scenario.touch;
                 Server.chunk := None; Server.total_chunks := None |}
              "dev" Scenario.touch)
    as (Hreturns & _).
  - reflexivity.
  - vm_compute. reflexivity.
  - exact BatchFacts.batch_initialState_coherent.
  - destruct Hreturns as (st' & m & Hlive & _ & Hco & Hrate & Hmsg & Hfinger & _).
    { right. vm_compute. lia. }
    exists st', m. split; [exact Hlive |]. split; [exact Hco |].
    split; [exact Hrate |]. split; [exact Hmsg |].
    apply Hfinger. split; [vm_compute; lia |].
    exists 20000. split; [left; reflexivity | lia].
Defined.

(** ** The processor inside the earlier server *)

Module InlineFacts.
Import Inline.

Lemma pushBounded_length {A} (x : A) (a : list A) :
  (length a <= 10)%nat ->
  length (pushBounded x a (10 <? length (a ++ [x]))%nat) = Nat.min 10 (S (length a)).
Proof.
  intros Hlen. unfold pushBounded. rewrite length_app. cbn [length].
  destruct (Nat.ltb_spec 10 (length a + 1)).
  - destruct a as [| y rest]; cbn [app tl length] in *; [lia |].
    rewrite length_app. cbn [length]. lia.
  - rewrite length_app. cbn [length]. lia.
Qed.

Lemma pushBounded_Forall {A} (P : A -> Prop) (x : A) (a : list A) (overflow : bool) :
  P x -> Forall P a -> Forall P (pushBounded x a overflow).
Proof.
  intros Hx Ha. unfold pushBounded.
  assert (Hall : Forall P (a ++ [x])) by (apply Forall_app; split; [exact Ha | auto]).
  destruct overflow; [| exact Hall].
  destruct (a ++ [x]) as [| y rest]; cbn [tl]; [constructor |].
  inversion Hall; assumption.
Qed.

Lemma pushBounded_last (x : Z) (a : list Z) :
  last (pushBounded x a (10 <? length (a ++ [x]))%nat) 0 = x.
Proof.
  unfold pushBounded.
  destruct (Nat.ltb_spec 10 (length (a ++ [x]))) as [Hover | _];
    [| apply last_last].
  destruct a as [| y rest]; [cbn in Hover; lia |].
  cbn [app tl]. 
  destruct rest as [| z rest']; [cbn in Hover; lia |].
  change (last ((z :: rest') ++ [x]) 0 = x). apply last_last.
Qed.

Lemma quality_range (v : Q) : (0 <= Qmax 0 (Qmin 1 (1 - v / 150)) <= 1)%Q.
Proof.
  split; [apply Q.le_max_l |].
  apply Q.max_lub; [lra | apply Q.le_min_l].
Qed.

Section Main.
Context {num : Type} `{Number num}.
Variable nabs : num -> num.
Variable nmaxOf : list num -> num.

(** What the scan maintains. *)
Lemma inline_scan_invariant (normalized : list num) (threshold : num) :
  forall idx found,
    (forall i, In i idx -> (2 <= i)%nat /\ (i + 2 < length normalized)%nat) ->
    (Shape.SpacedBy minPeakDistance found
     /\ forall p, In p found ->
                  p <= last found 0
                  /\ exists i, p = Z.of_nat i /\ (2 <= i)%nat
                               /\ (i + 2 < length normalized)%nat) ->
    let found' := fold_left (scanStep normalized threshold) idx found in
    Shape.SpacedBy minPeakDistance found'
    /\ forall p, In p found' ->
                 p <= last found' 0
                 /\ exists i, p = Z.of_nat i /\ (2 <= i)%nat
                              /\ (i + 2 < length normalized)%nat.
Proof.
  induction idx as [| i idx IH]; intros found Hsub Hinv; cbn [fold_left];
    [exact Hinv |].
  apply IH; [intros j Hj; apply Hsub; right; exact Hj |].
  destruct Hinv as [Hspaced Hmem]. unfold scanStep.
  destruct (ngt (Signal.at_ normalized i) threshold && _ && _ && _ && _);
    [| split; assumption].
  assert (Hd : 0 <= minPeakDistance) by (unfold minPeakDistance; lia).
  destruct (Nat.eqb_spec (length found) 0) as [Hempty | Hsome]; cbn [orb].
  - destruct found; [| discriminate]. cbn [app]. split.
    + intros k Hk. cbn in Hk. lia.
    + intros p [<- | []]. cbn [last]. split; [lia |].
      exists i. split; [reflexivity |]. apply Hsub. left. reflexivity.
  - destruct (Z.geb_spec (Z.of_nat i - last found 0) minPeakDistance) as [Hfar | _];
      [| split; assumption].
    split.
    + apply AdvancedPeakFacts.SpacedBy_snoc; [exact Hspaced |].
      intros p Hp. destruct (Hmem p Hp) as [Hle _]. lia.
    + intros p Hp. rewrite last_last. apply in_app_or in Hp.
      destruct Hp as [Hp | [<- | []]].
      * destruct (Hmem p Hp) as [Hle Hex]. split; [lia | exact Hex].
      * split; [lia |]. exists i. split; [reflexivity |]. apply Hsub. left. reflexivity.
Qed.

Lemma peaksOf_facts (buffer : list Z) :
  Shape.SpacedBy minPeakDistance (peaksOf nabs nmaxOf buffer)
  /\ forall p, In p (peaksOf nabs nmaxOf buffer) ->
               exists i, p = Z.of_nat i /\ (2 <= i)%nat /\ (i + 2 < length buffer)%nat.
Proof.
  unfold peaksOf. cbv zeta.
  set (normalized := map _ buffer).
  assert (Hlen : length normalized = length buffer) by (subst normalized; apply length_map).
  destruct (inline_scan_invariant normalized
              (nmul (lit (1 # 2)) (nmaxOf (map nabs normalized)))
              (seq 2 (length normalized - 4)) []) as [Hspaced Hmem].
  - intros i Hi. apply in_seq in Hi. lia.
  - split; [intros k Hk; cbn in Hk; lia | intros p []].
  - split; [exact Hspaced |].
    intros p Hp. destruct (Hmem p Hp) as (_ & i & Hi & Hlo & Hhi).
    exists i. rewrite <- Hlen. auto.
Qed.

(** The shapes of a call. *)
Lemma inline_cases st now ppg :
  let out := processHeartRate nabs nmaxOf st now ppg in
  let appended := ppgBuffer st ++ ppg in
  let buffer := if (1000 <? length appended)%nat
                then Js.sliceLast 1000 appended else appended in
  ((length ppg < 100)%nat /\ out = (st, noReading false))
  \/ ((100 <= length ppg)%nat
      /\ fingerDetected (fst out) = (Engine.maxOf ppg - minOf ppg >? 1000)
      /\ Result.fingerDetected (snd out) = fingerDetected (fst out)
      /\ ((Result.heartRate (snd out) = 0
           /\ Result.quality (snd out) = 0%Q
           /\ heartRate (fst out) = heartRate st
           /\ heartRateHistory (fst out) = heartRateHistory st
           /\ timestamps (fst out) = timestamps st
           /\ (ppgBuffer (fst out) = ppgBuffer st \/ ppgBuffer (fst out) = buffer))
          \/ (exists bpm variance,
                 40 <= bpm <= 200
                 /\ Result.heartRate (snd out) = bpm
                 /\ Result.quality (snd out) = Qmax 0 (Qmin 1 (1 - variance / 150))
                 /\ Result.fingerDetected (snd out) = true
                 /\ Result.zone (snd out) = Engine.name (zoneOf bpm)
                 /\ Result.trend (snd out) = trendOf (heartRateHistory (fst out))
                 /\ heartRate (fst out) = bpm
                 /\ heartRateHistory (fst out)
                    = pushBounded bpm (heartRateHistory st)
                        (10 <? length (heartRateHistory st ++ [bpm]))%nat
                 /\ timestamps (fst out)
                    = pushBounded now (timestamps st)
                        (10 <? length (heartRateHistory st ++ [bpm]))%nat
                 /\ ppgBuffer (fst out) = buffer))).
Proof.
  cbv zeta. unfold processHeartRate.
  destruct (Nat.ltb_spec (length ppg) 100) as [Hshort | Hsize];
    [left; split; [exact Hshort | reflexivity] |].
  right. split; [exact Hsize |]. cbv zeta.
  destruct (Engine.maxOf ppg - minOf ppg >? 1000) eqn:Hfinger; cbn [negb].
  2: { cbn [fst snd fingerDetected Result.fingerDetected noReading].
       split; [reflexivity |]. split; [reflexivity |].
       left. cbn. repeat split. left. reflexivity. }
  set (buffer := if (1000 <? length (ppgBuffer st ++ ppg))%nat
                 then Js.sliceLast 1000 (ppgBuffer st ++ ppg)
                 else ppgBuffer st ++ ppg).
  destruct (2 <=? length (peaksOf nabs nmaxOf buffer))%nat.
  2: { cbn [fst snd fingerDetected Result.fingerDetected noReading].
       split; [reflexivity |]. split; [reflexivity |].
       left. cbn. repeat split. right. reflexivity. }
  set (bpm := rateOf (Engine.intervalsOf (peaksOf nabs nmaxOf buffer))).
  destruct (Z.geb_spec bpm 40) as [Hlo | _]; cbn [andb].
  2: { cbn [fst snd fingerDetected Result.fingerDetected noReading].
       split; [reflexivity |]. split; [reflexivity |].
       left. cbn. repeat split. right. reflexivity. }
  destruct (Z.leb_spec bpm 200) as [Hhi | _].
  2: { cbn [fst snd fingerDetected Result.fingerDetected noReading].
       split; [reflexivity |]. split; [reflexivity |].
       left. cbn. repeat split. right. reflexivity. }
  cbn [fst snd fingerDetected Result.fingerDetected].
  split; [reflexivity |]. split; [reflexivity |].
  right. exists bpm, (calculateVariance (Engine.intervalsOf (peaksOf nabs nmaxOf buffer))).
  split; [lia |].
  cbn [fst snd Result.heartRate Result.quality Result.fingerDetected Result.zone
       Result.trend heartRate heartRateHistory timestamps ppgBuffer].
  repeat (split; [reflexivity |]). reflexivity.
Qed.

(** Every call keeps a plausible state plausible. *)
Lemma step_plausible st now ppg :
  Plausible st -> Plausible (fst (processHeartRate nabs nmaxOf st now ppg)).
Proof.
  intros (Hbuf & Hlen & Hstamps & Hall & Hlast).
  destruct (inline_cases st now ppg)
    as [[_ ->] | (_ & _ & _ & [(_ & _ & Hr & Hh & Ht & Hb)
                              | (bpm & v & Hrange & _ & _ & _ & _ & _ & Hr & Hh & Ht & Hb)])].
  - repeat split; assumption.
  - cbv zeta in *. unfold Plausible. rewrite Hr, Hh, Ht.
    split; [| repeat split; assumption].
    destruct Hb as [-> | ->]; [exact Hbuf |].
    unfold Js.sliceLast.
    destruct (Nat.ltb_spec 1000 (length (ppgBuffer st ++ ppg)));
      [rewrite length_skipn; lia | lia].
  - cbv zeta in *. unfold Plausible. rewrite Hr, Hh, Ht, Hb.
    split.
    { unfold Js.sliceLast.
      destruct (Nat.ltb_spec 1000 (length (ppgBuffer st ++ ppg)));
        [rewrite length_skipn; lia | lia]. }
    split; [rewrite pushBounded_length by exact Hlen; lia |].
    split.
    { rewrite pushBounded_length by exact Hlen.
      replace (length (heartRateHistory st ++ [bpm]))
        with (length (timestamps st ++ [now]))
        by (rewrite !length_app, Hstamps; reflexivity).
      rewrite pushBounded_length by lia. rewrite Hstamps. reflexivity. }
    split; [apply pushBounded_Forall; assumption |].
    symmetry. apply pushBounded_last.
Qed.

End Main.

Lemma initialState_plausible : Plausible initialState.
Proof. unfold Plausible. cbn. repeat split; try lia. constructor. Qed.

End InlineFacts.

(** X29.  What every run of the earlier server's processor keeps, for
    every implementation of the numbers: the buffer holds at most 1000
    samples; the history holds at most ten rates, each within [40, 200],
    with as many timestamps; the stored rate is the latest of the
    history.  Every answer carries a rate that is 0 or within [40, 200]
    and a quality within [0, 1]; a rate other than 0 is the one stored;
    and the peaks it is calculated from are at least 25 samples apart
    and at least two positions inside the buffer. *)
Theorem inline_processor_keeps_rates_plausible :
  forall (num : Type) (N : Number num) (nabs : num -> num) (nmaxOf : list num -> num),
    (forall st now ppgData,
        Inline.Plausible st ->
        let out := Inline.processHeartRate nabs nmaxOf st now ppgData in
        Inline.Plausible (fst out)
        /\ (Inline.Result.heartRate (snd out) = 0
            \/ 40 <= Inline.Result.heartRate (snd out) <= 200)
        /\ (0 <= Inline.Result.quality (snd out) <= 1)%Q
        /\ (Inline.Result.heartRate (snd out) <> 0 ->
            Inline.heartRate (fst out) = Inline.Result.heartRate (snd out)
            /\ Inline.Result.fingerDetected (snd out) = true))
    /\ Inline.Plausible Inline.initialState
    /\ (forall buffer,
           Shape.SpacedBy 25 (Inline.peaksOf nabs nmaxOf buffer)
           /\ forall p, In p (Inline.peaksOf nabs nmaxOf buffer) ->
                        exists i, p = Z.of_nat i /\ (2 <= i)%nat
                                  /\ (i + 2 < length buffer)%nat).
Proof.
  intros num N nabs nmaxOf. split.
  - intros st now ppg Hst. cbv zeta.
    split; [apply InlineFacts.step_plausible, Hst |].
    destruct (InlineFacts.inline_cases nabs nmaxOf st now ppg)
      as [[_ ->] | (_ & _ & _ & [(Hr & Hq & _)
                                | (bpm & v & Hrange & Hr & Hq & Hf & _ & _ & Hs & _)])].
    + cbn. split; [left; reflexivity |]. split; [split; discriminate | congruence].
    + cbv zeta in Hr, Hq. rewrite Hr, Hq.
      split; [left; reflexivity |]. split; [split; discriminate | congruence].
    + cbv zeta in Hr, Hq, Hf, Hs. rewrite Hr, Hq, Hs.
      split; [right; exact Hrange |].
      split; [apply InlineFacts.quality_range |].
      intros _. split; [reflexivity | exact Hf].
  - split; [exact InlineFacts.initialState_plausible |].
    intros buffer. apply InlineFacts.peaksOf_facts.
Qed.

Lemma inline_processor_witness :
  let out := Inline.processHeartRate (num := Q) (fun v => Qmax v (- v))%Q (fun xs => fold_left Qmax xs 0%Q)
               Inline.initialState 0 Scenario.touch in
  Inline.Plausible (fst out)
  /\ (Inline.Result.heartRate (snd out) = 0
      \/ 40 <= Inline.Result.heartRate (snd out) <= 200).
Proof.
  cbv zeta.
  destruct (proj1 (inline_processor_keeps_rates_plausible
                     Q NumberQ (fun v => Qmax v (- v))%Q (fun xs => fold_left Qmax xs 0%Q))
              Inline.initialState 0 Scenario.touch InlineFacts.initialState_plausible)
    as (Hst & Hrate & _).
  split; [exact Hst | exact Hrate].
Defined.

(** X30.  In the earlier server the broadcast contact flag is the one of
    the last batch of at least 100 samples.  On such a batch the flag in
    the answer, in [hrState] and in the broadcast message all say
    whether the samples span more than 1000; on a shorter batch the
    answer says no contact and rate 0 while [hrState] is left as it was,
    so the message repeats the earlier flag. *)
Theorem inline_broadcast_repeats_the_flag_on_short_batches :
  forall (num : Type) (N : Number num) (nabs : num -> num) (nmaxOf : list num -> num)
         (st : Inline.HrState) (now : Z) (data : list Z),
    let sent := Inline.publish nabs nmaxOf st now data in
    let answer := snd (fst sent) in
    let message := snd sent in
    ((100 <= length data)%nat ->
     Inline.Result.fingerDetected answer = (Engine.maxOf data - Inline.minOf data >? 1000)
     /\ Inline.fingerDetected (fst (fst sent)) = Inline.Result.fingerDetected answer
     /\ Inline.msg_fingerDetected message = Inline.Result.fingerDetected answer)
    /\ ((length data < 100)%nat ->
        Inline.Result.fingerDetected answer = false
        /\ Inline.Result.heartRate answer = 0
        /\ fst (fst sent) = st
        /\ Inline.msg_fingerDetected message = Inline.fingerDetected st
        /\ Inline.msg_heartRate message = 0)
    /\ Inline.msg_heartRate message = Inline.Result.heartRate answer
    /\ Inline.msg_data message = data.
Proof.
  intros num N nabs nmaxOf st now data sent answer message.
  subst sent answer message. unfold Inline.publish. cbv zeta.
  cbn [fst snd Inline.broadcastData Inline.msg_fingerDetected Inline.msg_heartRate
       Inline.msg_data].
  destruct (InlineFacts.inline_cases nabs nmaxOf st now data)
    as [[Hshort ->] | (Hsize & Hstate & Hanswer & _)].
  - cbn [fst snd Inline.noReading Inline.Result.fingerDetected Inline.Result.heartRate].
    split; [intros; lia |]. split; [| split; reflexivity].
    intros _. repeat split.
  - cbv zeta in Hstate, Hanswer.
    split.
    + intros _. rewrite Hanswer, Hstate. repeat split.
    + split; [intros; lia | split; reflexivity].
Qed.

Lemma inline_broadcast_witness :
  let st := {| Inline.fingerDetected := true;
               Inline.heartRate := 72;
               Inline.confidence := 0;
               Inline.quality := 0;
               Inline.heartRateHistory := [72];
               Inline.timestamps := [1000];
               Inline.peaks := [];
               Inline.previousTimestamp := 0;
               Inline.ppgBuffer := [] |} in
  let sent := Inline.publish (num := Q) (fun v => Qmax v (- v))%Q (fun xs => fold_left Qmax xs 0%Q)
                st 2000 [20000; 20100] in
  Inline.Result.fingerDetected (snd (fst sent)) = false
  /\ Inline.Result.heartRate (snd (fst sent)) = 0
  /\ fst (fst sent) = st
  /\ Inline.msg_fingerDetected (snd sent) = true
  /\ Inline.msg_heartRate (snd sent) = 0.
Proof.
  cbv zeta.
  destruct (inline_broadcast_repeats_the_flag_on_short_batches
              Q NumberQ (fun v => Qmax v (- v))%Q (fun xs => fold_left Qmax xs 0%Q)
              {| Inline.fingerDetected := true;
                 Inline.heartRate := 72;
                 Inline.confidence := 0;
                 Inline.quality := 0;
                 Inline.heartRateHistory := [72];
                 Inline.timestamps := [1000];
                 Inline.peaks := [];
                 Inline.previousTimestamp := 0;
                 Inline.ppgBuffer := [] |}
              2000 [20000; 20100]) as (_ & Hshort & _).
  apply Hshort. cbn. lia.
Defined.
